(** * egos-2001: process table, MLFQ scheduler, dispatcher and IPC

    A shallow embedding of [grass/process.h], [grass/process.c] and
    [grass/kernel.c], followed by the properties of the kernel core that
    are stated about them.

    Conventions of the embedding.
    - C integers are [Z] with the wrap-around of their type written out:
      [u64] for [unsigned long long], [u32] for [uint], [s32] for [int].
    - The global process table [proc_set] is a [list process] indexed with
      stdpp's total lookup [!!!] and updated with [<[i := p]>]; a pointer to
      a PCB is its table index.
    - The globals of the two translation units, the two function-local
      statics, the control registers the inline assembly touches and the
      part of the hardware abstraction layer ("earth") the code calls are
      the fields of one [kernel] record that every function threads.
    - [FATAL] halts the core; functions that can reach it return [result]. *)

From Stdlib Require Import ZArith List Lia Bool.
From Stdlib.Strings Require Import Byte.
From stdpp Require Import base tactics option list.

Local Open Scope Z_scope.

(** ** Machine integers *)

Definition u64 (z : Z) : Z := z mod 2 ^ 64.
Definition u32 (z : Z) : Z := z mod 2 ^ 32.
Definition s32 (z : Z) : Z := (z + 2 ^ 31) mod 2 ^ 32 - 2 ^ 31.

Definition u64_add (a b : Z) : Z := u64 (a + b).
Definition u64_sub (a b : Z) : Z := u64 (a - b).

(** ** Constants of [egos.h] and [syscall.h]

    The two headers are included by [process.h] but are not among the
    sources at hand, so the constants they define are parameters of the
    development. *)

Class Platform := {
  NCORES : nat;
  SYSCALL_MSG_LEN : nat;
  GPID_ALL : Z;
  GPID_SHELL : Z;
  GPID_USER_START : Z;
  APPS_ARG : Z;
  APPS_ENTRY : Z
}.

(** ** [process.h] *)

Definition MAX_NPROCESS : nat := 16.
Definition SAVED_REGISTER_NUM : nat := 32.
Definition MLFQ_LEVELS : Z := 5.

Inductive proc_status :=
| PROC_UNUSED
| PROC_LOADING
| PROC_READY
| PROC_RUNNING
| PROC_RUNNABLE
| PROC_PENDING_SYSCALL.

#[global] Instance proc_status_eq_dec : EqDecision proc_status.
Proof. solve_decision. Defined.

(** [struct syscall] of [syscall.h]: the message record shared between a
    process and the kernel.  A type tag other than the two the kernel
    switches on is kept as [SYS_OTHER]. *)

Inductive syscall_type :=
| SYS_RECV
| SYS_SEND
| SYS_OTHER (tag : Z).

Inductive syscall_status :=
| PENDING
| DONE.

#[global] Instance syscall_type_eq_dec : EqDecision syscall_type.
Proof. solve_decision. Defined.

#[global] Instance syscall_status_eq_dec : EqDecision syscall_status.
Proof. solve_decision. Defined.

Module Syscall.

Record t := mk {
  type : syscall_type;
  sender : Z;
  receiver : Z;
  content : list byte;
  status : syscall_status
}.

Definition set_status (v : syscall_status) (s : t) : t :=
  mk (type s) (sender s) (receiver s) (content s) v.

Definition set_sender (v : Z) (s : t) : t :=
  mk (type s) v (receiver s) (content s) (status s).

Definition set_content (v : list byte) (s : t) : t :=
  mk (type s) (sender s) (receiver s) v (status s).

Definition zero : t := mk (SYS_OTHER 0) 0 0 [] PENDING.

End Syscall.

Record process := mkProcess {
  pid : Z;
  syscall : Syscall.t;
  status : proc_status;
  mepc : Z;
  saved_registers : list Z;
  creation_time : Z;
  first_schedule_time : Z;
  total_cpu_time : Z;
  termination_time : Z;
  timer_interrupt_count : Z;
  queue_level : Z;
  queue_time : Z;
  last_schedule_time : Z;
  wakeup_time : Z
}.

Definition set_pid (v : Z) (p : process) : process :=
  mkProcess v (syscall p) (status p) (mepc p) (saved_registers p)
    (creation_time p) (first_schedule_time p) (total_cpu_time p)
    (termination_time p) (timer_interrupt_count p) (queue_level p)
    (queue_time p) (last_schedule_time p) (wakeup_time p).

Definition set_syscall (v : Syscall.t) (p : process) : process :=
  mkProcess (pid p) v (status p) (mepc p) (saved_registers p)
    (creation_time p) (first_schedule_time p) (total_cpu_time p)
    (termination_time p) (timer_interrupt_count p) (queue_level p)
    (queue_time p) (last_schedule_time p) (wakeup_time p).

Definition set_status (v : proc_status) (p : process) : process :=
  mkProcess (pid p) (syscall p) v (mepc p) (saved_registers p)
    (creation_time p) (first_schedule_time p) (total_cpu_time p)
    (termination_time p) (timer_interrupt_count p) (queue_level p)
    (queue_time p) (last_schedule_time p) (wakeup_time p).

Definition set_mepc (v : Z) (p : process) : process :=
  mkProcess (pid p) (syscall p) (status p) v (saved_registers p)
    (creation_time p) (first_schedule_time p) (total_cpu_time p)
    (termination_time p) (timer_interrupt_count p) (queue_level p)
    (queue_time p) (last_schedule_time p) (wakeup_time p).

Definition set_saved_registers (v : list Z) (p : process) : process :=
  mkProcess (pid p) (syscall p) (status p) (mepc p) v
    (creation_time p) (first_schedule_time p) (total_cpu_time p)
    (termination_time p) (timer_interrupt_count p) (queue_level p)
    (queue_time p) (last_schedule_time p) (wakeup_time p).

Definition set_creation_time (v : Z) (p : process) : process :=
  mkProcess (pid p) (syscall p) (status p) (mepc p) (saved_registers p)
    v (first_schedule_time p) (total_cpu_time p)
    (termination_time p) (timer_interrupt_count p) (queue_level p)
    (queue_time p) (last_schedule_time p) (wakeup_time p).

Definition set_first_schedule_time (v : Z) (p : process) : process :=
  mkProcess (pid p) (syscall p) (status p) (mepc p) (saved_registers p)
    (creation_time p) v (total_cpu_time p)
    (termination_time p) (timer_interrupt_count p) (queue_level p)
    (queue_time p) (last_schedule_time p) (wakeup_time p).

Definition set_total_cpu_time (v : Z) (p : process) : process :=
  mkProcess (pid p) (syscall p) (status p) (mepc p) (saved_registers p)
    (creation_time p) (first_schedule_time p) v
    (termination_time p) (timer_interrupt_count p) (queue_level p)
    (queue_time p) (last_schedule_time p) (wakeup_time p).

Definition set_termination_time (v : Z) (p : process) : process :=
  mkProcess (pid p) (syscall p) (status p) (mepc p) (saved_registers p)
    (creation_time p) (first_schedule_time p) (total_cpu_time p)
    v (timer_interrupt_count p) (queue_level p)
    (queue_time p) (last_schedule_time p) (wakeup_time p).

Definition set_timer_interrupt_count (v : Z) (p : process) : process :=
  mkProcess (pid p) (syscall p) (status p) (mepc p) (saved_registers p)
    (creation_time p) (first_schedule_time p) (total_cpu_time p)
    (termination_time p) v (queue_level p)
    (queue_time p) (last_schedule_time p) (wakeup_time p).

Definition set_queue_level (v : Z) (p : process) : process :=
  mkProcess (pid p) (syscall p) (status p) (mepc p) (saved_registers p)
    (creation_time p) (first_schedule_time p) (total_cpu_time p)
    (termination_time p) (timer_interrupt_count p) v
    (queue_time p) (last_schedule_time p) (wakeup_time p).

Definition set_queue_time (v : Z) (p : process) : process :=
  mkProcess (pid p) (syscall p) (status p) (mepc p) (saved_registers p)
    (creation_time p) (first_schedule_time p) (total_cpu_time p)
    (termination_time p) (timer_interrupt_count p) (queue_level p)
    v (last_schedule_time p) (wakeup_time p).

Definition set_last_schedule_time (v : Z) (p : process) : process :=
  mkProcess (pid p) (syscall p) (status p) (mepc p) (saved_registers p)
    (creation_time p) (first_schedule_time p) (total_cpu_time p)
    (termination_time p) (timer_interrupt_count p) (queue_level p)
    (queue_time p) v (wakeup_time p).

Definition set_wakeup_time (v : Z) (p : process) : process :=
  mkProcess (pid p) (syscall p) (status p) (mepc p) (saved_registers p)
    (creation_time p) (first_schedule_time p) (total_cpu_time p)
    (termination_time p) (timer_interrupt_count p) (queue_level p)
    (queue_time p) (last_schedule_time p) v.

(** A zero-filled PCB, as the table's static storage starts out. *)
Definition process_zero : process :=
  mkProcess 0 Syscall.zero PROC_UNUSED 0 (replicate SAVED_REGISTER_NUM 0)
    0 0 0 0 0 0 0 0 0.

#[global] Instance process_inhabited : Inhabited process := populate process_zero.

(** ** Observable effects

    Calls into earth, the two instructions with an effect outside the
    registers, and the lines the kernel prints. *)

Inductive event :=
| EvTimerReset (core : nat)
| EvMmuSwitch (p : Z)
| EvMmuFlushCache
| EvMmuFree (p : Z)
| EvWfi
| EvKilled (p : Z) (excp : Z)
| EvTerminated (p : Z) (turnaround_ms response_ms cpu_ms wait_ms : Z)
    (timer_interrupts final_level : Z).

Inductive fatal :=
| FatalAllocLimit
| FatalUnknownReceiver (p : Z)
| FatalUnknownSyscall (ty : syscall_type)
| FatalKernelException (id : Z)
| FatalKernelInterrupt (id : Z).

Inductive result (A : Type) :=
| Ok (a : A)
| Fatal (f : fatal).

Arguments Ok {A} a.
Arguments Fatal {A} f.

Definition bind {A B} (r : result A) (f : A -> result B) : result B :=
  match r with
  | Ok a => f a
  | Fatal e => Fatal e
  end.

Notation "x <- r ;; k" := (bind r (fun x => k))
  (at level 100, r at next level, right associativity).

(** ** Kernel state *)

Record kernel := mkKernel {
  (* globals of kernel.c *)
  core_in_kernel : nat;
  core_to_proc_idx : list nat;
  proc_set : list process;
  (* function-local statics of process.c *)
  alloc_curr_pid : Z;
  MLFQ_last_reset_time : Z;
  (* control registers and the register spill area *)
  mhartid : nat;
  mcause : Z;
  csr_mepc : Z;
  mstatus : Z;
  saved_register_area : list Z;
  (* earth and the platform timer *)
  clock : nat -> Z;
  clock_reads : nat;
  tty_input_empty : bool;
  user_syscall : Z -> Syscall.t;
  trace : list event
}.

Definition set_core_in_kernel (v : nat) (k : kernel) : kernel :=
  mkKernel v (core_to_proc_idx k) (proc_set k) (alloc_curr_pid k)
    (MLFQ_last_reset_time k) (mhartid k) (mcause k) (csr_mepc k) (mstatus k)
    (saved_register_area k) (clock k) (clock_reads k) (tty_input_empty k)
    (user_syscall k) (trace k).

Definition set_core_to_proc_idx (v : list nat) (k : kernel) : kernel :=
  mkKernel (core_in_kernel k) v (proc_set k) (alloc_curr_pid k)
    (MLFQ_last_reset_time k) (mhartid k) (mcause k) (csr_mepc k) (mstatus k)
    (saved_register_area k) (clock k) (clock_reads k) (tty_input_empty k)
    (user_syscall k) (trace k).

Definition set_proc_set (v : list process) (k : kernel) : kernel :=
  mkKernel (core_in_kernel k) (core_to_proc_idx k) v (alloc_curr_pid k)
    (MLFQ_last_reset_time k) (mhartid k) (mcause k) (csr_mepc k) (mstatus k)
    (saved_register_area k) (clock k) (clock_reads k) (tty_input_empty k)
    (user_syscall k) (trace k).

Definition set_alloc_curr_pid (v : Z) (k : kernel) : kernel :=
  mkKernel (core_in_kernel k) (core_to_proc_idx k) (proc_set k) v
    (MLFQ_last_reset_time k) (mhartid k) (mcause k) (csr_mepc k) (mstatus k)
    (saved_register_area k) (clock k) (clock_reads k) (tty_input_empty k)
    (user_syscall k) (trace k).

Definition set_MLFQ_last_reset_time (v : Z) (k : kernel) : kernel :=
  mkKernel (core_in_kernel k) (core_to_proc_idx k) (proc_set k)
    (alloc_curr_pid k) v (mhartid k) (mcause k) (csr_mepc k) (mstatus k)
    (saved_register_area k) (clock k) (clock_reads k) (tty_input_empty k)
    (user_syscall k) (trace k).

Definition set_csr_mepc (v : Z) (k : kernel) : kernel :=
  mkKernel (core_in_kernel k) (core_to_proc_idx k) (proc_set k)
    (alloc_curr_pid k) (MLFQ_last_reset_time k) (mhartid k) (mcause k) v
    (mstatus k) (saved_register_area k) (clock k) (clock_reads k)
    (tty_input_empty k) (user_syscall k) (trace k).

Definition set_mstatus (v : Z) (k : kernel) : kernel :=
  mkKernel (core_in_kernel k) (core_to_proc_idx k) (proc_set k)
    (alloc_curr_pid k) (MLFQ_last_reset_time k) (mhartid k) (mcause k)
    (csr_mepc k) v (saved_register_area k) (clock k) (clock_reads k)
    (tty_input_empty k) (user_syscall k) (trace k).

Definition set_saved_register_area (v : list Z) (k : kernel) : kernel :=
  mkKernel (core_in_kernel k) (core_to_proc_idx k) (proc_set k)
    (alloc_curr_pid k) (MLFQ_last_reset_time k) (mhartid k) (mcause k)
    (csr_mepc k) (mstatus k) v (clock k) (clock_reads k)
    (tty_input_empty k) (user_syscall k) (trace k).

Definition set_clock_reads (v : nat) (k : kernel) : kernel :=
  mkKernel (core_in_kernel k) (core_to_proc_idx k) (proc_set k)
    (alloc_curr_pid k) (MLFQ_last_reset_time k) (mhartid k) (mcause k)
    (csr_mepc k) (mstatus k) (saved_register_area k) (clock k) v
    (tty_input_empty k) (user_syscall k) (trace k).

Definition set_user_syscall (v : Z -> Syscall.t) (k : kernel) : kernel :=
  mkKernel (core_in_kernel k) (core_to_proc_idx k) (proc_set k)
    (alloc_curr_pid k) (MLFQ_last_reset_time k) (mhartid k) (mcause k)
    (csr_mepc k) (mstatus k) (saved_register_area k) (clock k)
    (clock_reads k) (tty_input_empty k) v (trace k).

Definition set_trace (v : list event) (k : kernel) : kernel :=
  mkKernel (core_in_kernel k) (core_to_proc_idx k) (proc_set k)
    (alloc_curr_pid k) (MLFQ_last_reset_time k) (mhartid k) (mcause k)
    (csr_mepc k) (mstatus k) (saved_register_area k) (clock k)
    (clock_reads k) (tty_input_empty k) (user_syscall k) v.

(** [emit e] appends an effect to the trace. *)
Definition emit (e : event) (k : kernel) : kernel :=
  set_trace (trace k ++ [e]) k.

(** [proc_set[i]] and an in-place update of it.  The loops of the source
    keep every index within the table. *)
Definition proc_at (k : kernel) (i : nat) : process := proc_set k !!! i.

Definition upd_proc (i : nat) (f : process -> process) (k : kernel) : kernel :=
  set_proc_set (<[i := f (proc_set k !!! i)]> (proc_set k)) k.

(** The value the next [mtime_get()] returns, and the call itself: the
    platform timer is an oracle that is consulted once per call. *)
Definition mtime_now (k : kernel) : Z := u64 (clock k (clock_reads k)).

Definition mtime_get (k : kernel) : Z * kernel :=
  (mtime_now k, set_clock_reads (S (clock_reads k)) k).

(** [for (uint i = from; ...; i++) if (cond(proc_set[i])) { ...; return; }]
    over [n] consecutive slots: the first index whose PCB satisfies the
    condition. *)
Fixpoint scan_from (cond : process -> bool) (ps : list process)
    (i n : nat) : option nat :=
  match n with
  | O => None
  | S n' => if cond (ps !!! i) then Some i else scan_from cond ps (S i) n'
  end.

(** The recurring loop header [for (uint i = 0; i < MAX_NPROCESS; i++)]. *)
Definition find_slot (cond : process -> bool) (k : kernel) : option nat :=
  scan_from cond (proc_set k) 0 MAX_NPROCESS.

Definition has_pid (p : Z) (pcb : process) : bool := pid pcb =? p.

Definition status_is (s : proc_status) (pcb : process) : bool :=
  bool_decide (status pcb = s).

(** ** [process.c] *)

Definition MLFQ_NLEVELS : Z := 5.
Definition MLFQ_RESET_PERIOD : Z := 10000000.
Definition MLFQ_LEVEL_RUNTIME (x : Z) : Z := s32 (s32 (x + 1) * 100000).

Definition proc_set_status (p : Z) (s : proc_status) (k : kernel) : kernel :=
  foldl (fun k i => if has_pid p (proc_at k i) then upd_proc i (set_status s) k else k)
    k (seq 0 MAX_NPROCESS).

Definition proc_set_ready (p : Z) (k : kernel) : kernel :=
  match find_slot (has_pid p) k with
  | Some i => upd_proc i (set_status PROC_READY) k
  | None => k
  end.

Definition proc_set_running (p : Z) (k : kernel) : kernel :=
  match find_slot (has_pid p) k with
  | Some i =>
      let k1 :=
        if first_schedule_time (proc_at k i) =? 0 then
          let '(now, k') := mtime_get k in
          upd_proc i (set_first_schedule_time now) k'
        else k in
      let '(now, k2) := mtime_get k1 in
      let k3 := upd_proc i (set_last_schedule_time now) k2 in
      upd_proc i (set_status PROC_RUNNING) k3
  | None => k
  end.

(** The body of [mlfq_update_level] on the PCB its non-null argument
    points to. *)
Definition mlfq_update_pcb (runtime : Z) (p : process) : process :=
  if MLFQ_NLEVELS - 1 <=? queue_level p then p
  else
    let p1 := set_queue_time (u64_add (queue_time p) runtime) p in
    let quantum := u64 (MLFQ_LEVEL_RUNTIME (queue_level p1)) in
    if quantum <=? queue_time p1 then
      set_queue_time 0 (set_queue_level (s32 (queue_level p1 + 1)) p1)
    else p1.

(** [mlfq_update_level(p, runtime)]; [None] is the null pointer. *)
Definition mlfq_update_level (p : option nat) (runtime : Z) (k : kernel) : kernel :=
  match p with
  | None => k
  | Some i => upd_proc i (mlfq_update_pcb runtime) k
  end.

(** The block shared by [proc_set_runnable] and [proc_set_pending]:
    charge the time since the last dispatch when the PCB was running. *)
Definition account_running (i : nat) (k : kernel) : kernel :=
  let p := proc_at k i in
  if status_is PROC_RUNNING p && (0 <? last_schedule_time p) then
    let '(current_time, k1) := mtime_get k in
    let runtime := u64_sub current_time (last_schedule_time (proc_at k1 i)) in
    let k2 := upd_proc i (fun q => set_total_cpu_time (u64_add (total_cpu_time q) runtime) q) k1 in
    mlfq_update_level (Some i) runtime k2
  else k.

Definition proc_set_runnable (p : Z) (k : kernel) : kernel :=
  match find_slot (has_pid p) k with
  | Some i => upd_proc i (set_status PROC_RUNNABLE) (account_running i k)
  | None => k
  end.

Definition proc_set_pending (p : Z) (k : kernel) : kernel :=
  match find_slot (has_pid p) k with
  | Some i => upd_proc i (set_status PROC_PENDING_SYSCALL) (account_running i k)
  | None => k
  end.

Definition proc_alloc (k : kernel) : result (Z * kernel) :=
  match scan_from (status_is PROC_UNUSED) (proc_set k) 1 MAX_NPROCESS with
  | Some i =>
      let next_pid := u32 (alloc_curr_pid k + 1) in
      let k1 := set_alloc_curr_pid next_pid k in
      let k2 := upd_proc i (set_pid (s32 next_pid)) k1 in
      let k3 := upd_proc i (set_status PROC_LOADING) k2 in
      let '(current_time, k4) := mtime_get k3 in
      let k5 := upd_proc i (fun p =>
        set_wakeup_time 0 (set_last_schedule_time 0 (set_queue_time 0
          (set_queue_level 0 (set_timer_interrupt_count 0
            (set_termination_time 0 (set_total_cpu_time 0
              (set_first_schedule_time 0
                (set_creation_time current_time p))))))))) k4 in
      Ok (s32 next_pid, k5)
  | None => Fatal FatalAllocLimit
  end.

(** The figures of the termination report, in the order they are printed.
    [to_ms] is the cast of a microsecond count to [int] milliseconds with
    the clamp at zero that follows it. *)
Definition to_ms (t : Z) : Z :=
  let ms := s32 (t / 1000) in
  if ms <? 0 then 0 else ms.

Definition termination_report (printed_pid current_time : Z) (p : process) : event :=
  let turnaround_time := u64_sub current_time (creation_time p) in
  let response_time :=
    if creation_time p <? first_schedule_time p
    then u64_sub (first_schedule_time p) (creation_time p) else 0 in
  let response_time :=
    if (turnaround_time <? response_time) || (10000000 <? response_time)
    then turnaround_time / 2 else response_time in
  let waiting_time :=
    if u64_add response_time (total_cpu_time p) <? turnaround_time
    then u64_sub (u64_sub turnaround_time response_time) (total_cpu_time p)
    else 0 in
  EvTerminated printed_pid (to_ms turnaround_time) (to_ms response_time)
    (to_ms (total_cpu_time p)) (to_ms waiting_time)
    (timer_interrupt_count p) (queue_level p).

Definition proc_free `{Platform} (p : Z) (k : kernel) : kernel :=
  if negb (p =? GPID_ALL) then
    match find_slot (fun q => has_pid p q && negb (status_is PROC_UNUSED q)) k with
    | Some i =>
        let '(current_time, k1) := mtime_get k in
        let k2 := upd_proc i (set_termination_time current_time) k1 in
        let k3 := emit (termination_report p current_time (proc_at k2 i)) k2 in
        let k4 := emit (EvMmuFree p) k3 in
        proc_set_status p PROC_UNUSED k4
    | None => k
    end
  else
    foldl (fun k i =>
      let q := proc_at k i in
      if (GPID_USER_START <=? pid q) && negb (status_is PROC_UNUSED q) then
        let '(current_time, k1) := mtime_get k in
        let k2 := upd_proc i (set_termination_time current_time) k1 in
        let k3 := emit (termination_report (pid (proc_at k2 i)) current_time (proc_at k2 i)) k2 in
        let k4 := emit (EvMmuFree (pid (proc_at k3 i))) k3 in
        upd_proc i (set_status PROC_UNUSED) k4
      else k)
    k (seq 0 MAX_NPROCESS).

Definition mlfq_clear (p : process) : process :=
  set_queue_time 0 (set_queue_level 0 p).

Definition mlfq_reset_level `{Platform} (k : kernel) : kernel :=
  let '(current_time, k1) := mtime_get k in
  let k2 :=
    if negb (tty_input_empty k1) then
      match find_slot (fun q => has_pid GPID_SHELL q && negb (status_is PROC_UNUSED q)) k1 with
      | Some i => upd_proc i mlfq_clear k1
      | None => k1
      end
    else k1 in
  if MLFQ_RESET_PERIOD <=? u64_sub current_time (MLFQ_last_reset_time k2) then
    let k3 :=
      foldl (fun k i =>
        if negb (status_is PROC_UNUSED (proc_at k i)) then upd_proc i mlfq_clear k else k)
      k2 (seq 0 MAX_NPROCESS) in
    set_MLFQ_last_reset_time current_time k3
  else k2.

Definition proc_sleep (p : Z) (usec : Z) (k : kernel) : kernel :=
  let '(current_time, k1) := mtime_get k in
  match find_slot (fun q => has_pid p q && negb (status_is PROC_UNUSED q)) k1 with
  | Some i =>
      let k2 := upd_proc i (set_wakeup_time (u64_add current_time (u32 usec))) k1 in
      upd_proc i (set_status PROC_PENDING_SYSCALL) k2
  | None => k1
  end.

(** ** [kernel.c] *)

(** The macros [curr_proc_idx], [curr_pid], [curr_status]. *)
Definition curr_proc_idx (k : kernel) : nat :=
  core_to_proc_idx k !!! core_in_kernel k.

Definition set_curr_proc_idx (v : nat) (k : kernel) : kernel :=
  set_core_to_proc_idx (<[core_in_kernel k := v]> (core_to_proc_idx k)) k.

Definition curr_pid (k : kernel) : Z := pid (proc_at k (curr_proc_idx k)).

Definition curr_status (k : kernel) : proc_status :=
  status (proc_at k (curr_proc_idx k)).

Definition INTR_ID_TIMER : Z := 7.
Definition EXCP_ID_ECALL_U : Z := 8.
Definition EXCP_ID_ECALL_M : Z := 11.

(** [memcpy(dst, src, n)] on arrays of equal element type. *)
Definition memcpy {A} (dst src : list A) (n : nat) : list A :=
  take n src ++ drop n dst.

Definition proc_try_send `{Platform} (sender : nat) (k : kernel) : result kernel :=
  let to := Syscall.receiver (syscall (proc_at k sender)) in
  match find_slot (fun q => has_pid to q && negb (status_is PROC_UNUSED q)) k with
  | Some i =>
      let dst := proc_at k i in
      if negb (bool_decide (Syscall.type (syscall dst) = SYS_RECV)
               && bool_decide (Syscall.status (syscall dst) = PENDING))
      then Ok k
      else if negb ((Syscall.sender (syscall dst) =? GPID_ALL)
                    || (Syscall.sender (syscall dst) =? pid (proc_at k sender)))
      then Ok k
      else
        let k1 := upd_proc i (fun q => set_syscall (Syscall.set_status DONE (syscall q)) q) k in
        let k2 := upd_proc i (fun q =>
          set_syscall (Syscall.set_sender (pid (proc_at k1 sender)) (syscall q)) q) k1 in
        Ok (upd_proc i (fun q =>
          set_syscall (Syscall.set_content
            (memcpy (Syscall.content (syscall q))
                    (Syscall.content (syscall (proc_at k2 sender)))
                    SYSCALL_MSG_LEN) (syscall q)) q) k2)
  | None => Fatal (FatalUnknownReceiver to)
  end.

(** [mmu_translate(pid, SYSCALL_ARG)] names the syscall record in the
    address space of [pid]; [user_syscall] holds that record per pid. *)
Definition proc_try_recv (receiver : nat) (k : kernel) : kernel :=
  if bool_decide (Syscall.status (syscall (proc_at k receiver)) = PENDING) then k
  else
    let r := proc_at k receiver in
    let k1 := set_user_syscall
      (fun q => if q =? pid r then syscall r else user_syscall k q) k in
    let k2 := proc_set_runnable (pid (proc_at k1 receiver)) k1 in
    proc_set_runnable (Syscall.sender (syscall (proc_at k2 receiver))) k2.

Definition proc_try_syscall `{Platform} (proc : nat) (k : kernel) : result kernel :=
  match Syscall.type (syscall (proc_at k proc)) with
  | SYS_RECV => Ok (proc_try_recv proc k)
  | SYS_SEND => proc_try_send proc k
  | ty => Fatal (FatalUnknownSyscall ty)
  end.

(** *** [proc_yield] *)

(** "Check if process should wake up from sleep". *)
Definition yield_wake (current_time : Z) (i : nat) (k : kernel) : kernel :=
  let p := proc_at k i in
  if status_is PROC_PENDING_SYSCALL p && (0 <? wakeup_time p)
     && (wakeup_time p <=? current_time)
  then upd_proc i (set_status PROC_RUNNABLE) (upd_proc i (set_wakeup_time 0) k)
  else k.

(** [if (p->status == PROC_PENDING_SYSCALL) proc_try_syscall(p);] *)
Definition yield_retry `{Platform} (i : nat) (k : kernel) : result kernel :=
  if status_is PROC_PENDING_SYSCALL (proc_at k i) then proc_try_syscall i k
  else Ok k.

Definition still_sleeping (current_time : Z) (p : process) : bool :=
  (0 <? wakeup_time p) && (current_time <? wakeup_time p).

Definition ready_or_runnable (p : process) : bool :=
  status_is PROC_READY p || status_is PROC_RUNNABLE p.

(** The variables the first loop carries besides the kernel state. *)
Record selection := mkSelection {
  next_idx : nat;
  min_level : Z
}.

(** One iteration of the first loop, for slot [i]. *)
Definition yield_scan_step `{Platform} (current_time : Z) (i : nat)
    (acc : kernel * selection) : result (kernel * selection) :=
  let '(k, sel) := acc in
  k1 <- yield_retry i (yield_wake current_time i k) ;;
  let p := proc_at k1 i in
  if still_sleeping current_time p then Ok (k1, sel)
  else if ready_or_runnable p && (queue_level p <? min_level sel)
  then Ok (k1, mkSelection i (queue_level p))
  else Ok (k1, sel).

(** [for (uint i = from; ...; i++) body] over [n] consecutive indices, for
    a body that may halt the core. *)
Fixpoint for_slots {A} (body : nat -> A -> result A) (i n : nat) (a : A) : result A :=
  match n with
  | O => Ok a
  | S n' => a' <- body i a ;; for_slots body (S i) n' a'
  end.

(** The fallback loop: the first ready or runnable slot by index, with
    [break]; [MAX_NPROCESS] when the loop runs to its end. *)
Fixpoint yield_fallback `{Platform} (current_time : Z) (i n : nat) (k : kernel)
    : result (kernel * nat) :=
  match n with
  | O => Ok (k, MAX_NPROCESS)
  | S n' =>
      k1 <- yield_retry i k ;;
      let p := proc_at k1 i in
      if still_sleeping current_time p then yield_fallback current_time (S i) n' k1
      else if ready_or_runnable p then Ok (k1, i)
      else yield_fallback current_time (S i) n' k1
  end.

(** Both loops: the state they leave and the final [next_idx]. *)
Definition yield_select `{Platform} (current_time : Z) (k : kernel)
    : result (kernel * nat) :=
  r <- for_slots (yield_scan_step current_time) 1 MAX_NPROCESS
         (k, mkSelection MAX_NPROCESS MLFQ_LEVELS) ;;
  let '(k1, sel) := r in
  if bool_decide (next_idx sel = MAX_NPROCESS)
  then yield_fallback current_time 1 MAX_NPROCESS k1
  else Ok (k1, next_idx sel).

(** [mstatus.MPP] is bits 11 and 12, [mstatus.MIE] is bit 3. *)
Definition set_mpp (mode : Z) (ms : Z) : Z :=
  Z.lor (Z.land ms (Z.lnot (Z.shiftl 3 11))) (Z.shiftl mode 11).

Definition set_mie (ms : Z) : Z := Z.lor ms 8.

(** Everything after the two loops, in the order of the source: the
    lifecycle stamps of the next process, its privilege mode, the switch
    to it, and the idle path. *)
Definition dispatch_stamp (next : nat) (k : kernel) : kernel :=
  let k1 :=
    if first_schedule_time (proc_at k next) =? 0 then
      let '(now, k') := mtime_get k in
      upd_proc next (set_first_schedule_time now) k'
    else k in
  let '(now, k2) := mtime_get k1 in
  upd_proc next (set_last_schedule_time now) k2.

Definition dispatch_mode `{Platform} (next : nat) (k : kernel) : kernel :=
  if GPID_USER_START <=? pid (proc_at k next)
  then set_mstatus (set_mpp 0 (mstatus k)) k
  else set_mstatus (set_mpp 3 (mstatus k)) k.

(** "Setup argc, argv and program counter for a newly created process." *)
Definition dispatch_prime `{Platform} (k : kernel) : kernel :=
  if bool_decide (curr_status k = PROC_READY) then
    let i := curr_proc_idx k in
    let k' := upd_proc i (fun p =>
      set_saved_registers (<[0%nat := APPS_ARG]> (saved_registers p)) p) k in
    let k'' := upd_proc i (fun p =>
      set_saved_registers (<[1%nat := u32 (APPS_ARG + 4)]> (saved_registers p)) p) k' in
    upd_proc i (set_mepc APPS_ENTRY) k''
  else k.

Definition go_idle (k : kernel) : kernel :=
  let k1 := set_curr_proc_idx 0 k in
  let k2 := emit (EvTimerReset (core_in_kernel k1)) k1 in
  let k3 := set_mstatus (set_mie (mstatus k2)) k2 in
  emit EvWfi k3.

Definition yield_dispatch `{Platform} (next : nat) (k : kernel) : kernel :=
  if (next <? MAX_NPROCESS)%nat then
    let k5 := set_curr_proc_idx next (dispatch_mode next (dispatch_stamp next k)) in
    let k6 := emit EvMmuFlushCache (emit (EvMmuSwitch (curr_pid k5)) k5) in
    let k7 := dispatch_prime k6 in
    let k8 := proc_set_running (curr_pid k7) k7 in
    emit (EvTimerReset (core_in_kernel k8)) k8
  else go_idle k.

(** The two statements before the loops. *)
Definition yield_prologue `{Platform} (k : kernel) : kernel :=
  let k1 :=
    if bool_decide (curr_status k = PROC_RUNNING)
    then proc_set_runnable (curr_pid k) k else k in
  mlfq_reset_level k1.

Definition proc_yield `{Platform} (k : kernel) : result kernel :=
  let k2 := yield_prologue k in
  let '(current_time, k3) := mtime_get k2 in
  r <- yield_select current_time k3 ;;
  let '(k4, next) := r in
  Ok (yield_dispatch next k4).

Definition excp_entry `{Platform} (id : Z) (k : kernel) : result kernel :=
  if (EXCP_ID_ECALL_U <=? id) && (id <=? EXCP_ID_ECALL_M) then
    let k1 := upd_proc (curr_proc_idx k) (set_syscall (user_syscall k (curr_pid k))) k in
    let k2 := upd_proc (curr_proc_idx k1)
      (fun p => set_syscall (Syscall.set_status PENDING (syscall p)) p) k1 in
    let k3 := proc_set_pending (curr_pid k2) k2 in
    let k4 := upd_proc (curr_proc_idx k3) (fun p => set_mepc (u32 (mepc p + 4)) p) k3 in
    k5 <- proc_try_syscall (curr_proc_idx k4) k4 ;;
    proc_yield k5
  else if GPID_USER_START <=? curr_pid k then
    let k1 := emit (EvKilled (curr_pid k) id) k in
    let k2 := proc_free (curr_pid k1) k1 in
    proc_yield k2
  else Fatal (FatalKernelException id).

Definition intr_entry `{Platform} (id : Z) (k : kernel) : result kernel :=
  if negb (id =? INTR_ID_TIMER) then Fatal (FatalKernelInterrupt id)
  else
    let i := curr_proc_idx k in
    let k1 :=
      if (0 <? i)%nat && (i <=? MAX_NPROCESS)%nat then
        let ka := upd_proc i (fun p =>
          set_timer_interrupt_count (s32 (timer_interrupt_count p + 1)) p) k in
        let '(current_time, kb) := mtime_get ka in
        let kc :=
          if 0 <? last_schedule_time (proc_at kb i) then
            let runtime := u64_sub current_time (last_schedule_time (proc_at kb i)) in
            let kd := upd_proc i (fun p =>
              set_total_cpu_time (u64_add (total_cpu_time p) runtime) p) kb in
            mlfq_update_level (Some i) runtime kd
          else kb in
        upd_proc i (set_last_schedule_time current_time) kc
      else k in
    proc_yield k1.

Definition kernel_entry `{Platform} (k : kernel) : result kernel :=
  let k1 := set_core_in_kernel (mhartid k) k in
  let k2 := upd_proc (curr_proc_idx k1) (set_mepc (csr_mepc k1)) k1 in
  let k3 := upd_proc (curr_proc_idx k2) (fun p =>
    set_saved_registers
      (memcpy (saved_registers p) (saved_register_area k2) SAVED_REGISTER_NUM) p) k2 in
  k4 <- (if Z.testbit (mcause k3) 31
         then intr_entry (Z.land (mcause k3) 1023) k3
         else excp_entry (mcause k3) k3) ;;
  let k5 := set_csr_mepc (mepc (proc_at k4 (curr_proc_idx k4))) k4 in
  Ok (set_saved_register_area
        (memcpy (saved_register_area k5)
                (saved_registers (proc_at k5 (curr_proc_idx k5)))
                SAVED_REGISTER_NUM) k5).

(** ** Sample platform and states

    Concrete values on which the definitions are run.  The pid constants
    follow the usual numbering of the system processes (shell 4, first
    user process 5, wildcard -1); messages are kept short. *)

Definition sample_platform : Platform :=
  {| NCORES := 2; SYSCALL_MSG_LEN := 4; GPID_ALL := -1; GPID_SHELL := 4;
     GPID_USER_START := 5; APPS_ARG := 2147483648; APPS_ENTRY := 2147487744 |}.

(** The state at boot: zero-filled statics, every core idle, a timer that
    advances by a millisecond between two readings. *)
Definition boot (first_reading : Z) : kernel :=
  mkKernel 0 (replicate 2 0%nat) (replicate (S MAX_NPROCESS) process_zero)
    0 0 0 0 0 0 (replicate SAVED_REGISTER_NUM 0)
    (fun n => first_reading + 1000 * Z.of_nat n) 0 true
    (fun _ => Syscall.zero) [].

(** A live PCB with the given pid, status and queue level. *)
Definition sample_pcb (p : Z) (s : proc_status) (level : Z) : process :=
  set_queue_level level (set_status s (set_pid p process_zero)).

(** [boot] with the listed PCBs stored at the listed slots. *)
Definition with_procs (slots : list (nat * process)) (k : kernel) : kernel :=
  foldl (fun k '(i, p) => upd_proc i (fun _ => p) k) k slots.

(** ** Well-formed tables *)

(** [proc_set] is declared with [MAX_NPROCESS + 1] entries. *)
Definition table_ok (k : kernel) : Prop :=
  length (proc_set k) = S MAX_NPROCESS.

(** ** The MLFQ update as the specification words it

    "Adds [runtime] to [p.queue_time].  If [p.queue_time >= quantum] and
    [p.queue_level < MLFQ_LEVELS - 1], demote: [queue_level += 1],
    [queue_time = 0]", with the quantum [(L + 1) * 100000] of level [L].
    It is compared with [mlfq_update_pcb], the update of the source. *)
Definition mlfq_update_as_specified (runtime : Z) (p : process) : process :=
  let p1 := set_queue_time (u64_add (queue_time p) runtime) p in
  if ((queue_level p1 + 1) * 100000 <=? queue_time p1)
     && (queue_level p1 <? MLFQ_LEVELS - 1)
  then set_queue_time 0 (set_queue_level (queue_level p1 + 1) p1)
  else p1.

(** A process on the bottom level that has not run yet at this level. *)
Definition bottom_level_pcb : process := sample_pcb 5 PROC_RUNNING 4.

(** A process on level 0 that is 10 microseconds short of its quantum. *)
Definition nearly_expired_pcb : process :=
  set_queue_time 99990 (sample_pcb 5 PROC_RUNNING 0).

(** A process that was demoted to level 2 before the first call of
    [mlfq_reset_level], five milliseconds after boot. *)
Definition demoted_before_first_reset : kernel :=
  with_procs [(1%nat, set_queue_time 300 (sample_pcb 5 PROC_RUNNABLE 2))] (boot 5000).

(** ** Auxiliary notions used in the proofs *)

(** The table after the boost of the shell, the first half of
    [mlfq_reset_level]. *)
Definition after_boost `{Platform} (k : kernel) : kernel :=
  let k1 := snd (mtime_get k) in
  if negb (tty_input_empty k1) then
    match find_slot (fun q => has_pid GPID_SHELL q && negb (status_is PROC_UNUSED q)) k1 with
    | Some i => upd_proc i mlfq_clear k1
    | None => k1
    end
  else k1.

(** [keeps X k k']: every PCB has the same [X] in [k'] as in [k]. *)
Definition keeps {A} (X : process -> A) (k k' : kernel) : Prop :=
  forall j, X (proc_at k' j) = X (proc_at k j).

(** A process that has been running since the reading 1000 of the timer,
    and one that is marked running with no dispatch time recorded. *)
Definition running_since_1000 : kernel :=
  with_procs [(1%nat, set_last_schedule_time 1000 (sample_pcb 5 PROC_RUNNING 0))]
    (boot 5000).

Definition running_unstamped : kernel :=
  with_procs [(1%nat, sample_pcb 5 PROC_RUNNING 0)] (boot 5000).

(** [n] calls of [proc_alloc] in a row, with the pids they return. *)
Fixpoint alloc_n (n : nat) (k : kernel) : result (list Z * kernel) :=
  match n with
  | O => Ok ([], k)
  | S n' =>
      r <- proc_alloc k ;;
      let '(p, k1) := r in
      r' <- alloc_n n' k1 ;;
      let '(ps, k2) := r' in
      Ok (p :: ps, k2)
  end.

(** The table once sixteen processes have been allocated after boot. *)
Definition sixteen_allocated : kernel :=
  match alloc_n 16 (boot 5000) with
  | Ok (_, k) => k
  | Fatal _ => boot 5000
  end.

(** Syscall records as a process leaves them at [SYSCALL_ARG]. *)
Definition send_record (to : Z) (msg : list byte) : Syscall.t :=
  Syscall.mk SYS_SEND 0 to msg PENDING.

Definition recv_record (from : Z) : Syscall.t :=
  Syscall.mk SYS_RECV from 0 (replicate 4 x00) PENDING.

Definition msg_hi : list byte := [x68; x69; x00; x00].

(** The first of the sixteen processes blocks in a SEND to the
    sixteenth. *)
Definition send_to_sixteenth : kernel :=
  upd_proc 1 (fun p => set_status PROC_PENDING_SYSCALL
                         (set_syscall (send_record 16 msg_hi) p))
    sixteen_allocated.

(** Process 5 (slot 1) has sent to process 6 (slot 2), which was waiting in
    a RECV from anyone; the message is delivered but not yet collected. *)
Definition delivered_pair : kernel :=
  match
    proc_try_send (H := sample_platform) 1
      (with_procs
         [(1%nat, set_syscall (send_record 6 msg_hi)
                    (sample_pcb 5 PROC_PENDING_SYSCALL 0));
          (2%nat, set_syscall (recv_record (-1))
                    (sample_pcb 6 PROC_PENDING_SYSCALL 0))]
         (boot 5000))
  with
  | Ok k => k
  | Fatal _ => boot 5000
  end.

(** ... and the sender is killed before the receiver collects it. *)
Definition sender_freed : kernel :=
  proc_free (H := sample_platform) 5 delivered_pair.

(** The value of [current_time] in a call of [proc_yield], and the state
    in which its loops start. *)
Definition yield_current_time `{Platform} (k : kernel) : Z :=
  mtime_now (yield_prologue k).

Definition yield_scan_start `{Platform} (k : kernel) : kernel :=
  snd (mtime_get (yield_prologue k)).

(** The loop variables before the first iteration. *)
Definition selection_start : selection := mkSelection MAX_NPROCESS MLFQ_LEVELS.

(** [X] does not depend on the fields the scheduler bookkeeping writes. *)
Definition ignores_scheduling {A} (X : process -> A) : Prop :=
  (forall v q, X (set_status v q) = X q) /\
  (forall v q, X (set_total_cpu_time v q) = X q) /\
  (forall v q, X (set_queue_level v q) = X q) /\
  (forall v q, X (set_queue_time v q) = X q).

(** Only slot 16 holds a process, and it is ready; the same process one
    slot lower. *)
Definition only_last_slot_ready : kernel :=
  with_procs [(16%nat, sample_pcb 7 PROC_READY 0)] (boot 5000).

Definition only_slot_15_ready : kernel :=
  with_procs [(15%nat, sample_pcb 7 PROC_READY 0)] (boot 5000).

(** [X] does not depend on the fields a dispatch writes. *)
Definition ignores_dispatch {A} (X : process -> A) : Prop :=
  (forall v q, X (set_status v q) = X q) /\
  (forall v q, X (set_first_schedule_time v q) = X q) /\
  (forall v q, X (set_last_schedule_time v q) = X q) /\
  (forall v q, X (set_saved_registers v q) = X q) /\
  (forall v q, X (set_mepc v q) = X q).

(** Process 5 has collected a message from process 6 earlier (its record
    is a completed RECV) and is running; it then asks to sleep for 3000
    microseconds. *)
Definition completed_recv_record : Syscall.t :=
  Syscall.mk SYS_RECV 6 0 msg_hi DONE.

Definition before_sleep : kernel :=
  set_curr_proc_idx 1
    (with_procs
       [(1%nat, set_last_schedule_time 4000
                  (set_syscall completed_recv_record (sample_pcb 5 PROC_RUNNING 0)))]
       (boot 5000)).

Definition asleep : kernel := proc_sleep 5 3000 before_sleep.

(** The state a call of [proc_yield] leaves, or the state it was called in
    when the kernel halts. *)
Definition after_yield `{Platform} (k : kernel) : kernel :=
  match proc_yield k with
  | Ok k' => k'
  | Fatal _ => k
  end.

(** [woken i k]: slot [i] has been woken up and not dispatched yet. *)
Definition woken (i : nat) (k : kernel) : Prop :=
  wakeup_time (proc_at k i) = 0 /\ status (proc_at k i) = PROC_RUNNABLE.

(** A process asleep in slot 1 with nothing in its syscall record that a
    retry could complete: a RECV that is still pending. *)
Definition before_plain_sleep : kernel :=
  set_curr_proc_idx 1
    (with_procs
       [(1%nat, set_last_schedule_time 4000
                  (set_syscall (recv_record (-1)) (sample_pcb 5 PROC_RUNNING 0)))]
       (boot 5000)).

Definition plain_sleeper : kernel := proc_sleep 5 3000 before_plain_sleep.

Definition is_ok {A} (r : result A) : bool :=
  match r with
  | Ok _ => true
  | Fatal _ => false
  end.

(** [F] is a global that the process-table code does not write: it does
    not depend on the table, the clock position or the reset timestamp;
    and [F] does not depend on the syscall records in user space. *)
Definition table_blind {A} (F : kernel -> A) : Prop :=
  (forall v k, F (set_proc_set v k) = F k) /\
  (forall v k, F (set_clock_reads v k) = F k) /\
  (forall v k, F (set_MLFQ_last_reset_time v k) = F k).

Definition user_blind {A} (F : kernel -> A) : Prop :=
  forall v k, F (set_user_syscall v k) = F k.

(** The core the kernel runs on and the core-to-process map. *)
Definition cores (k : kernel) : nat * list nat :=
  (core_in_kernel k, core_to_proc_idx k).

(** The first loop of [proc_yield] after [j] iterations, and the PCB of
    slot [j] as the loop saw it when it came to select: after the wake-up
    test and the retried syscall of iteration [j]. *)
Definition scan_prefix `{Platform} (now : Z) (k : kernel) (j : nat)
    : result (kernel * selection) :=
  for_slots (yield_scan_step now) 1 j (k, selection_start).

Definition seen `{Platform} (now : Z) (k : kernel) (j : nat) : option process :=
  match scan_prefix now k j with
  | Ok (kj, _) => Some (proc_at kj j)
  | Fatal _ => None
  end.

(** What makes a PCB a candidate in the loops. *)
Definition eligible (now : Z) (p : process) : bool :=
  ready_or_runnable p && negb (still_sleeping now p).

(** A sender on level 0 in slot 1 and the receiver it waits for on level 3
    in slot 2, both blocked; the receiver has just posted its RECV. *)
Definition rendezvous_across_levels : kernel :=
  with_procs
    [(1%nat, set_syscall (send_record 6 msg_hi)
               (sample_pcb 5 PROC_PENDING_SYSCALL 0));
     (2%nat, set_syscall (recv_record (-1))
               (sample_pcb 6 PROC_PENDING_SYSCALL 3))]
    (boot 5000).

(** Three runnable processes on the levels 2, 1 and 1. *)
Definition three_runnable : kernel :=
  with_procs
    [(1%nat, sample_pcb 5 PROC_RUNNABLE 2);
     (2%nat, sample_pcb 6 PROC_READY 1);
     (3%nat, sample_pcb 7 PROC_RUNNABLE 1)]
    (boot 5000).

(** What the first loop has established after [j] iterations: its
    selection is the lowest-index slot of minimal level among the
    candidates it has seen. *)
Definition scan_inv `{Platform} (now : Z) (k : kernel) (j : nat) (sel : selection) : Prop :=
  ((next_idx sel = MAX_NPROCESS /\ min_level sel = MLFQ_LEVELS) \/
   ((1 <= next_idx sel <= j)%nat /\ min_level sel < MLFQ_LEVELS /\
    exists p, seen now k (next_idx sel) = Some p /\ eligible now p = true /\
              queue_level p = min_level sel)) /\
  (forall j' q, (1 <= j' <= j)%nat -> seen now k j' = Some q ->
     eligible now q = true ->
     min_level sel <= queue_level q /\
     (queue_level q = min_level sel -> min_level sel < MLFQ_LEVELS ->
      (next_idx sel <= j')%nat)).


(** ** Traps

    The hardware side of a trap: the hart and the cause of the trap are
    latched in [mhartid] and [mcause], and the trap stub calls
    [kernel_entry]. *)

Definition set_mhartid (v : nat) (k : kernel) : kernel :=
  mkKernel (core_in_kernel k) (core_to_proc_idx k) (proc_set k)
    (alloc_curr_pid k) (MLFQ_last_reset_time k) v (mcause k) (csr_mepc k)
    (mstatus k) (saved_register_area k) (clock k) (clock_reads k)
    (tty_input_empty k) (user_syscall k) (trace k).

Definition set_mcause (v : Z) (k : kernel) : kernel :=
  mkKernel (core_in_kernel k) (core_to_proc_idx k) (proc_set k)
    (alloc_curr_pid k) (MLFQ_last_reset_time k) (mhartid k) v (csr_mepc k)
    (mstatus k) (saved_register_area k) (clock k) (clock_reads k)
    (tty_input_empty k) (user_syscall k) (trace k).

Definition trap `{Platform} (hart : nat) (cause : Z) (k : kernel) : result kernel :=
  kernel_entry (set_mcause cause (set_mhartid hart k)).

(** An environment call from user mode, and the timer interrupt. *)
Definition CAUSE_ECALL : Z := EXCP_ID_ECALL_U.
Definition CAUSE_TIMER : Z := Z.lor (Z.shiftl 1 31) INTR_ID_TIMER.

(** A run of traps, one per listed hart, all with the same cause. *)
Fixpoint traps `{Platform} (cause : Z) (harts : list nat) (k : kernel) : result kernel :=
  match harts with
  | [] => Ok k
  | h :: rest => k1 <- trap h cause k ;; traps cause rest k1
  end.

(** ** A rendez-vous between two processes

    The sender sits in slot [rv_s] with pid [rv_ps] and has the SEND record
    [rv_usend] at its [SYSCALL_ARG]; the receiver sits in slot [rv_r] with
    pid [rv_pr] and has the RECV record [rv_urecv] at its own. *)
Record rendezvous := mkRendezvous {
  rv_s : nat;
  rv_r : nat;
  rv_ps : Z;
  rv_pr : Z;
  rv_usend : Syscall.t;
  rv_urecv : Syscall.t
}.

(** The records as [excp_entry] stores them in the two PCBs, and the
    receiver's record once the message is delivered. *)
Definition send_posted (rv : rendezvous) : Syscall.t :=
  Syscall.set_status PENDING (rv_usend rv).

Definition recv_posted (rv : rendezvous) : Syscall.t :=
  Syscall.set_status PENDING (rv_urecv rv).

Definition recv_done `{Platform} (rv : rendezvous) : Syscall.t :=
  Syscall.set_content
    (memcpy (Syscall.content (rv_urecv rv)) (Syscall.content (rv_usend rv))
       SYSCALL_MSG_LEN)
    (Syscall.set_sender (rv_ps rv) (Syscall.set_status DONE (recv_posted rv))).

(** The SEND names the receiver, and the RECV accepts the sender: by the
    wildcard or by its pid. *)
Definition rv_ok `{Platform} (rv : rendezvous) : Prop :=
  (1 <= rv_s rv < MAX_NPROCESS)%nat /\ (1 <= rv_r rv < MAX_NPROCESS)%nat /\
  rv_s rv <> rv_r rv /\
  Syscall.type (rv_usend rv) = SYS_SEND /\
  Syscall.receiver (rv_usend rv) = rv_pr rv /\
  Syscall.type (rv_urecv rv) = SYS_RECV /\
  (Syscall.sender (rv_urecv rv) = GPID_ALL \/
   Syscall.sender (rv_urecv rv) = rv_ps rv).

(** What holds of the table throughout: the two pids are where they
    should be and nowhere else, neither process sleeps, and no other
    process is blocked in a system call. *)
Definition rv_base (rv : rendezvous) (k : kernel) : Prop :=
  table_ok k /\
  pid (proc_at k (rv_s rv)) = rv_ps rv /\
  pid (proc_at k (rv_r rv)) = rv_pr rv /\
  (forall j, (j <= MAX_NPROCESS)%nat -> pid (proc_at k j) = rv_ps rv -> j = rv_s rv) /\
  (forall j, (j <= MAX_NPROCESS)%nat -> pid (proc_at k j) = rv_pr rv -> j = rv_r rv) /\
  wakeup_time (proc_at k (rv_s rv)) = 0 /\
  wakeup_time (proc_at k (rv_r rv)) = 0 /\
  (forall j, (1 <= j <= MAX_NPROCESS)%nat -> j <> rv_s rv -> j <> rv_r rv ->
     status (proc_at k j) <> PROC_PENDING_SYSCALL).

Definition unblocked (p : process) : Prop :=
  status p = PROC_RUNNABLE \/ status p = PROC_RUNNING.

(** The stages of the rendez-vous. *)

(** Both processes run, each on its core, with their requests ready in
    user space. *)
Definition rv_start (rv : rendezvous) (cs cr : nat) (k : kernel) : Prop :=
  rv_base rv k /\ cs <> cr /\
  core_to_proc_idx k !! cs = Some (rv_s rv) /\
  core_to_proc_idx k !! cr = Some (rv_r rv) /\
  status (proc_at k (rv_s rv)) = PROC_RUNNING /\
  status (proc_at k (rv_r rv)) = PROC_RUNNING /\
  user_syscall k (rv_ps rv) = rv_usend rv /\
  user_syscall k (rv_pr rv) = rv_urecv rv.

(** Only the sender has posted; the receiver still runs on its core. *)
Definition rv_sent (rv : rendezvous) (cr : nat) (k : kernel) : Prop :=
  rv_base rv k /\
  status (proc_at k (rv_s rv)) = PROC_PENDING_SYSCALL /\
  syscall (proc_at k (rv_s rv)) = send_posted rv /\
  core_to_proc_idx k !! cr = Some (rv_r rv) /\
  status (proc_at k (rv_r rv)) = PROC_RUNNING /\
  user_syscall k (rv_pr rv) = rv_urecv rv.

(** Only the receiver has posted; the sender still runs on its core. *)
Definition rv_listening (rv : rendezvous) (cs : nat) (k : kernel) : Prop :=
  rv_base rv k /\
  status (proc_at k (rv_r rv)) = PROC_PENDING_SYSCALL /\
  syscall (proc_at k (rv_r rv)) = recv_posted rv /\
  core_to_proc_idx k !! cs = Some (rv_s rv) /\
  status (proc_at k (rv_s rv)) = PROC_RUNNING /\
  user_syscall k (rv_ps rv) = rv_usend rv.

(** Both have posted and the message has not been copied yet. *)
Definition rv_both_posted (rv : rendezvous) (k : kernel) : Prop :=
  rv_base rv k /\
  status (proc_at k (rv_s rv)) = PROC_PENDING_SYSCALL /\
  syscall (proc_at k (rv_s rv)) = send_posted rv /\
  status (proc_at k (rv_r rv)) = PROC_PENDING_SYSCALL /\
  syscall (proc_at k (rv_r rv)) = recv_posted rv.

(** The message is in the receiver's PCB; both are still blocked. *)
Definition rv_matched `{Platform} (rv : rendezvous) (k : kernel) : Prop :=
  rv_base rv k /\
  status (proc_at k (rv_s rv)) = PROC_PENDING_SYSCALL /\
  syscall (proc_at k (rv_s rv)) = send_posted rv /\
  status (proc_at k (rv_r rv)) = PROC_PENDING_SYSCALL /\
  syscall (proc_at k (rv_r rv)) = recv_done rv.

(** The outcome: both processes are unblocked, and the receiver's record,
    in its PCB and in its address space, holds the message and the pid of
    the sender. *)
Definition rv_delivered `{Platform} (rv : rendezvous) (k : kernel) : Prop :=
  rv_base rv k /\
  unblocked (proc_at k (rv_s rv)) /\
  unblocked (proc_at k (rv_r rv)) /\
  syscall (proc_at k (rv_r rv)) = recv_done rv /\
  user_syscall k (rv_pr rv) = recv_done rv.

(** [X] does not depend on the CPU-time and queue fields. *)
Definition ignores_accounting {A} (X : process -> A) : Prop :=
  (forall v q, X (set_total_cpu_time v q) = X q) /\
  (forall v q, X (set_queue_level v q) = X q) /\
  (forall v q, X (set_queue_time v q) = X q).

(** A step after which every PCB has the pid, the syscall record and the
    wake-up time it had, and user space holds the same syscall records. *)
Definition ipc_frame (k k' : kernel) : Prop :=
  length (proc_set k') = length (proc_set k) /\
  keeps pid k k' /\ keeps syscall k k' /\ keeps wakeup_time k k' /\
  user_syscall k' = user_syscall k.

(** A step that gives slot [i] the status [st] and leaves the other
    statuses. *)
Definition status_to (st : proc_status) (i : nat) (k k' : kernel) : Prop :=
  forall j, status (proc_at k' j) = if decide (j = i) then st else status (proc_at k j).

(** A stage of the rendez-vous that the loops of [proc_yield] can run in:
    it implies the base facts, a retried syscall of any slot returns and
    stays in the stage, and in it the sender or the receiver is ready or
    runnable only once the message is delivered. *)
Definition rv_stage `{Platform} (rv : rendezvous) (I : kernel -> Prop) : Prop :=
  (forall k, I k -> rv_base rv k) /\
  (forall j k, (1 <= j <= MAX_NPROCESS)%nat -> I k ->
     exists k', yield_retry j k = Ok k' /\ I k') /\
  (forall k, I k ->
     ready_or_runnable (proc_at k (rv_s rv)) = true \/
     ready_or_runnable (proc_at k (rv_r rv)) = true ->
     rv_delivered rv k).

(** The loops select the sender or the receiver only once the message is
    delivered. *)
Definition sel_sound `{Platform} (rv : rendezvous) (k : kernel) (next : nat) : Prop :=
  next = rv_s rv \/ next = rv_r rv -> rv_delivered rv k.

(** ** [proc_coresinfo]

    The lines the function prints, in order: the header, then one line per
    core. *)

Inductive coresinfo_line :=
| LineHeader
| LineProcess (core : nat) (p : Z)
| LineIdle (core : nat).

Definition proc_coresinfo `{Platform} (k : kernel) : list coresinfo_line :=
  LineHeader ::
  map (fun i =>
         let idx := core_to_proc_idx k !!! i in
         if (idx <? MAX_NPROCESS)%nat && status_is PROC_RUNNING (proc_at k idx)
         then LineProcess i (pid (proc_at k idx))
         else LineIdle i)
      (seq 0 NCORES).

(** ** Invariants of the table *)

(** Every pid in the table has been handed out by [proc_alloc], whose
    counter has not left the positive range of [int], and no two slots
    hold the same pid other than the 0 of a slot never allocated. *)
Definition pids_issued (k : kernel) : Prop :=
  0 <= alloc_curr_pid k < 2 ^ 31 /\
  forall j, pid (proc_at k j) <= alloc_curr_pid k.

Definition pids_unique (k : kernel) : Prop :=
  forall i j, pid (proc_at k i) = pid (proc_at k j) ->
    pid (proc_at k i) <> 0 -> i = j.

(** Every queue level is one of the [MLFQ_NLEVELS] levels. *)
Definition level_ok (p : process) : Prop :=
  0 <= queue_level p < MLFQ_NLEVELS.

Definition levels_ok (k : kernel) : Prop :=
  forall j, level_ok (proc_at k j).

(** The pids released with [mmu_free], in the order of the calls. *)
Definition freed_pids (tr : list event) : list Z :=
  omap (fun e => match e with EvMmuFree p => Some p | _ => None end) tr.

(** The test of the loops of [proc_free]: a PCB in use that holds the pid,
    and a PCB in use that belongs to a user process. *)
Definition live_with_pid (p : Z) (q : process) : bool :=
  has_pid p q && negb (status_is PROC_UNUSED q).

Definition live_user `{Platform} (q : process) : bool :=
  (GPID_USER_START <=? pid q) && negb (status_is PROC_UNUSED q).

(** The table after the first allocation at boot. *)
Definition one_allocated : kernel :=
  match proc_alloc (boot 5000) with
  | Ok (_, k) => k
  | Fatal _ => boot 5000
  end.

(** The body of the loop of [proc_free(GPID_ALL)] for slot [i]. *)
Definition free_user_step `{Platform} (k : kernel) (i : nat) : kernel :=
  let q := proc_at k i in
  if (GPID_USER_START <=? pid q) && negb (status_is PROC_UNUSED q) then
    let '(current_time, k1) := mtime_get k in
    let k2 := upd_proc i (set_termination_time current_time) k1 in
    let k3 := emit (termination_report (pid (proc_at k2 i)) current_time (proc_at k2 i)) k2 in
    let k4 := emit (EvMmuFree (pid (proc_at k3 i))) k3 in
    upd_proc i (set_status PROC_UNUSED) k4
  else k.

(** The shell and two user processes, one of them in the last slot. *)
Definition shell_and_users : kernel :=
  with_procs
    [(1%nat, sample_pcb 4 PROC_RUNNABLE 0);
     (2%nat, sample_pcb 5 PROC_RUNNABLE 0);
     (16%nat, sample_pcb 6 PROC_RUNNABLE 0)]
    (boot 5000).

(** ** Properties of the table that the kernel maintains slot by slot

    [slotwise P k]: every slot [j] of the table satisfies [P j].
    [kernel_closed P]: [P] survives every write that the code makes to a
    PCB outside of [proc_alloc] and [proc_set_ready]: the assignments of
    a status other than LOADING and READY, the assignments to the fields
    other than [pid], [creation_time] and the two queue fields, the
    update of the queue fields by [mlfq_update_level] and their reset.
    [evolves P k k']: from [k] to [k'] the table keeps its size, the pid
    counter its value, and [P] carries over. *)
Definition slotwise (P : nat -> process -> Prop) (k : kernel) : Prop :=
  forall j, P j (proc_at k j).

Definition kernel_closed (P : nat -> process -> Prop) : Prop :=
  forall j q, P j q ->
    (forall v, v <> PROC_LOADING -> v <> PROC_READY -> P j (set_status v q)) /\
    (forall v, P j (set_syscall v q)) /\
    (forall v, P j (set_mepc v q)) /\
    (forall v, P j (set_saved_registers v q)) /\
    (forall v, P j (set_first_schedule_time v q)) /\
    (forall v, P j (set_last_schedule_time v q)) /\
    (forall v, P j (set_total_cpu_time v q)) /\
    (forall v, P j (set_termination_time v q)) /\
    (forall v, P j (set_timer_interrupt_count v q)) /\
    (forall v, P j (set_wakeup_time v q)) /\
    (forall r, P j (mlfq_update_pcb r q)) /\
    P j (mlfq_clear q).

Definition evolves (P : nat -> process -> Prop) (k k' : kernel) : Prop :=
  length (proc_set k') = length (proc_set k) /\
  alloc_curr_pid k' = alloc_curr_pid k /\
  (slotwise P k -> slotwise P k').

(** Slot [i] is not marked running and has been charged [c] microseconds
    of CPU time. *)
Definition parked (i : nat) (c : Z) (k : kernel) : Prop :=
  status (proc_at k i) <> PROC_RUNNING /\ total_cpu_time (proc_at k i) = c.

(** Core 0 runs process 5 (slot 1), dispatched at the reading 1000 of the
    timer. *)
Definition ticking : kernel := set_curr_proc_idx 1 running_since_1000.

(** [X] is a field that only the code around a context switch writes: the
    saved program counter and the saved registers are such fields. *)
Definition context_field {A} (X : process -> A) : Prop :=
  (forall v q, X (set_status v q) = X q) /\
  (forall v q, X (set_syscall v q) = X q) /\
  (forall v q, X (set_first_schedule_time v q) = X q) /\
  (forall v q, X (set_last_schedule_time v q) = X q) /\
  (forall v q, X (set_total_cpu_time v q) = X q) /\
  (forall v q, X (set_termination_time v q) = X q) /\
  (forall v q, X (set_timer_interrupt_count v q) = X q) /\
  (forall v q, X (set_queue_level v q) = X q) /\
  (forall v q, X (set_queue_time v q) = X q) /\
  (forall v q, X (set_wakeup_time v q) = X q).

(** [F] is a global that the two handlers and what they call do not
    write: anything but the table, the clock position, the reset
    timestamp, the syscall records in user space, the trace, [mstatus]
    and the core-to-process map. *)
Definition handler_blind {A} (F : kernel -> A) : Prop :=
  table_blind F /\ user_blind F /\
  (forall v k, F (set_trace v k) = F k) /\
  (forall v k, F (set_mstatus v k) = F k) /\
  (forall v k, F (set_core_to_proc_idx v k) = F k).

(** * The user applications [wcl] and [grep]

    [apps/user/wcl.c] and [apps/user/grep.c] run in user space on top of
    [app.h], which is not among the sources at hand.  What they use of it
    is a parameter of the development: the inode of the working
    directory, the two file-system calls and, for [grep.c], the block
    size.  A C string is the list of its characters, without the
    terminating NUL; an array of [char] is the list of its bytes, read
    with the total lookup, which gives NUL outside the list.  Each
    program returns its exit code and the lines it prints. *)

Class AppEnv := {
  workdir_ino : Z;
  (* int dir_lookup(int dir_ino, char* name): the inode, or a negative number *)
  dir_lookup : Z -> list byte -> Z;
  (* int file_read(int ino, uint offset, char* block): the return code
     and the block as the call leaves it *)
  file_read : Z -> Z -> list byte -> Z * list byte;
  BLOCK_SIZE : nat
}.

#[global] Instance byte_inhabited : Inhabited byte := populate x00.

#[global] Instance byte_eq_decision : EqDecision byte := byte_eq_dec.

(** The characters of an array up to the first [d]: with [d] the NUL, the C
    string that starts the array. *)
Fixpoint until (d : byte) (s : list byte) : list byte :=
  match s with
  | [] => []
  | c :: r => if Byte.eqb c d then [] else c :: until d r
  end.

Definition c_text (buf : list byte) : list byte := until x00 buf.

(** The pieces into which the occurrences of [d] cut a text. *)
Fixpoint split_on (d : byte) (s : list byte) : list (list byte) :=
  match s with
  | [] => [[]]
  | c :: r =>
      if Byte.eqb c d then [] :: split_on d r
      else match split_on d r with
           | piece :: pieces => (c :: piece) :: pieces
           | [] => [[c]]
           end
  end.

Definition is_empty (s : list byte) : bool :=
  match s with [] => true | _ => false end.

Module Wcl.

Definition BLOCK_SIZE : nat := 512.

Inductive line :=
| Usage
| NotFound (filename : list byte)
| Total (total_lines : Z).

(** The loop over the block, from index [i] with [n] indices to go. *)
Fixpoint count_loop (buf : list byte) (i n : nat) (lines : Z) (has_content : bool)
    : Z * bool :=
  match n with
  | O => (lines, has_content)
  | S n' =>
      let c := buf !!! i in
      if Byte.eqb c x00 then (lines, has_content)
      else if Byte.eqb c x0a then count_loop buf (S i) n' (s32 (lines + 1)) false
      else if negb (Byte.eqb c x0d) && negb (Byte.eqb c x00)
      then count_loop buf (S i) n' lines true
      else count_loop buf (S i) n' lines has_content
  end.

(** The count for one block, "the last line if it has content" included. *)
Definition count_lines (buf : list byte) : Z :=
  let '(lines, has_content) := count_loop buf 0 BLOCK_SIZE 0 false in
  if has_content then s32 (lines + 1) else lines.

(** The body of the loop over the arguments. *)
Definition count_file `{AppEnv} (acc : Z * list line) (filename : list byte)
    : Z * list line :=
  let '(total_lines, out) := acc in
  let file_ino := dir_lookup workdir_ino filename in
  if file_ino <? 0 then (total_lines, out ++ [NotFound filename])
  else
    let buf := replicate BLOCK_SIZE x00 in
    let '(ret, buf) := file_read file_ino 0 buf in
    if ret <? 0 then (total_lines, out)
    else (s32 (total_lines + count_lines buf), out).

Definition main `{AppEnv} (argv : list (list byte)) : Z * list line :=
  if (length argv <? 2)%nat then (-1, [Usage])
  else
    let '(total_lines, out) := foldl count_file (0, []) (drop 1 argv) in
    (0, out ++ [Total total_lines]).

(** What counts as content: any character but the carriage return (the
    line feed and the NUL never reach the test). *)
Definition is_content (c : byte) : bool := negb (Byte.eqb c x0d).

(** The count as a reader of the program would put it: the pieces of the
    text before the last line feed, and the rest if it has content. *)
Definition lines_of_text (text : list byte) : Z :=
  let pieces := split_on x0a text in
  Z.of_nat (length pieces - 1) +
  (if existsb is_content (List.last pieces []) then 1 else 0).

(** What one argument contributes: the count of the first block of the
    file it names, or nothing when the file is missing or cannot be read. *)
Definition missing `{AppEnv} (filename : list byte) : bool :=
  dir_lookup workdir_ino filename <? 0.

Definition file_count `{AppEnv} (filename : list byte) : Z :=
  if missing filename then 0
  else
    let '(ret, buf) :=
      file_read (dir_lookup workdir_ino filename) 0 (replicate BLOCK_SIZE x00) in
    if ret <? 0 then 0 else count_lines buf.

End Wcl.

Module Grep.

Definition PATTERN_SIZE : nat := 256.

Inductive line :=
| Usage
| UsageExample
| NotFound (filename : list byte)
| Match (text : list byte).

(** [strcat(dst, src)] into an array of [cap] characters; [None] when the
    result with its NUL does not fit, which the C standard leaves
    undefined. *)
Definition strcat (cap : nat) (dst src : list byte) : option (list byte) :=
  if (length dst + length src <? cap)%nat then Some (dst ++ src) else None.

(** The loop that builds the pattern, from argument [i] on. *)
Fixpoint build_pattern (i : nat) (pattern : list byte) (words : list (list byte))
    : option (list byte) :=
  match words with
  | [] => Some pattern
  | w :: rest =>
      match (if (1 <? i)%nat then strcat PATTERN_SIZE pattern [x20] else Some pattern) with
      | Some pattern1 =>
          match strcat PATTERN_SIZE pattern1 w with
          | Some pattern2 => build_pattern (S i) pattern2 rest
          | None => None
          end
      | None => None
      end
  end.

(** [strstr(haystack, needle) != NULL]. *)
Fixpoint starts_with (needle s : list byte) : bool :=
  match needle, s with
  | [], _ => true
  | a :: needle', b :: s' => Byte.eqb a b && starts_with needle' s'
  | _ :: _, [] => false
  end.

Fixpoint strstr (haystack needle : list byte) : bool :=
  starts_with needle haystack ||
  match haystack with
  | [] => false
  | _ :: rest => strstr rest needle
  end.

(** [strtok] with the one delimiter [d], on the text that remains: skip the
    delimiters, then cut the token at the next delimiter; [None] is the
    null pointer.  The second component is the text that remains for the
    next call. *)
Fixpoint skip (d : byte) (s : list byte) : list byte :=
  match s with
  | [] => []
  | c :: r => if Byte.eqb c d then skip d r else s
  end.

Fixpoint cut (d : byte) (s : list byte) : list byte * list byte :=
  match s with
  | [] => ([], [])
  | c :: r =>
      if Byte.eqb c d then ([], r)
      else let '(token, rest) := cut d r in (c :: token, rest)
  end.

Definition strtok (d : byte) (s : list byte) : option (list byte * list byte) :=
  match skip d s with
  | [] => None
  | s1 => Some (cut d s1)
  end.

(** The loop over the lines; [fuel] bounds the number of iterations. *)
Fixpoint search (fuel : nat) (pattern : list byte) (rest : list byte)
    (found_any : bool) (out : list line) : bool * list line :=
  match fuel with
  | O => (found_any, out)
  | S fuel' =>
      match strtok x0a rest with
      | None => (found_any, out)
      | Some (text, rest') =>
          if strstr text pattern
          then search fuel' pattern rest' true (out ++ [Match text])
          else search fuel' pattern rest' found_any out
      end
  end.

(** [None]: the program leaves defined behaviour, by overflowing
    [pattern] or by reading a block without a NUL as a string. *)
Definition main `{AppEnv} (argv : list (list byte)) : option (Z * list line) :=
  let argc := length argv in
  if (argc <? 3)%nat then Some (-1, [Usage; UsageExample])
  else
    match build_pattern 1 [] (take (argc - 2) (drop 1 argv)) with
    | None => None
    | Some pattern =>
        let filename := List.last argv [] in
        let file_ino := dir_lookup workdir_ino filename in
        if file_ino <? 0 then Some (-1, [NotFound filename])
        else
          let buf := replicate BLOCK_SIZE x00 in
          let '(_, buf) := file_read file_ino 0 buf in
          if existsb (Byte.eqb x00) buf then
            let '(found_any, out) :=
              search (S (length (c_text buf))) pattern (c_text buf) false [] in
            Some (if found_any then 0 else 1, out)
          else None
    end.

(** The pattern and the lines as a reader of the program would put them:
    the words joined by single spaces, and the pieces between line feeds
    that are not empty. *)
Fixpoint join_words (words : list (list byte)) : list byte :=
  match words with
  | [] => []
  | [w] => w
  | w :: rest => w ++ x20 :: join_words rest
  end.

Definition lines_of_text (text : list byte) : list (list byte) :=
  List.filter (fun piece => negb (is_empty piece)) (split_on x0a text).

End Grep.

(** A sample file system: a file [notes] whose first block holds three
    lines, the second one ended by CR LF and the last one without a line
    feed; no other file. *)
Definition notes_name : list byte := [x6e; x6f; x74; x65; x73].

Definition notes_block : list byte :=
  [x61; x62; x0a; x63; x20; x64; x0d; x0a; x0a; x61; x63] ++ replicate 501 x00.

Definition sample_files : AppEnv :=
  {| workdir_ino := 1;
     dir_lookup := fun _ name =>
       if bool_decide (name = notes_name) then 7 else -1;
     file_read := fun ino _ buf =>
       if ino =? 7 then (0, notes_block) else (-1, buf);
     BLOCK_SIZE := 512 |}.

(** Process 5 (slot 1) is blocked in a SEND to process 6 (slot 2), which is
    blocked in a RECV from anyone; nothing has been copied yet. *)
Definition sample_rendezvous : rendezvous :=
  mkRendezvous 1 2 5 6 (send_record 6 msg_hi) (recv_record (-1)).

Definition posted_pair : kernel :=
  with_procs
    [(1%nat, set_syscall (send_record 6 msg_hi) (sample_pcb 5 PROC_PENDING_SYSCALL 0));
     (2%nat, set_syscall (recv_record (-1)) (sample_pcb 6 PROC_PENDING_SYSCALL 0))]
    (boot 5000).

(** A key has been pressed five milliseconds after boot: the shell (pid 4)
    sits in slot 2 on level 3, a second PCB with the shell's pid in slot 5
    on level 2, and a user process in slot 1 on level 1. *)
Definition key_pressed : kernel :=
  let k := with_procs
             [(1%nat, sample_pcb 5 PROC_RUNNABLE 1);
              (2%nat, set_queue_time 700 (sample_pcb 4 PROC_RUNNABLE 3));
              (5%nat, sample_pcb 4 PROC_RUNNABLE 2)]
             (boot 5000) in
  mkKernel (core_in_kernel k) (core_to_proc_idx k) (proc_set k) (alloc_curr_pid k)
    (MLFQ_last_reset_time k) (mhartid k) (mcause k) (csr_mepc k) (mstatus k)
    (saved_register_area k) (clock k) (clock_reads k) false
    (user_syscall k) (trace k).

(** ** Runs from boot

    States reached from [boot] by the operations of the kernel alone.  A
    user process takes part by what it leaves at its [SYSCALL_ARG] before
    an environment call. *)
Definition user_writes (p : Z) (r : Syscall.t) (k : kernel) : kernel :=
  set_user_syscall (fun q => if q =? p then r else user_syscall k q) k.

(** One process: allocated, marked READY, and dispatched on core 0 by the
    timer interrupt of the idle core. *)
Definition one_running : result kernel :=
  r <- proc_alloc (boot 5000) ;;
  let '(p, k1) := r in
  trap (H := sample_platform) 0 CAUSE_TIMER (proc_set_ready p k1).

(** Two processes, pid 1 on core 0 and pid 2 on core 1. *)
Definition two_running : result kernel :=
  r <- alloc_n 2 (boot 5000) ;;
  let '(_, k1) := r in
  k2 <- trap (H := sample_platform) 0 CAUSE_TIMER (proc_set_ready 2 (proc_set_ready 1 k1)) ;;
  trap (H := sample_platform) 1 CAUSE_TIMER k2.

(** Process 2 asks to receive from anyone and blocks; process 1 then sends
    to it.  The message is delivered in the trap of the sender, which
    dispatches process 2 on core 0: it runs with a completed RECV in its
    record. *)
Definition received_pair : result kernel :=
  k <- two_running ;;
  k1 <- trap (H := sample_platform) 1 CAUSE_ECALL (user_writes 2 (recv_record (-1)) k) ;;
  trap (H := sample_platform) 0 CAUSE_ECALL (user_writes 1 (send_record 2 msg_hi) k1).


(** ** The table in the states the kernel reaches

    Slot 0 is the place holder of the idle cores and keeps the pid 0 of
    the zero-filled table; a PCB in use holds a pid that [proc_alloc] has
    issued, which is not 0.  The last slot, [proc_set[MAX_NPROCESS]], is
    written by [proc_alloc] alone, the loops of the status helpers ending
    one slot earlier: it is UNUSED or LOADING. *)
Definition named (k : kernel) : Prop :=
  pid (proc_at k 0) = 0 /\
  forall j, j <> 0%nat -> status (proc_at k j) <> PROC_UNUSED -> pid (proc_at k j) <> 0.

Definition last_slot_unstarted (k : kernel) : Prop :=
  status (proc_at k MAX_NPROCESS) = PROC_UNUSED \/
  status (proc_at k MAX_NPROCESS) = PROC_LOADING.

Definition table_inv (k : kernel) : Prop :=
  table_ok k /\ pids_unique k /\ named k /\ last_slot_unstarted k.

(** ** Blocked processes, as the loops of [proc_yield] meet them *)

(** The test of [proc_try_send] on the record of the destination: it is
    in a RECV that is pending and takes messages of the process [p]. *)
Definition receiving_from `{Platform} (p : Z) (r : Syscall.t) : bool :=
  bool_decide (Syscall.type r = SYS_RECV) && bool_decide (Syscall.status r = PENDING)
  && ((Syscall.sender r =? GPID_ALL) || (Syscall.sender r =? p)).

(** A blocked receiver whose message has arrived, and a blocked sender. *)
Definition recv_arrived (q : process) : Prop :=
  status q = PROC_PENDING_SYSCALL /\ Syscall.type (syscall q) = SYS_RECV /\
  Syscall.status (syscall q) <> PENDING.

Definition send_blocked (q : process) : Prop :=
  status q = PROC_PENDING_SYSCALL /\ Syscall.type (syscall q) = SYS_SEND.

(** What [proc_try_send] on slot [s] does when the destination, in slot
    [d], takes the message: only the record of the destination changes;
    it is marked DONE and names the sender. *)
Definition matched (s d : nat) (k k' : kernel) : Prop :=
  length (proc_set k') = length (proc_set k) /\
  keeps pid k k' /\ keeps status k k' /\ keeps wakeup_time k k' /\
  (forall j, j <> d -> syscall (proc_at k' j) = syscall (proc_at k j)) /\
  Syscall.type (syscall (proc_at k' d)) = SYS_RECV /\
  Syscall.status (syscall (proc_at k' d)) = DONE /\
  Syscall.sender (syscall (proc_at k' d)) = pid (proc_at k s).

(** What [proc_try_recv] on slot [i] does once the message has arrived. *)
Definition delivery (i : nat) (k : kernel) : kernel :=
  let r := proc_at k i in
  proc_set_runnable (Syscall.sender (syscall r))
    (proc_set_runnable (pid r)
       (set_user_syscall (fun q => if q =? pid r then syscall r else user_syscall k q) k)).

(** What the first loop of [proc_yield] has established of the slots 1 to
    [n] once it has visited them.  A receiver among them that is still
    blocked although its message has arrived got the message from a
    sender that the loop visited later; a sender among them that is still
    blocked has a destination that does not take its message.  The
    fallback loop therefore completes no SEND, and the processes that its
    retries unblock are in slots it has yet to visit. *)
Definition arrivals_ahead (n : nat) (k : kernel) : Prop :=
  forall j, (1 <= j <= n)%nat -> recv_arrived (proc_at k j) ->
    exists s, (j < s <= n)%nat /\
      find_slot (has_pid (Syscall.sender (syscall (proc_at k j)))) k = Some s.

Definition senders_wait `{Platform} (n : nat) (k : kernel) : Prop :=
  forall s, (1 <= s <= n)%nat -> send_blocked (proc_at k s) ->
    exists d,
      find_slot (live_with_pid (Syscall.receiver (syscall (proc_at k s)))) k = Some d /\
      receiving_from (pid (proc_at k s)) (syscall (proc_at k d)) = false.

Definition scanned `{Platform} (n : nat) (k : kernel) : Prop :=
  table_inv k /\ arrivals_ahead n k /\ senders_wait n k.

(** No slot from 1 to [n] is a candidate. *)
Definition none_eligible (now : Z) (n : nat) (k : kernel) : Prop :=
  forall j, (1 <= j <= n)%nat -> eligible now (proc_at k j) = false.

(** The two ways in which a retried system call halts the kernel. *)
Definition halted_in_syscall (f : fatal) : Prop :=
  (exists ty, f = FatalUnknownSyscall ty) \/ (exists p, f = FatalUnknownReceiver p).

(** Sixteen processes allocated after boot, of which the loader has made
    the last two READY.  The sixteenth, in [proc_set[MAX_NPROCESS]],
    stays LOADING: [proc_set_ready] does not reach its slot. *)
Definition last_two_ready : kernel :=
  proc_set_ready 15 (proc_set_ready 16 sixteen_allocated).

(** The only process asks to receive: boot, one allocation, the process
    made READY and dispatched on core 0, its RECV from anyone. *)
Definition lone_receiver : result kernel :=
  k <- one_running ;;
  trap (H := sample_platform) 0 CAUSE_ECALL (user_writes 1 (recv_record (-1)) k).
(** ** Basic facts about the table *)

Lemma proc_at_upd_eq k i f :
  (i < length (proc_set k))%nat -> proc_at (upd_proc i f k) i = f (proc_at k i).
Proof.
  intros Hi. unfold proc_at, upd_proc. simpl.
  apply list_lookup_total_insert_eq. exact Hi.
Qed.

Lemma proc_at_upd_ne k i j f :
  i <> j -> proc_at (upd_proc i f k) j = proc_at k j.
Proof.
  intros Hij. unfold proc_at, upd_proc. simpl.
  apply list_lookup_total_insert_ne. exact Hij.
Qed.

Lemma upd_proc_length k i f :
  length (proc_set (upd_proc i f k)) = length (proc_set k).
Proof. unfold upd_proc. simpl. apply length_insert. Qed.

Lemma table_ok_upd k i f : table_ok k -> table_ok (upd_proc i f k).
Proof. unfold table_ok. now rewrite upd_proc_length. Qed.

Lemma proc_at_same_table k k' j : proc_set k' = proc_set k -> proc_at k' j = proc_at k j.
Proof. unfold proc_at. now intros ->. Qed.

(** Writes to the other globals leave the table alone. *)
Lemma proc_at_set_core_in_kernel v k j : proc_at (set_core_in_kernel v k) j = proc_at k j.
Proof. reflexivity. Qed.

Lemma proc_at_set_core_to_proc_idx v k j : proc_at (set_core_to_proc_idx v k) j = proc_at k j.
Proof. reflexivity. Qed.

Lemma proc_at_set_alloc_curr_pid v k j : proc_at (set_alloc_curr_pid v k) j = proc_at k j.
Proof. reflexivity. Qed.

Lemma proc_at_set_MLFQ_last_reset_time v k j : proc_at (set_MLFQ_last_reset_time v k) j = proc_at k j.
Proof. reflexivity. Qed.

Lemma proc_at_set_csr_mepc v k j : proc_at (set_csr_mepc v k) j = proc_at k j.
Proof. reflexivity. Qed.

Lemma proc_at_set_mstatus v k j : proc_at (set_mstatus v k) j = proc_at k j.
Proof. reflexivity. Qed.

Lemma proc_at_set_saved_register_area v k j : proc_at (set_saved_register_area v k) j = proc_at k j.
Proof. reflexivity. Qed.

Lemma proc_at_set_clock_reads v k j : proc_at (set_clock_reads v k) j = proc_at k j.
Proof. reflexivity. Qed.

Lemma proc_at_set_user_syscall v k j : proc_at (set_user_syscall v k) j = proc_at k j.
Proof. reflexivity. Qed.

Lemma proc_at_set_trace v k j : proc_at (set_trace v k) j = proc_at k j.
Proof. reflexivity. Qed.

Lemma proc_at_emit v k j : proc_at (emit v k) j = proc_at k j.
Proof. reflexivity. Qed.

Lemma proc_at_set_curr_proc_idx v k j : proc_at (set_curr_proc_idx v k) j = proc_at k j.
Proof. reflexivity. Qed.

Lemma proc_at_mtime_get k j : proc_at (snd (mtime_get k)) j = proc_at k j.
Proof. reflexivity. Qed.

Create Rewrite HintDb frame.

Lemma proc_set_set_core_in_kernel v k : proc_set (set_core_in_kernel v k) = proc_set k.
Proof. reflexivity. Qed.

Lemma proc_set_set_core_to_proc_idx v k : proc_set (set_core_to_proc_idx v k) = proc_set k.
Proof. reflexivity. Qed.

Lemma proc_set_set_alloc_curr_pid v k : proc_set (set_alloc_curr_pid v k) = proc_set k.
Proof. reflexivity. Qed.

Lemma proc_set_set_MLFQ_last_reset_time v k : proc_set (set_MLFQ_last_reset_time v k) = proc_set k.
Proof. reflexivity. Qed.

Lemma proc_set_set_csr_mepc v k : proc_set (set_csr_mepc v k) = proc_set k.
Proof. reflexivity. Qed.

Lemma proc_set_set_mstatus v k : proc_set (set_mstatus v k) = proc_set k.
Proof. reflexivity. Qed.

Lemma proc_set_set_saved_register_area v k : proc_set (set_saved_register_area v k) = proc_set k.
Proof. reflexivity. Qed.

Lemma proc_set_set_clock_reads v k : proc_set (set_clock_reads v k) = proc_set k.
Proof. reflexivity. Qed.

Lemma proc_set_set_user_syscall v k : proc_set (set_user_syscall v k) = proc_set k.
Proof. reflexivity. Qed.

Lemma proc_set_set_trace v k : proc_set (set_trace v k) = proc_set k.
Proof. reflexivity. Qed.

Lemma proc_set_emit v k : proc_set (emit v k) = proc_set k.
Proof. reflexivity. Qed.

Lemma proc_set_set_curr_proc_idx v k : proc_set (set_curr_proc_idx v k) = proc_set k.
Proof. reflexivity. Qed.

#[global] Hint Rewrite proc_set_set_core_in_kernel proc_set_set_core_to_proc_idx proc_set_set_alloc_curr_pid proc_set_set_MLFQ_last_reset_time proc_set_set_csr_mepc proc_set_set_mstatus proc_set_set_saved_register_area proc_set_set_clock_reads proc_set_set_user_syscall proc_set_set_trace proc_set_emit proc_set_set_curr_proc_idx : frame.

(** Run a [bind] whose first computation is known. *)
Ltac kbind := unfold bind; cbv beta iota zeta.

(** Run a clock reading. *)
Ltac kstep := cbn [andb]; unfold mtime_get; cbv beta iota zeta.
#[global] Hint Rewrite proc_at_set_core_in_kernel proc_at_set_core_to_proc_idx proc_at_set_alloc_curr_pid proc_at_set_MLFQ_last_reset_time proc_at_set_csr_mepc proc_at_set_mstatus proc_at_set_saved_register_area proc_at_set_clock_reads proc_at_set_user_syscall proc_at_set_trace proc_at_emit proc_at_set_curr_proc_idx proc_at_mtime_get : frame.

Lemma scan_from_Some cond ps i n j :
  scan_from cond ps i n = Some j ->
  (i <= j < i + n)%nat /\ cond (ps !!! j) = true /\
  forall m, (i <= m < j)%nat -> cond (ps !!! m) = false.
Proof.
  revert i. induction n as [|n IH]; intros i Hs; simpl in Hs; [discriminate|].
  destruct (cond (ps !!! i)) eqn:Hc.
  - injection Hs as <-. repeat split; [lia | lia | exact Hc | intros m Hm; lia].
  - apply IH in Hs as (Hr & Hj & Hlt). repeat split; [lia | lia | exact Hj |].
    intros m Hm. destruct (decide (m = i)) as [->|Hne]; [exact Hc|].
    apply Hlt. lia.
Qed.

Lemma scan_from_None cond ps i n :
  scan_from cond ps i n = None ->
  forall m, (i <= m < i + n)%nat -> cond (ps !!! m) = false.
Proof.
  revert i. induction n as [|n IH]; intros i Hs m Hm; simpl in Hs; [lia|].
  destruct (cond (ps !!! i)) eqn:Hc; [discriminate|].
  destruct (decide (m = i)) as [->|Hne]; [exact Hc|].
  apply (IH (S i)); [exact Hs | lia].
Qed.

Lemma scan_from_first cond ps i n j :
  (i <= j < i + n)%nat -> cond (ps !!! j) = true ->
  (forall m, (i <= m < j)%nat -> cond (ps !!! m) = false) ->
  scan_from cond ps i n = Some j.
Proof.
  revert i. induction n as [|n IH]; intros i Hr Hj Hlt; simpl; [lia|].
  destruct (decide (i = j)) as [->|Hne]; [now rewrite Hj|].
  rewrite Hlt by lia. apply IH; [lia | exact Hj | intros m Hm; apply Hlt; lia].
Qed.

(** Two tables that agree on the scanned condition give the same scan. *)
Lemma scan_from_ext cond cond' ps ps' i n :
  (forall m, (i <= m < i + n)%nat -> cond (ps !!! m) = cond' (ps' !!! m)) ->
  scan_from cond ps i n = scan_from cond' ps' i n.
Proof.
  revert i. induction n as [|n IH]; intros i Hext; simpl; [reflexivity|].
  rewrite (Hext i) by lia. rewrite (IH (S i)); [reflexivity|].
  intros m Hm. apply Hext. lia.
Qed.

(** ** Machine integers *)

Lemma s32_small z : - 2 ^ 31 <= z < 2 ^ 31 -> s32 z = z.
Proof. intros Hz. unfold s32. rewrite Z.mod_small; lia. Qed.

Lemma u64_small z : 0 <= z < 2 ^ 64 -> u64 z = z.
Proof. intros Hz. unfold u64. now rewrite Z.mod_small. Qed.

Lemma u64_range z : 0 <= u64 z < 2 ^ 64.
Proof. unfold u64. apply Z.mod_pos_bound. lia. Qed.

Lemma mtime_now_range k : 0 <= mtime_now k < 2 ^ 64.
Proof. apply u64_range. Qed.

Lemma MLFQ_LEVEL_RUNTIME_small x :
  0 <= x < MLFQ_NLEVELS -> MLFQ_LEVEL_RUNTIME x = (x + 1) * 100000.
Proof.
  unfold MLFQ_NLEVELS, MLFQ_LEVEL_RUNTIME. intros Hx.
  rewrite (s32_small (x + 1)) by lia. apply s32_small. lia.
Qed.

(** ** MLFQ demotion (C5) *)

Lemma mlfq_update_pcb_above_bottom runtime p :
  0 <= queue_level p < MLFQ_NLEVELS - 1 ->
  mlfq_update_pcb runtime p = mlfq_update_as_specified runtime p.
Proof.
  unfold MLFQ_NLEVELS. intros Hl.
  unfold mlfq_update_pcb, mlfq_update_as_specified, MLFQ_NLEVELS, MLFQ_LEVELS.
  destruct (Z.leb_spec (5 - 1) (queue_level p)) as [Hge|_]; [lia|].
  cbn [queue_level queue_time set_queue_time].
  rewrite MLFQ_LEVEL_RUNTIME_small by (unfold MLFQ_NLEVELS; lia).
  pose proof (u64_range (queue_time p + runtime)) as Hq.
  unfold u64_add.
  rewrite (u64_small ((queue_level p + 1) * 100000)) by lia.
  rewrite (s32_small (queue_level p + 1)) by lia.
  replace (queue_level p <? 5 - 1) with true by (symmetry; apply Z.ltb_lt; lia).
  now rewrite andb_true_r.
Qed.

Lemma mlfq_update_pcb_bottom runtime p :
  MLFQ_NLEVELS - 1 <= queue_level p -> mlfq_update_pcb runtime p = p.
Proof.
  intros Hl. unfold mlfq_update_pcb.
  now replace (MLFQ_NLEVELS - 1 <=? queue_level p) with true
    by (symmetry; apply Z.leb_le; lia).
Qed.

(** C5, as the specification states it, fails on the bottom level: the
    source returns before it adds the runtime, so [queue_time] stays 0
    where the specification has it grow to 7. *)
Lemma mlfq_update_level_bottom_adds_nothing :
  let k := with_procs [(1%nat, bottom_level_pcb)] (boot 5000) in
  let after := proc_at (mlfq_update_level (Some 1%nat) 7 k) 1 in
  queue_time after = 0 /\
  queue_time (mlfq_update_as_specified 7 (proc_at k 1)) = 7 /\
  after <> mlfq_update_as_specified 7 (proc_at k 1).
Proof. vm_compute. repeat split; congruence. Qed.

(** C5, amended: above the bottom level [mlfq_update_level] adds the
    runtime to [queue_time] and, when the sum has reached
    [(queue_level + 1) * 100000], increments [queue_level] and clears
    [queue_time], exactly as specified; on the bottom level
    ([queue_level >= MLFQ_NLEVELS - 1]) it returns without touching the
    PCB, so the runtime is not added and there is no further demotion; no
    other PCB changes, and a null pointer changes nothing. *)
Theorem mlfq_update_level_spec k i j runtime :
  (i < length (proc_set k))%nat ->
  0 <= queue_level (proc_at k i) ->
  proc_at (mlfq_update_level (Some i) runtime k) i =
    (if MLFQ_NLEVELS - 1 <=? queue_level (proc_at k i) then proc_at k i
     else mlfq_update_as_specified runtime (proc_at k i)) /\
  (j <> i -> proc_at (mlfq_update_level (Some i) runtime k) j = proc_at k j) /\
  mlfq_update_level None runtime k = k.
Proof.
  intros Hi Hl. split; [|split].
  - unfold mlfq_update_level. rewrite proc_at_upd_eq by exact Hi.
    destruct (Z.leb_spec (MLFQ_NLEVELS - 1) (queue_level (proc_at k i))) as [Hb|Hb].
    + now apply mlfq_update_pcb_bottom.
    + apply mlfq_update_pcb_above_bottom. lia.
  - intros Hne. unfold mlfq_update_level. apply proc_at_upd_ne. congruence.
  - reflexivity.
Qed.

Lemma mlfq_update_level_spec_witness :
  let k := with_procs [(1%nat, nearly_expired_pcb)] (boot 5000) in
  (1 < length (proc_set k))%nat /\
  0 <= queue_level (proc_at k 1) /\
  proc_at (mlfq_update_level (Some 1%nat) 20 k) 1 =
    set_queue_time 0 (set_queue_level 1 nearly_expired_pcb).
Proof.
  split; [vm_compute; lia|]. split; [vm_compute; discriminate|].
  refine (eq_trans (proj1 (mlfq_update_level_spec
    (with_procs [(1%nat, nearly_expired_pcb)] (boot 5000)) 1 1 20 _ _)) _).
  - vm_compute. lia.
  - vm_compute. discriminate.
  - reflexivity.
Defined.

(** ** Periodic reset (C6) *)

(** A loop that rewrites, slot by slot, the PCBs that satisfy a condition. *)
Lemma foldl_upd_proc_at (c : process -> bool) (f : process -> process) l k j :
  NoDup l -> (forall i, i ∈ l -> (i < length (proc_set k))%nat) ->
  proc_at (foldl (fun k i => if c (proc_at k i) then upd_proc i f k else k) k l) j =
    if bool_decide (j ∈ l) && c (proc_at k j) then f (proc_at k j) else proc_at k j.
Proof.
  revert k. induction l as [|a l IH]; intros k Hnd Hlen; simpl.
  - reflexivity.
  - apply NoDup_cons in Hnd as [Ha Hnd].
    assert (Hal : (a < length (proc_set k))%nat) by (apply Hlen; left).
    rewrite IH; [|exact Hnd|].
    2:{ intros i Hi. destruct (c (proc_at k a)); [rewrite upd_proc_length|];
        apply Hlen; now right. }
    destruct (decide (j = a)) as [->|Hne].
    + rewrite (bool_decide_eq_false_2 _ Ha). simpl.
      rewrite bool_decide_eq_true_2 by left. simpl.
      destruct (c (proc_at k a)); [now rewrite proc_at_upd_eq|reflexivity].
    + assert (Hsame : proc_at (if c (proc_at k a) then upd_proc a f k else k) j = proc_at k j).
      { destruct (c (proc_at k a)); [apply proc_at_upd_ne; congruence|reflexivity]. }
      rewrite Hsame.
      assert (Hmem : bool_decide (j ∈ a :: l) = bool_decide (j ∈ l)).
      { apply bool_decide_ext. rewrite elem_of_cons.
        split; [intros [?|?]; [congruence|assumption] | intros ?; now right]. }
      now rewrite Hmem.
Qed.

Lemma elem_of_seq_slots (j a n : nat) : j ∈ seq a n <-> (a <= j < a + n)%nat.
Proof. rewrite list_elem_of_In, in_seq. lia. Qed.

Lemma mlfq_clear_status p : status (mlfq_clear p) = status p.
Proof. reflexivity. Qed.

Section Reset.
Context `{Platform}.

Lemma after_boost_status k j : status (proc_at (after_boost k) j) = status (proc_at k j).
Proof.
  unfold after_boost. destruct (negb _); [|reflexivity].
  destruct (find_slot _ _) as [i|]; [|reflexivity].
  destruct (decide (i = j)) as [->|Hne].
  - destruct (decide (j < length (proc_set (snd (mtime_get k))))%nat) as [Hj|Hj].
    + now rewrite proc_at_upd_eq.
    + unfold upd_proc, proc_at. simpl. rewrite list_insert_ge by (simpl in Hj; lia).
      reflexivity.
  - now rewrite proc_at_upd_ne.
Qed.

Lemma after_boost_length k : length (proc_set (after_boost k)) = length (proc_set k).
Proof.
  unfold after_boost. destruct (negb _); [|reflexivity].
  destruct (find_slot _ _) as [i|]; [|reflexivity].
  now rewrite upd_proc_length.
Qed.

Lemma after_boost_last_reset k :
  MLFQ_last_reset_time (after_boost k) = MLFQ_last_reset_time k.
Proof.
  unfold after_boost. destruct (negb _); [|reflexivity].
  now destruct (find_slot _ _).
Qed.

Lemma after_boost_quiet k :
  tty_input_empty k = true -> proc_set (after_boost k) = proc_set k.
Proof. unfold after_boost. simpl. now intros ->. Qed.

Lemma mlfq_reset_level_unfold k :
  mlfq_reset_level k =
    if MLFQ_RESET_PERIOD <=? u64_sub (mtime_now k) (MLFQ_last_reset_time k) then
      set_MLFQ_last_reset_time (mtime_now k)
        (foldl (fun k i =>
           if negb (status_is PROC_UNUSED (proc_at k i)) then upd_proc i mlfq_clear k else k)
         (after_boost k) (seq 0 MAX_NPROCESS))
    else after_boost k.
Proof.
  unfold mlfq_reset_level. rewrite <- (after_boost_last_reset k).
  reflexivity.
Qed.

(** C6, as the specification states it, fails at the first call: the
    timestamp starts at zero, but five milliseconds after boot fewer than
    [MLFQ_RESET_PERIOD] microseconds have elapsed since zero, so the call
    resets nothing and the demoted process stays on level 2. *)
Lemma first_reset_call_may_reset_nothing :
  let k := demoted_before_first_reset in
  MLFQ_last_reset_time k = 0 /\ clock_reads k = 0%nat /\
  status (proc_at k 1) = PROC_RUNNABLE /\
  queue_level (proc_at (mlfq_reset_level (H := sample_platform) k) 1) = 2 /\
  queue_time (proc_at (mlfq_reset_level (H := sample_platform) k) 1) = 300 /\
  MLFQ_last_reset_time (mlfq_reset_level (H := sample_platform) k) = 0.
Proof. vm_compute. repeat split; reflexivity. Qed.

(** C6, amended: when at least [MLFQ_RESET_PERIOD] microseconds have
    elapsed since the recorded last reset (the 64-bit difference of the
    clock reading and the timestamp), [mlfq_reset_level] clears
    [queue_level] and [queue_time] of every non-UNUSED PCB at a table index
    below [MAX_NPROCESS] and records the clock reading as the new last
    reset; otherwise the timestamp stays and, without keyboard input, the
    table is unchanged.  The timestamp starts at zero, so at the first call
    the elapsed time is the clock reading itself: the first call resets
    exactly when the clock has already reached [MLFQ_RESET_PERIOD]. *)
Theorem mlfq_reset_level_periodic k :
  table_ok k ->
  let elapsed := u64_sub (mtime_now k) (MLFQ_last_reset_time k) in
  let k' := mlfq_reset_level k in
  (MLFQ_RESET_PERIOD <= elapsed ->
     MLFQ_last_reset_time k' = mtime_now k /\
     forall i, (i < MAX_NPROCESS)%nat -> status (proc_at k i) <> PROC_UNUSED ->
       queue_level (proc_at k' i) = 0 /\ queue_time (proc_at k' i) = 0 /\
       status (proc_at k' i) = status (proc_at k i)) /\
  (elapsed < MLFQ_RESET_PERIOD ->
     MLFQ_last_reset_time k' = MLFQ_last_reset_time k /\
     (tty_input_empty k = true -> proc_set k' = proc_set k)) /\
  (MLFQ_last_reset_time k = 0 -> elapsed = mtime_now k).
Proof.
  intros Hok elapsed k'. subst elapsed k'. rewrite mlfq_reset_level_unfold.
  split; [|split].
  - intros Hel.
    replace (MLFQ_RESET_PERIOD <=? _) with true by (symmetry; now apply Z.leb_le).
    split; [reflexivity|]. intros i Hi Hused.
    rewrite proc_at_set_MLFQ_last_reset_time.
    pose proof (foldl_upd_proc_at (fun p => negb (status_is PROC_UNUSED p)) mlfq_clear
                  (seq 0 MAX_NPROCESS) (after_boost k) i (NoDup_seq _ _)) as Hfold.
    cbv beta in Hfold. rewrite Hfold; clear Hfold.
    + rewrite bool_decide_eq_true_2 by (apply elem_of_seq_slots; lia).
      unfold status_is. rewrite after_boost_status.
      rewrite bool_decide_eq_false_2 by exact Hused. simpl.
      now rewrite after_boost_status.
    + intros m Hm. apply elem_of_seq_slots in Hm.
      rewrite after_boost_length, Hok. unfold MAX_NPROCESS in *. lia.
  - intros Hel.
    replace (MLFQ_RESET_PERIOD <=? _) with false by (symmetry; now apply Z.leb_gt).
    split; [apply after_boost_last_reset | apply after_boost_quiet].
  - intros ->. unfold u64_sub. rewrite Z.sub_0_r.
    apply u64_small, mtime_now_range.
Qed.

End Reset.

Lemma mlfq_reset_level_periodic_witness :
  let k := with_procs [(1%nat, set_queue_time 300 (sample_pcb 5 PROC_RUNNABLE 2))]
             (boot 20000000) in
  table_ok k /\
  MLFQ_RESET_PERIOD <= u64_sub (mtime_now k) (MLFQ_last_reset_time k) /\
  MLFQ_last_reset_time (mlfq_reset_level (H := sample_platform) k) = mtime_now k /\
  queue_level (proc_at (mlfq_reset_level (H := sample_platform) k) 1) = 0 /\
  queue_time (proc_at (mlfq_reset_level (H := sample_platform) k) 1) = 0.
Proof.
  assert (Hok : table_ok (with_procs
    [(1%nat, set_queue_time 300 (sample_pcb 5 PROC_RUNNABLE 2))] (boot 20000000)))
    by reflexivity.
  assert (Hel : MLFQ_RESET_PERIOD <= u64_sub
    (mtime_now (with_procs
       [(1%nat, set_queue_time 300 (sample_pcb 5 PROC_RUNNABLE 2))] (boot 20000000)))
    (MLFQ_last_reset_time (with_procs
       [(1%nat, set_queue_time 300 (sample_pcb 5 PROC_RUNNABLE 2))] (boot 20000000))))
    by (vm_compute; discriminate).
  split; [exact Hok|]. split; [exact Hel|].
  destruct (mlfq_reset_level_periodic (H := sample_platform) _ Hok) as [Hreset _].
  destruct (Hreset Hel) as [Hlast Hall].
  split; [exact Hlast|].
  destruct (Hall 1%nat) as (Hl & Ht & _);
    [unfold MAX_NPROCESS; lia | vm_compute; discriminate |].
  split; [exact Hl | exact Ht].
Defined.

(** ** Frame facts *)

Lemma proc_at_upd_oob k i f j :
  (length (proc_set k) <= i)%nat -> proc_at (upd_proc i f k) j = proc_at k j.
Proof.
  intros Hi. apply proc_at_same_table. unfold upd_proc. simpl.
  now apply list_insert_ge.
Qed.

Lemma keeps_refl {A} (X : process -> A) k : keeps X k k.
Proof. now intros j. Qed.

Lemma keeps_trans {A} (X : process -> A) k1 k2 k3 :
  keeps X k1 k2 -> keeps X k2 k3 -> keeps X k1 k3.
Proof. intros H12 H23 j. now rewrite H23, H12. Qed.

Lemma keeps_same_table {A} (X : process -> A) k k' :
  proc_set k' = proc_set k -> keeps X k k'.
Proof. intros Heq j. now rewrite (proc_at_same_table k k'). Qed.

Lemma keeps_upd {A} (X : process -> A) i f k :
  (forall p, X (f p) = X p) -> keeps X k (upd_proc i f k).
Proof.
  intros Hf j. destruct (decide (i = j)) as [->|Hne].
  - destruct (decide (j < length (proc_set k))%nat) as [Hj|Hj].
    + now rewrite proc_at_upd_eq.
    + now rewrite proc_at_upd_oob by lia.
  - now rewrite proc_at_upd_ne.
Qed.

Lemma keeps_foldl {A B} (X : process -> A) (step : kernel -> B -> kernel) l k :
  (forall k b, keeps X k (step k b)) -> keeps X k (foldl step k l).
Proof.
  intros Hstep. revert k. induction l as [|b l IH]; intros k; simpl.
  - apply keeps_refl.
  - eapply keeps_trans; [apply Hstep | apply IH].
Qed.

Lemma foldl_length {B} (step : kernel -> B -> kernel) l k :
  (forall k b, length (proc_set (step k b)) = length (proc_set k)) ->
  length (proc_set (foldl step k l)) = length (proc_set k).
Proof.
  intros Hstep. revert k. induction l as [|b l IH]; intros k; simpl.
  - reflexivity.
  - now rewrite IH, Hstep.
Qed.

Lemma find_slot_range cond k i : find_slot cond k = Some i -> (i < MAX_NPROCESS)%nat.
Proof. intros Hf. apply scan_from_Some in Hf. lia. Qed.

Lemma find_slot_in_table cond k i :
  table_ok k -> find_slot cond k = Some i -> (i < length (proc_set k))%nat.
Proof.
  intros Hok Hf. apply find_slot_range in Hf. rewrite Hok.
  unfold MAX_NPROCESS in *. lia.
Qed.

(** ** CPU-time accounting on the way out of RUNNING (C4) *)

Lemma account_running_charges k i :
  (i < length (proc_set k))%nat ->
  status (proc_at k i) = PROC_RUNNING -> 0 < last_schedule_time (proc_at k i) ->
  let runtime := u64_sub (mtime_now k) (last_schedule_time (proc_at k i)) in
  proc_at (account_running i k) i =
    mlfq_update_pcb runtime
      (set_total_cpu_time (u64_add (total_cpu_time (proc_at k i)) runtime) (proc_at k i)).
Proof.
  intros Hi Hst Hlast runtime. unfold account_running, status_is.
  rewrite bool_decide_eq_true_2 by exact Hst.
  replace (0 <? last_schedule_time (proc_at k i)) with true
    by (symmetry; now apply Z.ltb_lt).
  kstep. unfold mlfq_update_level.
  rewrite proc_at_upd_eq by (rewrite upd_proc_length; exact Hi).
  rewrite proc_at_upd_eq by exact Hi.
  now rewrite proc_at_set_clock_reads.
Qed.

Lemma account_running_idle k i :
  status (proc_at k i) <> PROC_RUNNING \/ last_schedule_time (proc_at k i) <= 0 ->
  account_running i k = k.
Proof.
  intros Hno. unfold account_running, status_is.
  destruct Hno as [Hst|Hlast].
  - now rewrite bool_decide_eq_false_2 by exact Hst.
  - replace (0 <? last_schedule_time (proc_at k i)) with false
      by (symmetry; now apply Z.ltb_ge).
    now rewrite andb_false_r.
Qed.

Lemma account_running_length k i :
  length (proc_set (account_running i k)) = length (proc_set k).
Proof.
  unfold account_running. destruct (_ && _); [|reflexivity].
  kstep. unfold mlfq_update_level.
  now rewrite !upd_proc_length.
Qed.

Lemma proc_set_status_keeps {A} (X : process -> A) p s k :
  (forall q, X (set_status s q) = X q) -> keeps X k (proc_set_status p s k).
Proof.
  intros HX. unfold proc_set_status. apply keeps_foldl.
  intros k0 i. destruct (has_pid p (proc_at k0 i)); [|apply keeps_refl].
  now apply keeps_upd.
Qed.

Section Accounting.
Context `{Platform}.

Lemma proc_free_keeps {A} (X : process -> A) p k :
  (forall s q, X (set_status s q) = X q) ->
  (forall t q, X (set_termination_time t q) = X q) ->
  keeps X k (proc_free p k).
Proof.
  intros Hs Ht. unfold proc_free. destruct (negb (p =? GPID_ALL)).
  - destruct (find_slot _ k) as [i|]; [|apply keeps_refl].
    kstep.
    eapply keeps_trans; [|apply proc_set_status_keeps; apply Hs].
    eapply keeps_trans; [|apply keeps_same_table; reflexivity].
    apply (keeps_upd X i _ (set_clock_reads (S (clock_reads k)) k)). apply Ht.
  - apply keeps_foldl. intros k0 i.
    destruct (_ && _); [|apply keeps_refl].
    kstep.
    eapply keeps_trans; [|apply keeps_upd; apply Hs].
    eapply keeps_trans; [|apply keeps_same_table; reflexivity].
    apply (keeps_upd X i _ (set_clock_reads (S (clock_reads k0)) k0)). apply Ht.
Qed.

(** C4, as the specification states it, fails twice.  [proc_free] turns a
    RUNNING slot into an UNUSED one without charging the 4000 microseconds
    that have passed since the dispatch; and [proc_set_runnable] charges
    nothing to a RUNNING process whose [last_schedule_time] is 0, although
    [now - last_schedule_time] is then 5000. *)
Lemma leaving_running_not_always_charged :
  (let k := running_since_1000 in
   status (proc_at k 1) = PROC_RUNNING /\
   u64_sub (mtime_now k) (last_schedule_time (proc_at k 1)) = 4000 /\
   status (proc_at (proc_free (H := sample_platform) 5 k) 1) = PROC_UNUSED /\
   total_cpu_time (proc_at (proc_free (H := sample_platform) 5 k) 1)
     = total_cpu_time (proc_at k 1) /\
   queue_time (proc_at (proc_free (H := sample_platform) 5 k) 1)
     = queue_time (proc_at k 1)) /\
  (let k := running_unstamped in
   status (proc_at k 1) = PROC_RUNNING /\
   u64_sub (mtime_now k) (last_schedule_time (proc_at k 1)) = 5000 /\
   status (proc_at (proc_set_runnable 5 k) 1) = PROC_RUNNABLE /\
   total_cpu_time (proc_at (proc_set_runnable 5 k) 1) = total_cpu_time (proc_at k 1)).
Proof. vm_compute. repeat split; reflexivity. Qed.

(** C4, amended: [proc_set_runnable] and [proc_set_pending], on the PCB
    they locate (the first slot below [MAX_NPROCESS] holding the pid), when
    it is RUNNING with [last_schedule_time > 0], add
    [now - last_schedule_time] (64-bit) to [total_cpu_time] and pass the
    same interval to [mlfq_update_level] before they change the status;
    when [last_schedule_time] is 0 they change the status only.
    [proc_free] does no such accounting: it leaves [total_cpu_time],
    [queue_level] and [queue_time] of every PCB as they are. *)
Theorem leaving_running_charges_cpu_time k p i :
  table_ok k -> find_slot (has_pid p) k = Some i ->
  status (proc_at k i) = PROC_RUNNING ->
  let pcb := proc_at k i in
  let runtime := u64_sub (mtime_now k) (last_schedule_time pcb) in
  let charged :=
    mlfq_update_pcb runtime
      (set_total_cpu_time (u64_add (total_cpu_time pcb) runtime) pcb) in
  (0 < last_schedule_time pcb ->
     proc_at (proc_set_runnable p k) i = set_status PROC_RUNNABLE charged /\
     proc_at (proc_set_pending p k) i = set_status PROC_PENDING_SYSCALL charged) /\
  (last_schedule_time pcb <= 0 ->
     proc_at (proc_set_runnable p k) i = set_status PROC_RUNNABLE pcb /\
     proc_at (proc_set_pending p k) i = set_status PROC_PENDING_SYSCALL pcb) /\
  (forall victim,
     keeps total_cpu_time k (proc_free victim k) /\
     keeps queue_level k (proc_free victim k) /\
     keeps queue_time k (proc_free victim k)).
Proof.
  intros Hok Hfind Hrun pcb runtime charged.
  pose proof (find_slot_in_table _ _ _ Hok Hfind) as Hi.
  unfold proc_set_runnable, proc_set_pending. rewrite Hfind.
  split; [|split].
  - intros Hlast.
    rewrite !proc_at_upd_eq by (rewrite account_running_length; exact Hi).
    now rewrite account_running_charges.
  - intros Hlast. rewrite account_running_idle by (right; exact Hlast).
    now rewrite !proc_at_upd_eq.
  - intros victim. repeat split; now apply proc_free_keeps.
Qed.

End Accounting.

Lemma leaving_running_charges_cpu_time_witness :
  let k := running_since_1000 in
  table_ok k /\ find_slot (has_pid 5) k = Some 1%nat /\
  status (proc_at k 1) = PROC_RUNNING /\
  total_cpu_time (proc_at (proc_set_runnable 5 k) 1) = 4000 /\
  queue_time (proc_at (proc_set_runnable 5 k) 1) = 4000 /\
  status (proc_at (proc_set_pending 5 k) 1) = PROC_PENDING_SYSCALL.
Proof.
  assert (Hok : table_ok running_since_1000) by reflexivity.
  assert (Hfind : find_slot (has_pid 5) running_since_1000 = Some 1%nat) by reflexivity.
  assert (Hrun : status (proc_at running_since_1000 1) = PROC_RUNNING) by reflexivity.
  split; [exact Hok|]. split; [exact Hfind|]. split; [exact Hrun|].
  destruct (leaving_running_charges_cpu_time (H := sample_platform)
              running_since_1000 5 1%nat Hok Hfind Hrun) as [Hcharge _].
  destruct Hcharge as [Hr Hp]; [vm_compute; reflexivity|].
  rewrite Hr, Hp. vm_compute. repeat split; reflexivity.
Defined.

(** ** Locating a PCB by pid (C3, C10) *)

(** C3 fails at the last slot of the table.  [proc_alloc] searches the
    slots 1 to [MAX_NPROCESS], so the sixteenth allocation after boot
    returns pid 16 for slot 16; the four helpers search the slots 0 to
    [MAX_NPROCESS - 1], never find that pid, and leave the table as it is:
    the process stays LOADING. *)
Theorem helpers_miss_last_slot :
  match alloc_n 16 (boot 5000) with
  | Ok (pids, k) =>
      pids = [1; 2; 3; 4; 5; 6; 7; 8; 9; 10; 11; 12; 13; 14; 15; 16] /\
      proc_set k = proc_set sixteen_allocated
  | Fatal _ => False
  end /\
  pid (proc_at sixteen_allocated 16) = 16 /\
  status (proc_at sixteen_allocated 16) = PROC_LOADING /\
  find_slot (has_pid 16) sixteen_allocated = None /\
  proc_set (proc_set_ready 16 sixteen_allocated) = proc_set sixteen_allocated /\
  proc_set (proc_set_running 16 sixteen_allocated) = proc_set sixteen_allocated /\
  proc_set (proc_set_runnable 16 sixteen_allocated) = proc_set sixteen_allocated /\
  proc_set (proc_set_pending 16 sixteen_allocated) = proc_set sixteen_allocated /\
  status (proc_at (proc_set_ready 15 sixteen_allocated) 15) = PROC_READY.
Proof. vm_compute. repeat split. Qed.

Lemma proc_set_runnable_status k p i :
  table_ok k -> find_slot (has_pid p) k = Some i ->
  status (proc_at (proc_set_runnable p k) i) = PROC_RUNNABLE.
Proof.
  intros Hok Hfind. unfold proc_set_runnable. rewrite Hfind.
  rewrite proc_at_upd_eq; [reflexivity|].
  rewrite account_running_length. now apply (find_slot_in_table (has_pid p)).
Qed.

Lemma account_running_keeps_pid k i : keeps pid k (account_running i k).
Proof.
  unfold account_running. destruct (_ && _); [|apply keeps_refl].
  kstep. unfold mlfq_update_level.
  eapply keeps_trans; [|apply keeps_upd].
  - apply (keeps_upd pid i _ (set_clock_reads (S (clock_reads k)) k)). reflexivity.
  - intros q. unfold mlfq_update_pcb.
    destruct (_ <=? _); [reflexivity|]. simpl. now destruct (_ <=? _).
Qed.

Lemma account_running_keeps_syscall k i : keeps syscall k (account_running i k).
Proof.
  unfold account_running. destruct (_ && _); [|apply keeps_refl].
  kstep. unfold mlfq_update_level.
  eapply keeps_trans; [|apply keeps_upd].
  - apply (keeps_upd syscall i _ (set_clock_reads (S (clock_reads k)) k)). reflexivity.
  - intros q. unfold mlfq_update_pcb.
    destruct (_ <=? _); [reflexivity|]. simpl. now destruct (_ <=? _).
Qed.

Lemma proc_set_runnable_keeps_pid p k : keeps pid k (proc_set_runnable p k).
Proof.
  unfold proc_set_runnable. destruct (find_slot _ k) as [i|]; [|apply keeps_refl].
  eapply keeps_trans; [apply account_running_keeps_pid|].
  now apply keeps_upd.
Qed.

Lemma proc_set_runnable_keeps_syscall p k : keeps syscall k (proc_set_runnable p k).
Proof.
  unfold proc_set_runnable. destruct (find_slot _ k) as [i|]; [|apply keeps_refl].
  eapply keeps_trans; [apply account_running_keeps_syscall|].
  now apply keeps_upd.
Qed.

Lemma proc_set_runnable_length p k :
  length (proc_set (proc_set_runnable p k)) = length (proc_set k).
Proof.
  unfold proc_set_runnable. destruct (find_slot _ k) as [i|]; [|reflexivity].
  now rewrite upd_proc_length, account_running_length.
Qed.

(** A search by pid gives the same slot in two tables that hold the same
    pids. *)
Lemma find_slot_has_pid_keeps p k k' :
  keeps pid k k' -> find_slot (has_pid p) k' = find_slot (has_pid p) k.
Proof.
  intros Hk. unfold find_slot. apply scan_from_ext.
  intros m _. unfold has_pid. pose proof (Hk m) as Hm.
  unfold proc_at in Hm. now rewrite Hm.
Qed.

(** Among the slots it searches, [proc_set_runnable] matches by pid alone.
    Whatever the status of the first slot below [MAX_NPROCESS] that holds
    pid [p], UNUSED included, [proc_set_runnable p] makes it RUNNABLE; and
    [proc_try_recv] on a receiver whose completed record names [p] as
    sender does the same to that slot, so a freed slot whose stale pid is
    [p] leaves UNUSED. *)
Theorem helpers_match_by_pid_alone k p i :
  table_ok k -> find_slot (has_pid p) k = Some i ->
  status (proc_at (proc_set_runnable p k) i) = PROC_RUNNABLE /\
  forall r,
    Syscall.status (syscall (proc_at k r)) = DONE ->
    Syscall.sender (syscall (proc_at k r)) = p ->
    status (proc_at (proc_try_recv r k) i) = PROC_RUNNABLE.
Proof.
  intros Hok Hfind. split; [now apply proc_set_runnable_status|].
  intros r Hdone Hsender. unfold proc_try_recv.
  rewrite bool_decide_eq_false_2 by (rewrite Hdone; discriminate).
  set (k1 := set_user_syscall _ k).
  set (k2 := proc_set_runnable (pid (proc_at k1 r)) k1).
  assert (Hsys : Syscall.sender (syscall (proc_at k2 r)) = p).
  { subst k2. now rewrite proc_set_runnable_keeps_syscall. }
  rewrite Hsys. apply proc_set_runnable_status.
  - unfold table_ok. subst k2. now rewrite proc_set_runnable_length.
  - subst k2.
    rewrite (find_slot_has_pid_keeps p k1) by apply proc_set_runnable_keeps_pid.
    exact Hfind.
Qed.

Lemma helpers_match_by_pid_alone_witness :
  table_ok sender_freed /\
  find_slot (has_pid 5) sender_freed = Some 1%nat /\
  status (proc_at delivered_pair 1) = PROC_PENDING_SYSCALL /\
  status (proc_at sender_freed 1) = PROC_UNUSED /\
  status (proc_at (proc_set_runnable 5 sender_freed) 1) = PROC_RUNNABLE /\
  Syscall.status (syscall (proc_at sender_freed 2)) = DONE /\
  Syscall.sender (syscall (proc_at sender_freed 2)) = 5 /\
  status (proc_at (proc_try_recv 2 sender_freed) 1) = PROC_RUNNABLE.
Proof.
  assert (Hok : table_ok sender_freed) by reflexivity.
  assert (Hfind : find_slot (has_pid 5) sender_freed = Some 1%nat) by reflexivity.
  destruct (helpers_match_by_pid_alone sender_freed 5 1%nat Hok Hfind) as [Hrun Hrecv].
  split; [exact Hok|]. split; [exact Hfind|].
  split; [reflexivity|]. split; [reflexivity|].
  split; [exact Hrun|]. split; [reflexivity|]. split; [reflexivity|].
  apply Hrecv; reflexivity.
Defined.

(** ** Sending (C7) *)

(** C7 fails at the last slot of the table.  The receiver with pid 16
    exists, in slot 16, and is not UNUSED; it is not in a RECV, so the
    send should return and leave the sender blocked.  [proc_try_send]
    searches the slots 0 to [MAX_NPROCESS - 1] only and halts with
    "unknown receiver". *)
Theorem send_to_last_slot_is_fatal :
  pid (proc_at send_to_sixteenth 16) = 16 /\
  status (proc_at send_to_sixteenth 16) = PROC_LOADING /\
  Syscall.receiver (syscall (proc_at send_to_sixteenth 1)) = 16 /\
  status (proc_at send_to_sixteenth 1) = PROC_PENDING_SYSCALL /\
  proc_try_send (H := sample_platform) 1 send_to_sixteenth
    = Fatal (FatalUnknownReceiver 16).
Proof. vm_compute. repeat split; reflexivity. Qed.

(** ** What the building blocks of the scheduler leave alone *)

Lemma wakeup_time_ignores_scheduling : ignores_scheduling wakeup_time.
Proof. now repeat split. Qed.

Lemma pid_ignores_scheduling : ignores_scheduling pid.
Proof. now repeat split. Qed.

Lemma syscall_ignores_scheduling : ignores_scheduling syscall.
Proof. now repeat split. Qed.

Lemma wakeup_time_ignores_dispatch : ignores_dispatch wakeup_time.
Proof. now repeat split. Qed.

Lemma keeps_table_r {A} (X : process -> A) k k1 k2 :
  proc_set k2 = proc_set k1 -> keeps X k k1 -> keeps X k k2.
Proof.
  intros Heq Hk j. rewrite <- (Hk j). now rewrite (proc_at_same_table k1 k2).
Qed.

Lemma mlfq_update_pcb_ignored {A} (X : process -> A) r q :
  ignores_scheduling X -> X (mlfq_update_pcb r q) = X q.
Proof.
  intros (Hs & Hc & Hl & Ht). unfold mlfq_update_pcb.
  destruct (_ <=? _); [reflexivity|]. cbv zeta.
  destruct (_ <=? _); [now rewrite Ht, Hl, Ht | apply Ht].
Qed.

Lemma account_running_keeps {A} (X : process -> A) k i :
  ignores_scheduling X -> keeps X k (account_running i k).
Proof.
  intros HX. unfold account_running. destruct (_ && _); [|apply keeps_refl].
  kstep. unfold mlfq_update_level.
  eapply keeps_trans; [|apply keeps_upd].
  - apply (keeps_upd X i _ (set_clock_reads (S (clock_reads k)) k)).
    intros q. apply HX.
  - intros q. now apply mlfq_update_pcb_ignored.
Qed.

Lemma proc_set_runnable_keeps {A} (X : process -> A) p k :
  ignores_scheduling X -> keeps X k (proc_set_runnable p k).
Proof.
  intros HX. unfold proc_set_runnable.
  destruct (find_slot _ k) as [i|]; [|apply keeps_refl].
  eapply keeps_trans; [now apply account_running_keeps|].
  apply keeps_upd. intros q. apply HX.
Qed.

Lemma proc_set_pending_keeps {A} (X : process -> A) p k :
  ignores_scheduling X -> keeps X k (proc_set_pending p k).
Proof.
  intros HX. unfold proc_set_pending.
  destruct (find_slot _ k) as [i|]; [|apply keeps_refl].
  eapply keeps_trans; [now apply account_running_keeps|].
  apply keeps_upd. intros q. apply HX.
Qed.

Lemma proc_set_pending_length p k :
  length (proc_set (proc_set_pending p k)) = length (proc_set k).
Proof.
  unfold proc_set_pending. destruct (find_slot _ k) as [i|]; [|reflexivity].
  now rewrite upd_proc_length, account_running_length.
Qed.

Lemma proc_set_running_keeps {A} (X : process -> A) p k :
  ignores_dispatch X -> keeps X k (proc_set_running p k).
Proof.
  intros (Hs & Hf & Hl & _). unfold proc_set_running.
  destruct (find_slot _ k) as [i|]; [|apply keeps_refl].
  destruct (first_schedule_time (proc_at k i) =? 0); kstep.
  - eapply keeps_trans; [|apply keeps_upd; intros q; apply Hs].
    eapply keeps_trans; [|apply keeps_upd; intros q; apply Hl].
    eapply keeps_trans; [|apply keeps_same_table; reflexivity].
    apply (keeps_upd X i _ (set_clock_reads (S (clock_reads k)) k)).
    intros q. apply Hf.
  - eapply keeps_trans; [|apply keeps_upd; intros q; apply Hs].
    apply (keeps_upd X i _ (set_clock_reads (S (clock_reads k)) k)).
    intros q. apply Hl.
Qed.

Lemma proc_set_running_length p k :
  length (proc_set (proc_set_running p k)) = length (proc_set k).
Proof.
  unfold proc_set_running. destruct (find_slot _ k) as [i|]; [|reflexivity].
  destruct (first_schedule_time (proc_at k i) =? 0); kstep;
    repeat (rewrite ?upd_proc_length; autorewrite with frame); reflexivity.
Qed.

Section Scheduler.
Context `{Platform}.

Lemma after_boost_keeps {A} (X : process -> A) k :
  ignores_scheduling X -> keeps X k (after_boost k).
Proof.
  intros (_ & _ & Hl & Ht). unfold after_boost.
  destruct (negb _); [|apply keeps_same_table; reflexivity].
  destruct (find_slot _ _) as [i|]; [|apply keeps_same_table; reflexivity].
  apply (keeps_upd X i _ (snd (mtime_get k))).
  intros q. unfold mlfq_clear. now rewrite Ht, Hl.
Qed.

Lemma mlfq_reset_level_keeps {A} (X : process -> A) k :
  ignores_scheduling X -> keeps X k (mlfq_reset_level k).
Proof.
  intros HX. rewrite mlfq_reset_level_unfold.
  destruct (_ <=? _); [|now apply after_boost_keeps].
  eapply keeps_trans; [now apply after_boost_keeps|].
  eapply keeps_table_r; [apply proc_set_set_MLFQ_last_reset_time|].
  apply keeps_foldl. intros k0 i. destruct (negb _); [|apply keeps_refl].
  apply keeps_upd. intros q. destruct HX as (_ & _ & Hl & Ht).
  unfold mlfq_clear. now rewrite Ht, Hl.
Qed.

Lemma mlfq_reset_level_length k :
  length (proc_set (mlfq_reset_level k)) = length (proc_set k).
Proof.
  rewrite mlfq_reset_level_unfold. destruct (_ <=? _).
  - rewrite proc_set_set_MLFQ_last_reset_time.
    rewrite foldl_length; [apply after_boost_length|].
    intros k0 i. destruct (negb _); [apply upd_proc_length|reflexivity].
  - apply after_boost_length.
Qed.

Lemma yield_prologue_keeps {A} (X : process -> A) k :
  ignores_scheduling X -> keeps X k (yield_prologue k).
Proof.
  intros HX. unfold yield_prologue.
  eapply keeps_trans; [|now apply mlfq_reset_level_keeps].
  destruct (bool_decide _); [now apply proc_set_runnable_keeps|apply keeps_refl].
Qed.

Lemma yield_prologue_length k :
  length (proc_set (yield_prologue k)) = length (proc_set k).
Proof.
  unfold yield_prologue. rewrite mlfq_reset_level_length.
  destruct (bool_decide _); [apply proc_set_runnable_length|reflexivity].
Qed.

Lemma proc_try_recv_keeps {A} (X : process -> A) r k :
  ignores_scheduling X -> keeps X k (proc_try_recv r k).
Proof.
  intros HX. unfold proc_try_recv. destruct (bool_decide _); [apply keeps_refl|].
  cbv zeta.
  eapply keeps_trans; [|now apply proc_set_runnable_keeps].
  eapply keeps_trans; [|now apply proc_set_runnable_keeps].
  apply keeps_same_table. reflexivity.
Qed.

Lemma proc_try_recv_length r k :
  length (proc_set (proc_try_recv r k)) = length (proc_set k).
Proof.
  unfold proc_try_recv. destruct (bool_decide _); [reflexivity|].
  cbv zeta. now rewrite !proc_set_runnable_length.
Qed.

Lemma proc_try_send_keeps {A} (X : process -> A) s k k' :
  (forall v q, X (set_syscall v q) = X q) ->
  proc_try_send s k = Ok k' -> keeps X k k'.
Proof.
  intros HX. unfold proc_try_send.
  destruct (find_slot _ k) as [i|]; [|discriminate].
  destruct (negb _); [intros [= <-]; apply keeps_refl|].
  destruct (negb _); [intros [= <-]; apply keeps_refl|].
  intros [= <-].
  repeat (eapply keeps_trans; [|apply keeps_upd; intros q; apply HX]).
  apply keeps_refl.
Qed.

Lemma proc_try_send_length s k k' :
  proc_try_send s k = Ok k' -> length (proc_set k') = length (proc_set k).
Proof.
  unfold proc_try_send.
  destruct (find_slot _ k) as [i|]; [|discriminate].
  destruct (negb _); [now intros [= <-]|].
  destruct (negb _); [now intros [= <-]|].
  intros [= <-]. now rewrite !upd_proc_length.
Qed.

Lemma proc_try_syscall_keeps {A} (X : process -> A) i k k' :
  ignores_scheduling X -> (forall v q, X (set_syscall v q) = X q) ->
  proc_try_syscall i k = Ok k' -> keeps X k k'.
Proof.
  intros HX Hsys. unfold proc_try_syscall.
  destruct (Syscall.type _).
  - intros [= <-]. now apply proc_try_recv_keeps.
  - now apply proc_try_send_keeps.
  - discriminate.
Qed.

Lemma proc_try_syscall_length i k k' :
  proc_try_syscall i k = Ok k' -> length (proc_set k') = length (proc_set k).
Proof.
  unfold proc_try_syscall. destruct (Syscall.type _).
  - intros [= <-]. apply proc_try_recv_length.
  - apply proc_try_send_length.
  - discriminate.
Qed.

Lemma yield_retry_keeps {A} (X : process -> A) i k k' :
  ignores_scheduling X -> (forall v q, X (set_syscall v q) = X q) ->
  yield_retry i k = Ok k' -> keeps X k k'.
Proof.
  intros HX Hsys. unfold yield_retry. destruct (status_is _ _).
  - now apply proc_try_syscall_keeps.
  - intros [= <-]. apply keeps_refl.
Qed.

Lemma yield_retry_length i k k' :
  yield_retry i k = Ok k' -> length (proc_set k') = length (proc_set k).
Proof.
  unfold yield_retry. destruct (status_is _ _).
  - apply proc_try_syscall_length.
  - now intros [= <-].
Qed.

Lemma yield_wake_length now i k :
  length (proc_set (yield_wake now i k)) = length (proc_set k).
Proof.
  unfold yield_wake. destruct (_ && _); [|reflexivity].
  now rewrite !upd_proc_length.
Qed.

Lemma yield_wake_other now i j k :
  i <> j -> proc_at (yield_wake now i k) j = proc_at k j.
Proof.
  intros Hne. unfold yield_wake. destruct (_ && _); [|reflexivity].
  now rewrite !proc_at_upd_ne.
Qed.

Lemma dispatch_stamp_keeps {A} (X : process -> A) next k :
  ignores_dispatch X -> keeps X k (dispatch_stamp next k).
Proof.
  intros (Hs & Hf & Hl & _). unfold dispatch_stamp.
  destruct (first_schedule_time (proc_at k next) =? 0); kstep.
  - eapply keeps_trans; [|apply keeps_upd; intros q; apply Hl].
    eapply keeps_table_r; [apply proc_set_set_clock_reads|].
    eapply keeps_trans; [|apply keeps_upd; intros q; apply Hf].
    apply keeps_same_table, proc_set_set_clock_reads.
  - eapply keeps_trans; [|apply keeps_upd; intros q; apply Hl].
    apply keeps_same_table, proc_set_set_clock_reads.
Qed.

Lemma dispatch_stamp_length next k :
  length (proc_set (dispatch_stamp next k)) = length (proc_set k).
Proof.
  unfold dispatch_stamp.
  destruct (first_schedule_time (proc_at k next) =? 0); kstep;
    repeat (rewrite ?upd_proc_length; autorewrite with frame); reflexivity.
Qed.

Lemma proc_set_dispatch_mode next k : proc_set (dispatch_mode next k) = proc_set k.
Proof. unfold dispatch_mode. now destruct (_ <=? _). Qed.

Lemma dispatch_prime_keeps {A} (X : process -> A) k :
  ignores_dispatch X -> keeps X k (dispatch_prime k).
Proof.
  intros (Hs & Hf & Hl & Hr & Hm). unfold dispatch_prime.
  destruct (bool_decide _); [|apply keeps_refl]. cbv zeta.
  eapply keeps_trans; [|apply keeps_upd; intros q; apply Hm].
  eapply keeps_trans; [|apply keeps_upd; intros q; apply Hr].
  apply keeps_upd; intros q; apply Hr.
Qed.

Lemma dispatch_prime_length k :
  length (proc_set (dispatch_prime k)) = length (proc_set k).
Proof.
  unfold dispatch_prime. destruct (bool_decide _); [|reflexivity].
  cbv zeta. now rewrite !upd_proc_length.
Qed.

Lemma proc_set_go_idle k : proc_set (go_idle k) = proc_set k.
Proof. reflexivity. Qed.

Lemma yield_dispatch_keeps {A} (X : process -> A) next k :
  ignores_dispatch X -> keeps X k (yield_dispatch next k).
Proof.
  intros HX. unfold yield_dispatch.
  destruct (next <? MAX_NPROCESS)%nat; [|apply keeps_same_table, proc_set_go_idle].
  cbv zeta.
  eapply keeps_table_r; [apply proc_set_emit|].
  eapply keeps_trans; [|now apply proc_set_running_keeps].
  eapply keeps_trans; [|now apply dispatch_prime_keeps].
  eapply keeps_table_r; [apply proc_set_emit|].
  eapply keeps_table_r; [apply proc_set_emit|].
  eapply keeps_table_r; [apply proc_set_set_curr_proc_idx|].
  eapply keeps_table_r; [apply proc_set_dispatch_mode|].
  now apply dispatch_stamp_keeps.
Qed.

Lemma yield_dispatch_length next k :
  length (proc_set (yield_dispatch next k)) = length (proc_set k).
Proof.
  unfold yield_dispatch.
  destruct (next <? MAX_NPROCESS)%nat; [|reflexivity]. cbv zeta.
  rewrite proc_set_emit, proc_set_running_length, dispatch_prime_length.
  rewrite !proc_set_emit, proc_set_set_curr_proc_idx, proc_set_dispatch_mode.
  apply dispatch_stamp_length.
Qed.

End Scheduler.

(** ** The loops of [proc_yield] *)

Lemma for_slots_inv {A} (I : A -> Prop) (body : nat -> A -> result A) i n a a' :
  (forall j b b', (i <= j < i + n)%nat -> I b -> body j b = Ok b' -> I b') ->
  I a -> for_slots body i n a = Ok a' -> I a'.
Proof.
  revert i a. induction n as [|n IH]; intros i a Hstep Ha Hrun; simpl in Hrun.
  - now injection Hrun as <-.
  - destruct (body i a) as [b|] eqn:Hb; [|discriminate]. simpl in Hrun.
    apply (IH (S i) b); [|apply (Hstep i a); [lia | exact Ha | exact Hb]|exact Hrun].
    intros j c c' Hj. apply Hstep. lia.
Qed.

Lemma for_slots_app {A} (body : nat -> A -> result A) i n m a :
  for_slots body i (n + m) a =
    (b <- for_slots body i n a ;; for_slots body (i + n) m b).
Proof.
  revert i a. induction n as [|n IH]; intros i a; simpl.
  - now rewrite Nat.add_0_r.
  - destruct (body i a) as [b|]; simpl; [|reflexivity].
    rewrite IH. now replace (S i + n)%nat with (i + S n)%nat by lia.
Qed.

Section Loops.
Context `{Platform}.

(** The fallback loop keeps every invariant that a retried syscall keeps,
    and what it returns is either "nothing found" or a slot that it saw
    ready or runnable and awake. *)
Lemma yield_fallback_inv (I : kernel -> Prop) now i n k k' next :
  (forall j b b', I b -> yield_retry j b = Ok b' -> I b') ->
  I k -> yield_fallback now i n k = Ok (k', next) ->
  I k' /\
  (next = MAX_NPROCESS \/
   ((i <= next < i + n)%nat /\ ready_or_runnable (proc_at k' next) = true /\
    still_sleeping now (proc_at k' next) = false)).
Proof.
  intros Hstep. revert i k. induction n as [|n IH]; intros i k Hk Hrun; simpl in Hrun.
  - injection Hrun as <- <-. split; [exact Hk | now left].
  - destruct (yield_retry i k) as [k1|] eqn:Hr; [|discriminate]. simpl in Hrun.
    pose proof (Hstep _ _ _ Hk Hr) as Hk1.
    destruct (still_sleeping now (proc_at k1 i)) eqn:Hsl.
    + destruct (IH _ _ Hk1 Hrun) as [HI [Hn|Hn]]; [now split; [|left]|].
      split; [exact HI|]. right. split; [lia | apply Hn].
    + destruct (ready_or_runnable (proc_at k1 i)) eqn:Hrr.
      * injection Hrun as <- <-. split; [exact Hk1|]. right.
        split; [lia | now split].
      * destruct (IH _ _ Hk1 Hrun) as [HI [Hn|Hn]]; [now split; [|left]|].
        split; [exact HI|]. right. split; [lia | apply Hn].
Qed.

(** A slot whose wake-up time lies ahead is left asleep by one iteration
    of the first loop, and is not the one the iteration selects. *)
Lemma yield_scan_step_sleeper now i j k sel k' sel' w :
  0 <= now < w -> wakeup_time (proc_at k i) = w ->
  (next_idx sel = i -> i = MAX_NPROCESS) ->
  yield_scan_step now j (k, sel) = Ok (k', sel') ->
  wakeup_time (proc_at k' i) = w /\ (next_idx sel' = i -> i = MAX_NPROCESS).
Proof.
  intros Hnow Hw Hsel. unfold yield_scan_step.
  destruct (yield_retry j (yield_wake now j k)) as [k1|] eqn:Hr; [|discriminate].
  kbind.
  assert (Hw1 : wakeup_time (proc_at k1 i) = w).
  { rewrite (yield_retry_keeps wakeup_time _ _ _ wakeup_time_ignores_scheduling
               (fun _ _ => eq_refl) Hr i).
    destruct (decide (j = i)) as [->|Hne]; [|now rewrite yield_wake_other].
    unfold yield_wake.
    replace (wakeup_time (proc_at k i) <=? now) with false
      by (symmetry; apply Z.leb_gt; lia).
    now rewrite andb_false_r. }
  destruct (still_sleeping now (proc_at k1 j)) eqn:Hsl.
  - intros [= <- <-]. now split.
  - destruct (_ && _) eqn:Hc; intros [= <- <-]; [|now split].
    split; [exact Hw1|]. simpl. intros ->.
    unfold still_sleeping in Hsl. rewrite Hw1 in Hsl.
    apply andb_false_iff in Hsl as [Hsl|Hsl];
      [apply Z.ltb_ge in Hsl | apply Z.ltb_ge in Hsl]; lia.
Qed.

Lemma yield_select_sleeper now i k k' next w :
  0 <= now < w -> wakeup_time (proc_at k i) = w ->
  yield_select now k = Ok (k', next) ->
  wakeup_time (proc_at k' i) = w /\ (next = i -> i = MAX_NPROCESS).
Proof.
  intros Hnow Hw. unfold yield_select.
  destruct (for_slots _ _ _ _) as [[k1 sel]|] eqn:Hloop; [|discriminate].
  kbind.
  assert (Hinv : wakeup_time (proc_at k1 i) = w /\
                 (next_idx sel = i -> i = MAX_NPROCESS)).
  { apply (for_slots_inv
      (fun a => wakeup_time (proc_at (fst a) i) = w /\
                (next_idx (snd a) = i -> i = MAX_NPROCESS))
      (yield_scan_step now) 1 MAX_NPROCESS
      (k, mkSelection MAX_NPROCESS MLFQ_LEVELS) (k1, sel)).
    - intros j [kb sb] [kb' sb'] _ [Hb1 Hb2] Hs. simpl in *.
      exact (yield_scan_step_sleeper _ _ _ _ _ _ _ _ Hnow Hb1 Hb2 Hs).
    - simpl. split; [exact Hw | intros <-; reflexivity].
    - exact Hloop. }
  destruct Hinv as [Hw1 Hsel].
  destruct (bool_decide _); [|intros [= <- <-]; now split].
  intros Hfb.
  destruct (yield_fallback_inv (fun b => wakeup_time (proc_at b i) = w)
              now 1 MAX_NPROCESS k1 k' next) as [Hw2 Hnext].
  - intros j b b' Hb Hr.
    rewrite (yield_retry_keeps wakeup_time _ _ _
      wakeup_time_ignores_scheduling (fun _ _ => eq_refl) Hr i). exact Hb.
  - exact Hw1.
  - exact Hfb.
  - split; [exact Hw2|]. intros ->.
    destruct Hnext as [Hn|(_ & _ & Hsl)]; [exact Hn|].
    unfold still_sleeping in Hsl. rewrite Hw2 in Hsl.
    apply andb_false_iff in Hsl as [Hsl|Hsl];
      [apply Z.ltb_ge in Hsl | apply Z.ltb_ge in Hsl]; lia.
Qed.

End Loops.

(** ** Sleeping and waking (C9) *)

Lemma curr_proc_idx_set v k :
  curr_proc_idx (set_curr_proc_idx v k) = v \/
  curr_proc_idx (set_curr_proc_idx v k) = 0%nat.
Proof.
  unfold curr_proc_idx, set_curr_proc_idx. simpl.
  destruct (decide (core_in_kernel k < length (core_to_proc_idx k))%nat) as [Hc|Hc].
  - left. now apply list_lookup_total_insert_eq.
  - right. rewrite list_lookup_total_alt, lookup_ge_None_2; [reflexivity|].
    rewrite length_insert. lia.
Qed.

Lemma proc_set_running_cores p k :
  core_in_kernel (proc_set_running p k) = core_in_kernel k /\
  core_to_proc_idx (proc_set_running p k) = core_to_proc_idx k.
Proof.
  unfold proc_set_running. destruct (find_slot _ k) as [i|]; [|now split].
  destruct (first_schedule_time (proc_at k i) =? 0); kstep; now split.
Qed.

Lemma dispatch_prime_cores `{Platform} k :
  core_in_kernel (dispatch_prime k) = core_in_kernel k /\
  core_to_proc_idx (dispatch_prime k) = core_to_proc_idx k.
Proof. unfold dispatch_prime. destruct (bool_decide _); now split. Qed.

Lemma curr_proc_idx_yield_dispatch `{Platform} next k :
  (curr_proc_idx (yield_dispatch next k) = next /\ (next < MAX_NPROCESS)%nat) \/
  curr_proc_idx (yield_dispatch next k) = 0%nat.
Proof.
  unfold yield_dispatch. destruct (Nat.ltb_spec next MAX_NPROCESS) as [Hn|Hn].
  - cbv zeta.
    set (k5 := set_curr_proc_idx next _).
    set (k7 := dispatch_prime _).
    assert (Hcur : curr_proc_idx (emit (EvTimerReset (core_in_kernel
              (proc_set_running (curr_pid k7) k7))) (proc_set_running (curr_pid k7) k7))
            = curr_proc_idx k5).
    { unfold curr_proc_idx at 1.
      change (core_to_proc_idx (emit ?e ?x)) with (core_to_proc_idx x).
      change (core_in_kernel (emit ?e ?x)) with (core_in_kernel x).
      destruct (proc_set_running_cores (curr_pid k7) k7) as [-> ->].
      subst k7. destruct (dispatch_prime_cores
        (emit EvMmuFlushCache (emit (EvMmuSwitch (curr_pid k5)) k5))) as [-> ->].
      reflexivity. }
    rewrite Hcur. subst k5.
    destruct (curr_proc_idx_set next (dispatch_mode next (dispatch_stamp next k)))
      as [->| ->]; [left; now split | now right].
  - unfold go_idle. cbv zeta.
    destruct (curr_proc_idx_set 0 k) as [Hz|Hz]; right; exact Hz.
Qed.

Lemma proc_sleep_sets p u k i :
  table_ok k ->
  find_slot (fun q => has_pid p q && negb (status_is PROC_UNUSED q)) k = Some i ->
  wakeup_time (proc_at (proc_sleep p u k) i) = u64_add (mtime_now k) (u32 u) /\
  status (proc_at (proc_sleep p u k) i) = PROC_PENDING_SYSCALL.
Proof.
  intros Hok Hfind. pose proof (find_slot_in_table _ _ _ Hok Hfind) as Hi.
  unfold proc_sleep. kstep.
  change (find_slot ?c (set_clock_reads ?v k)) with (find_slot c k).
  rewrite Hfind.
  rewrite !proc_at_upd_eq by (rewrite ?upd_proc_length; exact Hi).
  now split.
Qed.

(** Status changes of the retried syscalls: a status either stays or
    becomes RUNNABLE. *)
Lemma proc_set_runnable_status_cases p k j :
  status (proc_at (proc_set_runnable p k) j) = status (proc_at k j) \/
  status (proc_at (proc_set_runnable p k) j) = PROC_RUNNABLE.
Proof.
  unfold proc_set_runnable. destruct (find_slot _ k) as [i|]; [|now left].
  destruct (decide (i = j)) as [->|Hne].
  - destruct (decide (j < length (proc_set (account_running j k)))%nat) as [Hj|Hj].
    + right. now rewrite proc_at_upd_eq.
    + left. rewrite proc_at_upd_oob by lia.
      unfold account_running. destruct (_ && _); [|reflexivity].
      kstep. unfold mlfq_update_level.
      rewrite account_running_length in Hj.
      rewrite !proc_at_upd_oob; [reflexivity| |]; rewrite ?upd_proc_length;
        autorewrite with frame; lia.
  - left. rewrite proc_at_upd_ne by exact Hne.
    unfold account_running. destruct (_ && _); [|reflexivity].
    kstep. unfold mlfq_update_level. now rewrite !proc_at_upd_ne.
Qed.

Section Sleep.
Context `{Platform}.

Lemma yield_retry_status_cases i k k' j :
  yield_retry i k = Ok k' ->
  status (proc_at k' j) = status (proc_at k j) \/
  status (proc_at k' j) = PROC_RUNNABLE.
Proof.
  unfold yield_retry. destruct (status_is _ _); [|intros [= <-]; now left].
  unfold proc_try_syscall. destruct (Syscall.type _); [| |discriminate].
  - intros [= <-]. unfold proc_try_recv.
    destruct (bool_decide _); [now left|]. cbv zeta.
    set (k1 := set_user_syscall _ k).
    set (k2 := proc_set_runnable _ k1).
    destruct (proc_set_runnable_status_cases
                (Syscall.sender (syscall (proc_at k2 i))) k2 j) as [Hs|Hs];
      [|now right].
    rewrite Hs. subst k2.
    destruct (proc_set_runnable_status_cases (pid (proc_at k1 i)) k1 j) as [Hs'|Hs'];
      [left | right]; exact Hs'.
  - intros Hsend. left.
    exact (proc_try_send_keeps status _ _ _ (fun _ _ => eq_refl) Hsend j).
Qed.

Lemma yield_retry_woken i j k k' :
  yield_retry j k = Ok k' -> woken i k -> woken i k'.
Proof.
  intros Hr [Hw Hs]. split.
  - rewrite (yield_retry_keeps wakeup_time _ _ _ wakeup_time_ignores_scheduling
               (fun _ _ => eq_refl) Hr i). exact Hw.
  - destruct (yield_retry_status_cases _ _ _ i Hr) as [Hc|Hc]; [|exact Hc].
    now rewrite Hc.
Qed.

Lemma yield_wake_woken now i j k : woken i k -> woken i (yield_wake now j k).
Proof.
  intros [Hw Hs]. destruct (decide (j = i)) as [->|Hne].
  - unfold yield_wake, status_is.
    rewrite bool_decide_eq_false_2 by (rewrite Hs; discriminate). now split.
  - unfold woken. now rewrite yield_wake_other.
Qed.

Lemma yield_scan_step_woken now i j k sel k' sel' :
  yield_scan_step now j (k, sel) = Ok (k', sel') -> woken i k -> woken i k'.
Proof.
  unfold yield_scan_step. intros Hstep Hw.
  destruct (yield_retry j (yield_wake now j k)) as [k1|] eqn:Hr; [|discriminate].
  revert Hstep. kbind.
  assert (Hw1 : woken i k1)
    by (eapply yield_retry_woken; [exact Hr | now apply yield_wake_woken]).
  destruct (still_sleeping _ _); [now intros [= <- <-]|].
  destruct (_ && _); now intros [= <- <-].
Qed.

Lemma yield_scan_step_length now j k sel k' sel' :
  yield_scan_step now j (k, sel) = Ok (k', sel') ->
  length (proc_set k') = length (proc_set k).
Proof.
  unfold yield_scan_step. intros Hstep.
  destruct (yield_retry j (yield_wake now j k)) as [k1|] eqn:Hr; [|discriminate].
  revert Hstep. kbind.
  assert (Hl : length (proc_set k1) = length (proc_set k))
    by (rewrite (yield_retry_length _ _ _ Hr); apply yield_wake_length).
  destruct (still_sleeping _ _); [now intros [= <- <-]|].
  destruct (_ && _); now intros [= <- <-].
Qed.

(** The iteration that finds a PCB blocked with its wake-up time reached
    wakes it up. *)
Lemma yield_scan_step_wakes now i k sel k' sel' :
  (i < length (proc_set k))%nat ->
  status (proc_at k i) = PROC_PENDING_SYSCALL ->
  0 < wakeup_time (proc_at k i) <= now ->
  yield_scan_step now i (k, sel) = Ok (k', sel') -> woken i k'.
Proof.
  intros Hi Hst Hw. unfold yield_scan_step.
  assert (Hwake : woken i (yield_wake now i k)).
  { unfold yield_wake, status_is. rewrite bool_decide_eq_true_2 by exact Hst.
    replace (0 <? wakeup_time (proc_at k i)) with true
      by (symmetry; apply Z.ltb_lt; lia).
    replace (wakeup_time (proc_at k i) <=? now) with true
      by (symmetry; apply Z.leb_le; lia).
    cbv beta iota delta [andb]. unfold woken.
    rewrite !proc_at_upd_eq by (rewrite ?upd_proc_length; exact Hi).
    now split. }
  destruct (yield_retry i (yield_wake now i k)) as [k1|] eqn:Hr; [|discriminate].
  kbind.
  assert (Hw1 : woken i k1) by (eapply yield_retry_woken; [exact Hr | exact Hwake]).
  destruct (still_sleeping _ _); [now intros [= <- <-]|].
  destruct (_ && _); now intros [= <- <-].
Qed.

Lemma yield_select_woken now i k k' next :
  yield_select now k = Ok (k', next) -> woken i k -> woken i k'.
Proof.
  unfold yield_select. intros Hsel Hw.
  destruct (for_slots _ _ _ _) as [[k1 sel]|] eqn:Hloop; [|discriminate].
  revert Hsel. kbind.
  assert (Hw1 : woken i k1).
  { apply (for_slots_inv (fun a => woken i (fst a)) (yield_scan_step now)
             1 MAX_NPROCESS (k, mkSelection MAX_NPROCESS MLFQ_LEVELS) (k1, sel));
      [|exact Hw|exact Hloop].
    intros j [kb sb] [kb' sb'] _ Hb Hs. simpl in *.
    exact (yield_scan_step_woken _ _ _ _ _ _ _ Hs Hb). }
  destruct (bool_decide _); [|now intros [= <- <-]].
  intros Hfb.
  apply (yield_fallback_inv (woken i) now 1 MAX_NPROCESS k1 k' next); [|exact Hw1|exact Hfb].
  intros j b b' Hb Hr. exact (yield_retry_woken _ _ _ _ Hr Hb).
Qed.

End Sleep.

Lemma dispatch_stamp_keeps_status next k : keeps status k (dispatch_stamp next k).
Proof.
  unfold dispatch_stamp.
  destruct (first_schedule_time (proc_at k next) =? 0); kstep.
  - eapply keeps_trans; [|now apply keeps_upd].
    eapply keeps_table_r; [apply proc_set_set_clock_reads|].
    eapply keeps_trans; [|now apply keeps_upd].
    apply keeps_same_table, proc_set_set_clock_reads.
  - eapply keeps_trans; [|now apply keeps_upd].
    apply keeps_same_table, proc_set_set_clock_reads.
Qed.

(** Step over an update that does not write the field [X]. *)
Ltac upd_keeps X :=
  match goal with
  | |- context [X (proc_at (upd_proc ?i ?f ?k) ?j)] =>
      rewrite (keeps_upd X i f k (fun _ => eq_refl) j)
  end.

Lemma upd_status_cases i s k j :
  status (proc_at (upd_proc i (set_status s) k) j) = status (proc_at k j) \/
  status (proc_at (upd_proc i (set_status s) k) j) = s.
Proof.
  destruct (decide (i = j)) as [->|Hne].
  - destruct (decide (j < length (proc_set k))%nat) as [Hj|Hj].
    + right. now rewrite proc_at_upd_eq.
    + left. now rewrite proc_at_upd_oob by lia.
  - left. now rewrite proc_at_upd_ne.
Qed.

Lemma proc_set_running_status_cases p k j :
  status (proc_at (proc_set_running p k) j) = status (proc_at k j) \/
  status (proc_at (proc_set_running p k) j) = PROC_RUNNING.
Proof.
  unfold proc_set_running. destruct (find_slot _ k) as [i|]; [|now left].
  destruct (first_schedule_time (proc_at k i) =? 0); kstep;
    match goal with
    | |- context [upd_proc i (set_status PROC_RUNNING) ?k3] =>
        destruct (upd_status_cases i PROC_RUNNING k3 j) as [Hc|Hc];
        [left; rewrite Hc | right; exact Hc]
    end.
  - now repeat first [upd_keeps status | progress autorewrite with frame].
  - now repeat first [upd_keeps status | progress autorewrite with frame].
Qed.

Section SleepTheorem.
Context `{Platform}.

Lemma dispatch_prime_keeps_status k : keeps status k (dispatch_prime k).
Proof.
  unfold dispatch_prime. destruct (bool_decide _); [|apply keeps_refl]. cbv zeta.
  eapply keeps_trans; [|now apply keeps_upd].
  eapply keeps_trans; [|now apply keeps_upd].
  now apply keeps_upd.
Qed.

Lemma yield_dispatch_status_cases next k j :
  status (proc_at (yield_dispatch next k) j) = status (proc_at k j) \/
  status (proc_at (yield_dispatch next k) j) = PROC_RUNNING.
Proof.
  unfold yield_dispatch.
  destruct (next <? MAX_NPROCESS)%nat; [|left; reflexivity]. cbv zeta.
  rewrite proc_at_emit.
  set (k7 := dispatch_prime _).
  assert (Hk7 : status (proc_at k7 j) = status (proc_at k j)).
  { subst k7. rewrite dispatch_prime_keeps_status. autorewrite with frame.
    rewrite (proc_at_same_table _ _ j (proc_set_dispatch_mode next _)).
    apply dispatch_stamp_keeps_status. }
  rewrite <- Hk7. apply proc_set_running_status_cases.
Qed.

Lemma yield_scan_start_keeps {A} (X : process -> A) k :
  ignores_scheduling X -> keeps X k (yield_scan_start k).
Proof.
  intros HX. unfold yield_scan_start.
  eapply keeps_table_r; [reflexivity|]. now apply yield_prologue_keeps.
Qed.

Lemma yield_scan_start_length k :
  length (proc_set (yield_scan_start k)) = length (proc_set k).
Proof. unfold yield_scan_start. simpl. apply yield_prologue_length. Qed.

Lemma proc_yield_unfold k :
  proc_yield k =
    (r <- yield_select (yield_current_time k) (yield_scan_start k) ;;
     Ok (yield_dispatch (snd r) (fst r))).
Proof.
  unfold proc_yield, yield_current_time, yield_scan_start, mtime_get.
  cbv beta iota zeta. simpl snd.
  destruct (yield_select _ _) as [[k4 next]|]; reflexivity.
Qed.

Lemma for_slots_length now i n k sel k' sel' :
  for_slots (yield_scan_step now) i n (k, sel) = Ok (k', sel') ->
  length (proc_set k') = length (proc_set k).
Proof.
  intros Hloop.
  apply (for_slots_inv (fun a => length (proc_set (fst a)) = length (proc_set k))
           (yield_scan_step now) i n (k, sel) (k', sel')); [|reflexivity|exact Hloop].
  intros j [kb sb] [kb' sb'] _ Hb Hs. simpl in *.
  now rewrite (yield_scan_step_length _ _ _ _ _ _ Hs).
Qed.

(** A sleeper that is made RUNNABLE early, on a table written down
    directly.  A sleeping PCB is PENDING_SYSCALL, and every yield retries
    the syscall record of such a PCB.  Process 5 went to sleep with a
    completed RECV in its record: the yield at time 7000, before the
    wake-up time 8000, runs [proc_try_recv] on it and makes it RUNNABLE (it
    is skipped, the core idles).  The yield at time 9000, the first one
    past the wake-up time, finds it RUNNABLE, not PENDING_SYSCALL: it
    dispatches the process and does not clear [wakeup_time]. *)
Lemma wakeup_time_not_always_cleared :
  wakeup_time (proc_at asleep 1) = 8000 /\
  status (proc_at asleep 1) = PROC_PENDING_SYSCALL /\
  yield_current_time (H := sample_platform) asleep = 7000 /\
  status (proc_at (after_yield (H := sample_platform) asleep) 1) = PROC_RUNNABLE /\
  curr_proc_idx (after_yield (H := sample_platform) asleep) = 0%nat /\
  yield_current_time (H := sample_platform)
    (after_yield (H := sample_platform) asleep) = 9000 /\
  match proc_yield (H := sample_platform) (after_yield (H := sample_platform) asleep) with
  | Ok k =>
      wakeup_time (proc_at k 1) = 8000 /\ status (proc_at k 1) = PROC_RUNNING /\
      curr_proc_idx k = 1%nat
  | Fatal _ => False
  end.
Proof. vm_compute. repeat split. Qed.

(** What does hold of a sleeper.  [proc_sleep(pid, u)] at time [t] gives
    the PCB it finds (the first non-UNUSED slot below [MAX_NPROCESS] with
    that pid) the wake-up time [t + u] (64-bit) and the status
    PENDING_SYSCALL.  From
    then on, in any state in which the slot still holds that wake-up time:
    a [proc_yield] whose current time is below it does not select the slot
    and leaves the wake-up time in place; and a [proc_yield] whose current
    time has reached it, and whose first loop finds the slot still
    PENDING_SYSCALL when it gets to it, clears [wakeup_time] to 0 and sets
    the status RUNNABLE, after which the same yield may dispatch the
    process (RUNNING). *)
Theorem sleep_then_wake k p u i :
  table_ok k ->
  find_slot (fun q => has_pid p q && negb (status_is PROC_UNUSED q)) k = Some i ->
  let w := u64_add (mtime_now k) (u32 u) in
  wakeup_time (proc_at (proc_sleep p u k) i) = w /\
  status (proc_at (proc_sleep p u k) i) = PROC_PENDING_SYSCALL /\
  (forall ks ks',
     wakeup_time (proc_at ks i) = w -> yield_current_time ks < w ->
     proc_yield ks = Ok ks' ->
     ((1 <= i)%nat -> curr_proc_idx ks' <> i) /\
     wakeup_time (proc_at ks' i) = w) /\
  (forall ks ki sel ks',
     table_ok ks -> (1 <= i)%nat ->
     for_slots (yield_scan_step (yield_current_time ks)) 1 (i - 1)
       (yield_scan_start ks, selection_start) = Ok (ki, sel) ->
     status (proc_at ki i) = PROC_PENDING_SYSCALL ->
     wakeup_time (proc_at ki i) = w -> 0 < w <= yield_current_time ks ->
     proc_yield ks = Ok ks' ->
     wakeup_time (proc_at ks' i) = 0 /\
     (status (proc_at ks' i) = PROC_RUNNABLE \/ status (proc_at ks' i) = PROC_RUNNING)).
Proof.
  intros Hok Hfind w.
  destruct (proc_sleep_sets p u k i Hok Hfind) as [Hw Hs].
  split; [exact Hw|]. split; [exact Hs|]. split.
  - intros ks ks' Hks Hnow. rewrite proc_yield_unfold.
    destruct (yield_select _ _) as [[k4 next]|] eqn:Hsel; [|discriminate].
    kbind. simpl fst; simpl snd. intros [= <-].
    assert (Hstart : wakeup_time (proc_at (yield_scan_start ks) i) = w).
    { rewrite (yield_scan_start_keeps wakeup_time ks wakeup_time_ignores_scheduling i).
      exact Hks. }
    assert (Hrange : 0 <= yield_current_time ks < w)
      by (split; [apply mtime_now_range | exact Hnow]).
    destruct (yield_select_sleeper _ _ _ _ _ _ Hrange Hstart Hsel) as [Hw4 Hnext].
    split.
    + intros Hi Hcur.
      destruct (curr_proc_idx_yield_dispatch next k4) as [[Hc Hlt]|Hc];
        rewrite Hc in Hcur; [|lia].
      specialize (Hnext Hcur). lia.
    + rewrite (yield_dispatch_keeps wakeup_time next k4 wakeup_time_ignores_dispatch i).
      exact Hw4.
  - intros ks ki sel ks' Hoks Hi Hprefix Hst Hwi Hdue. rewrite proc_yield_unfold.
    destruct (yield_select _ _) as [[k4 next]|] eqn:Hsel; [|discriminate].
    kbind. simpl fst; simpl snd. intros [= <-].
    assert (Hi16 : (i < MAX_NPROCESS)%nat) by (eapply find_slot_range; exact Hfind).
    assert (Hwoken : woken i k4).
    { revert Hsel. unfold yield_select.
      replace MAX_NPROCESS with ((i - 1) + S (MAX_NPROCESS - i))%nat at 1 by lia.
      rewrite for_slots_app. fold selection_start. rewrite Hprefix. kbind.
      replace (1 + (i - 1))%nat with i by lia.
      cbn [for_slots].
      destruct (yield_scan_step _ i (ki, sel)) as [[k1 sel1]|] eqn:Hstep;
        [|discriminate].
      kbind.
      assert (Hlen : (i < length (proc_set ki))%nat).
      { rewrite (for_slots_length _ _ _ _ _ _ _ Hprefix), yield_scan_start_length.
        rewrite Hoks. lia. }
      assert (Hk1 : woken i k1).
      { apply (yield_scan_step_wakes (yield_current_time ks) i ki sel k1 sel1 Hlen Hst); [|exact Hstep].
        rewrite Hwi. exact Hdue. }
      destruct (for_slots _ (S i) _ _) as [[k2 sel2]|] eqn:Hrest; [|discriminate].
      kbind.
      assert (Hk2 : woken i k2).
      { apply (for_slots_inv (fun a => woken i (fst a))
                 (yield_scan_step (yield_current_time ks))
                 (S i) (MAX_NPROCESS - i) (k1, sel1) (k2, sel2));
          [|exact Hk1|exact Hrest].
        intros j [kb sb] [kb' sb'] _ Hb Hstp. simpl in *.
        exact (yield_scan_step_woken (yield_current_time ks) i j kb sb kb' sb' Hstp Hb). }
      destruct (bool_decide _); [|now intros [= <- <-]].
      intros Hfb.
      apply (yield_fallback_inv (woken i) (yield_current_time ks) 1 MAX_NPROCESS
               k2 k4 next); [|exact Hk2|exact Hfb].
      intros j b b' Hb Hr. exact (yield_retry_woken i j b b' Hr Hb). }
    destruct Hwoken as [Hw0 Hs0]. split.
    + rewrite (yield_dispatch_keeps wakeup_time next k4 wakeup_time_ignores_dispatch i).
      exact Hw0.
    + destruct (yield_dispatch_status_cases next k4 i) as [Hc|Hc];
        [left; now rewrite Hc | right; exact Hc].
Qed.

End SleepTheorem.

Lemma after_yield_ok `{Platform} k :
  is_ok (proc_yield k) = true -> proc_yield k = Ok (after_yield k).
Proof. unfold after_yield. now destruct (proc_yield k). Qed.

Lemma sleep_then_wake_witness :
  table_ok before_plain_sleep /\
  find_slot (fun q => has_pid 5 q && negb (status_is PROC_UNUSED q))
    before_plain_sleep = Some 1%nat /\
  wakeup_time (proc_at plain_sleeper 1) = 8000 /\
  status (proc_at plain_sleeper 1) = PROC_PENDING_SYSCALL /\
  yield_current_time (H := sample_platform) plain_sleeper = 7000 /\
  curr_proc_idx (after_yield (H := sample_platform) plain_sleeper) <> 1%nat /\
  wakeup_time (proc_at (after_yield (H := sample_platform) plain_sleeper) 1) = 8000 /\
  yield_current_time (H := sample_platform)
    (after_yield (H := sample_platform) plain_sleeper) = 9000 /\
  wakeup_time (proc_at (after_yield (H := sample_platform)
    (after_yield (H := sample_platform) plain_sleeper)) 1) = 0 /\
  (status (proc_at (after_yield (H := sample_platform)
     (after_yield (H := sample_platform) plain_sleeper)) 1) = PROC_RUNNABLE \/
   status (proc_at (after_yield (H := sample_platform)
     (after_yield (H := sample_platform) plain_sleeper)) 1) = PROC_RUNNING).
Proof.
  assert (Hok : table_ok before_plain_sleep) by (vm_compute; reflexivity).
  assert (Hfind : find_slot (fun q => has_pid 5 q && negb (status_is PROC_UNUSED q))
            before_plain_sleep = Some 1%nat) by (vm_compute; reflexivity).
  destruct (sleep_then_wake (H := sample_platform) before_plain_sleep 5 3000 1%nat
              Hok Hfind) as (Hw & Hs & Hbefore & Hafter).
  assert (Hw8 : u64_add (mtime_now before_plain_sleep) (u32 3000) = 8000)
    by (vm_compute; reflexivity).
  rewrite Hw8 in Hw, Hbefore, Hafter.
  assert (Hy1 : proc_yield (H := sample_platform) plain_sleeper
                = Ok (after_yield (H := sample_platform) plain_sleeper))
    by (apply after_yield_ok; vm_compute; reflexivity).
  assert (Hy2 : proc_yield (H := sample_platform)
                  (after_yield (H := sample_platform) plain_sleeper)
                = Ok (after_yield (H := sample_platform)
                        (after_yield (H := sample_platform) plain_sleeper)))
    by (apply after_yield_ok; vm_compute; reflexivity).
  assert (Ht1 : yield_current_time (H := sample_platform) plain_sleeper = 7000)
    by (vm_compute; reflexivity).
  assert (Ht2 : yield_current_time (H := sample_platform)
                  (after_yield (H := sample_platform) plain_sleeper) = 9000)
    by (vm_compute; reflexivity).
  destruct (Hbefore plain_sleeper _ Hw ltac:(rewrite Ht1; lia) Hy1) as [Hnot Hkept].
  split; [exact Hok|]. split; [exact Hfind|]. split; [exact Hw|]. split; [exact Hs|].
  split; [exact Ht1|]. split; [apply Hnot; lia|]. split; [exact Hkept|].
  split; [exact Ht2|].
  apply (Hafter (after_yield (H := sample_platform) plain_sleeper)
           (yield_scan_start (H := sample_platform)
              (after_yield (H := sample_platform) plain_sleeper))
           selection_start).
  - vm_compute. reflexivity.
  - lia.
  - reflexivity.
  - vm_compute. reflexivity.
  - vm_compute. reflexivity.
  - rewrite Ht2. lia.
  - exact Hy2.
Defined.

(** ** Globals the table code does not write *)

Lemma cores_table_blind : table_blind cores.
Proof. now repeat split. Qed.

Lemma blind_upd {A} (F : kernel -> A) i f k :
  table_blind F -> F (upd_proc i f k) = F k.
Proof. intros (Ht & _). unfold upd_proc. apply Ht. Qed.

Lemma blind_foldl {A B} (F : kernel -> A) (step : kernel -> B -> kernel) l k :
  (forall k b, F (step k b) = F k) -> F (foldl step k l) = F k.
Proof.
  intros Hstep. revert k. induction l as [|b l IH]; intros k; simpl; [reflexivity|].
  now rewrite IH, Hstep.
Qed.

Lemma blind_mtime_get {A} (F : kernel -> A) k :
  table_blind F -> F (snd (mtime_get k)) = F k.
Proof. intros (_ & Hc & _). unfold mtime_get. simpl. apply Hc. Qed.

Lemma blind_account_running {A} (F : kernel -> A) i k :
  table_blind F -> F (account_running i k) = F k.
Proof.
  intros HF. unfold account_running. destruct (_ && _); [|reflexivity].
  kstep. unfold mlfq_update_level. rewrite !blind_upd by exact HF.
  apply HF.
Qed.

Lemma blind_proc_set_runnable {A} (F : kernel -> A) p k :
  table_blind F -> F (proc_set_runnable p k) = F k.
Proof.
  intros HF. unfold proc_set_runnable. destruct (find_slot _ k); [|reflexivity].
  now rewrite blind_upd, blind_account_running.
Qed.

Lemma blind_proc_set_pending {A} (F : kernel -> A) p k :
  table_blind F -> F (proc_set_pending p k) = F k.
Proof.
  intros HF. unfold proc_set_pending. destruct (find_slot _ k); [|reflexivity].
  now rewrite blind_upd, blind_account_running.
Qed.

Lemma blind_proc_set_running {A} (F : kernel -> A) p k :
  table_blind F -> F (proc_set_running p k) = F k.
Proof.
  intros HF. unfold proc_set_running. destruct (find_slot _ k) as [i|]; [|reflexivity].
  destruct (first_schedule_time (proc_at k i) =? 0); kstep;
    rewrite !blind_upd by exact HF.
  - pose proof HF as (_ & Hc & _). rewrite Hc, blind_upd by exact HF. apply Hc.
  - apply HF.
Qed.

Lemma blind_yield_wake {A} (F : kernel -> A) now i k :
  table_blind F -> F (yield_wake now i k) = F k.
Proof.
  intros HF. unfold yield_wake. destruct (_ && _); [|reflexivity].
  now rewrite !blind_upd.
Qed.

Section Blind.
Context `{Platform}.

Lemma blind_after_boost {A} (F : kernel -> A) k :
  table_blind F -> F (after_boost k) = F k.
Proof.
  intros HF. unfold after_boost. destruct (negb _).
  - destruct (find_slot _ _); [rewrite blind_upd by exact HF|];
      now apply blind_mtime_get.
  - now apply blind_mtime_get.
Qed.

Lemma blind_mlfq_reset_level {A} (F : kernel -> A) k :
  table_blind F -> F (mlfq_reset_level k) = F k.
Proof.
  intros HF. rewrite mlfq_reset_level_unfold.
  destruct (_ <=? _); [|now apply blind_after_boost].
  destruct HF as (Ht & Hc & Hm). rewrite Hm.
  rewrite blind_foldl; [apply blind_after_boost; now repeat split|].
  intros k0 i. destruct (negb _); [|reflexivity].
  apply blind_upd. now repeat split.
Qed.

Lemma blind_yield_prologue {A} (F : kernel -> A) k :
  table_blind F -> F (yield_prologue k) = F k.
Proof.
  intros HF. unfold yield_prologue. rewrite blind_mlfq_reset_level by exact HF.
  destruct (bool_decide _); [now apply blind_proc_set_runnable|reflexivity].
Qed.

Lemma blind_yield_scan_start {A} (F : kernel -> A) k :
  table_blind F -> F (yield_scan_start k) = F k.
Proof.
  intros HF. unfold yield_scan_start.
  now rewrite blind_mtime_get, blind_yield_prologue.
Qed.

Lemma blind_proc_try_recv {A} (F : kernel -> A) r k :
  table_blind F -> user_blind F -> F (proc_try_recv r k) = F k.
Proof.
  intros HF HU. unfold proc_try_recv. destruct (bool_decide _); [reflexivity|].
  cbv zeta. rewrite !blind_proc_set_runnable by exact HF. apply HU.
Qed.

Lemma blind_proc_try_send {A} (F : kernel -> A) s k k' :
  table_blind F -> proc_try_send s k = Ok k' -> F k' = F k.
Proof.
  intros HF. unfold proc_try_send.
  destruct (find_slot _ k) as [i|]; [|discriminate].
  destruct (negb _); [now intros [= <-]|].
  destruct (negb _); [now intros [= <-]|].
  intros [= <-]. now rewrite !blind_upd.
Qed.

Lemma blind_yield_retry {A} (F : kernel -> A) i k k' :
  table_blind F -> user_blind F -> yield_retry i k = Ok k' -> F k' = F k.
Proof.
  intros HF HU. unfold yield_retry. destruct (status_is _ _); [|now intros [= <-]].
  unfold proc_try_syscall. destruct (Syscall.type _); [| |discriminate].
  - intros [= <-]. now apply blind_proc_try_recv.
  - now apply blind_proc_try_send.
Qed.

Lemma blind_yield_scan_step {A} (F : kernel -> A) now j k sel k' sel' :
  table_blind F -> user_blind F ->
  yield_scan_step now j (k, sel) = Ok (k', sel') -> F k' = F k.
Proof.
  intros HF HU. unfold yield_scan_step.
  destruct (yield_retry j (yield_wake now j k)) as [k1|] eqn:Hr; [|discriminate].
  kbind.
  assert (Hk1 : F k1 = F k)
    by (rewrite (blind_yield_retry F _ _ _ HF HU Hr); now apply blind_yield_wake).
  destruct (still_sleeping _ _); [now intros [= <- <-]|].
  destruct (_ && _); now intros [= <- <-].
Qed.

Lemma blind_for_slots {A} (F : kernel -> A) now i n k sel k' sel' :
  table_blind F -> user_blind F ->
  for_slots (yield_scan_step now) i n (k, sel) = Ok (k', sel') -> F k' = F k.
Proof.
  intros HF HU Hloop.
  apply (for_slots_inv (fun a => F (fst a) = F k) (yield_scan_step now)
           i n (k, sel) (k', sel')); [|reflexivity|exact Hloop].
  intros j [kb sb] [kb' sb'] _ Hb Hs. simpl in *.
  now rewrite (blind_yield_scan_step F _ _ _ _ _ _ HF HU Hs).
Qed.

End Blind.

(** ** The choice of the first loop (C2) *)

Section Selection.
Context `{Platform}.

Lemma yield_scan_step_selection now j k sel k' sel' :
  yield_scan_step now j (k, sel) = Ok (k', sel') ->
  sel' = if eligible now (proc_at k' j) && (queue_level (proc_at k' j) <? min_level sel)
         then mkSelection j (queue_level (proc_at k' j)) else sel.
Proof.
  unfold yield_scan_step, eligible.
  destruct (yield_retry j (yield_wake now j k)) as [k1|]; [|discriminate].
  kbind.
  destruct (still_sleeping now (proc_at k1 j)) eqn:Hsl;
    destruct (ready_or_runnable (proc_at k1 j)) eqn:Hrr;
    destruct (queue_level (proc_at k1 j) <? min_level sel) eqn:Hlt;
    cbn [andb negb]; intros [= <- <-]; rewrite ?Hsl, ?Hrr, ?Hlt; reflexivity.
Qed.

Lemma scan_prefix_S now k j :
  scan_prefix now k (S j) =
    (a <- scan_prefix now k j ;; yield_scan_step now (S j) a).
Proof.
  unfold scan_prefix. replace (S j) with (j + 1)%nat at 1 by lia.
  rewrite for_slots_app. destruct (for_slots _ 1 j _) as [a|]; [|reflexivity].
  kbind. cbn [for_slots]. unfold bind.
  replace (1 + j)%nat with (S j) by lia. now destruct (yield_scan_step _ _ _).
Qed.

Lemma scan_prefix_inv now k j kj sel :
  scan_prefix now k j = Ok (kj, sel) -> scan_inv now k j sel.
Proof.
  revert kj sel. induction j as [|j IH]; intros kj sel Hrun.
  - injection Hrun as <- <-. split; [left; now split|]. intros j' q Hj'. lia.
  - rewrite scan_prefix_S in Hrun.
    destruct (scan_prefix now k j) as [[k0 sel0]|] eqn:Hpre; [|discriminate].
    revert Hrun. kbind. intros Hstep.
    destruct (IH _ _ eq_refl) as [Hsel Hmin].
    assert (Hseen : seen now k (S j) = Some (proc_at kj (S j))).
    { unfold seen. rewrite scan_prefix_S, Hpre. kbind. now rewrite Hstep. }
    assert (Hle : min_level sel0 <= MLFQ_LEVELS)
      by (destruct Hsel as [[_ ->]|(_ & Hlt & _)]; lia).
    rewrite (yield_scan_step_selection _ _ _ _ _ _ Hstep).
    destruct (eligible now (proc_at kj (S j))) eqn:Hel; cbn [andb].
    + destruct (Z.ltb_spec (queue_level (proc_at kj (S j))) (min_level sel0)) as [Hlt|Hge].
      * split.
        -- right. cbn [next_idx min_level]. split; [lia|]. split; [lia|].
           exists (proc_at kj (S j)). now repeat split.
        -- cbn [next_idx min_level]. intros j' q Hj' Hq Helq.
           destruct (decide (j' = S j)) as [->|Hne].
           ++ rewrite Hseen in Hq. injection Hq as <-. split; [lia|]. lia.
           ++ destruct (Hmin j' q ltac:(lia) Hq Helq) as [Hm _]. split; lia.
      * split.
        -- destruct Hsel as [Hs|(Hr & Hlt & Hp)]; [now left|].
           right. split; [lia|]. now split.
        -- intros j' q Hj' Hq Helq.
           destruct (decide (j' = S j)) as [->|Hne].
           ++ rewrite Hseen in Hq. injection Hq as <-. split; [lia|].
              intros _ Hlt. destruct Hsel as [[_ Hs]|(Hr & _)]; lia.
           ++ apply Hmin; [lia | exact Hq | exact Helq].
    + split.
      * destruct Hsel as [Hs|(Hr & Hlt & Hp)]; [now left|].
        right. split; [lia|]. now split.
      * intros j' q Hj' Hq Helq.
        destruct (decide (j' = S j)) as [->|Hne].
        -- rewrite Hseen in Hq. injection Hq as <-. congruence.
        -- apply Hmin; [lia | exact Hq | exact Helq].
Qed.

Lemma curr_proc_idx_dispatched next k :
  (next < MAX_NPROCESS)%nat ->
  (core_in_kernel k < length (core_to_proc_idx k))%nat ->
  curr_proc_idx (yield_dispatch next k) = next.
Proof.
  intros Hn Hc. unfold yield_dispatch.
  replace (next <? MAX_NPROCESS)%nat with true by (symmetry; now apply Nat.ltb_lt).
  cbv zeta.
  set (k5 := set_curr_proc_idx next _).
  set (k7 := dispatch_prime _).
  assert (Hcores : cores (proc_set_running (curr_pid k7) k7) = cores k5).
  { rewrite (blind_proc_set_running cores _ _ cores_table_blind). subst k7.
    unfold cores. now destruct (dispatch_prime_cores
      (emit EvMmuFlushCache (emit (EvMmuSwitch (curr_pid k5)) k5))) as [-> ->]. }
  unfold cores in Hcores. injection Hcores as Hcore Hmap.
  unfold curr_proc_idx at 1.
  change (core_to_proc_idx (emit ?e ?x)) with (core_to_proc_idx x).
  change (core_in_kernel (emit ?e ?x)) with (core_in_kernel x).
  rewrite Hcore, Hmap. subst k5.
  assert (Hstamp : cores (dispatch_mode next (dispatch_stamp next k)) = cores k).
  { unfold dispatch_mode, dispatch_stamp.
    destruct (_ <=? _); destruct (first_schedule_time _ =? 0); reflexivity. }
  unfold cores in Hstamp. injection Hstamp as Hcore' Hmap'.
  unfold set_curr_proc_idx. cbn [core_to_proc_idx core_in_kernel set_core_to_proc_idx].
  rewrite Hcore', Hmap'. now apply list_lookup_total_insert_eq.
Qed.

End Selection.

Section SelectionTheorem.
Context `{Platform}.

Lemma yield_select_unfold now k :
  yield_select now k =
    (r <- scan_prefix now k MAX_NPROCESS ;;
     if bool_decide (next_idx (snd r) = MAX_NPROCESS)
     then yield_fallback now 1 MAX_NPROCESS (fst r)
     else Ok (fst r, next_idx (snd r))).
Proof.
  unfold yield_select, scan_prefix, selection_start.
  now destruct (for_slots _ _ _ _) as [[k1 sel]|].
Qed.

(** The scan can unblock a process it has already passed, here on a table
    written down directly, across three levels.  The sender in slot 1
    (level 0) is blocked when the loop visits it; the visit of the
    receiver in slot 2 (level 3) completes the rendez-vous and makes both
    RUNNABLE.  When the loop selects slot 2, slot 1 is RUNNABLE, awake and
    on a lower level, and has the lower index; it is not reconsidered, and
    the process of level 3 is dispatched. *)
Lemma dispatch_can_skip_lower_level :
  match scan_prefix (H := sample_platform)
          (yield_current_time (H := sample_platform) rendezvous_across_levels)
          (yield_scan_start (H := sample_platform) rendezvous_across_levels) 2 with
  | Ok (k2, sel) =>
      next_idx sel = 2%nat /\ min_level sel = 3 /\
      status (proc_at k2 1) = PROC_RUNNABLE /\ queue_level (proc_at k2 1) = 0 /\
      wakeup_time (proc_at k2 1) = 0
  | Fatal _ => False
  end /\
  match proc_yield (H := sample_platform) rendezvous_across_levels with
  | Ok k =>
      curr_proc_idx k = 2%nat /\
      status (proc_at k 2) = PROC_RUNNING /\ queue_level (proc_at k 2) = 3 /\
      status (proc_at k 1) = PROC_RUNNABLE /\ queue_level (proc_at k 1) = 0 /\
      wakeup_time (proc_at k 1) = 0
  | Fatal _ => False
  end.
Proof. vm_compute. repeat split. Qed.



End SelectionTheorem.


(** ** Building blocks of the rendez-vous (C8) *)

Lemma status_ignores_accounting : ignores_accounting status.
Proof. now repeat split. Qed.

Lemma mlfq_update_pcb_acct {A} (X : process -> A) r q :
  ignores_accounting X -> X (mlfq_update_pcb r q) = X q.
Proof.
  intros (Hc & Hl & Ht). unfold mlfq_update_pcb.
  destruct (_ <=? _); [reflexivity|]. cbv zeta.
  destruct (_ <=? _); [now rewrite Ht, Hl, Ht | apply Ht].
Qed.

Lemma account_running_keeps_acct {A} (X : process -> A) k i :
  ignores_accounting X -> keeps X k (account_running i k).
Proof.
  intros HX. unfold account_running. destruct (_ && _); [|apply keeps_refl].
  kstep. unfold mlfq_update_level.
  eapply keeps_trans; [|apply keeps_upd].
  - apply (keeps_upd X i _ (set_clock_reads (S (clock_reads k)) k)).
    intros q. apply HX.
  - intros q. now apply mlfq_update_pcb_acct.
Qed.

Lemma ipc_frame_refl k : ipc_frame k k.
Proof. repeat split; apply keeps_refl. Qed.

Lemma ipc_frame_trans k1 k2 k3 :
  ipc_frame k1 k2 -> ipc_frame k2 k3 -> ipc_frame k1 k3.
Proof.
  intros (Hl & Hp & Hs & Hw & Hu) (Hl' & Hp' & Hs' & Hw' & Hu').
  split; [congruence|].
  split; [eapply keeps_trans; eassumption|].
  split; [eapply keeps_trans; eassumption|].
  split; [eapply keeps_trans; eassumption|congruence].
Qed.

Lemma ipc_frame_upd i f k :
  (forall q, pid (f q) = pid q) -> (forall q, syscall (f q) = syscall q) ->
  (forall q, wakeup_time (f q) = wakeup_time q) ->
  ipc_frame k (upd_proc i f k).
Proof.
  intros Hp Hs Hw. split; [apply upd_proc_length|].
  repeat split; try (now apply keeps_upd).
Qed.

Lemma ipc_frame_same k k' :
  proc_set k' = proc_set k -> user_syscall k' = user_syscall k -> ipc_frame k k'.
Proof.
  intros Ht Hu. split; [now rewrite Ht|].
  repeat split; try (now apply keeps_same_table). exact Hu.
Qed.

Lemma account_running_frame i k :
  ipc_frame k (account_running i k) /\ keeps status k (account_running i k).
Proof.
  split; [split; [apply account_running_length|]|].
  - split; [apply account_running_keeps, pid_ignores_scheduling|].
    split; [apply account_running_keeps, syscall_ignores_scheduling|].
    split; [apply account_running_keeps, wakeup_time_ignores_scheduling|].
    unfold account_running. destruct (_ && _); [|reflexivity]. now kstep.
  - apply account_running_keeps_acct, status_ignores_accounting.
Qed.

(** Setting a status by pid, when the search finds slot [i]. *)
Lemma set_status_by_pid_frame st i k :
  table_ok k -> (i < MAX_NPROCESS)%nat ->
  ipc_frame k (upd_proc i (set_status st) (account_running i k)) /\
  status_to st i k (upd_proc i (set_status st) (account_running i k)).
Proof.
  intros Hok Hi. destruct (account_running_frame i k) as [Hf Hs]. split.
  - eapply ipc_frame_trans; [exact Hf|]. now apply ipc_frame_upd.
  - intros j. destruct (decide (j = i)) as [->|Hne].
    + rewrite proc_at_upd_eq; [reflexivity|].
      rewrite account_running_length, Hok. unfold MAX_NPROCESS in *. lia.
    + rewrite proc_at_upd_ne by congruence. apply Hs.
Qed.

Lemma proc_set_runnable_effect p k i :
  table_ok k -> find_slot (has_pid p) k = Some i ->
  ipc_frame k (proc_set_runnable p k) /\
  status_to PROC_RUNNABLE i k (proc_set_runnable p k).
Proof.
  intros Hok Hfind. unfold proc_set_runnable. rewrite Hfind.
  apply set_status_by_pid_frame; [exact Hok|]. eapply find_slot_range; exact Hfind.
Qed.

Lemma proc_set_pending_effect p k i :
  table_ok k -> find_slot (has_pid p) k = Some i ->
  ipc_frame k (proc_set_pending p k) /\
  status_to PROC_PENDING_SYSCALL i k (proc_set_pending p k).
Proof.
  intros Hok Hfind. unfold proc_set_pending. rewrite Hfind.
  apply set_status_by_pid_frame; [exact Hok|]. eapply find_slot_range; exact Hfind.
Qed.

Lemma proc_set_running_effect p k i :
  table_ok k -> find_slot (has_pid p) k = Some i ->
  ipc_frame k (proc_set_running p k) /\
  status_to PROC_RUNNING i k (proc_set_running p k).
Proof.
  intros Hok Hfind.
  assert (Hi : (i < length (proc_set k))%nat) by (eapply find_slot_in_table; eassumption).
  split.
  - split; [apply proc_set_running_length|].
    split; [apply proc_set_running_keeps; now repeat split|].
    split; [apply proc_set_running_keeps; now repeat split|].
    split; [apply proc_set_running_keeps; now repeat split|].
    unfold proc_set_running. rewrite Hfind.
    now destruct (first_schedule_time (proc_at k i) =? 0); kstep.
  - intros j. unfold proc_set_running. rewrite Hfind.
    destruct (decide (j = i)) as [->|Hne].
    + destruct (first_schedule_time (proc_at k i) =? 0); kstep;
        (rewrite proc_at_upd_eq; [reflexivity|]);
        repeat (rewrite ?upd_proc_length; autorewrite with frame); exact Hi.
    + destruct (first_schedule_time (proc_at k i) =? 0); kstep;
        repeat first [rewrite proc_at_upd_ne by congruence
                     | progress autorewrite with frame]; reflexivity.
Qed.

Lemma set_status_by_pid_missing p k :
  find_slot (has_pid p) k = None ->
  proc_set_runnable p k = k /\ proc_set_running p k = k /\ proc_set_pending p k = k.
Proof.
  intros Hfind. unfold proc_set_runnable, proc_set_running, proc_set_pending.
  now rewrite Hfind.
Qed.

Section Rendezvous.
Context `{Platform} (rv : rendezvous) (Hrv : rv_ok rv).

Lemma base_find_s k : rv_base rv k -> find_slot (has_pid (rv_ps rv)) k = Some (rv_s rv).
Proof.
  intros (Hok & Hps & Hpr & Hus & Hur & _). destruct Hrv as (Hs & _).
  apply scan_from_first; [lia | unfold has_pid; fold (proc_at k (rv_s rv));
    rewrite Hps; apply Z.eqb_refl |].
  intros m Hm. unfold has_pid. fold (proc_at k m).
  apply Z.eqb_neq. intros Heq. apply Hus in Heq; lia.
Qed.

Lemma base_find_r k : rv_base rv k -> find_slot (has_pid (rv_pr rv)) k = Some (rv_r rv).
Proof.
  intros (Hok & Hps & Hpr & Hus & Hur & _). destruct Hrv as (_ & Hr & _).
  apply scan_from_first; [lia | unfold has_pid; fold (proc_at k (rv_r rv));
    rewrite Hpr; apply Z.eqb_refl |].
  intros m Hm. unfold has_pid. fold (proc_at k m).
  apply Z.eqb_neq. intros Heq. apply Hur in Heq; lia.
Qed.

Lemma base_find_live_r k :
  rv_base rv k -> status (proc_at k (rv_r rv)) <> PROC_UNUSED ->
  find_slot (fun q => has_pid (rv_pr rv) q && negb (status_is PROC_UNUSED q)) k
    = Some (rv_r rv).
Proof.
  intros (Hok & Hps & Hpr & Hus & Hur & _) Hlive. destruct Hrv as (_ & Hr & _).
  apply scan_from_first; [lia | |].
  - fold (proc_at k (rv_r rv)). unfold has_pid, status_is.
    rewrite Hpr, Z.eqb_refl. now rewrite bool_decide_eq_false_2.
  - intros m Hm. fold (proc_at k m). unfold has_pid.
    replace (pid (proc_at k m) =? rv_pr rv) with false; [reflexivity|].
    symmetry. apply Z.eqb_neq. intros Heq. apply Hur in Heq; lia.
Qed.

Lemma find_by_pid_hits k p i :
  find_slot (has_pid p) k = Some i -> pid (proc_at k i) = p /\ (i < MAX_NPROCESS)%nat.
Proof.
  intros Hf. apply scan_from_Some in Hf as (Hr & Hp & _).
  unfold has_pid in Hp. fold (proc_at k i) in Hp. apply Z.eqb_eq in Hp.
  split; [exact Hp | lia].
Qed.

(** A step that keeps the pids and the wake-up times, and blocks no third
    process, keeps the base facts. *)
Lemma rv_base_frame k k' :
  rv_base rv k -> length (proc_set k') = length (proc_set k) ->
  keeps pid k k' -> keeps wakeup_time k k' ->
  (forall j, j <> rv_s rv -> j <> rv_r rv ->
     status (proc_at k' j) = status (proc_at k j) \/
     status (proc_at k' j) <> PROC_PENDING_SYSCALL) ->
  rv_base rv k'.
Proof.
  intros (Hok & Hps & Hpr & Hus & Hur & Hws & Hwr & Hoth) Hl Hp Hw Hst.
  unfold rv_base, table_ok. rewrite Hl, !Hp, !Hw.
  repeat split; try assumption.
  - intros j Hj. rewrite Hp. now apply Hus.
  - intros j Hj. rewrite Hp. now apply Hur.
  - intros j Hj Hjs Hjr. destruct (Hst j Hjs Hjr) as [Heq|Hne]; [|exact Hne].
    rewrite Heq. now apply Hoth.
Qed.

Lemma rv_base_ipc_frame k k' :
  rv_base rv k -> ipc_frame k k' ->
  (forall j, j <> rv_s rv -> j <> rv_r rv ->
     status (proc_at k' j) = status (proc_at k j) \/
     status (proc_at k' j) <> PROC_PENDING_SYSCALL) ->
  rv_base rv k'.
Proof.
  intros Hb (Hl & Hp & _ & Hw & _). now apply rv_base_frame.
Qed.

(** Under the base facts the wake-up test of the first loop never fires,
    and the loops retry nothing but the two processes. *)
Lemma base_wake_idle now j k :
  rv_base rv k -> (1 <= j <= MAX_NPROCESS)%nat -> yield_wake now j k = k.
Proof.
  intros (_ & _ & _ & _ & _ & Hws & Hwr & Hoth) Hj. unfold yield_wake, status_is.
  destruct (decide (j = rv_s rv)) as [->|Hjs]; [now rewrite Hws, andb_false_r|].
  destruct (decide (j = rv_r rv)) as [->|Hjr]; [now rewrite Hwr, andb_false_r|].
  now rewrite bool_decide_eq_false_2 by now apply Hoth.
Qed.

Lemma base_retry_other j k :
  rv_base rv k -> (1 <= j <= MAX_NPROCESS)%nat -> j <> rv_s rv -> j <> rv_r rv ->
  yield_retry j k = Ok k.
Proof.
  intros (_ & _ & _ & _ & _ & _ & _ & Hoth) Hj Hjs Hjr. unfold yield_retry, status_is.
  now rewrite bool_decide_eq_false_2 by now apply Hoth.
Qed.

Lemma base_retry_unblocked j k :
  status (proc_at k j) <> PROC_PENDING_SYSCALL -> yield_retry j k = Ok k.
Proof.
  intros Hst. unfold yield_retry, status_is. now rewrite bool_decide_eq_false_2.
Qed.

(** *** The sender's attempt *)

Lemma recv_posted_matches :
  Syscall.type (recv_posted rv) = SYS_RECV /\
  Syscall.status (recv_posted rv) = PENDING /\
  (Syscall.sender (recv_posted rv) = GPID_ALL \/
   Syscall.sender (recv_posted rv) = rv_ps rv).
Proof. destruct Hrv as (_ & _ & _ & _ & _ & Ht & Hs). now repeat split. Qed.

(** An attempt of the blocked sender returns and touches at most the
    syscall record of the receiver: it completes a posted RECV, and leaves
    a completed one alone. *)
Lemma try_send_effect k :
  rv_base rv k -> syscall (proc_at k (rv_s rv)) = send_posted rv ->
  status (proc_at k (rv_r rv)) <> PROC_UNUSED ->
  exists k', proc_try_send (rv_s rv) k = Ok k' /\
    length (proc_set k') = length (proc_set k) /\
    keeps pid k k' /\ keeps status k k' /\ keeps wakeup_time k k' /\
    user_syscall k' = user_syscall k /\ cores k' = cores k /\
    (forall j, j <> rv_r rv -> syscall (proc_at k' j) = syscall (proc_at k j)) /\
    (syscall (proc_at k (rv_r rv)) = recv_posted rv ->
     syscall (proc_at k' (rv_r rv)) = recv_done rv) /\
    (Syscall.status (syscall (proc_at k (rv_r rv))) = DONE ->
     syscall (proc_at k' (rv_r rv)) = syscall (proc_at k (rv_r rv))).
Proof.
  intros Hb Hsend Hlive.
  assert (Hr : (rv_r rv < length (proc_set k))%nat).
  { destruct Hb as (Hok & _). destruct Hrv as (_ & Hr & _). rewrite Hok. lia. }
  assert (Hsr : rv_s rv <> rv_r rv) by apply Hrv.
  assert (Hto : Syscall.receiver (syscall (proc_at k (rv_s rv))) = rv_pr rv).
  { rewrite Hsend. destruct Hrv as (_ & _ & _ & _ & Hrc & _). exact Hrc. }
  assert (Hps : pid (proc_at k (rv_s rv)) = rv_ps rv) by apply Hb.
  assert (Hframe : forall k', proc_try_send (rv_s rv) k = Ok k' ->
            length (proc_set k') = length (proc_set k) /\
            keeps pid k k' /\ keeps status k k' /\ keeps wakeup_time k k' /\
            user_syscall k' = user_syscall k /\ cores k' = cores k).
  { intros k' Hk'. split; [exact (proc_try_send_length _ _ _ Hk')|].
    split; [exact (proc_try_send_keeps pid _ _ _ (fun _ _ => eq_refl) Hk')|].
    split; [exact (proc_try_send_keeps status _ _ _ (fun _ _ => eq_refl) Hk')|].
    split; [exact (proc_try_send_keeps wakeup_time _ _ _ (fun _ _ => eq_refl) Hk')|].
    split; [apply (blind_proc_try_send user_syscall _ _ _) in Hk';
            [exact Hk' | now repeat split]|].
    exact (blind_proc_try_send cores _ _ _ cores_table_blind Hk'). }
  pose proof (eq_refl (proc_try_send (rv_s rv) k)) as Hrun.
  unfold proc_try_send at 2 in Hrun.
  rewrite Hto, (base_find_live_r k Hb Hlive), Hps in Hrun.
  destruct (negb (bool_decide (Syscall.type (syscall (proc_at k (rv_r rv))) = SYS_RECV)
                  && bool_decide (Syscall.status (syscall (proc_at k (rv_r rv))) = PENDING)))
    eqn:Hc1.
  { exists k. split; [exact Hrun|]. destruct (Hframe k Hrun) as (? & ? & ? & ? & ? & ?).
    repeat split; try assumption; try reflexivity.
    intros Hposted. rewrite Hposted in Hc1.
    destruct recv_posted_matches as (Ht & Hs & _). rewrite Ht, Hs in Hc1.
    rewrite !bool_decide_eq_true_2 in Hc1 by reflexivity. discriminate. }
  destruct (negb ((Syscall.sender (syscall (proc_at k (rv_r rv))) =? GPID_ALL)
                  || (Syscall.sender (syscall (proc_at k (rv_r rv))) =? rv_ps rv)))
    eqn:Hc2.
  { exists k. split; [exact Hrun|]. destruct (Hframe k Hrun) as (? & ? & ? & ? & ? & ?).
    repeat split; try assumption; try reflexivity.
    intros Hposted. rewrite Hposted in Hc2.
    destruct recv_posted_matches as (_ & _ & [Hs|Hs]); rewrite Hs in Hc2;
      rewrite Z.eqb_refl in Hc2; [discriminate|].
    now rewrite orb_true_r in Hc2. }
  eexists. split; [exact Hrun|].
  destruct (Hframe _ Hrun) as (? & ? & ? & ? & ? & ?).
  repeat split; try assumption.
  - intros j Hj. now rewrite !proc_at_upd_ne by congruence.
  - intros Hposted.
    rewrite !proc_at_upd_eq by (rewrite ?upd_proc_length; exact Hr).
    rewrite !proc_at_upd_ne by congruence.
    rewrite Hps, Hsend, Hposted. reflexivity.
  - intros Hdone. apply negb_false_iff, andb_true_iff in Hc1 as [_ Hc1].
    apply bool_decide_eq_true in Hc1. congruence.
Qed.

(** *** The receiver's attempt *)

Lemma try_recv_waits k j :
  Syscall.status (syscall (proc_at k j)) = PENDING -> proc_try_recv j k = k.
Proof.
  intros Hp. unfold proc_try_recv. now rewrite bool_decide_eq_true_2.
Qed.

(** Once the message is in its PCB, the attempt of the receiver copies
    the record to user space and unblocks both processes. *)
Lemma try_recv_delivers k :
  rv_matched rv k -> rv_delivered rv (proc_try_recv (rv_r rv) k) /\
  cores (proc_try_recv (rv_r rv) k) = cores k /\
  (forall p, p <> rv_pr rv ->
     user_syscall (proc_try_recv (rv_r rv) k) p = user_syscall k p) /\
  (forall j, j <> rv_s rv -> j <> rv_r rv ->
     status (proc_at (proc_try_recv (rv_r rv) k) j) = status (proc_at k j)).
Proof.
  intros (Hb & Hss & Hsys & Hsr & Hsyr).
  pose proof Hb as (Hok & Hps & Hpr & _).
  assert (Hne : rv_s rv <> rv_r rv) by apply Hrv.
  unfold proc_try_recv. rewrite Hsyr.
  rewrite bool_decide_eq_false_2 by discriminate. cbv zeta.
  set (k1 := set_user_syscall _ k).
  assert (Hb1 : rv_base rv k1) by exact Hb.
  assert (Hpid1 : pid (proc_at k1 (rv_r rv)) = rv_pr rv) by exact Hpr.
  rewrite Hpid1.
  destruct (proc_set_runnable_effect (rv_pr rv) k1 (rv_r rv) Hok (base_find_r k1 Hb1))
    as [Hf2 Hst2].
  set (k2 := proc_set_runnable (rv_pr rv) k1) in *.
  assert (Hb2 : rv_base rv k2).
  { apply (rv_base_ipc_frame k1 k2 Hb1 Hf2). intros j _ Hjr. left.
    rewrite Hst2. now destruct (decide (j = rv_r rv)). }
  assert (Hsy2 : syscall (proc_at k2 (rv_r rv)) = recv_done rv).
  { destruct Hf2 as (_ & _ & Hsy & _). rewrite Hsy. exact Hsyr. }
  rewrite Hsy2. change (Syscall.sender (recv_done rv)) with (rv_ps rv).
  destruct (proc_set_runnable_effect (rv_ps rv) k2 (rv_s rv) (proj1 Hb2)
              (base_find_s k2 Hb2)) as [Hf3 Hst3].
  set (k3 := proc_set_runnable (rv_ps rv) k2) in *.
  assert (Hb3 : rv_base rv k3).
  { apply (rv_base_ipc_frame k2 k3 Hb2 Hf3). intros j Hjs _. left.
    rewrite Hst3. now destruct (decide (j = rv_s rv)). }
  split; [|split; [|split]].
  - split; [exact Hb3|]. split; [|split; [|split]].
    + left. rewrite Hst3. now destruct (decide (rv_s rv = rv_s rv)).
    + left. rewrite Hst3. destruct (decide (rv_r rv = rv_s rv)); [congruence|].
      rewrite Hst2. now destruct (decide (rv_r rv = rv_r rv)).
    + destruct Hf3 as (_ & _ & Hsy & _). now rewrite Hsy.
    + destruct Hf3 as (_ & _ & _ & _ & Hu3). destruct Hf2 as (_ & _ & _ & _ & Hu2).
      rewrite Hu3, Hu2. subst k1. cbn [user_syscall set_user_syscall].
      now rewrite Hpr, Z.eqb_refl.
  - subst k3 k2. rewrite !(blind_proc_set_runnable cores) by apply cores_table_blind.
    reflexivity.
  - intros p Hp. destruct Hf3 as (_ & _ & _ & _ & Hu3).
    destruct Hf2 as (_ & _ & _ & _ & Hu2). rewrite Hu3, Hu2. subst k1.
    cbn [user_syscall set_user_syscall]. rewrite Hpr.
    now replace (p =? rv_pr rv) with false by (symmetry; now apply Z.eqb_neq).
  - intros j Hjs Hjr. rewrite Hst3. destruct (decide (j = rv_s rv)); [congruence|].
    rewrite Hst2. now destruct (decide (j = rv_r rv)).
Qed.

(** *** One retry, stage by stage *)

Lemma send_posted_type : Syscall.type (send_posted rv) = SYS_SEND.
Proof. destruct Hrv as (_ & _ & _ & Ht & _). exact Ht. Qed.

Lemma retry_sender k :
  status (proc_at k (rv_s rv)) = PROC_PENDING_SYSCALL ->
  syscall (proc_at k (rv_s rv)) = send_posted rv ->
  yield_retry (rv_s rv) k = proc_try_send (rv_s rv) k.
Proof.
  intros Hst Hsys. unfold yield_retry, status_is, proc_try_syscall.
  rewrite bool_decide_eq_true_2 by exact Hst. now rewrite Hsys, send_posted_type.
Qed.

Lemma retry_receiver k :
  status (proc_at k (rv_r rv)) = PROC_PENDING_SYSCALL ->
  Syscall.type (syscall (proc_at k (rv_r rv))) = SYS_RECV ->
  yield_retry (rv_r rv) k = Ok (proc_try_recv (rv_r rv) k).
Proof.
  intros Hst Hty. unfold yield_retry, status_is, proc_try_syscall.
  rewrite bool_decide_eq_true_2 by exact Hst. now rewrite Hty.
Qed.

Lemma retry_sent cr j k :
  rv_sent rv cr k -> (1 <= j <= MAX_NPROCESS)%nat ->
  exists k', yield_retry j k = Ok k' /\ rv_sent rv cr k' /\
             keeps status k k' /\ cores k' = cores k.
Proof.
  intros Hsent Hj. pose proof Hsent as (Hb & Hss & Hsys & Hcr & Hsr & Hu).
  assert (Hne : rv_s rv <> rv_r rv) by apply Hrv.
  destruct (decide (j = rv_s rv)) as [->|Hjs].
  - rewrite (retry_sender k Hss Hsys).
    destruct (try_send_effect k Hb Hsys ltac:(rewrite Hsr; discriminate))
      as (k' & Hrun & Hl & Hp & Hst & Hw & Hu' & Hc & Hsy & _).
    exists k'. split; [exact Hrun|]. split; [|split; [exact Hst|exact Hc]].
    split; [apply (rv_base_frame k k' Hb Hl Hp Hw); intros i _ _; left; apply Hst|].
    rewrite !Hst, Hsy, Hu' by exact Hne.
    unfold cores in Hc. injection Hc as _ ->. repeat split; assumption.
  - exists k. split; [|split; [exact Hsent|split; [apply keeps_refl|reflexivity]]].
    destruct (decide (j = rv_r rv)) as [->|Hjr].
    + apply base_retry_unblocked. rewrite Hsr. discriminate.
    + now apply base_retry_other.
Qed.

Lemma retry_listening cs j k :
  rv_listening rv cs k -> (1 <= j <= MAX_NPROCESS)%nat -> yield_retry j k = Ok k.
Proof.
  intros (Hb & Hsr & Hsys & Hcs & Hss & Hu) Hj.
  destruct (decide (j = rv_r rv)) as [->|Hjr].
  - rewrite retry_receiver; [|exact Hsr|rewrite Hsys; apply recv_posted_matches].
    now rewrite try_recv_waits by now rewrite Hsys.
  - destruct (decide (j = rv_s rv)) as [->|Hjs].
    + apply base_retry_unblocked. rewrite Hss. discriminate.
    + now apply base_retry_other.
Qed.

Lemma retry_both_posted j k :
  rv_both_posted rv k -> (1 <= j <= MAX_NPROCESS)%nat ->
  exists k', yield_retry j k = Ok k' /\
             (if decide (j = rv_s rv) then rv_matched rv k' else k' = k) /\
             keeps status k k' /\ cores k' = cores k /\
             user_syscall k' = user_syscall k.
Proof.
  intros (Hb & Hss & Hsys & Hsr & Hsyr) Hj.
  assert (Hne : rv_s rv <> rv_r rv) by apply Hrv.
  destruct (decide (j = rv_s rv)) as [->|Hjs].
  - rewrite (retry_sender k Hss Hsys).
    destruct (try_send_effect k Hb Hsys ltac:(rewrite Hsr; discriminate))
      as (k' & Hrun & Hl & Hp & Hst & Hw & Hu' & Hc & Hsy & Hdone & _).
    exists k'. split; [exact Hrun|]. split; [|repeat split; assumption].
    split; [apply (rv_base_frame k k' Hb Hl Hp Hw); intros i _ _; left; apply Hst|].
    rewrite !Hst, Hsy by exact Hne. repeat split; try assumption. now apply Hdone.
  - exists k. split; [|split; [reflexivity|split; [apply keeps_refl|now split]]].
    destruct (decide (j = rv_r rv)) as [->|Hjr].
    + rewrite retry_receiver; [|exact Hsr|rewrite Hsyr; apply recv_posted_matches].
      now rewrite try_recv_waits by now rewrite Hsyr.
    + now apply base_retry_other.
Qed.

Lemma retry_matched j k :
  rv_matched rv k -> (1 <= j <= MAX_NPROCESS)%nat ->
  exists k', yield_retry j k = Ok k' /\
             (if decide (j = rv_r rv) then rv_delivered rv k'
              else rv_matched rv k' /\ keeps status k k') /\
             cores k' = cores k.
Proof.
  intros Hm Hj. pose proof Hm as (Hb & Hss & Hsys & Hsr & Hsyr).
  assert (Hne : rv_s rv <> rv_r rv) by apply Hrv.
  destruct (decide (j = rv_r rv)) as [->|Hjr].
  - rewrite retry_receiver; [|exact Hsr|rewrite Hsyr; apply recv_posted_matches].
    destruct (try_recv_delivers k Hm) as (Hd & Hc & _).
    eexists. split; [reflexivity|]. now split.
  - destruct (decide (j = rv_s rv)) as [->|Hjs].
    + rewrite (retry_sender k Hss Hsys).
      destruct (try_send_effect k Hb Hsys ltac:(rewrite Hsr; discriminate))
        as (k' & Hrun & Hl & Hp & Hst & Hw & Hu' & Hc & Hsy & _ & Hsame).
      exists k'. split; [exact Hrun|]. split; [|exact Hc]. split; [|exact Hst].
      split; [apply (rv_base_frame k k' Hb Hl Hp Hw); intros i _ _; left; apply Hst|].
      rewrite !Hst, Hsy, Hsame by (try exact Hne; now rewrite Hsyr).
      repeat split; assumption.
    + exists k. split; [now apply base_retry_other|]. split; [|reflexivity].
      split; [exact Hm|apply keeps_refl].
Qed.

Lemma retry_delivered j k :
  rv_delivered rv k -> (1 <= j <= MAX_NPROCESS)%nat -> yield_retry j k = Ok k.
Proof.
  intros (Hb & Hus & Hur & _) Hj.
  destruct (decide (j = rv_s rv)) as [->|Hjs].
  - apply base_retry_unblocked. destruct Hus as [-> | ->]; discriminate.
  - destruct (decide (j = rv_r rv)) as [->|Hjr].
    + apply base_retry_unblocked. destruct Hur as [-> | ->]; discriminate.
    + now apply base_retry_other.
Qed.

End Rendezvous.

Section RendezvousLoops.
Context `{Platform} (rv : rendezvous) (Hrv : rv_ok rv).

Lemma step_stage I now j k sel :
  rv_stage rv I -> (1 <= j <= MAX_NPROCESS)%nat -> I k ->
  sel_sound rv k (next_idx sel) ->
  exists k' sel', yield_scan_step now j (k, sel) = Ok (k', sel') /\
    yield_retry j k = Ok k' /\ I k' /\ sel_sound rv k' (next_idx sel').
Proof.
  intros (HIb & HIr & HIe) Hj HI Hsel.
  destruct (HIr j k Hj HI) as (k' & Hretry & HI').
  assert (Hstep : exists sel', yield_scan_step now j (k, sel) = Ok (k', sel')).
  { unfold yield_scan_step. rewrite (base_wake_idle rv now j k (HIb k HI) Hj), Hretry.
    kbind. destruct (still_sleeping _ _); [now eexists|].
    destruct (_ && _); now eexists. }
  destruct Hstep as (sel' & Hstep). exists k', sel'.
  split; [exact Hstep|]. split; [exact Hretry|]. split; [exact HI'|].
  rewrite (yield_scan_step_selection _ _ _ _ _ _ Hstep).
  destruct (eligible now (proc_at k' j) && _) eqn:Hel.
  - cbn [next_idx]. intros Hjsr. apply (HIe k' HI').
    apply andb_true_iff in Hel as [Hel _]. unfold eligible in Hel.
    apply andb_true_iff in Hel as [Hrr _].
    destruct Hjsr as [<-|<-]; [left|right]; exact Hrr.
  - intros Hnext. specialize (Hsel Hnext).
    rewrite (retry_delivered rv j k Hsel Hj) in Hretry.
    now injection Hretry as <-.
Qed.

Lemma loop_stage I now i n k sel :
  rv_stage rv I -> (1 <= i)%nat -> (i + n <= S MAX_NPROCESS)%nat -> I k ->
  sel_sound rv k (next_idx sel) ->
  exists k' sel', for_slots (yield_scan_step now) i n (k, sel) = Ok (k', sel') /\
    I k' /\ sel_sound rv k' (next_idx sel').
Proof.
  intros HS. revert i k sel. induction n as [|n IH]; intros i k sel Hi Hn HI Hsel.
  - exists k, sel. now split.
  - destruct (step_stage I now i k sel HS ltac:(lia) HI Hsel)
      as (k1 & sel1 & Hstep & _ & HI1 & Hsel1).
    destruct (IH (S i) k1 sel1 ltac:(lia) ltac:(lia) HI1 Hsel1)
      as (k' & sel' & Hrest & HI' & Hsel').
    exists k', sel'. split; [|now split].
    cbn [for_slots]. rewrite Hstep. kbind. exact Hrest.
Qed.

(** A full first loop that starts in stage [I] ends in stage [G] when the
    retry at slot [x] takes [I] to [G]. *)
Lemma loop_milestone I G now x k :
  rv_stage rv I -> rv_stage rv G -> (1 <= x <= MAX_NPROCESS)%nat ->
  (forall k k', I k -> yield_retry x k = Ok k' -> G k') -> I k ->
  exists k' sel', scan_prefix now k MAX_NPROCESS = Ok (k', sel') /\
    G k' /\ sel_sound rv k' (next_idx sel').
Proof.
  intros HSI HSG Hx Hmile HI.
  assert (Happ : scan_prefix now k MAX_NPROCESS =
                 (b <- for_slots (yield_scan_step now) 1 (x - 1) (k, selection_start) ;;
                  for_slots (yield_scan_step now) x (S (MAX_NPROCESS - x)) b)).
  { unfold scan_prefix.
    replace MAX_NPROCESS with ((x - 1) + S (MAX_NPROCESS - x))%nat at 1 by lia.
    rewrite for_slots_app. now replace (1 + (x - 1))%nat with x by lia. }
  destruct (loop_stage I now 1 (x - 1) k selection_start HSI ltac:(lia) ltac:(lia) HI)
    as (k1 & sel1 & Hpre & HI1 & Hsel1).
  { intros [Hn|Hn]; cbn [next_idx selection_start] in Hn;
      destruct Hrv as (Hs & Hr & _); lia. }
  destruct (step_stage I now x k1 sel1 HSI Hx HI1 Hsel1)
    as (k2 & sel2 & Hstep & Hretry & _ & Hsel2).
  destruct (loop_stage G now (S x) (MAX_NPROCESS - x) k2 sel2 HSG ltac:(lia) ltac:(lia)
              (Hmile k1 k2 HI1 Hretry) Hsel2) as (k' & sel' & Hrest & HG & Hsel').
  exists k', sel'. split; [|now split].
  rewrite Happ, Hpre. kbind. cbn [for_slots]. rewrite Hstep. kbind. exact Hrest.
Qed.

Lemma fallback_stage I now i n k :
  rv_stage rv I -> (1 <= i)%nat -> (i + n <= S MAX_NPROCESS)%nat -> I k ->
  exists k' next, yield_fallback now i n k = Ok (k', next) /\
    I k' /\ sel_sound rv k' next.
Proof.
  intros HS. pose proof HS as (HIb & HIr & HIe).
  revert i k. induction n as [|n IH]; intros i k Hi Hn HI.
  - exists k, MAX_NPROCESS. split; [reflexivity|]. split; [exact HI|].
    intros [Hs|Hs]; destruct Hrv as (? & ? & _); lia.
  - destruct (HIr i k ltac:(lia) HI) as (k1 & Hretry & HI1).
    cbn [yield_fallback]. rewrite Hretry. kbind.
    destruct (still_sleeping now (proc_at k1 i)); [apply IH; [lia|lia|exact HI1]|].
    destruct (ready_or_runnable (proc_at k1 i)) eqn:Hrr;
      [|apply IH; [lia|lia|exact HI1]].
    exists k1, i. split; [reflexivity|]. split; [exact HI1|].
    intros Hisr. apply (HIe k1 HI1). destruct Hisr as [->| ->]; [left|right]; exact Hrr.
Qed.

(** Both loops. *)
Lemma select_milestone I G now x k :
  rv_stage rv I -> rv_stage rv G -> (1 <= x <= MAX_NPROCESS)%nat ->
  (forall k k', I k -> yield_retry x k = Ok k' -> G k') -> I k ->
  exists k' next, yield_select now k = Ok (k', next) /\
    G k' /\ sel_sound rv k' next.
Proof.
  intros HSI HSG Hx Hmile HI. rewrite yield_select_unfold.
  destruct (loop_milestone I G now x k HSI HSG Hx Hmile HI)
    as (k1 & sel1 & Hloop & HG & Hsel).
  rewrite Hloop. kbind. cbn [fst snd].
  destruct (bool_decide _).
  - apply (fallback_stage G); [exact HSG | lia | lia | exact HG].
  - exists k1, (next_idx sel1). now split.
Qed.

Lemma select_stage I now k :
  rv_stage rv I -> I k ->
  exists k' next, yield_select now k = Ok (k', next) /\
    I k' /\ sel_sound rv k' next.
Proof.
  intros HS HI. apply (select_milestone I I now 1 k HS HS); [unfold MAX_NPROCESS; lia| |exact HI].
  intros k0 k' HI0 Hretry. destruct HS as (_ & HIr & _).
  destruct (HIr 1%nat k0 ltac:(unfold MAX_NPROCESS; lia) HI0) as (k'' & Hretry' & HI').
  rewrite Hretry in Hretry'. now injection Hretry' as ->.
Qed.

(** *** The stages *)

Lemma not_ready_pending k j :
  status (proc_at k j) = PROC_PENDING_SYSCALL -> ready_or_runnable (proc_at k j) = false.
Proof. intros Hst. unfold ready_or_runnable, status_is. now rewrite Hst. Qed.

Lemma not_ready_running k j :
  status (proc_at k j) = PROC_RUNNING -> ready_or_runnable (proc_at k j) = false.
Proof. intros Hst. unfold ready_or_runnable, status_is. now rewrite Hst. Qed.

Lemma stage_sent cr : rv_stage rv (rv_sent rv cr).
Proof.
  split; [|split].
  - now intros k (Hb & _).
  - intros j k Hj Hsent. destruct (retry_sent rv Hrv cr j k Hsent Hj) as (k' & ? & ? & _).
    now exists k'.
  - intros k (_ & Hss & _ & _ & Hsr & _) [Hr|Hr].
    + now rewrite (not_ready_pending k _ Hss) in Hr.
    + now rewrite (not_ready_running k _ Hsr) in Hr.
Qed.

Lemma stage_listening cs : rv_stage rv (rv_listening rv cs).
Proof.
  split; [|split].
  - now intros k (Hb & _).
  - intros j k Hj Hl. exists k. split; [|exact Hl].
    exact (retry_listening rv Hrv cs j k Hl Hj).
  - intros k (_ & Hsr & _ & _ & Hss & _) [Hr|Hr].
    + now rewrite (not_ready_running k _ Hss) in Hr.
    + now rewrite (not_ready_pending k _ Hsr) in Hr.
Qed.

Lemma stage_delivered : rv_stage rv (rv_delivered rv).
Proof.
  split; [|split].
  - now intros k (Hb & _).
  - intros j k Hj Hd. exists k. split; [|exact Hd].
    exact (retry_delivered rv j k Hd Hj).
  - now intros k Hd _.
Qed.

Lemma stage_matched_on :
  rv_stage rv (fun k => rv_matched rv k \/ rv_delivered rv k).
Proof.
  split; [|split].
  - intros k [(Hb & _)|(Hb & _)]; exact Hb.
  - intros j k Hj [Hm|Hd].
    + destruct (retry_matched rv Hrv j k Hm Hj) as (k' & Hretry & Hcase & _).
      exists k'. split; [exact Hretry|].
      destruct (decide (j = rv_r rv)); [now right | left; apply Hcase].
    + exists k. split; [|now right]. exact (retry_delivered rv j k Hd Hj).
  - intros k [(_ & Hss & _ & Hsr & _)|Hd] Hrr; [|exact Hd].
    destruct Hrr as [Hr|Hr].
    + now rewrite (not_ready_pending k _ Hss) in Hr.
    + now rewrite (not_ready_pending k _ Hsr) in Hr.
Qed.

Lemma stage_posted_on :
  rv_stage rv (fun k => rv_both_posted rv k \/ rv_matched rv k \/ rv_delivered rv k).
Proof.
  split; [|split].
  - intros k [(Hb & _)|[(Hb & _)|(Hb & _)]]; exact Hb.
  - intros j k Hj [Hp|Hmd].
    + destruct (retry_both_posted rv Hrv j k Hp Hj) as (k' & Hretry & Hcase & _).
      exists k'. split; [exact Hretry|].
      destruct (decide (j = rv_s rv)); [right; now left | left; now subst k'].
    + destruct stage_matched_on as (_ & HIr & _).
      destruct (HIr j k Hj Hmd) as (k' & Hretry & Hmd').
      exists k'. split; [exact Hretry | now right].
  - intros k [(_ & Hss & _ & Hsr & _)|Hmd] Hrr.
    + destruct Hrr as [Hr|Hr].
      * now rewrite (not_ready_pending k _ Hss) in Hr.
      * now rewrite (not_ready_pending k _ Hsr) in Hr.
    + destruct stage_matched_on as (_ & _ & HIe). now apply HIe.
Qed.

End RendezvousLoops.

(** ** Allocation of table slots and pids *)

(** Table lengths through updates and writes to other globals. *)
Ltac tlen := repeat (rewrite upd_proc_length || autorewrite with frame).

Lemma proc_alloc_unfold k i :
  scan_from (status_is PROC_UNUSED) (proc_set k) 1 MAX_NPROCESS = Some i ->
  exists k', proc_alloc k = Ok (s32 (u32 (alloc_curr_pid k + 1)), k') /\
    alloc_curr_pid k' = u32 (alloc_curr_pid k + 1) /\
    length (proc_set k') = length (proc_set k) /\
    (forall j, j <> i -> proc_at k' j = proc_at k j) /\
    ((i < length (proc_set k))%nat ->
     proc_at k' i =
       set_wakeup_time 0 (set_last_schedule_time 0 (set_queue_time 0
         (set_queue_level 0 (set_timer_interrupt_count 0
           (set_termination_time 0 (set_total_cpu_time 0
             (set_first_schedule_time 0
               (set_creation_time (mtime_now k)
                 (set_status PROC_LOADING
                   (set_pid (s32 (u32 (alloc_curr_pid k + 1)))
                      (proc_at k i)))))))))))) /\
    cores k' = cores k /\ trace k' = trace k /\
    clock k' = clock k /\ clock_reads k' = S (clock_reads k).
Proof.
  intros Hs. unfold proc_alloc. rewrite Hs. kstep.
  eexists. split; [reflexivity|].
  split; [reflexivity|].
  split; [now tlen|].
  split.
  { intros j Hj. rewrite proc_at_upd_ne by congruence.
    rewrite proc_at_set_clock_reads.
    now rewrite !proc_at_upd_ne by congruence. }
  split.
  { intros Hi.
    rewrite proc_at_upd_eq by (now tlen).
    rewrite proc_at_set_clock_reads.
    rewrite proc_at_upd_eq by (now tlen).
    rewrite proc_at_upd_eq by exact Hi.
    reflexivity. }
  repeat split.
Qed.

Lemma boot_slot t j : proc_at (boot t) j = process_zero.
Proof.
  unfold proc_at, boot. cbn [proc_set].
  destruct (decide (j < S MAX_NPROCESS)%nat) as [Hj|Hj].
  - now apply lookup_total_replicate_2.
  - rewrite list_lookup_total_alt, lookup_ge_None_2; [reflexivity|].
    rewrite length_replicate. lia.
Qed.

Lemma boot_pids_issued t : pids_issued (boot t).
Proof.
  split; [cbn; lia|]. intros j. rewrite boot_slot. cbn. lia.
Qed.

Lemma boot_pids_unique t : pids_unique (boot t).
Proof. intros i j _ Hnz. rewrite boot_slot in Hnz. now cbn in Hnz. Qed.

(** X1.  [proc_alloc] halts exactly when none of the slots 1..MAX_NPROCESS
    is unused.  Otherwise it fills the unused slot of lowest index among
    them: that slot gets the next pid, the status LOADING, the current
    time as creation time and zero in each of the eight fields
    [first_schedule_time], [total_cpu_time], [termination_time],
    [timer_interrupt_count], [queue_level], [queue_time],
    [last_schedule_time] and [wakeup_time]; its syscall record, saved
    program counter and saved registers stay as they were, and so does
    every other slot, slot 0 included. *)
Theorem proc_alloc_outcome k :
  table_ok k ->
  ((forall i, (1 <= i <= MAX_NPROCESS)%nat -> status (proc_at k i) <> PROC_UNUSED) ->
   proc_alloc k = Fatal FatalAllocLimit) /\
  (forall i, (1 <= i <= MAX_NPROCESS)%nat ->
     status (proc_at k i) = PROC_UNUSED ->
     (forall m, (1 <= m < i)%nat -> status (proc_at k m) <> PROC_UNUSED) ->
     exists k', proc_alloc k = Ok (s32 (u32 (alloc_curr_pid k + 1)), k') /\
       pid (proc_at k' i) = s32 (u32 (alloc_curr_pid k + 1)) /\
       status (proc_at k' i) = PROC_LOADING /\
       creation_time (proc_at k' i) = mtime_now k /\
       first_schedule_time (proc_at k' i) = 0 /\
       total_cpu_time (proc_at k' i) = 0 /\
       termination_time (proc_at k' i) = 0 /\
       timer_interrupt_count (proc_at k' i) = 0 /\
       queue_level (proc_at k' i) = 0 /\ queue_time (proc_at k' i) = 0 /\
       last_schedule_time (proc_at k' i) = 0 /\
       wakeup_time (proc_at k' i) = 0 /\
       syscall (proc_at k' i) = syscall (proc_at k i) /\
       mepc (proc_at k' i) = mepc (proc_at k i) /\
       saved_registers (proc_at k' i) = saved_registers (proc_at k i) /\
       forall j, j <> i -> proc_at k' j = proc_at k j).
Proof.
  intros Hok. split.
  - intros Hfull. unfold proc_alloc.
    destruct (scan_from _ _ _ _) as [i|] eqn:Hs; [|reflexivity].
    apply scan_from_Some in Hs as (Hi & Hc & _).
    unfold status_is in Hc. apply bool_decide_eq_true_1 in Hc.
    exfalso. apply (Hfull i); [lia | exact Hc].
  - intros i Hi Hun Hmin.
    assert (Hs : scan_from (status_is PROC_UNUSED) (proc_set k) 1 MAX_NPROCESS = Some i).
    { apply scan_from_first; [lia | |].
      - unfold status_is. now apply bool_decide_eq_true_2.
      - intros m Hm. unfold status_is. apply bool_decide_eq_false_2.
        now apply Hmin. }
    destruct (proc_alloc_unfold k i Hs)
      as (k' & Hrun & _ & _ & Hother & Hslot & _).
    exists k'. split; [exact Hrun|].
    rewrite Hslot by (unfold table_ok, MAX_NPROCESS in *; lia).
    repeat split. exact Hother.
Qed.

Lemma proc_alloc_outcome_witness :
  table_ok (boot 5000) /\
  (1 <= 1 <= MAX_NPROCESS)%nat /\
  status (proc_at (boot 5000) 1) = PROC_UNUSED /\
  exists k', proc_alloc (boot 5000) = Ok (1, k') /\
    pid (proc_at k' 1) = 1 /\ status (proc_at k' 1) = PROC_LOADING /\
    creation_time (proc_at k' 1) = 5000 /\
    termination_time (proc_at k' 1) = 0 /\
    timer_interrupt_count (proc_at k' 1) = 0 /\
    last_schedule_time (proc_at k' 1) = 0 /\
    proc_at k' 0 = proc_at (boot 5000) 0.
Proof.
  assert (Hok : table_ok (boot 5000)) by reflexivity.
  assert (Hi : (1 <= 1 <= MAX_NPROCESS)%nat) by (unfold MAX_NPROCESS; lia).
  assert (Hun : status (proc_at (boot 5000) 1) = PROC_UNUSED) by reflexivity.
  assert (Hmin : forall m, (1 <= m < 1)%nat ->
            status (proc_at (boot 5000) m) <> PROC_UNUSED) by (intros m Hm; lia).
  split; [exact Hok|]. split; [exact Hi|]. split; [exact Hun|].
  destruct (proj2 (proc_alloc_outcome (boot 5000) Hok) 1%nat Hi Hun Hmin)
    as (k' & Hrun & Hpid & Hst & Hct & _ & _ & Hte & Hti & _ & _ & Hl & _ & _ & _ & _
        & Hother).
  exists k'. split; [exact Hrun|]. split; [exact Hpid|]. split; [exact Hst|].
  split; [exact Hct|]. split; [exact Hte|]. split; [exact Hti|]. split; [exact Hl|].
  apply Hother. discriminate.
Defined.

(** The pid [proc_alloc] returns while its counter is within the positive
    range of [int]: the successor of the counter, which no slot holds. *)
Lemma proc_alloc_next_pid k p k' :
  table_ok k -> pids_issued k -> alloc_curr_pid k < 2 ^ 31 - 1 ->
  proc_alloc k = Ok (p, k') ->
  p = alloc_curr_pid k + 1 /\ (forall j, pid (proc_at k j) <> p) /\
  alloc_curr_pid k' = p /\ table_ok k' /\
  exists i, (1 <= i <= MAX_NPROCESS)%nat /\ pid (proc_at k' i) = p /\
    status (proc_at k' i) = PROC_LOADING /\
    (forall j, j <> i -> proc_at k' j = proc_at k j) /\
    scan_from (status_is PROC_UNUSED) (proc_set k) 1 MAX_NPROCESS = Some i.
Proof.
  intros Hok [Hc Hle] Hroom Hrun.
  unfold proc_alloc in Hrun.
  destruct (scan_from _ _ _ _) as [i|] eqn:Hs; [|discriminate].
  fold (proc_alloc k) in Hrun.
  destruct (proc_alloc_unfold k i Hs)
    as (k1 & Hrun1 & Hctr & Hlen & Hother & Hslot & _).
  unfold proc_alloc in Hrun1. rewrite Hs in Hrun1.
  rewrite Hrun1 in Hrun. injection Hrun as <- <-.
  pose proof Hs as Hs'. apply scan_from_Some in Hs' as (Hi & _ & _).
  assert (Hp : s32 (u32 (alloc_curr_pid k + 1)) = alloc_curr_pid k + 1).
  { unfold u32. rewrite Z.mod_small by lia. apply s32_small. lia. }
  assert (Hu : u32 (alloc_curr_pid k + 1) = alloc_curr_pid k + 1).
  { unfold u32. apply Z.mod_small. lia. }
  rewrite Hp in *. rewrite Hu in Hctr.
  specialize (Hslot ltac:(unfold table_ok, MAX_NPROCESS in *; lia)).
  split; [reflexivity|]. split.
  { intros j Hj. specialize (Hle j). lia. }
  split; [exact Hctr|]. split; [unfold table_ok; now rewrite Hlen|].
  exists i. split; [lia|]. rewrite Hslot.
  split; [reflexivity|]. split; [reflexivity|]. split; [exact Hother | reflexivity].
Qed.

(** X2.  As long as the pid counter stays within the positive range of
    [int], [proc_alloc] returns a pid that no slot of the table holds, not
    even a freed one, and the table keeps the two properties this rests
    on: every pid in it has been issued, and no pid other than 0 occurs in
    two slots. *)
Theorem proc_alloc_fresh_pid k p k' :
  table_ok k -> pids_issued k -> pids_unique k ->
  alloc_curr_pid k < 2 ^ 31 - 1 ->
  proc_alloc k = Ok (p, k') ->
  p = alloc_curr_pid k + 1 /\
  (forall j, pid (proc_at k j) <> p) /\
  table_ok k' /\ pids_issued k' /\ pids_unique k'.
Proof.
  intros Hok Hiss Huniq Hroom Hrun.
  destruct (proc_alloc_next_pid k p k' Hok Hiss Hroom Hrun)
    as (Hp & Hfresh & Hctr & Hok' & i & Hi & Hpi & _ & Hother & _).
  destruct Hiss as [Hc Hle].
  split; [exact Hp|]. split; [exact Hfresh|]. split; [exact Hok'|]. split.
  - split; [lia|]. intros j. rewrite Hctr.
    destruct (decide (j = i)) as [->|Hne]; [lia|].
    rewrite Hother by exact Hne. specialize (Hle j). lia.
  - intros a b Hab Hnz.
    destruct (decide (a = i)) as [->|Ha]; destruct (decide (b = i)) as [->|Hb];
      try reflexivity.
    + rewrite Hpi, (Hother b Hb) in Hab. specialize (Hle b). lia.
    + rewrite Hpi, (Hother a Ha) in Hab. specialize (Hle a). lia.
    + rewrite (Hother a Ha), (Hother b Hb) in Hab. rewrite (Hother a Ha) in Hnz.
      now apply Huniq.
Qed.

Lemma proc_alloc_fresh_pid_witness :
  exists k', proc_alloc (boot 5000) = Ok (1, k') /\
    (forall j, pid (proc_at (boot 5000) j) <> 1) /\
    pids_issued k' /\ pids_unique k'.
Proof.
  destruct (proc_alloc (boot 5000)) as [[p k']|] eqn:Hrun; [|discriminate].
  assert (Hroom : alloc_curr_pid (boot 5000) < 2 ^ 31 - 1) by (cbn; lia).
  destruct (proc_alloc_fresh_pid (boot 5000) p k' eq_refl
              (boot_pids_issued 5000) (boot_pids_unique 5000) Hroom Hrun)
    as (Hp & Hfresh & _ & Hiss & Huniq).
  exists k'. cbn in Hp. subst p.
  split; [reflexivity|]. split; [exact Hfresh|]. split; [exact Hiss | exact Huniq].
Defined.

(** ** Freeing *)

Section Free.
Context `{Platform}.

Lemma proc_set_status_at p s k j :
  table_ok k ->
  proc_at (proc_set_status p s k) j =
    if bool_decide (j < MAX_NPROCESS)%nat && has_pid p (proc_at k j)
    then set_status s (proc_at k j) else proc_at k j.
Proof.
  intros Hok. unfold proc_set_status.
  pose proof (foldl_upd_proc_at (has_pid p) (set_status s)
                (seq 0 MAX_NPROCESS) k j) as Hfold.
  cbv beta in Hfold. rewrite Hfold.
  - destruct (decide (j < MAX_NPROCESS)%nat) as [Hj|Hj].
    + rewrite (bool_decide_eq_true_2 (j ∈ seq 0 MAX_NPROCESS))
        by (apply elem_of_seq_slots; lia).
      now rewrite (bool_decide_eq_true_2 (j < MAX_NPROCESS)%nat) by exact Hj.
    + rewrite (bool_decide_eq_false_2 (j ∈ seq 0 MAX_NPROCESS))
        by (rewrite elem_of_seq_slots; lia).
      now rewrite (bool_decide_eq_false_2 (j < MAX_NPROCESS)%nat) by exact Hj.
  - apply NoDup_seq.
  - intros i Hi. apply elem_of_seq_slots in Hi.
    unfold table_ok in Hok. rewrite Hok. lia.
Qed.

Lemma proc_free_missing p k :
  p <> GPID_ALL -> find_slot (live_with_pid p) k = None -> proc_free p k = k.
Proof.
  intros Hp Hf. unfold proc_free.
  replace (p =? GPID_ALL) with false by (symmetry; now apply Z.eqb_neq).
  cbn [negb]. unfold live_with_pid in Hf.
  now rewrite Hf.
Qed.

Lemma proc_free_found p k i :
  p <> GPID_ALL -> find_slot (live_with_pid p) k = Some i ->
  proc_free p k =
    proc_set_status p PROC_UNUSED
      (emit (EvMmuFree p)
         (emit (termination_report p (mtime_now k)
                  (proc_at (upd_proc i (set_termination_time (mtime_now k))
                              (snd (mtime_get k))) i))
            (upd_proc i (set_termination_time (mtime_now k)) (snd (mtime_get k))))).
Proof.
  intros Hp Hf. unfold proc_free.
  replace (p =? GPID_ALL) with false by (symmetry; now apply Z.eqb_neq).
  cbn [negb]. unfold live_with_pid in Hf.
  now rewrite Hf.
Qed.

(** The effect of [proc_free] on the table when it finds the pid. *)
Lemma proc_free_found_effect p k i :
  table_ok k -> p <> GPID_ALL -> find_slot (live_with_pid p) k = Some i ->
  (forall j, (j < MAX_NPROCESS)%nat -> pid (proc_at k j) = p ->
     status (proc_at (proc_free p k) j) = PROC_UNUSED) /\
  (forall j, (MAX_NPROCESS <= j)%nat \/ pid (proc_at k j) <> p ->
     proc_at (proc_free p k) j = proc_at k j) /\
  termination_time (proc_at (proc_free p k) i) = mtime_now k /\
  length (proc_set (proc_free p k)) = length (proc_set k).
Proof.
  intros Hok Hp Hf. rewrite (proc_free_found p k i Hp Hf).
  pose proof (find_slot_in_table _ _ _ Hok Hf) as Hi.
  pose proof (find_slot_range _ _ _ Hf) as Hi16.
  apply scan_from_Some in Hf as (_ & Hc & _).
  fold (proc_at k i) in Hc. unfold live_with_pid in Hc.
  apply andb_true_iff in Hc as [Hpid _].
  unfold has_pid in Hpid. apply Z.eqb_eq in Hpid.
  set (t := mtime_now k).
  set (k2 := upd_proc i (set_termination_time t) (snd (mtime_get k))).
  assert (Hok2 : table_ok (emit (EvMmuFree p)
            (emit (termination_report p t (proc_at k2 i)) k2))).
  { unfold table_ok. subst k2. now tlen. }
  assert (Hat : forall j, proc_at (emit (EvMmuFree p)
             (emit (termination_report p t (proc_at k2 i)) k2)) j = proc_at k2 j)
    by reflexivity.
  assert (Hpid2 : forall j, pid (proc_at k2 j) = pid (proc_at k j)).
  { intros j. subst k2. upd_keeps pid. now rewrite proc_at_mtime_get. }
  split; [|split; [|split]].
  - intros j Hj Hjp. rewrite (proc_set_status_at _ _ _ _ Hok2), Hat.
    rewrite (bool_decide_eq_true_2 _ Hj). unfold has_pid.
    rewrite Hpid2. replace (pid (proc_at k j) =? p) with true
      by (symmetry; now apply Z.eqb_eq).
    reflexivity.
  - intros j Hj. rewrite (proc_set_status_at _ _ _ _ Hok2), Hat.
    assert (Hno : bool_decide (j < MAX_NPROCESS)%nat && has_pid p (proc_at k2 j) = false).
    { destruct Hj as [Hj|Hj].
      - rewrite bool_decide_eq_false_2 by lia. reflexivity.
      - unfold has_pid. rewrite Hpid2.
        replace (pid (proc_at k j) =? p) with false
          by (symmetry; now apply Z.eqb_neq).
        apply andb_false_r. }
    rewrite Hno. subst k2.
    destruct (decide (j = i)) as [->|Hne].
    + exfalso. destruct Hj as [Hj|Hj]; [lia | now apply Hj].
    + now rewrite proc_at_upd_ne by congruence.
  - rewrite (proc_set_status_at _ _ _ _ Hok2), Hat.
    assert (Hk2i : proc_at k2 i = set_termination_time t (proc_at k i)).
    { subst k2. now rewrite proc_at_upd_eq by (now tlen). }
    rewrite Hk2i. now destruct (_ && _).
  - unfold proc_set_status. rewrite foldl_length.
    + subst k2. now tlen.
    + intros k0 b. destruct (has_pid p (proc_at k0 b)); [|reflexivity].
      apply upd_proc_length.
Qed.

(** X3.  [proc_free] with a pid other than [GPID_ALL] acts on the first
    live slot below [MAX_NPROCESS] that holds the pid.  When there is
    none, it does nothing at all.  When there is one, that slot gets the
    current time as termination time, one report is printed and the
    memory of the pid is released once; every slot below [MAX_NPROCESS]
    holding the pid becomes UNUSED, and all other slots, slot
    [MAX_NPROCESS] among them, are left as they were. *)
Theorem proc_free_by_pid p k :
  table_ok k -> p <> GPID_ALL ->
  (find_slot (live_with_pid p) k = None -> proc_free p k = k) /\
  (forall i, find_slot (live_with_pid p) k = Some i ->
     let k' := proc_free p k in
     (forall j, (j < MAX_NPROCESS)%nat -> pid (proc_at k j) = p ->
        status (proc_at k' j) = PROC_UNUSED) /\
     (forall j, (MAX_NPROCESS <= j)%nat \/ pid (proc_at k j) <> p ->
        proc_at k' j = proc_at k j) /\
     termination_time (proc_at k' i) = mtime_now k /\
     keeps pid k k' /\
     trace k' = trace k ++
       [termination_report p (mtime_now k)
          (set_termination_time (mtime_now k) (proc_at k i));
        EvMmuFree p]).
Proof.
  intros Hok Hp. split; [now apply proc_free_missing|].
  intros i Hf k'. subst k'.
  destruct (proc_free_found_effect p k i Hok Hp Hf) as (H1 & H2 & H3 & _).
  split; [exact H1|]. split; [exact H2|]. split; [exact H3|]. split.
  - apply proc_free_keeps; reflexivity.
  - rewrite (proc_free_found p k i Hp Hf).
    pose proof (find_slot_in_table _ _ _ Hok Hf) as Hi.
    rewrite proc_at_upd_eq by (now tlen). rewrite proc_at_mtime_get.
    unfold proc_set_status. rewrite (blind_foldl trace).
    + cbn [emit trace set_trace upd_proc set_proc_set mtime_get snd set_clock_reads].
      now rewrite <- app_assoc.
    + intros k0 b. now destruct (has_pid p (proc_at k0 b)).
Qed.

Lemma proc_free_alloc_curr_pid p k : alloc_curr_pid (proc_free p k) = alloc_curr_pid k.
Proof.
  unfold proc_free. destruct (negb (p =? GPID_ALL)).
  - destruct (find_slot _ k) as [i|]; [|reflexivity].
    kstep. unfold proc_set_status. rewrite (blind_foldl alloc_curr_pid).
    + reflexivity.
    + intros k0 b. now destruct (has_pid p (proc_at k0 b)).
  - rewrite (blind_foldl alloc_curr_pid); [reflexivity|].
    intros k0 b. destruct (_ && _); [|reflexivity]. reflexivity.
Qed.

End Free.

Lemma proc_free_by_pid_witness :
  table_ok running_since_1000 /\ 5 <> GPID_ALL (Platform := sample_platform) /\
  find_slot (live_with_pid 5) running_since_1000 = Some 1%nat /\
  status (proc_at (proc_free (H := sample_platform) 5 running_since_1000) 1)
    = PROC_UNUSED /\
  termination_time (proc_at (proc_free (H := sample_platform) 5 running_since_1000) 1)
    = 5000.
Proof.
  assert (Hok : table_ok running_since_1000) by reflexivity.
  assert (Hp : 5 <> GPID_ALL (Platform := sample_platform)) by discriminate.
  assert (Hf : find_slot (live_with_pid 5) running_since_1000 = Some 1%nat)
    by reflexivity.
  destruct (proj2 (proc_free_by_pid (H := sample_platform) 5 running_since_1000 Hok Hp)
              1%nat Hf) as (Hun & _ & Ht & _).
  split; [exact Hok|]. split; [exact Hp|]. split; [exact Hf|].
  split; [|exact Ht].
  apply Hun; [unfold MAX_NPROCESS; lia | reflexivity].
Defined.

Lemma proc_alloc_Ok k p k' :
  proc_alloc k = Ok (p, k') ->
  exists i,
    scan_from (status_is PROC_UNUSED) (proc_set k) 1 MAX_NPROCESS = Some i /\
    p = s32 (u32 (alloc_curr_pid k + 1)) /\
    alloc_curr_pid k' = u32 (alloc_curr_pid k + 1) /\
    length (proc_set k') = length (proc_set k) /\
    (forall j, j <> i -> proc_at k' j = proc_at k j) /\
    ((i < length (proc_set k))%nat ->
     pid (proc_at k' i) = p /\ status (proc_at k' i) = PROC_LOADING /\
     queue_level (proc_at k' i) = 0 /\ wakeup_time (proc_at k' i) = 0) /\
    cores k' = cores k /\ trace k' = trace k.
Proof.
  intros Hrun. unfold proc_alloc in Hrun.
  destruct (scan_from _ _ _ _) as [i|] eqn:Hs; [|discriminate].
  fold (proc_alloc k) in Hrun.
  destruct (proc_alloc_unfold k i Hs)
    as (k1 & Hrun1 & Hctr & Hlen & Hother & Hslot & Hcores & Htr & _).
  unfold proc_alloc in Hrun1. rewrite Hs in Hrun1.
  rewrite Hrun1 in Hrun. injection Hrun as <- <-.
  exists i. split; [reflexivity|]. split; [reflexivity|].
  split; [exact Hctr|]. split; [exact Hlen|]. split; [exact Hother|].
  split; [|split; assumption].
  intros Hi. rewrite (Hslot Hi). repeat split.
Qed.

Section FreeAlloc.
Context `{Platform}.

(** X4.  Allocation followed by release and allocation: a process that
    [proc_alloc] placed in a slot below [MAX_NPROCESS] is removed by
    [proc_free] of its pid, which restores every other slot to what it
    was before the allocation, and the next [proc_alloc] fills the same
    slot again, with the next pid and not the released one.  A process
    placed in slot [MAX_NPROCESS] is out of the reach of [proc_free]: the
    call changes nothing. *)
Theorem alloc_free_alloc k p k1 :
  table_ok k -> pids_issued k -> pids_unique k ->
  alloc_curr_pid k < 2 ^ 31 - 2 -> p <> GPID_ALL ->
  proc_alloc k = Ok (p, k1) ->
  exists i, (1 <= i <= MAX_NPROCESS)%nat /\
    pid (proc_at k1 i) = p /\ status (proc_at k1 i) = PROC_LOADING /\
    ((i < MAX_NPROCESS)%nat ->
       status (proc_at (proc_free p k1) i) = PROC_UNUSED /\
       (forall j, j <> i -> proc_at (proc_free p k1) j = proc_at k j) /\
       exists k3, proc_alloc (proc_free p k1) = Ok (p + 1, k3) /\
         pid (proc_at k3 i) = p + 1 /\ status (proc_at k3 i) = PROC_LOADING) /\
    (i = MAX_NPROCESS -> proc_free p k1 = k1).
Proof.
  intros Hok Hiss Huniq Hroom Hp Hrun.
  destruct (proc_alloc_next_pid k p k1 Hok Hiss ltac:(lia) Hrun)
    as (Hpv & Hfresh & Hctr & Hok1 & i & Hi & Hpid & Hst & Hother & Hs).
  pose proof Hs as Hs'. apply scan_from_Some in Hs' as (_ & _ & Hmin).
  exists i. split; [lia|]. split; [exact Hpid|]. split; [exact Hst|].
  assert (Hlow : forall m, m <> i -> live_with_pid p (proc_at k1 m) = false).
  { intros m Hm. rewrite (Hother m Hm). unfold live_with_pid, has_pid.
    replace (pid (proc_at k m) =? p) with false
      by (symmetry; apply Z.eqb_neq; apply Hfresh).
    reflexivity. }
  split.
  - intros Hi16.
    assert (Hf : find_slot (live_with_pid p) k1 = Some i).
    { apply scan_from_first; [lia | |].
      - fold (proc_at k1 i). unfold live_with_pid, has_pid, status_is.
        rewrite Hpid, Z.eqb_refl, Hst. reflexivity.
      - intros m Hm. apply Hlow. lia. }
    destruct (proc_free_found_effect p k1 i Hok1 Hp Hf) as (Hun & Hkeep & _ & Hlen2).
    assert (Hrest : forall j, j <> i -> proc_at (proc_free p k1) j = proc_at k j).
    { intros j Hj. rewrite Hkeep; [now apply Hother|].
      right. rewrite (Hother j Hj). apply Hfresh. }
    split; [now apply Hun|]. split; [exact Hrest|].
    assert (Hs2 : scan_from (status_is PROC_UNUSED) (proc_set (proc_free p k1))
                    1 MAX_NPROCESS = Some i).
    { apply scan_from_first; [lia | |].
      - fold (proc_at (proc_free p k1) i). unfold status_is.
        apply bool_decide_eq_true_2. now apply Hun.
      - intros m Hm. fold (proc_at (proc_free p k1) m).
        rewrite Hrest by lia. apply (Hmin m). lia. }
    destruct (proc_alloc_unfold _ i Hs2)
      as (k3 & Hrun3 & _ & _ & _ & Hslot3 & _).
    rewrite proc_free_alloc_curr_pid, Hctr in Hrun3, Hslot3.
    assert (Hp2 : s32 (u32 (p + 1)) = p + 1).
    { destruct Hiss as [Hc _]. unfold u32.
      rewrite Z.mod_small by lia. rewrite s32_small by lia. lia. }
    rewrite Hp2 in Hrun3, Hslot3.
    exists k3. split; [exact Hrun3|].
    rewrite Hslot3; [now split|].
    rewrite Hlen2. unfold table_ok, MAX_NPROCESS in *. lia.
  - intros ->. apply proc_free_missing; [exact Hp|].
    destruct (find_slot (live_with_pid p) k1) as [j|] eqn:Hf; [|reflexivity].
    pose proof (find_slot_range _ _ _ Hf) as Hj.
    apply scan_from_Some in Hf as (_ & Hc & _). fold (proc_at k1 j) in Hc.
    rewrite Hlow in Hc by lia. discriminate.
Qed.

End FreeAlloc.

Lemma alloc_free_alloc_witness :
  proc_alloc (boot 5000) = Ok (1, one_allocated) /\
  exists i, (1 <= i <= MAX_NPROCESS)%nat /\
    pid (proc_at one_allocated i) = 1 /\
    ((i < MAX_NPROCESS)%nat ->
       status (proc_at (proc_free (H := sample_platform) 1 one_allocated) i)
         = PROC_UNUSED /\
       exists k3,
         proc_alloc (proc_free (H := sample_platform) 1 one_allocated) = Ok (2, k3) /\
         pid (proc_at k3 i) = 2).
Proof.
  assert (Hrun : proc_alloc (boot 5000) = Ok (1, one_allocated)) by reflexivity.
  assert (Hroom : alloc_curr_pid (boot 5000) < 2 ^ 31 - 2) by (cbn; lia).
  assert (Hne : 1 <> GPID_ALL (Platform := sample_platform)) by discriminate.
  split; [exact Hrun|].
  destruct (alloc_free_alloc (H := sample_platform) (boot 5000) 1 one_allocated
              eq_refl (boot_pids_issued 5000) (boot_pids_unique 5000) Hroom Hne Hrun)
    as (i & Hi & Hpid & _ & Hlow & _).
  exists i. split; [exact Hi|]. split; [exact Hpid|].
  intros Hi16. destruct (Hlow Hi16) as (Hun & _ & k3 & Hrun3 & Hpid3 & _).
  split; [exact Hun|]. exists k3. split; [exact Hrun3 | exact Hpid3].
Defined.

(** ** Freeing every user process *)

Section FreeAll.
Context `{Platform}.

Lemma proc_free_all_unfold k :
  proc_free GPID_ALL k = foldl free_user_step k (seq 0 MAX_NPROCESS).
Proof. unfold proc_free. now rewrite Z.eqb_refl. Qed.

Lemma free_user_step_other k i j :
  i <> j -> proc_at (free_user_step k i) j = proc_at k j.
Proof.
  intros Hij. unfold free_user_step.
  destruct (_ && _); [|reflexivity]. kstep.
  rewrite proc_at_upd_ne by exact Hij. rewrite !proc_at_emit.
  now rewrite proc_at_upd_ne by exact Hij.
Qed.

Lemma free_user_step_idle k i :
  live_user (proc_at k i) = false -> free_user_step k i = k.
Proof. unfold free_user_step, live_user. now intros ->. Qed.

Lemma free_user_step_self k i :
  (i < length (proc_set k))%nat -> live_user (proc_at k i) = true ->
  proc_at (free_user_step k i) i =
    set_status PROC_UNUSED (set_termination_time (mtime_now k) (proc_at k i)) /\
  trace (free_user_step k i) =
    trace k ++ [termination_report (pid (proc_at k i)) (mtime_now k)
                  (set_termination_time (mtime_now k) (proc_at k i));
                EvMmuFree (pid (proc_at k i))].
Proof.
  intros Hi Hlive. unfold free_user_step. unfold live_user in Hlive.
  rewrite Hlive. kstep.
  rewrite proc_at_upd_eq by (now tlen).
  rewrite !proc_at_emit.
  rewrite proc_at_upd_eq by (now tlen).
  rewrite proc_at_set_clock_reads. split; [reflexivity|].
  cbn [trace upd_proc set_proc_set emit set_trace set_clock_reads].
  now rewrite <- app_assoc.
Qed.

Lemma free_user_step_length k i :
  length (proc_set (free_user_step k i)) = length (proc_set k).
Proof.
  unfold free_user_step. destruct (_ && _); [|reflexivity]. kstep. now tlen.
Qed.

Lemma freed_pids_app tr tr' : freed_pids (tr ++ tr') = freed_pids tr ++ freed_pids tr'.
Proof. unfold freed_pids. apply omap_app. Qed.

Lemma free_user_step_freed k i :
  (i < length (proc_set k))%nat ->
  freed_pids (trace (free_user_step k i)) =
    freed_pids (trace k) ++
      (if live_user (proc_at k i) then [pid (proc_at k i)] else []).
Proof.
  intros Hi. destruct (live_user (proc_at k i)) eqn:Hlive.
  - destruct (free_user_step_self k i Hi Hlive) as [_ ->].
    now rewrite freed_pids_app.
  - rewrite free_user_step_idle by exact Hlive. now rewrite app_nil_r.
Qed.

Lemma free_users_fold l k :
  NoDup l -> (forall i, i ∈ l -> (i < length (proc_set k))%nat) ->
  let k' := foldl free_user_step k l in
  (forall j, j ∈ l -> live_user (proc_at k j) = true ->
     status (proc_at k' j) = PROC_UNUSED) /\
  (forall j, j ∉ l \/ live_user (proc_at k j) = false ->
     proc_at k' j = proc_at k j) /\
  freed_pids (trace k') =
    freed_pids (trace k) ++
      map (fun i => pid (proc_at k i))
        (List.filter (fun i => live_user (proc_at k i)) l).
Proof.
  revert k. induction l as [|a l IH]; intros k Hnd Hlen k'; subst k'.
  - cbn [foldl List.filter map]. rewrite app_nil_r.
    split; [|split; [|reflexivity]].
    + intros j Hj. now apply elem_of_nil in Hj.
    + reflexivity.
  - apply NoDup_cons in Hnd as [Ha Hnd].
    assert (Hai : (a < length (proc_set k))%nat) by (apply Hlen; left).
    cbn [foldl].
    destruct (IH (free_user_step k a) Hnd) as (IH1 & IH2 & IH3).
    { intros i Hi. rewrite free_user_step_length. apply Hlen. now right. }
    assert (Hsame : forall i, i ∈ l -> proc_at (free_user_step k a) i = proc_at k i).
    { intros i Hi. apply free_user_step_other. intros ->. now apply Ha. }
    split; [|split].
    + intros j Hj Hlive. apply elem_of_cons in Hj as [->|Hj].
      * rewrite IH2 by (now left).
        destruct (free_user_step_self k a Hai Hlive) as [-> _]. reflexivity.
      * apply IH1; [exact Hj|]. now rewrite Hsame.
    + intros j Hj.
      destruct (decide (j = a)) as [->|Hne].
      * rewrite IH2 by (now left).
        destruct Hj as [Hj|Hj]; [exfalso; apply Hj; left|].
        now rewrite free_user_step_idle.
      * rewrite IH2.
        -- now apply free_user_step_other.
        -- destruct Hj as [Hj|Hj].
           ++ left. intros Hjl. apply Hj. now right.
           ++ right. rewrite free_user_step_other by congruence. exact Hj.
    + rewrite IH3, free_user_step_freed by exact Hai.
      rewrite <- app_assoc. f_equal.
      assert (Hfilter :
        List.filter (fun i => live_user (proc_at (free_user_step k a) i)) l =
        List.filter (fun i => live_user (proc_at k i)) l).
      { apply List.filter_ext_in. intros i Hi.
        rewrite Hsame; [reflexivity|]. now apply list_elem_of_In. }
      rewrite Hfilter.
      assert (Hmap :
        map (fun i => pid (proc_at (free_user_step k a) i))
            (List.filter (fun i => live_user (proc_at k i)) l) =
        map (fun i => pid (proc_at k i))
            (List.filter (fun i => live_user (proc_at k i)) l)).
      { apply List.map_ext_in. intros i Hi. apply List.filter_In in Hi as [Hi _].
        rewrite Hsame; [reflexivity|]. now apply list_elem_of_In. }
      rewrite Hmap. cbn [List.filter].
      now destruct (live_user (proc_at k a)).
Qed.

(** X5.  [proc_free(GPID_ALL)] marks UNUSED every slot below
    [MAX_NPROCESS] that is in use and holds a pid of a user process (at
    least [GPID_USER_START]), releases the memory of exactly these pids,
    in table order, and leaves every other slot as it was: the system
    processes, the unused slots and slot [MAX_NPROCESS].  No pid is
    changed. *)
Theorem proc_free_all_users k :
  table_ok k ->
  let k' := proc_free GPID_ALL k in
  (forall j, (j < MAX_NPROCESS)%nat -> live_user (proc_at k j) = true ->
     status (proc_at k' j) = PROC_UNUSED) /\
  (forall j, (MAX_NPROCESS <= j)%nat \/ live_user (proc_at k j) = false ->
     proc_at k' j = proc_at k j) /\
  keeps pid k k' /\
  freed_pids (trace k') =
    freed_pids (trace k) ++
      map (fun i => pid (proc_at k i))
        (List.filter (fun i => live_user (proc_at k i)) (seq 0 MAX_NPROCESS)).
Proof.
  intros Hok k'. subst k'. rewrite proc_free_all_unfold.
  destruct (free_users_fold (seq 0 MAX_NPROCESS) k (NoDup_seq _ _))
    as (H1 & H2 & H3).
  { intros i Hi. apply elem_of_seq_slots in Hi.
    unfold table_ok, MAX_NPROCESS in *. lia. }
  split; [|split; [|split]].
  - intros j Hj. apply H1. apply elem_of_seq_slots. lia.
  - intros j Hj. apply H2. destruct Hj as [Hj|Hj]; [left|now right].
    rewrite elem_of_seq_slots. lia.
  - rewrite <- proc_free_all_unfold.
    apply proc_free_keeps; reflexivity.
  - exact H3.
Qed.

End FreeAll.

Lemma proc_free_all_users_witness :
  table_ok shell_and_users /\
  let k' := proc_free (H := sample_platform) (GPID_ALL (Platform := sample_platform))
              shell_and_users in
  status (proc_at k' 2) = PROC_UNUSED /\
  proc_at k' 1 = proc_at shell_and_users 1 /\
  proc_at k' 16 = proc_at shell_and_users 16 /\
  freed_pids (trace k') = [5].
Proof.
  assert (Hok : table_ok shell_and_users) by reflexivity.
  split; [exact Hok|].
  destruct (proc_free_all_users (H := sample_platform) shell_and_users Hok)
    as (H1 & H2 & _ & H3).
  split; [|split; [|split]].
  - apply H1; [unfold MAX_NPROCESS; lia | reflexivity].
  - apply H2. right. reflexivity.
  - apply H2. left. unfold MAX_NPROCESS. lia.
  - rewrite H3. reflexivity.
Defined.

(** ** The termination report *)

Lemma s32_range z : - 2 ^ 31 <= s32 z < 2 ^ 31.
Proof. unfold s32. pose proof (Z.mod_pos_bound (z + 2 ^ 31) (2 ^ 32)). lia. Qed.

Lemma to_ms_range t : 0 <= to_ms t < 2 ^ 31.
Proof.
  unfold to_ms. pose proof (s32_range (t / 1000)) as Hr.
  destruct (s32 (t / 1000) <? 0) eqn:Hneg; [lia|].
  apply Z.ltb_ge in Hneg. lia.
Qed.

Lemma to_ms_small t : 0 <= t < 2 ^ 31 * 1000 -> to_ms t = t / 1000.
Proof.
  intros Ht. unfold to_ms.
  assert (Hq : 0 <= t / 1000 < 2 ^ 31).
  { split; [apply Z.div_pos; lia|]. apply Z.div_lt_upper_bound; lia. }
  rewrite s32_small by lia.
  destruct (t / 1000 <? 0) eqn:Hneg; [|reflexivity].
  apply Z.ltb_lt in Hneg. lia.
Qed.

(** X6.  The four durations of the termination report are printed as
    non-negative 31-bit numbers of milliseconds whatever the PCB holds.
    For a process that lived less than 2^31 milliseconds, the turnaround
    printed is the time since creation, and neither the response time nor
    the waiting time exceeds it; a waiting time other than zero is what
    is left of the turnaround after the response time and the CPU time. *)
Theorem termination_report_consistent printed now p :
  exists T R C W,
    termination_report printed now p =
      EvTerminated printed T R C W (timer_interrupt_count p) (queue_level p) /\
    0 <= T < 2 ^ 31 /\ 0 <= R < 2 ^ 31 /\ 0 <= C < 2 ^ 31 /\ 0 <= W < 2 ^ 31 /\
    (u64_sub now (creation_time p) < 2 ^ 31 * 1000 ->
     0 <= total_cpu_time p < 2 ^ 63 ->
     T = u64_sub now (creation_time p) / 1000 /\ R <= T /\ W <= T /\
     (0 < W -> W + R + C <= T)).
Proof.
  unfold termination_report.
  set (T64 := u64_sub now (creation_time p)).
  set (R0 := if creation_time p <? first_schedule_time p
             then u64_sub (first_schedule_time p) (creation_time p) else 0).
  set (R64 := if (T64 <? R0) || (10000000 <? R0) then T64 / 2 else R0).
  set (W64 := if u64_add R64 (total_cpu_time p) <? T64
              then u64_sub (u64_sub T64 R64) (total_cpu_time p) else 0).
  exists (to_ms T64), (to_ms R64), (to_ms (total_cpu_time p)), (to_ms W64).
  split; [reflexivity|].
  split; [apply to_ms_range|]. split; [apply to_ms_range|].
  split; [apply to_ms_range|]. split; [apply to_ms_range|].
  intros HT Hcpu.
  assert (HT0 : 0 <= T64) by (apply u64_range).
  assert (HR0 : 0 <= R0).
  { unfold R0. destruct (creation_time p <? first_schedule_time p);
      [apply u64_range | lia]. }
  assert (HR : 0 <= R64 <= T64).
  { unfold R64. destruct ((T64 <? R0) || (10000000 <? R0)) eqn:Hcap.
    - split; [apply Z.div_pos; lia|]. apply Z.div_le_upper_bound; lia.
    - apply orb_false_iff in Hcap as [Hcap _]. apply Z.ltb_ge in Hcap. lia. }
  assert (HW : 0 <= W64 <= T64 /\
               (0 < W64 -> W64 + R64 + total_cpu_time p = T64)).
  { unfold W64, u64_add, u64_sub.
    rewrite (u64_small (R64 + total_cpu_time p)) by lia.
    destruct (R64 + total_cpu_time p <? T64) eqn:Hfit; [|lia].
    apply Z.ltb_lt in Hfit.
    rewrite (u64_small (T64 - R64)) by lia.
    rewrite u64_small by lia. lia. }
  rewrite !to_ms_small by lia.
  split; [reflexivity|].
  split; [apply Z.div_le_mono; lia|].
  split; [apply Z.div_le_mono; lia|].
  intros Hpos. destruct HW as [HW0 HW].
  clearbody W64 R64 T64.
  assert (HWpos : 0 < W64).
  { destruct (Z.eq_dec W64 0) as [Hz|Hz]; [|clear - HW0 Hz; lia].
    rewrite Hz in Hpos. vm_compute in Hpos. discriminate. }
  specialize (HW HWpos).
  rewrite (to_ms_small (total_cpu_time p)) by (clear - HW HW0 HR Hcpu HT; lia).
  rewrite <- HW.
  clear - HW0 HR Hcpu. Z.div_mod_to_equations. lia.
Qed.

Lemma termination_report_consistent_witness :
  let p := set_total_cpu_time 3000
             (set_first_schedule_time 2000 (set_creation_time 1000 process_zero)) in
  exists T R C W,
    termination_report 5 9000 p = EvTerminated 5 T R C W 0 0 /\
    T = 8 /\ R <= T /\ W <= T /\ (0 < W -> W + R + C <= T).
Proof.
  intros p.
  destruct (termination_report_consistent 5 9000 p)
    as (T & R & C & W & Heq & _ & _ & _ & _ & Hc).
  destruct Hc as (HT & HR & HW & Hsum).
  - vm_compute. reflexivity.
  - cbn. lia.
  - exists T, R, C, W. split; [exact Heq|]. split; [exact HT|].
    split; [exact HR|]. split; [exact HW | exact Hsum].
Defined.

(** ** What every kernel operation maintains *)

Lemma evolves_refl P k : evolves P k k.
Proof. now repeat split. Qed.

Lemma evolves_trans P k1 k2 k3 :
  evolves P k1 k2 -> evolves P k2 k3 -> evolves P k1 k3.
Proof.
  intros (Hl1 & Hc1 & Hs1) (Hl2 & Hc2 & Hs2).
  split; [congruence|]. split; [congruence|]. auto.
Qed.

Lemma evolves_upd P i f k :
  (forall j q, P j q -> P j (f q)) -> evolves P k (upd_proc i f k).
Proof.
  intros Hf. split; [apply upd_proc_length|]. split; [reflexivity|].
  intros Hs j. destruct (decide (i = j)) as [->|Hne].
  - destruct (decide (j < length (proc_set k))%nat) as [Hj|Hj].
    + rewrite proc_at_upd_eq by exact Hj. apply Hf, Hs.
    + rewrite proc_at_upd_oob by lia. apply Hs.
  - rewrite proc_at_upd_ne by exact Hne. apply Hs.
Qed.

Lemma evolves_after P (g : kernel -> kernel) k k1 :
  (forall x, proc_set (g x) = proc_set x) ->
  (forall x, alloc_curr_pid (g x) = alloc_curr_pid x) ->
  evolves P k k1 -> evolves P k (g k1).
Proof.
  intros Hg Hc (Hl & Ha & Hs).
  split; [now rewrite Hg|]. split; [now rewrite Hc|].
  intros HP j. unfold proc_at. rewrite Hg. now apply Hs.
Qed.

Lemma evolves_foldl {B} P (step : kernel -> B -> kernel) l k :
  (forall x b, evolves P x (step x b)) -> evolves P k (foldl step k l).
Proof.
  intros Hstep. revert k. induction l as [|b l IH]; intros k; cbn [foldl].
  - apply evolves_refl.
  - eapply evolves_trans; [apply Hstep | apply IH].
Qed.

(** [P j (f q)] from [P j q] for a write [f] among those of
    [kernel_closed]. *)
Ltac closed Hc :=
  let j := fresh "j" in let q := fresh "q" in let HP := fresh "HP" in
  intros j q HP; cbv beta;
  let Hs := fresh "Hs" in
  destruct (Hc j q HP) as (Hs & ? & ? & ? & ? & ? & ? & ? & ? & ? & ? & ?);
  first [ apply Hs; discriminate | auto ].

(** One step of a chain of writes. *)
Ltac evo_step Hc :=
  lazymatch goal with
  | |- evolves _ ?k ?k => apply evolves_refl
  | |- evolves _ _ (upd_proc _ _ _) =>
      eapply evolves_trans; [|apply evolves_upd; closed Hc]
  | |- evolves ?P _ (emit ?e _) =>
      apply (evolves_after P (emit e)); [reflexivity|reflexivity|]
  | |- evolves ?P _ (set_clock_reads ?v _) =>
      apply (evolves_after P (set_clock_reads v)); [reflexivity|reflexivity|]
  | |- evolves ?P _ (set_mstatus ?v _) =>
      apply (evolves_after P (set_mstatus v)); [reflexivity|reflexivity|]
  | |- evolves ?P _ (set_user_syscall ?v _) =>
      apply (evolves_after P (set_user_syscall v)); [reflexivity|reflexivity|]
  | |- evolves ?P _ (set_MLFQ_last_reset_time ?v _) =>
      apply (evolves_after P (set_MLFQ_last_reset_time v)); [reflexivity|reflexivity|]
  | |- evolves ?P _ (set_curr_proc_idx ?v _) =>
      apply (evolves_after P (set_curr_proc_idx v)); [reflexivity|reflexivity|]
  | |- evolves ?P _ (set_core_in_kernel ?v _) =>
      apply (evolves_after P (set_core_in_kernel v)); [reflexivity|reflexivity|]
  | |- evolves ?P _ (set_csr_mepc ?v _) =>
      apply (evolves_after P (set_csr_mepc v)); [reflexivity|reflexivity|]
  | |- evolves ?P _ (set_saved_register_area ?v _) =>
      apply (evolves_after P (set_saved_register_area v)); [reflexivity|reflexivity|]
  | |- evolves ?P _ (set_mcause ?v _) =>
      apply (evolves_after P (set_mcause v)); [reflexivity|reflexivity|]
  | |- evolves ?P _ (set_mhartid ?v _) =>
      apply (evolves_after P (set_mhartid v)); [reflexivity|reflexivity|]
  end.

Ltac evo Hc := repeat (evo_step Hc).

Section Evolves.
Context `{Platform} (P : nat -> process -> Prop) (Hc : kernel_closed P).

Lemma evolves_account_running i k : evolves P k (account_running i k).
Proof.
  unfold account_running. destruct (_ && _); [|apply evolves_refl].
  kstep. unfold mlfq_update_level. evo Hc.
Qed.

Lemma evolves_proc_set_unused p k : evolves P k (proc_set_status p PROC_UNUSED k).
Proof.
  unfold proc_set_status. apply evolves_foldl. intros x b.
  destruct (has_pid p (proc_at x b)); evo Hc.
Qed.

Lemma evolves_proc_set_runnable p k : evolves P k (proc_set_runnable p k).
Proof.
  unfold proc_set_runnable. destruct (find_slot _ k); [|apply evolves_refl].
  evo_step Hc. apply evolves_account_running.
Qed.

Lemma evolves_proc_set_pending p k : evolves P k (proc_set_pending p k).
Proof.
  unfold proc_set_pending. destruct (find_slot _ k); [|apply evolves_refl].
  evo_step Hc. apply evolves_account_running.
Qed.

Lemma evolves_proc_set_running p k : evolves P k (proc_set_running p k).
Proof.
  unfold proc_set_running. destruct (find_slot _ k) as [i|]; [|apply evolves_refl].
  destruct (first_schedule_time (proc_at k i) =? 0); kstep; evo Hc.
Qed.

Lemma evolves_proc_free p k : evolves P k (proc_free p k).
Proof.
  unfold proc_free. destruct (negb (p =? GPID_ALL)).
  - destruct (find_slot _ k) as [i|]; [|apply evolves_refl]. kstep.
    eapply evolves_trans; [|apply evolves_proc_set_unused]. evo Hc.
  - apply evolves_foldl. intros x b. destruct (_ && _); [|apply evolves_refl].
    kstep. evo Hc.
Qed.

Lemma evolves_after_boost k : evolves P k (after_boost k).
Proof.
  unfold after_boost. destruct (negb _).
  - destruct (find_slot _ _); unfold mtime_get; cbn [snd]; evo Hc.
  - unfold mtime_get; cbn [snd]; evo Hc.
Qed.

Lemma evolves_mlfq_reset_level k : evolves P k (mlfq_reset_level k).
Proof.
  rewrite mlfq_reset_level_unfold. destruct (_ <=? _).
  - evo_step Hc. eapply evolves_trans; [apply evolves_after_boost|].
    apply evolves_foldl. intros x b. destruct (negb _); evo Hc.
  - apply evolves_after_boost.
Qed.

Lemma evolves_proc_sleep p u k : evolves P k (proc_sleep p u k).
Proof.
  unfold proc_sleep. kstep. destruct (find_slot _ _); evo Hc.
Qed.

Lemma evolves_proc_try_send s k k' : proc_try_send s k = Ok k' -> evolves P k k'.
Proof.
  unfold proc_try_send. destruct (find_slot _ k) as [i|]; [|discriminate].
  destruct (negb _); [intros [= <-]; apply evolves_refl|].
  destruct (negb _); [intros [= <-]; apply evolves_refl|].
  intros [= <-]. evo Hc.
Qed.

Lemma evolves_proc_try_recv r k : evolves P k (proc_try_recv r k).
Proof.
  unfold proc_try_recv. destruct (bool_decide _); [apply evolves_refl|].
  eapply evolves_trans; [|apply evolves_proc_set_runnable].
  eapply evolves_trans; [|apply evolves_proc_set_runnable].
  evo Hc.
Qed.

Lemma evolves_proc_try_syscall i k k' :
  proc_try_syscall i k = Ok k' -> evolves P k k'.
Proof.
  unfold proc_try_syscall. destruct (Syscall.type _).
  - intros [= <-]. apply evolves_proc_try_recv.
  - apply evolves_proc_try_send.
  - discriminate.
Qed.

Lemma evolves_yield_wake now i k : evolves P k (yield_wake now i k).
Proof. unfold yield_wake. destruct (_ && _); evo Hc. Qed.

Lemma evolves_yield_retry i k k' : yield_retry i k = Ok k' -> evolves P k k'.
Proof.
  unfold yield_retry. destruct (status_is _ _).
  - apply evolves_proc_try_syscall.
  - intros [= <-]. apply evolves_refl.
Qed.

Lemma evolves_yield_scan_step now j k sel k' sel' :
  yield_scan_step now j (k, sel) = Ok (k', sel') -> evolves P k k'.
Proof.
  unfold yield_scan_step.
  destruct (yield_retry j (yield_wake now j k)) as [k1|] eqn:Hr; [|discriminate].
  kbind. intros Hk.
  assert (k' = k1) as ->.
  { destruct (still_sleeping _ _); [now injection Hk|].
    destruct (_ && _); now injection Hk. }
  eapply evolves_trans; [apply (evolves_yield_wake now j)|].
  apply evolves_yield_retry in Hr. exact Hr.
Qed.

Lemma evolves_for_slots now i n k sel k' sel' :
  for_slots (yield_scan_step now) i n (k, sel) = Ok (k', sel') -> evolves P k k'.
Proof.
  intros Hrun.
  change (evolves P k (fst (k', sel'))).
  eapply (for_slots_inv (fun a => evolves P k (fst a)) (yield_scan_step now)
            i n (k, sel)); [| |exact Hrun].
  - intros j [b s] [b' s'] _ Hb Hstep. cbn [fst] in *.
    eapply evolves_trans; [exact Hb|].
    eapply evolves_yield_scan_step; exact Hstep.
  - apply evolves_refl.
Qed.

Lemma evolves_yield_fallback now i n k k' next :
  yield_fallback now i n k = Ok (k', next) -> evolves P k k'.
Proof.
  intros Hrun.
  apply (yield_fallback_inv (fun x => evolves P k x) now i n k k' next); [| |exact Hrun].
  - intros j b b' Hb Hr. eapply evolves_trans; [exact Hb|].
    apply evolves_yield_retry in Hr. exact Hr.
  - apply evolves_refl.
Qed.

Lemma evolves_yield_select now k k' next :
  yield_select now k = Ok (k', next) -> evolves P k k'.
Proof.
  unfold yield_select.
  destruct (for_slots _ _ _ _) as [[k1 sel]|] eqn:Hloop; [|discriminate].
  kbind. apply evolves_for_slots in Hloop.
  destruct (bool_decide _).
  - intros Hfb. apply evolves_yield_fallback in Hfb.
    eapply evolves_trans; eassumption.
  - now intros [= <- _].
Qed.

Lemma evolves_dispatch_stamp next k : evolves P k (dispatch_stamp next k).
Proof.
  unfold dispatch_stamp.
  destruct (first_schedule_time (proc_at k next) =? 0); kstep; evo Hc.
Qed.

Lemma evolves_dispatch_prime k : evolves P k (dispatch_prime k).
Proof. unfold dispatch_prime. destruct (bool_decide _); evo Hc. Qed.

Lemma evolves_yield_dispatch next k : evolves P k (yield_dispatch next k).
Proof.
  unfold yield_dispatch. destruct (next <? MAX_NPROCESS)%nat.
  - cbv zeta. evo_step Hc.
    eapply evolves_trans; [|apply evolves_proc_set_running].
    eapply evolves_trans; [|apply evolves_dispatch_prime].
    evo_step Hc. evo_step Hc. evo_step Hc.
    unfold dispatch_mode. destruct (_ <=? _); evo_step Hc;
      apply evolves_dispatch_stamp.
  - unfold go_idle. cbv zeta. evo Hc.
Qed.

Lemma evolves_yield_prologue k : evolves P k (yield_prologue k).
Proof.
  unfold yield_prologue.
  eapply evolves_trans; [|apply evolves_mlfq_reset_level].
  destruct (bool_decide _); [apply evolves_proc_set_runnable | apply evolves_refl].
Qed.

Lemma evolves_proc_yield k k' : proc_yield k = Ok k' -> evolves P k k'.
Proof.
  rewrite proc_yield_unfold.
  destruct (yield_select _ _) as [[k1 next]|] eqn:Hsel; [|discriminate].
  kbind. cbn [fst snd]. intros [= <-].
  apply evolves_yield_select in Hsel.
  eapply evolves_trans; [|apply evolves_yield_dispatch].
  eapply evolves_trans; [|exact Hsel].
  unfold yield_scan_start, mtime_get. cbn [snd]. evo_step Hc.
  apply evolves_yield_prologue.
Qed.

Lemma evolves_excp_entry id k k' : excp_entry id k = Ok k' -> evolves P k k'.
Proof.
  unfold excp_entry. destruct (_ && _).
  - cbv zeta.
    destruct (proc_try_syscall _ _) as [k5|] eqn:Hsys; [|discriminate].
    kbind. intros Hy. apply evolves_proc_yield in Hy.
    apply evolves_proc_try_syscall in Hsys.
    eapply evolves_trans; [|exact Hy]. eapply evolves_trans; [|exact Hsys].
    evo_step Hc.
    eapply evolves_trans; [|apply evolves_proc_set_pending].
    evo Hc.
  - destruct (_ <=? _); [|discriminate]. cbv zeta.
    intros Hy. apply evolves_proc_yield in Hy.
    eapply evolves_trans; [|exact Hy].
    eapply evolves_trans; [|apply evolves_proc_free].
    evo Hc.
Qed.

Lemma evolves_intr_entry id k k' : intr_entry id k = Ok k' -> evolves P k k'.
Proof.
  unfold intr_entry. destruct (negb _); [discriminate|]. cbv zeta.
  intros Hy. apply evolves_proc_yield in Hy.
  eapply evolves_trans; [|exact Hy].
  destruct (_ && _); [|apply evolves_refl].
  kstep. destruct (0 <? _); unfold mlfq_update_level; evo Hc.
Qed.

Lemma evolves_kernel_entry k k' : kernel_entry k = Ok k' -> evolves P k k'.
Proof.
  unfold kernel_entry. cbv zeta.
  match goal with
  | |- bind ?r _ = _ -> _ => destruct r as [k4|] eqn:Hentry; [|discriminate]
  end.
  kbind. intros [= <-].
  evo_step Hc. evo_step Hc.
  eapply evolves_trans;
    [|destruct (Z.testbit _ 31);
      [eapply evolves_intr_entry | eapply evolves_excp_entry]; exact Hentry].
  evo Hc.
Qed.

Lemma evolves_trap hart cause k k' : trap hart cause k = Ok k' -> evolves P k k'.
Proof.
  unfold trap. intros Hrun. apply evolves_kernel_entry in Hrun.
  eapply evolves_trans; [|exact Hrun]. evo Hc.
Qed.

End Evolves.

(** ** Queue levels stay within the levels of the MLFQ *)

Lemma mlfq_update_pcb_level_ok r q : level_ok q -> level_ok (mlfq_update_pcb r q).
Proof.
  unfold level_ok, mlfq_update_pcb, MLFQ_NLEVELS. intros Hq.
  destruct (5 - 1 <=? queue_level q) eqn:Hbottom; [exact Hq|].
  apply Z.leb_gt in Hbottom.
  destruct (_ <=? _); cbn; [|exact Hq].
  rewrite s32_small by lia. lia.
Qed.

Lemma level_ok_closed : kernel_closed (fun _ q => level_ok q).
Proof.
  intros j q Hq.
  split; [intros v _ _; exact Hq|]. split; [intros v; exact Hq|].
  split; [intros v; exact Hq|]. split; [intros v; exact Hq|].
  split; [intros v; exact Hq|]. split; [intros v; exact Hq|].
  split; [intros v; exact Hq|]. split; [intros v; exact Hq|].
  split; [intros v; exact Hq|]. split; [intros v; exact Hq|].
  split; [intros r; now apply mlfq_update_pcb_level_ok|].
  unfold level_ok, MLFQ_NLEVELS. cbn. lia.
Qed.

Lemma proc_at_beyond k j : (length (proc_set k) <= j)%nat -> proc_at k j = process_zero.
Proof.
  intros Hj. unfold proc_at. rewrite list_lookup_total_alt.
  now rewrite lookup_ge_None_2.
Qed.

Section Levels.
Context `{Platform}.

(** X7.  Every operation of the kernel keeps the queue level of every PCB
    among the levels 0 .. [MLFQ_NLEVELS - 1]: the trap handler with all it
    calls, and the functions that [process.c] exports. *)
Theorem queue_levels_stay_in_range k :
  levels_ok k ->
  (forall hart cause k', trap hart cause k = Ok k' -> levels_ok k') /\
  (forall p k', proc_alloc k = Ok (p, k') -> levels_ok k') /\
  (forall p, levels_ok (proc_free p k)) /\
  (forall p u, levels_ok (proc_sleep p u k)) /\
  (forall p, levels_ok (proc_set_ready p k) /\ levels_ok (proc_set_running p k) /\
             levels_ok (proc_set_runnable p k) /\ levels_ok (proc_set_pending p k)) /\
  levels_ok (mlfq_reset_level k) /\
  (forall i r, levels_ok (mlfq_update_level (Some i) r k)).
Proof.
  intros Hk.
  assert (Hrun : forall k', evolves (fun _ q => level_ok q) k k' -> levels_ok k').
  { intros k' (_ & _ & Hs). exact (Hs Hk). }
  split; [|split; [|split; [|split; [|split; [|split]]]]].
  - intros hart cause k' Ht. eapply Hrun, evolves_trap; [apply level_ok_closed | exact Ht].
  - intros p k' Ha. destruct (proc_alloc_Ok k p k' Ha)
      as (i & _ & _ & _ & Hlen & Hother & Hslot & _).
    intros j. destruct (decide (j = i)) as [->|Hne].
    + destruct (decide (i < length (proc_set k))%nat) as [Hi|Hi].
      * destruct (Hslot Hi) as (_ & _ & Hl & _). unfold level_ok, MLFQ_NLEVELS.
        rewrite Hl. lia.
      * rewrite proc_at_beyond by lia. unfold level_ok, MLFQ_NLEVELS. cbn. lia.
    + rewrite Hother by exact Hne. apply Hk.
  - intros p. apply Hrun, evolves_proc_free, level_ok_closed.
  - intros p u. apply Hrun, evolves_proc_sleep, level_ok_closed.
  - intros p. split; [|split; [|split]]; apply Hrun.
    + unfold proc_set_ready. destruct (find_slot _ k); [|apply evolves_refl].
      apply evolves_upd. now intros j q Hq.
    + apply evolves_proc_set_running, level_ok_closed.
    + apply evolves_proc_set_runnable, level_ok_closed.
    + apply evolves_proc_set_pending, level_ok_closed.
  - apply Hrun, evolves_mlfq_reset_level, level_ok_closed.
  - intros i r. apply Hrun. unfold mlfq_update_level.
    apply evolves_upd. intros j q Hq. now apply mlfq_update_pcb_level_ok.
Qed.

End Levels.

Lemma boot_levels_ok t : levels_ok (boot t).
Proof.
  intros j. rewrite boot_slot. unfold level_ok, MLFQ_NLEVELS. cbn. lia.
Qed.

Lemma queue_levels_stay_in_range_witness :
  levels_ok (boot 5000) /\
  exists k', trap (H := sample_platform) 0 CAUSE_TIMER (boot 5000) = Ok k' /\
    levels_ok k'.
Proof.
  split; [apply boot_levels_ok|].
  destruct (trap (H := sample_platform) 0 CAUSE_TIMER (boot 5000)) as [k'|] eqn:Hrun;
    [|vm_compute in Hrun; discriminate].
  exists k'. split; [reflexivity|].
  exact (proj1 (queue_levels_stay_in_range (H := sample_platform) (boot 5000)
                  (boot_levels_ok 5000)) 0%nat CAUSE_TIMER k' Hrun).
Defined.

(** ** What a trap never changes *)

Lemma identity_closed {A} (X : process -> A) (k0 : kernel) :
  (forall v q, X (set_status v q) = X q) ->
  (forall v q, X (set_syscall v q) = X q) ->
  (forall v q, X (set_mepc v q) = X q) ->
  (forall v q, X (set_saved_registers v q) = X q) ->
  (forall v q, X (set_first_schedule_time v q) = X q) ->
  (forall v q, X (set_last_schedule_time v q) = X q) ->
  (forall v q, X (set_total_cpu_time v q) = X q) ->
  (forall v q, X (set_termination_time v q) = X q) ->
  (forall v q, X (set_timer_interrupt_count v q) = X q) ->
  (forall v q, X (set_wakeup_time v q) = X q) ->
  (forall v q, X (set_queue_level v q) = X q) ->
  (forall v q, X (set_queue_time v q) = X q) ->
  kernel_closed (fun j q => X q = X (proc_at k0 j)).
Proof.
  intros H1 H2 H3 H4 H5 H6 H7 H8 H9 H10 H11 H12 j q Hq.
  repeat split; intros; rewrite <- Hq; auto.
  - unfold mlfq_update_pcb. destruct (_ <=? _); [reflexivity|].
    destruct (_ <=? _); now rewrite ?H12, ?H11.
  - unfold mlfq_clear. now rewrite H12, H11.
Qed.

Section Identity.
Context `{Platform}.

(** X8.  A trap never renames a process and never creates one: the pid
    and the creation time of every slot, the size of the table and the
    pid counter of [proc_alloc] are the same after [kernel_entry] as
    before, whatever the cause of the trap.  So the table stays one in
    which every pid has been issued and no pid occurs twice. *)
Theorem trap_keeps_identity hart cause k k' :
  trap hart cause k = Ok k' ->
  keeps pid k k' /\ keeps creation_time k k' /\
  length (proc_set k') = length (proc_set k) /\
  alloc_curr_pid k' = alloc_curr_pid k /\
  (pids_issued k -> pids_issued k') /\
  (pids_unique k -> pids_unique k').
Proof.
  intros Hrun.
  assert (Hpid : keeps pid k k').
  { destruct (evolves_trap (fun j q => pid q = pid (proc_at k j))
                (identity_closed pid k ltac:(reflexivity) ltac:(reflexivity)
                   ltac:(reflexivity) ltac:(reflexivity) ltac:(reflexivity)
                   ltac:(reflexivity) ltac:(reflexivity) ltac:(reflexivity)
                   ltac:(reflexivity) ltac:(reflexivity) ltac:(reflexivity)
                   ltac:(reflexivity))
                hart cause k k' Hrun) as (_ & _ & Hs).
    intros j. apply Hs. now intros j'. }
  assert (Hct : keeps creation_time k k').
  { destruct (evolves_trap (fun j q => creation_time q = creation_time (proc_at k j))
                (identity_closed creation_time k ltac:(reflexivity) ltac:(reflexivity)
                   ltac:(reflexivity) ltac:(reflexivity) ltac:(reflexivity)
                   ltac:(reflexivity) ltac:(reflexivity) ltac:(reflexivity)
                   ltac:(reflexivity) ltac:(reflexivity) ltac:(reflexivity)
                   ltac:(reflexivity))
                hart cause k k' Hrun) as (_ & _ & Hs).
    intros j. apply Hs. now intros j'. }
  destruct (evolves_trap (fun _ _ => True) ltac:(now intros j q _)
              hart cause k k' Hrun) as (Hlen & Hctr & _).
  split; [exact Hpid|]. split; [exact Hct|]. split; [exact Hlen|].
  split; [exact Hctr|]. split.
  - intros [Hc Hle]. split; [now rewrite Hctr|].
    intros j. rewrite Hctr, Hpid. apply Hle.
  - intros Hu i j Hij Hnz. rewrite !Hpid in Hij. rewrite Hpid in Hnz.
    now apply Hu.
Qed.

End Identity.

Lemma trap_keeps_identity_witness :
  exists k', trap (H := sample_platform) 0 CAUSE_TIMER three_runnable = Ok k' /\
    keeps pid three_runnable k' /\
    length (proc_set k') = length (proc_set three_runnable).
Proof.
  destruct (trap (H := sample_platform) 0 CAUSE_TIMER three_runnable) as [k'|] eqn:Hrun;
    [|vm_compute in Hrun; discriminate].
  exists k'. split; [reflexivity|].
  destruct (trap_keeps_identity (H := sample_platform) 0%nat CAUSE_TIMER
              three_runnable k' Hrun) as (Hpid & _ & Hlen & _).
  split; [exact Hpid | exact Hlen].
Defined.

(** ** When the trap handler halts the kernel *)

Lemma curr_proc_idx_table_blind : table_blind curr_proc_idx.
Proof. now repeat split. Qed.

Section Halts.
Context `{Platform}.

(** X9.  Three ways in which a trap halts the kernel, whatever else the
    state holds: an interrupt other than the timer interrupt; an
    exception other than an environment call raised while the core runs
    a system process (pid below [GPID_USER_START]); and an environment
    call whose record at [SYSCALL_ARG] has a type other than SEND and
    RECV. *)
Theorem trap_halts hart cause k :
  let i := core_to_proc_idx k !!! hart in
  (Z.testbit cause 31 = true -> Z.land cause 1023 <> INTR_ID_TIMER ->
   trap hart cause k = Fatal (FatalKernelInterrupt (Z.land cause 1023))) /\
  (Z.testbit cause 31 = false ->
   cause < EXCP_ID_ECALL_U \/ EXCP_ID_ECALL_M < cause ->
   pid (proc_at k i) < GPID_USER_START ->
   trap hart cause k = Fatal (FatalKernelException cause)) /\
  (forall tag,
   Z.testbit cause 31 = false ->
   EXCP_ID_ECALL_U <= cause <= EXCP_ID_ECALL_M ->
   (i < length (proc_set k))%nat ->
   Syscall.type (user_syscall k (pid (proc_at k i))) = SYS_OTHER tag ->
   trap hart cause k = Fatal (FatalUnknownSyscall (SYS_OTHER tag))).
Proof.
  intros i. unfold trap, kernel_entry. cbv zeta.
  set (k0 := set_mcause cause (set_mhartid hart k)).
  set (k1 := set_core_in_kernel (mhartid k0) k0).
  set (k2 := upd_proc (curr_proc_idx k1) (set_mepc (csr_mepc k1)) k1).
  set (k3 := upd_proc (curr_proc_idx k2)
               (fun p => set_saved_registers
                  (memcpy (saved_registers p) (saved_register_area k2)
                     SAVED_REGISTER_NUM) p) k2).
  assert (Hcause : mcause k3 = cause) by reflexivity.
  assert (Hidx : curr_proc_idx k3 = i) by reflexivity.
  assert (Hpid : pid (proc_at k3 i) = pid (proc_at k i)).
  { subst k3 k2. upd_keeps pid. upd_keeps pid. reflexivity. }
  assert (Huser : user_syscall k3 = user_syscall k) by reflexivity.
  assert (Hlen : length (proc_set k3) = length (proc_set k)).
  { subst k3 k2. now rewrite !upd_proc_length. }
  clearbody k3. clear k2 k1 k0.
  rewrite Hcause. split; [|split].
  - intros Hbit Hid. rewrite Hbit. unfold intr_entry.
    replace (Z.land cause 1023 =? INTR_ID_TIMER) with false
      by (symmetry; now apply Z.eqb_neq).
    reflexivity.
  - intros Hbit Hid Hsys. rewrite Hbit. unfold excp_entry.
    replace ((EXCP_ID_ECALL_U <=? cause) && (cause <=? EXCP_ID_ECALL_M)) with false.
    2:{ symmetry. apply andb_false_iff.
        destruct Hid; [left; apply Z.leb_gt | right; apply Z.leb_gt]; lia. }
    unfold curr_pid. rewrite Hidx, Hpid.
    replace (GPID_USER_START <=? pid (proc_at k i)) with false
      by (symmetry; apply Z.leb_gt; lia).
    reflexivity.
  - intros tag Hbit Hid Hi Hty. rewrite Hbit. unfold excp_entry.
    replace ((EXCP_ID_ECALL_U <=? cause) && (cause <=? EXCP_ID_ECALL_M)) with true.
    2:{ symmetry. apply andb_true_iff. split; apply Z.leb_le; lia. }
    cbv zeta.
    set (ka := upd_proc (curr_proc_idx k3)
                 (set_syscall (user_syscall k3 (curr_pid k3))) k3).
    set (kb := upd_proc (curr_proc_idx ka)
                 (fun p => set_syscall (Syscall.set_status PENDING (syscall p)) p) ka).
    set (kc := proc_set_pending (curr_pid kb) kb).
    set (kd := upd_proc (curr_proc_idx kc)
                 (fun p => set_mepc (u32 (mepc p + 4)) p) kc).
    assert (Hib : curr_proc_idx kb = i) by exact Hidx.
    assert (Hic : curr_proc_idx kc = i).
    { subst kc. rewrite (blind_proc_set_pending curr_proc_idx)
        by apply curr_proc_idx_table_blind. exact Hib. }
    assert (Hid' : curr_proc_idx kd = i).
    { subst kd. rewrite (blind_upd curr_proc_idx) by apply curr_proc_idx_table_blind.
      exact Hic. }
    assert (Hsb : syscall (proc_at kb i) =
                  Syscall.set_status PENDING (user_syscall k (pid (proc_at k i)))).
    { assert (Hia : curr_proc_idx ka = i) by exact Hidx.
      subst kb. rewrite Hia. subst ka. rewrite Hidx.
      rewrite proc_at_upd_eq by (rewrite upd_proc_length; lia).
      rewrite proc_at_upd_eq by lia.
      unfold curr_pid. now rewrite Hidx, Hpid, Huser. }
    assert (Hsd : syscall (proc_at kd i) = syscall (proc_at kb i)).
    { subst kd. upd_keeps syscall. subst kc.
      apply proc_set_pending_keeps, syscall_ignores_scheduling. }
    unfold proc_try_syscall. rewrite Hid', Hsd, Hsb.
    cbn [Syscall.type Syscall.set_status]. rewrite Hty. reflexivity.
Qed.

End Halts.

Lemma trap_halts_witness :
  trap (H := sample_platform) 0 (Z.lor (Z.shiftl 1 31) 11) (boot 5000)
    = Fatal (FatalKernelInterrupt 11) /\
  trap (H := sample_platform) 0 2 (boot 5000) = Fatal (FatalKernelException 2) /\
  trap (H := sample_platform) 0 CAUSE_ECALL (boot 5000)
    = Fatal (FatalUnknownSyscall (SYS_OTHER 0)).
Proof.
  destruct (trap_halts (H := sample_platform) 0%nat (Z.lor (Z.shiftl 1 31) 11) (boot 5000))
    as (Hintr & _ & _).
  destruct (trap_halts (H := sample_platform) 0%nat 2 (boot 5000)) as (_ & Hexcp & _).
  destruct (trap_halts (H := sample_platform) 0%nat CAUSE_ECALL (boot 5000))
    as (_ & _ & Hsys).
  split; [|split].
  - apply Hintr; [reflexivity | discriminate].
  - apply Hexcp; [reflexivity | left; reflexivity | reflexivity].
  - apply (Hsys 0); [reflexivity | unfold CAUSE_ECALL, EXCP_ID_ECALL_U, EXCP_ID_ECALL_M; lia
                    | cbn; lia | reflexivity].
Defined.

(** ** CPU time is charged once *)

Lemma total_cpu_time_mlfq r q : total_cpu_time (mlfq_update_pcb r q) = total_cpu_time q.
Proof.
  unfold mlfq_update_pcb. destruct (_ <=? _); [reflexivity|].
  now destruct (_ <=? _).
Qed.

Lemma account_running_other j i k :
  j <> i -> proc_at (account_running j k) i = proc_at k i.
Proof.
  intros Hne. unfold account_running. destruct (_ && _); [|reflexivity].
  kstep. unfold mlfq_update_level. now rewrite !proc_at_upd_ne by exact Hne.
Qed.

Lemma parked_keeps i c k k' :
  keeps status k k' -> keeps total_cpu_time k k' -> parked i c k -> parked i c k'.
Proof. intros Hs Ht [H1 H2]. split; [now rewrite Hs | now rewrite Ht]. Qed.

Lemma parked_account_running i c j k :
  parked i c k -> parked i c (account_running j k).
Proof.
  intros [Hst Hc]. destruct (decide (j = i)) as [->|Hne].
  - rewrite account_running_idle by (now left). now split.
  - unfold parked. rewrite account_running_other by exact Hne. now split.
Qed.

Lemma parked_set_status i c j s k :
  s <> PROC_RUNNING -> parked i c k -> parked i c (upd_proc j (set_status s) k).
Proof.
  intros Hs [Hst Hc]. split.
  - destruct (upd_status_cases j s k i) as [-> | ->]; assumption.
  - now upd_keeps total_cpu_time.
Qed.

Lemma parked_proc_set_runnable i c p k :
  parked i c k -> parked i c (proc_set_runnable p k).
Proof.
  intros Hp. unfold proc_set_runnable. destruct (find_slot _ k); [|exact Hp].
  apply parked_set_status; [discriminate|]. now apply parked_account_running.
Qed.

Section Charging.
Context `{Platform}.

Lemma mlfq_reset_level_keeps_queue {A} (X : process -> A) k :
  (forall v q, X (set_queue_level v q) = X q) ->
  (forall v q, X (set_queue_time v q) = X q) ->
  keeps X k (mlfq_reset_level k).
Proof.
  intros Hl Ht.
  assert (Hclear : forall q, X (mlfq_clear q) = X q).
  { intros q. unfold mlfq_clear. now rewrite Ht, Hl. }
  assert (Hboost : keeps X k (after_boost k)).
  { unfold after_boost.
    destruct (negb _); [|apply keeps_same_table; reflexivity].
    destruct (find_slot _ _) as [i|]; [|apply keeps_same_table; reflexivity].
    apply (keeps_upd X i _ (snd (mtime_get k))). exact Hclear. }
  rewrite mlfq_reset_level_unfold.
  destruct (_ <=? _); [|exact Hboost].
  eapply keeps_trans; [exact Hboost|].
  eapply keeps_table_r; [apply proc_set_set_MLFQ_last_reset_time|].
  apply keeps_foldl. intros k0 i. destruct (negb _); [|apply keeps_refl].
  now apply keeps_upd.
Qed.

Lemma parked_proc_try_recv i c r k : parked i c k -> parked i c (proc_try_recv r k).
Proof.
  intros Hp. unfold proc_try_recv. destruct (bool_decide _); [exact Hp|].
  cbv zeta. apply parked_proc_set_runnable, parked_proc_set_runnable.
  exact Hp.
Qed.

Lemma parked_yield_retry i c j k k' :
  yield_retry j k = Ok k' -> parked i c k -> parked i c k'.
Proof.
  unfold yield_retry. destruct (status_is _ _); [|now intros [= <-]].
  unfold proc_try_syscall. destruct (Syscall.type _); [| |discriminate].
  - intros [= <-]. apply parked_proc_try_recv.
  - intros Hsend. apply parked_keeps.
    + exact (proc_try_send_keeps status _ _ _ (fun _ _ => eq_refl) Hsend).
    + exact (proc_try_send_keeps total_cpu_time _ _ _ (fun _ _ => eq_refl) Hsend).
Qed.

Lemma parked_yield_wake i c now j k : parked i c k -> parked i c (yield_wake now j k).
Proof.
  intros Hp. unfold yield_wake. destruct (_ && _); [|exact Hp].
  apply parked_set_status; [discriminate|].
  destruct Hp as [Hst Hc]. split.
  - now upd_keeps status.
  - now upd_keeps total_cpu_time.
Qed.

Lemma parked_yield_scan_step i c now j k sel k' sel' :
  yield_scan_step now j (k, sel) = Ok (k', sel') -> parked i c k -> parked i c k'.
Proof.
  unfold yield_scan_step.
  destruct (yield_retry j (yield_wake now j k)) as [k1|] eqn:Hr; [|discriminate].
  kbind. intros Hk Hp.
  assert (k' = k1) as ->.
  { destruct (still_sleeping _ _); [now injection Hk|].
    destruct (_ && _); now injection Hk. }
  eapply parked_yield_retry; [exact Hr|]. now apply parked_yield_wake.
Qed.

Lemma parked_yield_select i c now k k' next :
  yield_select now k = Ok (k', next) -> parked i c k -> parked i c k'.
Proof.
  unfold yield_select.
  destruct (for_slots _ _ _ _) as [[k1 sel]|] eqn:Hloop; [|discriminate].
  kbind. intros Hrest Hp.
  assert (Hp1 : parked i c k1).
  { change (parked i c (fst (k1, sel))).
    eapply (for_slots_inv (fun a => parked i c (fst a)) (yield_scan_step now)
              1 MAX_NPROCESS (k, selection_start)); [|exact Hp|exact Hloop].
    intros j [b s] [b' s'] _ Hb Hstep. cbn [fst] in *.
    eapply parked_yield_scan_step; eassumption. }
  destruct (bool_decide _).
  - apply (yield_fallback_inv (parked i c) now 1 MAX_NPROCESS k1 k' next);
      [|exact Hp1|exact Hrest].
    intros j b b' Hb Hr. eapply parked_yield_retry; eassumption.
  - now injection Hrest as <- _.
Qed.

Lemma yield_wake_status_cases now j k i :
  status (proc_at (yield_wake now j k) i) = status (proc_at k i) \/
  status (proc_at (yield_wake now j k) i) = PROC_RUNNABLE.
Proof.
  unfold yield_wake. destruct (_ && _); [|now left].
  destruct (upd_status_cases j PROC_RUNNABLE (upd_proc j (set_wakeup_time 0) k) i)
    as [-> | ->]; [left|now right].
  now upd_keeps status.
Qed.

Lemma yield_scan_step_status_cases now j k sel k' sel' i :
  yield_scan_step now j (k, sel) = Ok (k', sel') ->
  status (proc_at k' i) = status (proc_at k i) \/
  status (proc_at k' i) = PROC_RUNNABLE.
Proof.
  unfold yield_scan_step.
  destruct (yield_retry j (yield_wake now j k)) as [k1|] eqn:Hr; [|discriminate].
  kbind. intros Hk.
  assert (k' = k1) as ->.
  { destruct (still_sleeping _ _); [now injection Hk|].
    destruct (_ && _); now injection Hk. }
  destruct (yield_retry_status_cases j _ _ i Hr) as [-> | ->]; [|now right].
  apply yield_wake_status_cases.
Qed.

(** The two loops change a status only to RUNNABLE. *)
Lemma yield_select_status_cases now k k' next i :
  yield_select now k = Ok (k', next) ->
  status (proc_at k' i) = status (proc_at k i) \/
  status (proc_at k' i) = PROC_RUNNABLE.
Proof.
  unfold yield_select.
  destruct (for_slots _ _ _ _) as [[k1 sel]|] eqn:Hloop; [|discriminate].
  kbind. intros Hrest.
  assert (H1 : status (proc_at k1 i) = status (proc_at k i) \/
               status (proc_at k1 i) = PROC_RUNNABLE).
  { change (status (proc_at (fst (k1, sel)) i) = status (proc_at k i) \/
            status (proc_at (fst (k1, sel)) i) = PROC_RUNNABLE).
    eapply (for_slots_inv
              (fun a => status (proc_at (fst a) i) = status (proc_at k i) \/
                        status (proc_at (fst a) i) = PROC_RUNNABLE)
              (yield_scan_step now) 1 MAX_NPROCESS (k, selection_start));
      [|now left|exact Hloop].
    intros j [b s] [b' s'] _ Hb Hs. cbn [fst] in *.
    destruct (yield_scan_step_status_cases _ _ _ _ _ _ i Hs) as [-> | ->];
      [exact Hb | now right]. }
  destruct (bool_decide _).
  - apply (yield_fallback_inv
             (fun x => status (proc_at x i) = status (proc_at k i) \/
                       status (proc_at x i) = PROC_RUNNABLE)
             now 1 MAX_NPROCESS k1 k' next); [|exact H1|exact Hrest].
    intros j b b' Hb Hr.
    destruct (yield_retry_status_cases j _ _ i Hr) as [-> | ->];
      [exact Hb | now right].
  - now injection Hrest as <- _.
Qed.

(** A call of [proc_yield] on a core whose current process is RUNNING
    with a dispatch time recorded charges that process the time from its
    last dispatch to the first reading of the clock in the call, once. *)
Lemma proc_yield_charges k k' :
  let i := curr_proc_idx k in
  let q := proc_at k i in
  table_ok k ->
  find_slot (has_pid (pid q)) k = Some i ->
  status q = PROC_RUNNING -> 0 < last_schedule_time q ->
  proc_yield k = Ok k' ->
  total_cpu_time (proc_at k' i) =
    u64_add (total_cpu_time q) (u64_sub (mtime_now k) (last_schedule_time q)) /\
  (status (proc_at k' i) = PROC_RUNNABLE \/ status (proc_at k' i) = PROC_RUNNING).
Proof.
  intros i q Hok Hf Hst Hlast. rewrite proc_yield_unfold.
  destruct (yield_select _ _) as [[k4 next]|] eqn:Hsel; [|discriminate].
  kbind. cbn [fst snd]. intros [= <-].
  set (c := u64_add (total_cpu_time q) (u64_sub (mtime_now k) (last_schedule_time q))).
  pose proof (find_slot_in_table _ _ _ Hok Hf) as Hi.
  assert (Hp1 : parked i c (proc_set_runnable (curr_pid k) k)).
  { unfold proc_set_runnable, curr_pid. fold i. fold q. rewrite Hf. split.
    - rewrite proc_at_upd_eq by (now rewrite account_running_length). discriminate.
    - upd_keeps total_cpu_time.
      rewrite account_running_charges by assumption.
      now rewrite total_cpu_time_mlfq. }
  assert (Hp2 : parked i c (yield_scan_start k)).
  { unfold yield_scan_start, yield_prologue, curr_status. fold i. fold q.
    rewrite bool_decide_eq_true_2 by exact Hst.
    apply (parked_keeps i c (proc_set_runnable (curr_pid k) k)); [| |exact Hp1].
    - intros j. rewrite proc_at_mtime_get.
      apply mlfq_reset_level_keeps_queue; reflexivity.
    - intros j. rewrite proc_at_mtime_get.
      apply mlfq_reset_level_keeps_queue; reflexivity. }
  pose proof (parked_yield_select i c _ _ _ _ Hsel Hp2) as [Hst4 Hc4].
  split.
  - rewrite (yield_dispatch_keeps total_cpu_time next k4); [exact Hc4|].
    now repeat split.
  - assert (Hrb : status (proc_at k4 i) = PROC_RUNNABLE).
    { assert (H0 : status (proc_at (yield_scan_start k) i) = PROC_RUNNABLE).
      { unfold yield_scan_start, yield_prologue, curr_status. fold i. fold q.
        rewrite bool_decide_eq_true_2 by exact Hst.
        rewrite proc_at_mtime_get.
        rewrite (mlfq_reset_level_keeps_queue status) by reflexivity.
        unfold curr_pid. fold i. fold q.
        now apply proc_set_runnable_status. }
      destruct (yield_select_status_cases _ _ _ _ i Hsel) as [-> | ->];
        [exact H0 | reflexivity]. }
    destruct (yield_dispatch_status_cases next k4 i) as [-> | ->];
      [left; exact Hrb | right; reflexivity].
Qed.

Lemma yield_wake_keeps {A} (X : process -> A) now j k :
  (forall v q, X (set_status v q) = X q) ->
  (forall v q, X (set_wakeup_time v q) = X q) ->
  keeps X k (yield_wake now j k).
Proof.
  intros Hs Hw. unfold yield_wake. destruct (_ && _); [|apply keeps_refl].
  eapply keeps_trans; apply keeps_upd; auto.
Qed.

Lemma yield_scan_step_keeps {A} (X : process -> A) now j k sel k' sel' :
  ignores_scheduling X -> (forall v q, X (set_syscall v q) = X q) ->
  (forall v q, X (set_wakeup_time v q) = X q) ->
  yield_scan_step now j (k, sel) = Ok (k', sel') -> keeps X k k'.
Proof.
  intros HX Hsys Hw. unfold yield_scan_step.
  destruct (yield_retry j (yield_wake now j k)) as [k1|] eqn:Hr; [|discriminate].
  kbind. intros Hk.
  assert (k' = k1) as ->.
  { destruct (still_sleeping _ _); [now injection Hk|].
    destruct (_ && _); now injection Hk. }
  eapply keeps_trans; [apply (yield_wake_keeps X now j); [apply HX | exact Hw]|].
  eapply yield_retry_keeps; eassumption.
Qed.

Lemma yield_select_keeps {A} (X : process -> A) now k k' next :
  ignores_scheduling X -> (forall v q, X (set_syscall v q) = X q) ->
  (forall v q, X (set_wakeup_time v q) = X q) ->
  yield_select now k = Ok (k', next) -> keeps X k k'.
Proof.
  intros HX Hsys Hw. unfold yield_select.
  destruct (for_slots _ _ _ _) as [[k1 sel]|] eqn:Hloop; [|discriminate].
  kbind. intros Hrest.
  assert (H1 : keeps X k k1).
  { change (keeps X k (fst (k1, sel))).
    eapply (for_slots_inv (fun a => keeps X k (fst a)) (yield_scan_step now)
              1 MAX_NPROCESS (k, selection_start));
      [|apply keeps_refl|exact Hloop].
    intros j [b s] [b' s'] _ Hb Hs. cbn [fst] in *.
    eapply keeps_trans; [exact Hb|].
    eapply yield_scan_step_keeps; eassumption. }
  destruct (bool_decide _).
  - apply (yield_fallback_inv (keeps X k) now 1 MAX_NPROCESS k1 k' next);
      [|exact H1|exact Hrest].
    intros j b b' Hb Hr. eapply keeps_trans; [exact Hb|].
    eapply yield_retry_keeps; eassumption.
  - now injection Hrest as <- _.
Qed.

Lemma proc_yield_keeps {A} (X : process -> A) k k' :
  ignores_scheduling X -> ignores_dispatch X ->
  (forall v q, X (set_syscall v q) = X q) ->
  (forall v q, X (set_wakeup_time v q) = X q) ->
  proc_yield k = Ok k' -> keeps X k k'.
Proof.
  intros HX HD Hsys Hw. rewrite proc_yield_unfold.
  destruct (yield_select _ _) as [[k4 next]|] eqn:Hsel; [|discriminate].
  kbind. cbn [fst snd]. intros [= <-].
  eapply keeps_trans; [|now apply yield_dispatch_keeps].
  eapply keeps_trans; [|eapply yield_select_keeps; eassumption].
  now apply yield_scan_start_keeps.
Qed.

(** X10.  A timer interrupt taken while the core runs a process with a
    dispatch time recorded counts one more interrupt for that process and
    charges it, once, the time from its last dispatch to the second
    reading of the clock in the handler: the first reading is charged by
    [intr_entry], the time between the two readings by the
    [proc_set_runnable] of [proc_yield], and nothing after that, whether
    the process is dispatched again or not. *)
Theorem timer_tick_charges_once hart k k' :
  let i := core_to_proc_idx k !!! hart in
  let q := proc_at k i in
  let t1 := mtime_now k in
  let t2 := u64 (clock k (S (clock_reads k))) in
  table_ok k -> (1 <= i)%nat ->
  find_slot (has_pid (pid q)) k = Some i ->
  status q = PROC_RUNNING -> 0 < last_schedule_time q -> 0 < t1 ->
  trap hart CAUSE_TIMER k = Ok k' ->
  total_cpu_time (proc_at k' i) =
    u64 (total_cpu_time q + (t2 - last_schedule_time q)) /\
  timer_interrupt_count (proc_at k' i) = s32 (timer_interrupt_count q + 1) /\
  (status (proc_at k' i) = PROC_RUNNABLE \/ status (proc_at k' i) = PROC_RUNNING).
Proof.
  intros i q t1 t2 Hok Hi1 Hf Hst Hlast Ht1.
  pose proof (find_slot_in_table _ _ _ Hok Hf) as Hi.
  pose proof (find_slot_range _ _ _ Hf) as Hi16.
  unfold trap, kernel_entry. cbv zeta.
  set (k0 := set_mcause CAUSE_TIMER (set_mhartid hart k)).
  set (k1 := set_core_in_kernel (mhartid k0) k0).
  set (k2 := upd_proc (curr_proc_idx k1) (set_mepc (csr_mepc k1)) k1).
  set (k3 := upd_proc (curr_proc_idx k2)
               (fun p => set_saved_registers
                  (memcpy (saved_registers p) (saved_register_area k2)
                     SAVED_REGISTER_NUM) p) k2).
  assert (Hcause : mcause k3 = CAUSE_TIMER) by reflexivity.
  assert (Hidx : curr_proc_idx k3 = i) by reflexivity.
  assert (Hnow : mtime_now k3 = t1) by reflexivity.
  assert (Hclk : clock k3 = clock k /\ clock_reads k3 = clock_reads k)
    by (split; reflexivity).
  assert (Hlen : length (proc_set k3) = length (proc_set k)).
  { subst k3 k2. now rewrite !upd_proc_length. }
  assert (Hpid3 : keeps pid k k3).
  { subst k3 k2. eapply keeps_trans; [|now apply keeps_upd].
    eapply keeps_trans; [|now apply keeps_upd]. now intros j. }
  assert (Hq3 : status (proc_at k3 i) = PROC_RUNNING /\
                last_schedule_time (proc_at k3 i) = last_schedule_time q /\
                total_cpu_time (proc_at k3 i) = total_cpu_time q /\
                timer_interrupt_count (proc_at k3 i) = timer_interrupt_count q).
  { subst k3 k2. repeat split.
    - upd_keeps status. upd_keeps status. exact Hst.
    - upd_keeps last_schedule_time. now upd_keeps last_schedule_time.
    - upd_keeps total_cpu_time. now upd_keeps total_cpu_time.
    - upd_keeps timer_interrupt_count. now upd_keeps timer_interrupt_count. }
  clearbody k3. clear k2 k1 k0.
  destruct Hq3 as (Hst3 & Hl3 & Hc3 & Hn3). destruct Hclk as [Hclk Hreads].
  rewrite Hcause.
  replace (Z.testbit CAUSE_TIMER 31) with true by reflexivity.
  replace (Z.land CAUSE_TIMER 1023) with INTR_ID_TIMER by reflexivity.
  unfold intr_entry. rewrite Z.eqb_refl. cbn [negb]. cbv zeta. rewrite Hidx.
  replace ((0 <? i)%nat && (i <=? MAX_NPROCESS)%nat) with true.
  2:{ symmetry. apply andb_true_iff. split; [apply Nat.ltb_lt | apply Nat.leb_le]; lia. }
  kstep.
  set (ka := upd_proc i (fun p =>
               set_timer_interrupt_count (s32 (timer_interrupt_count p + 1)) p) k3).
  assert (Hla : last_schedule_time (proc_at ka i) = last_schedule_time q).
  { subst ka. now upd_keeps last_schedule_time. }
  rewrite proc_at_set_clock_reads, Hla.
  replace (0 <? last_schedule_time q) with true by (symmetry; now apply Z.ltb_lt).
  unfold mlfq_update_level.
  replace (mtime_now ka) with t1 by (symmetry; exact Hnow).
  set (r1 := u64_sub t1 (last_schedule_time q)).
  set (kt := upd_proc i (set_last_schedule_time t1) _).
  assert (Hlent : length (proc_set kt) = length (proc_set k)).
  { subst kt ka. now tlen. }
  assert (Hqt : proc_at kt i =
                set_last_schedule_time t1
                  (mlfq_update_pcb r1
                     (set_total_cpu_time (u64_add (total_cpu_time (proc_at k3 i)) r1)
                        (set_timer_interrupt_count
                           (s32 (timer_interrupt_count (proc_at k3 i) + 1))
                           (proc_at k3 i))))).
  { subst kt ka.
    rewrite proc_at_upd_eq by (tlen; lia).
    rewrite proc_at_upd_eq by (tlen; lia).
    rewrite proc_at_upd_eq by (tlen; lia).
    rewrite proc_at_set_clock_reads.
    now rewrite proc_at_upd_eq by (tlen; lia). }
  assert (Hpidt : keeps pid k kt).
  { eapply keeps_trans; [exact Hpid3|]. subst kt ka.
    eapply keeps_trans; [|now apply keeps_upd].
    eapply keeps_trans;
      [|apply keeps_upd; intros p0; apply mlfq_update_pcb_ignored,
          pid_ignores_scheduling].
    eapply keeps_trans; [|now apply keeps_upd].
    eapply keeps_table_r; [apply proc_set_set_clock_reads|].
    now apply keeps_upd. }
  assert (Hidxt : curr_proc_idx kt = i) by exact Hidx.
  assert (Hnowt : mtime_now kt = t2).
  { unfold mtime_now. change (clock kt) with (clock k3).
    change (clock_reads kt) with (S (clock_reads k3)).
    now rewrite Hclk, Hreads. }
  destruct (proc_yield kt) as [k4|] eqn:Hy; [|discriminate].
  kbind. intros [= <-].
  rewrite !proc_at_set_saved_register_area, !proc_at_set_csr_mepc.
  destruct (proc_yield_charges kt k4) as [Hc4 Hs4].
  - unfold table_ok. rewrite Hlent. exact Hok.
  - rewrite Hidxt, (Hpidt i). fold q.
    rewrite (find_slot_has_pid_keeps _ k kt Hpidt). exact Hf.
  - rewrite Hidxt, Hqt. cbn [status set_last_schedule_time].
    rewrite (mlfq_update_pcb_acct status) by apply status_ignores_accounting.
    exact Hst3.
  - rewrite Hidxt, Hqt. cbn [last_schedule_time set_last_schedule_time]. exact Ht1.
  - exact Hy.
  - rewrite Hidxt in Hc4, Hs4. split; [|split; [|exact Hs4]].
    + rewrite Hc4, Hqt, Hnowt.
      cbn [total_cpu_time last_schedule_time set_last_schedule_time].
      rewrite total_cpu_time_mlfq. cbn [total_cpu_time set_total_cpu_time].
      rewrite Hc3. subst r1. unfold u64_add, u64_sub, u64.
      rewrite Zplus_mod_idemp_l, Zplus_mod_idemp_r.
      replace (total_cpu_time q + (t1 - last_schedule_time q) mod 2 ^ 64 + (t2 - t1))
        with ((t1 - last_schedule_time q) mod 2 ^ 64 + (total_cpu_time q + (t2 - t1)))
        by lia.
      rewrite Zplus_mod_idemp_l. f_equal. lia.
    + rewrite (proc_yield_keeps timer_interrupt_count kt k4); try reflexivity;
        [|now repeat split|now repeat split|exact Hy].
      rewrite Hqt. cbn [timer_interrupt_count set_last_schedule_time].
      rewrite (mlfq_update_pcb_acct timer_interrupt_count) by now repeat split.
      cbn [timer_interrupt_count set_total_cpu_time set_timer_interrupt_count].
      now rewrite Hn3.
Qed.

End Charging.

Lemma timer_tick_charges_once_witness :
  table_ok ticking /\
  find_slot (has_pid 5) ticking = Some 1%nat /\
  status (proc_at ticking 1) = PROC_RUNNING /\
  last_schedule_time (proc_at ticking 1) = 1000 /\
  mtime_now ticking = 5000 /\
  exists k', trap (H := sample_platform) 0 CAUSE_TIMER ticking = Ok k' /\
    total_cpu_time (proc_at k' 1) = 5000 /\
    timer_interrupt_count (proc_at k' 1) = 1.
Proof.
  assert (Hok : table_ok ticking) by reflexivity.
  assert (Hf : find_slot (has_pid 5) ticking = Some 1%nat) by reflexivity.
  assert (Hst : status (proc_at ticking 1) = PROC_RUNNING) by reflexivity.
  assert (Hl : last_schedule_time (proc_at ticking 1) = 1000) by reflexivity.
  assert (Ht : mtime_now ticking = 5000) by reflexivity.
  split; [exact Hok|]. split; [exact Hf|]. split; [exact Hst|].
  split; [exact Hl|]. split; [exact Ht|].
  destruct (trap (H := sample_platform) 0 CAUSE_TIMER ticking) as [k'|] eqn:Hrun;
    [|vm_compute in Hrun; discriminate].
  exists k'. split; [reflexivity|].
  destruct (timer_tick_charges_once (H := sample_platform) 0%nat ticking k')
    as (Hc & Hn & _).
  - exact Hok.
  - vm_compute. lia.
  - exact Hf.
  - exact Hst.
  - vm_compute. reflexivity.
  - vm_compute. reflexivity.
  - exact Hrun.
  - split; [exact Hc | exact Hn].
Defined.

(** ** The saved context of a process *)

Lemma context_field_scheduling {A} (X : process -> A) :
  context_field X -> ignores_scheduling X.
Proof. intros (Hs & _ & _ & _ & Hc & _ & _ & Hl & Ht & _). now repeat split. Qed.

Lemma proc_set_running_ctx {A} (X : process -> A) p k :
  context_field X -> keeps X k (proc_set_running p k).
Proof.
  intros (Hs & _ & Hf & Hl & _). unfold proc_set_running.
  destruct (find_slot _ k) as [i|]; [|apply keeps_refl].
  destruct (first_schedule_time (proc_at k i) =? 0); kstep.
  - eapply keeps_trans; [|apply keeps_upd; intros q; apply Hs].
    eapply keeps_trans; [|apply keeps_upd; intros q; apply Hl].
    eapply keeps_trans; [|apply keeps_same_table; reflexivity].
    apply (keeps_upd X i _ (set_clock_reads (S (clock_reads k)) k)).
    intros q. apply Hf.
  - eapply keeps_trans; [|apply keeps_upd; intros q; apply Hs].
    apply (keeps_upd X i _ (set_clock_reads (S (clock_reads k)) k)).
    intros q. apply Hl.
Qed.

Lemma dispatch_stamp_ctx {A} (X : process -> A) next k :
  context_field X -> keeps X k (dispatch_stamp next k).
Proof.
  intros (_ & _ & Hf & Hl & _). unfold dispatch_stamp.
  destruct (first_schedule_time (proc_at k next) =? 0); kstep.
  - eapply keeps_trans; [|apply keeps_upd; intros q; apply Hl].
    eapply keeps_table_r; [apply proc_set_set_clock_reads|].
    eapply keeps_trans; [|apply keeps_upd; intros q; apply Hf].
    apply keeps_same_table, proc_set_set_clock_reads.
  - eapply keeps_trans; [|apply keeps_upd; intros q; apply Hl].
    apply keeps_same_table, proc_set_set_clock_reads.
Qed.

Lemma blind_dispatch_stamp {A} (F : kernel -> A) next k :
  table_blind F -> F (dispatch_stamp next k) = F k.
Proof.
  intros HF. pose proof HF as (_ & Hc & _). unfold dispatch_stamp.
  destruct (first_schedule_time (proc_at k next) =? 0); kstep;
    rewrite ?blind_upd, ?Hc, ?blind_upd by exact HF; [apply Hc|reflexivity].
Qed.

Section Resume.
Context `{Platform}.

Lemma dispatch_prime_other k j :
  status (proc_at k j) <> PROC_READY ->
  proc_at (dispatch_prime k) j = proc_at k j.
Proof.
  intros Hj. unfold dispatch_prime, curr_status.
  destruct (bool_decide _) eqn:Hready; [|reflexivity].
  apply bool_decide_eq_true_1 in Hready. cbv zeta.
  assert (Hne : curr_proc_idx k <> j).
  { intros Heq. apply Hj. now rewrite <- Heq. }
  now rewrite !proc_at_upd_ne by exact Hne.
Qed.

Lemma yield_dispatch_ctx {A} (X : process -> A) next k j :
  context_field X -> status (proc_at k j) <> PROC_READY ->
  X (proc_at (yield_dispatch next k) j) = X (proc_at k j).
Proof.
  intros HX Hj. unfold yield_dispatch.
  destruct (next <? MAX_NPROCESS)%nat; [|reflexivity]. cbv zeta.
  rewrite proc_at_emit. rewrite (proc_set_running_ctx X _ _ HX j).
  assert (Hst : status (proc_at (dispatch_stamp next k) j) = status (proc_at k j))
    by apply dispatch_stamp_keeps_status.
  rewrite dispatch_prime_other.
  - rewrite !proc_at_emit, proc_at_set_curr_proc_idx.
    rewrite (proc_at_same_table (dispatch_stamp next k))
      by apply proc_set_dispatch_mode.
    apply (dispatch_stamp_ctx X _ _ HX j).
  - rewrite !proc_at_emit, proc_at_set_curr_proc_idx.
    rewrite (proc_at_same_table (dispatch_stamp next k))
      by apply proc_set_dispatch_mode.
    now rewrite Hst.
Qed.

Lemma not_ready_closed k0 :
  kernel_closed (fun j q => status q = PROC_READY -> status (proc_at k0 j) = PROC_READY).
Proof.
  intros j q Hq. split; [|repeat split; try (intros v; exact Hq)].
  - intros v _ Hv Hst. cbn in Hst. now subst v.
  - intros r Hst. apply Hq.
    now rewrite (mlfq_update_pcb_acct status) in Hst by apply status_ignores_accounting.
  - exact Hq.
Qed.

Lemma proc_yield_ctx {A} (X : process -> A) k k' j :
  context_field X -> status (proc_at k j) <> PROC_READY ->
  proc_yield k = Ok k' -> X (proc_at k' j) = X (proc_at k j).
Proof.
  intros HX Hj. rewrite proc_yield_unfold.
  destruct (yield_select _ _) as [[k4 next]|] eqn:Hsel; [|discriminate].
  kbind. cbn [fst snd]. intros [= <-].
  pose proof (context_field_scheduling X HX) as Hsched.
  destruct HX as (Hs & Hsys & Hf & Hl & Hc & Hte & Hti & Hql & Hqt & Hw).
  assert (HX : context_field X) by now repeat split.
  assert (Hj0 : status (proc_at (yield_scan_start k) j) <> PROC_READY).
  { unfold yield_scan_start. rewrite proc_at_mtime_get.
    destruct (evolves_yield_prologue _ (not_ready_closed k) k) as (_ & _ & Hev).
    intros Hr. apply Hj. apply (Hev ltac:(now intros j') j Hr). }
  assert (Hj4 : status (proc_at k4 j) <> PROC_READY).
  { destruct (yield_select_status_cases _ _ _ _ j Hsel) as [-> | ->];
      [exact Hj0 | discriminate]. }
  rewrite yield_dispatch_ctx by assumption.
  rewrite (yield_select_keeps X _ _ _ _ Hsched Hsys Hw Hsel j).
  now apply yield_scan_start_keeps.
Qed.

Lemma blind_handler_table {A} (F : kernel -> A) : handler_blind F -> table_blind F.
Proof. now intros (Ht & _). Qed.

Lemma blind_proc_free {A} (F : kernel -> A) p k :
  handler_blind F -> F (proc_free p k) = F k.
Proof.
  intros (Ht & _ & Htr & _). unfold proc_free. destruct (negb _).
  - destruct (find_slot _ k) as [i|]; [|reflexivity]. kstep.
    unfold proc_set_status. rewrite (blind_foldl F).
    + unfold emit. rewrite !Htr. rewrite (blind_upd F) by exact Ht.
      now destruct Ht as (_ & -> & _).
    + intros k0 b. destruct (has_pid _ _); [|reflexivity].
      now apply blind_upd.
  - apply blind_foldl. intros k0 b. destruct (_ && _); [|reflexivity].
    kstep. rewrite (blind_upd F) by exact Ht. unfold emit. rewrite !Htr.
    rewrite (blind_upd F) by exact Ht. now destruct Ht as (_ & -> & _).
Qed.

Lemma blind_yield_select {A} (F : kernel -> A) now k k' next :
  table_blind F -> user_blind F ->
  yield_select now k = Ok (k', next) -> F k' = F k.
Proof.
  intros Ht Hu. unfold yield_select.
  destruct (for_slots _ _ _ _) as [[k1 sel]|] eqn:Hloop; [|discriminate].
  kbind. intros Hrest.
  pose proof (blind_for_slots F _ _ _ _ _ _ _ Ht Hu Hloop) as H1.
  destruct (bool_decide _).
  - apply (yield_fallback_inv (fun x => F x = F k) now 1 MAX_NPROCESS k1 k' next);
      [|exact H1|exact Hrest].
    intros j b b' Hb Hr. rewrite <- Hb. eapply blind_yield_retry; eassumption.
  - now injection Hrest as <- _.
Qed.

Lemma blind_yield_dispatch {A} (F : kernel -> A) next k :
  handler_blind F -> F (yield_dispatch next k) = F k.
Proof.
  intros (Ht & Hu & Htr & Hms & Hco). unfold yield_dispatch.
  destruct (next <? MAX_NPROCESS)%nat.
  - cbv zeta. unfold emit at 1. rewrite Htr.
    rewrite (blind_proc_set_running F) by exact Ht.
    assert (Hprime : forall x, F (dispatch_prime x) = F x).
    { intros x. unfold dispatch_prime. destruct (bool_decide _); [|reflexivity].
      cbv zeta. now rewrite !(blind_upd F) by exact Ht. }
    rewrite Hprime. unfold emit. rewrite !Htr.
    unfold set_curr_proc_idx. rewrite Hco.
    unfold dispatch_mode. destruct (_ <=? _); rewrite Hms;
      now apply blind_dispatch_stamp.
  - unfold go_idle. cbv zeta. unfold emit. rewrite Htr, Hms, Htr.
    unfold set_curr_proc_idx. now rewrite Hco.
Qed.

Lemma blind_proc_yield {A} (F : kernel -> A) k k' :
  handler_blind F -> proc_yield k = Ok k' -> F k' = F k.
Proof.
  intros HF. rewrite proc_yield_unfold.
  destruct (yield_select _ _) as [[k4 next]|] eqn:Hsel; [|discriminate].
  kbind. cbn [fst snd]. intros [= <-].
  rewrite blind_yield_dispatch by exact HF.
  rewrite (blind_yield_select F _ _ _ _ (proj1 HF) (proj1 (proj2 HF)) Hsel).
  apply blind_yield_scan_start. now apply blind_handler_table.
Qed.

Lemma blind_proc_try_syscall {A} (F : kernel -> A) i k k' :
  handler_blind F -> proc_try_syscall i k = Ok k' -> F k' = F k.
Proof.
  intros (Ht & Hu & _). unfold proc_try_syscall.
  destruct (Syscall.type _); [| |discriminate].
  - intros [= <-]. now apply blind_proc_try_recv.
  - now apply blind_proc_try_send.
Qed.

Lemma blind_intr_entry {A} (F : kernel -> A) id k k' :
  handler_blind F -> intr_entry id k = Ok k' -> F k' = F k.
Proof.
  intros HF. pose proof HF as (Ht & _). unfold intr_entry.
  destruct (negb _); [discriminate|]. cbv zeta.
  intros Hy. rewrite (blind_proc_yield F _ _ HF Hy).
  destruct (_ && _); [|reflexivity]. kstep.
  rewrite (blind_upd F) by exact Ht.
  destruct (0 <? _); unfold mlfq_update_level;
    rewrite ?(blind_upd F) by exact Ht;
    destruct Ht as (Hp & Hclk & Hr); rewrite Hclk; now apply blind_upd.
Qed.

Lemma blind_excp_entry {A} (F : kernel -> A) id k k' :
  handler_blind F -> excp_entry id k = Ok k' -> F k' = F k.
Proof.
  intros HF. pose proof HF as (Ht & _ & Htr & _). unfold excp_entry.
  destruct (_ && _).
  - cbv zeta.
    destruct (proc_try_syscall _ _) as [k5|] eqn:Hsys; [|discriminate].
    kbind. intros Hy. rewrite (blind_proc_yield F _ _ HF Hy).
    rewrite (blind_proc_try_syscall F _ _ _ HF Hsys).
    rewrite (blind_upd F) by exact Ht.
    rewrite (blind_proc_set_pending F) by exact Ht.
    now rewrite !(blind_upd F) by exact Ht.
  - destruct (_ <=? _); [|discriminate]. cbv zeta.
    intros Hy. rewrite (blind_proc_yield F _ _ HF Hy).
    rewrite blind_proc_free by exact HF. unfold emit. apply Htr.
Qed.

(** The handlers leave the saved context of every slot that is not READY
    as it is, but for the program counter of the current process, which
    an environment call moves past the [ecall] instruction. *)
Lemma intr_entry_ctx {A} (X : process -> A) id k k' s :
  context_field X -> status (proc_at k s) <> PROC_READY ->
  intr_entry id k = Ok k' -> X (proc_at k' s) = X (proc_at k s).
Proof.
  intros HX Hs. unfold intr_entry.
  destruct (negb _); [discriminate|]. cbv zeta.
  set (k1 := if (_ && _) then _ else k).
  assert (H1 : keeps X k k1 /\ keeps status k k1).
  { subst k1. destruct (_ && _); [|split; apply keeps_refl]. kstep.
    destruct HX as (Hst & Hsys & Hf & Hl & Hc & Hte & Hti & Hql & Hqt & Hw).
    assert (Hm : forall r q, X (mlfq_update_pcb r q) = X q).
    { intros r q. unfold mlfq_update_pcb. destruct (_ <=? _); [reflexivity|].
      destruct (_ <=? _); now rewrite ?Hqt, ?Hql. }
    destruct (0 <? _); unfold mlfq_update_level; split;
      repeat first
        [ apply keeps_refl
        | eapply keeps_trans; [|apply keeps_upd; intros q; cbv beta;
            first [ apply Hm | apply Hl | apply Hc | apply Hti
                  | apply (mlfq_update_pcb_acct status), status_ignores_accounting
                  | reflexivity ]]
        | eapply keeps_table_r; [apply proc_set_set_clock_reads|] ]. }
  destruct H1 as [HX1 Hs1]. intros Hy.
  rewrite (proc_yield_ctx X k1 k' s HX); [apply HX1 | now rewrite Hs1 | exact Hy].
Qed.

Lemma excp_entry_ctx {A} (X : process -> A) id k k' s :
  context_field X -> status (proc_at k s) <> PROC_READY ->
  ((EXCP_ID_ECALL_U <=? id) && (id <=? EXCP_ID_ECALL_M) = true ->
   s <> curr_proc_idx k \/ (forall v q, X (set_mepc v q) = X q)) ->
  excp_entry id k = Ok k' -> X (proc_at k' s) = X (proc_at k s).
Proof.
  intros HX Hs Hwhich. unfold excp_entry.
  pose proof (context_field_scheduling X HX) as Hsched.
  pose proof HX as (Hst & Hsys & Hf & Hl & Hc & Hte & Hti & Hql & Hqt & Hw).
  destruct (_ && _).
  - specialize (Hwhich eq_refl). cbv zeta.
    set (ka := upd_proc (curr_proc_idx k) (set_syscall (user_syscall k (curr_pid k))) k).
    set (kb := upd_proc (curr_proc_idx ka) _ ka).
    set (kc := proc_set_pending (curr_pid kb) kb).
    set (kd := upd_proc (curr_proc_idx kc) _ kc).
    destruct (proc_try_syscall _ _) as [k5|] eqn:Hsys5; [|discriminate].
    kbind. intros Hy.
    assert (Hidx : curr_proc_idx kc = curr_proc_idx k).
    { subst kc. rewrite (blind_proc_set_pending curr_proc_idx)
        by apply curr_proc_idx_table_blind. reflexivity. }
    assert (Hev : evolves (fun j q => status q = PROC_READY ->
                             status (proc_at k j) = PROC_READY) k k5).
    { eapply evolves_trans;
        [|eapply evolves_proc_try_syscall; [apply not_ready_closed | exact Hsys5]].
      subst kd. eapply evolves_trans; [|apply evolves_upd; now intros j q Hq].
      subst kc. eapply evolves_trans;
        [|apply evolves_proc_set_pending, not_ready_closed].
      subst kb ka. eapply evolves_trans; [|apply evolves_upd; now intros j q Hq].
      apply evolves_upd. now intros j q Hq. }
    destruct Hev as (_ & _ & Hev).
    assert (Hs5 : status (proc_at k5 s) <> PROC_READY).
    { intros Hr. apply Hs. apply (Hev ltac:(now intros j') s Hr). }
    rewrite (proc_yield_ctx X k5 k' s HX Hs5 Hy).
    rewrite (proc_try_syscall_keeps X _ _ _ Hsched Hsys Hsys5 s).
    assert (Hd : X (proc_at kd s) = X (proc_at kc s)).
    { subst kd. rewrite Hidx. destruct Hwhich as [Hne|Hm].
      - now rewrite proc_at_upd_ne by congruence.
      - apply (keeps_upd X). intros q. apply Hm. }
    rewrite Hd. subst kc. rewrite (proc_set_pending_keeps X _ _ Hsched s).
    subst kb ka.
    rewrite (keeps_upd X _ _ _ (fun q => Hsys _ q) s).
    apply (keeps_upd X). intros q. apply Hsys.
  - destruct (_ <=? _); [|discriminate]. cbv zeta. intros Hy.
    set (ke := emit (EvKilled (curr_pid k) id) k) in *.
    set (k2 := proc_free (curr_pid ke) ke) in *.
    assert (Hev : evolves (fun j q => status q = PROC_READY ->
                             status (proc_at k j) = PROC_READY) k k2).
    { subst k2. eapply evolves_trans; [|apply evolves_proc_free, not_ready_closed].
      subst ke. apply (evolves_after _ (emit (EvKilled (curr_pid k) id)));
        [reflexivity | reflexivity | apply evolves_refl]. }
    destruct Hev as (_ & _ & Hev).
    assert (Hs2 : status (proc_at k2 s) <> PROC_READY).
    { intros Hr. apply Hs. apply (Hev ltac:(now intros j') s Hr). }
    rewrite (proc_yield_ctx X k2 k' s HX Hs2 Hy).
    subst k2. rewrite (proc_free_keeps X _ _ Hst Hte s). reflexivity.
Qed.

Lemma excp_entry_mepc id k k' :
  let i := curr_proc_idx k in
  (i < length (proc_set k))%nat -> status (proc_at k i) <> PROC_READY ->
  (EXCP_ID_ECALL_U <=? id) && (id <=? EXCP_ID_ECALL_M) = true ->
  excp_entry id k = Ok k' ->
  mepc (proc_at k' i) = u32 (mepc (proc_at k i) + 4).
Proof.
  intros i Hi Hs Hid. unfold excp_entry. rewrite Hid. cbv zeta.
  assert (HX : context_field mepc) by now repeat split.
  pose proof (context_field_scheduling mepc HX) as Hsched.
  set (ka := upd_proc (curr_proc_idx k) (set_syscall (user_syscall k (curr_pid k))) k).
  set (kb := upd_proc (curr_proc_idx ka) _ ka).
  set (kc := proc_set_pending (curr_pid kb) kb).
  set (kd := upd_proc (curr_proc_idx kc) _ kc).
  destruct (proc_try_syscall _ _) as [k5|] eqn:Hsys5; [|discriminate].
  kbind. intros Hy.
  assert (Hidx : curr_proc_idx kc = i).
  { subst kc. rewrite (blind_proc_set_pending curr_proc_idx)
      by apply curr_proc_idx_table_blind. reflexivity. }
  assert (Hev : evolves (fun j q => status q = PROC_READY ->
                           status (proc_at k j) = PROC_READY) k k5).
  { eapply evolves_trans;
      [|eapply evolves_proc_try_syscall; [apply not_ready_closed | exact Hsys5]].
    subst kd. eapply evolves_trans; [|apply evolves_upd; now intros j q Hq].
    subst kc. eapply evolves_trans;
      [|apply evolves_proc_set_pending, not_ready_closed].
    subst kb ka. eapply evolves_trans; [|apply evolves_upd; now intros j q Hq].
    apply evolves_upd. now intros j q Hq. }
  destruct Hev as (_ & _ & Hev).
  assert (Hs5 : status (proc_at k5 i) <> PROC_READY).
  { intros Hr. apply Hs. apply (Hev ltac:(now intros j') i Hr). }
  rewrite (proc_yield_ctx mepc k5 k' i HX Hs5 Hy).
  rewrite (proc_try_syscall_keeps mepc _ _ _ Hsched ltac:(reflexivity) Hsys5 i).
  subst kd. rewrite Hidx.
  rewrite proc_at_upd_eq.
  2:{ subst kc. rewrite proc_set_pending_length. subst kb ka. now tlen. }
  cbn [mepc set_mepc]. subst kc.
  rewrite (proc_set_pending_keeps mepc _ _ Hsched i).
  subst kb ka. upd_keeps mepc. now upd_keeps mepc.
Qed.

(** X11.  On return from a trap, [mepc] and the register save area hold
    the program counter and the registers saved in the PCB of the process
    that is now current on the core.  The saved context of a PCB that is
    not READY is exactly what the traps of its own process stored: a trap
    leaves it untouched in every slot other than the one that was current
    on the trapping core, and stores there the registers of the save area
    and the program counter of [mepc], moved past the instruction after
    an environment call. *)
Theorem trap_resumes_saved_context hart cause k k' :
  let i := core_to_proc_idx k !!! hart in
  let ecall := negb (Z.testbit cause 31) &&
               ((EXCP_ID_ECALL_U <=? cause) && (cause <=? EXCP_ID_ECALL_M)) in
  trap hart cause k = Ok k' ->
  csr_mepc k' = mepc (proc_at k' (curr_proc_idx k')) /\
  saved_register_area k' =
    memcpy (saved_register_area k)
      (saved_registers (proc_at k' (curr_proc_idx k'))) SAVED_REGISTER_NUM /\
  (forall s, s <> i -> status (proc_at k s) <> PROC_READY ->
     mepc (proc_at k' s) = mepc (proc_at k s) /\
     saved_registers (proc_at k' s) = saved_registers (proc_at k s)) /\
  ((i < length (proc_set k))%nat -> status (proc_at k i) <> PROC_READY ->
     saved_registers (proc_at k' i) =
       memcpy (saved_registers (proc_at k i)) (saved_register_area k)
         SAVED_REGISTER_NUM /\
     mepc (proc_at k' i) =
       if ecall then u32 (csr_mepc k + 4) else csr_mepc k).
Proof.
  intros i ecall. unfold trap, kernel_entry. cbv zeta.
  set (k0 := set_mcause cause (set_mhartid hart k)).
  set (k1 := set_core_in_kernel (mhartid k0) k0).
  set (k2 := upd_proc (curr_proc_idx k1) (set_mepc (csr_mepc k1)) k1).
  set (k3 := upd_proc (curr_proc_idx k2)
               (fun p => set_saved_registers
                  (memcpy (saved_registers p) (saved_register_area k2)
                     SAVED_REGISTER_NUM) p) k2).
  assert (Hcause : mcause k3 = cause) by reflexivity.
  assert (Hidx : curr_proc_idx k3 = i) by reflexivity.
  assert (Harea : saved_register_area k3 = saved_register_area k) by reflexivity.
  assert (Hother : forall s, s <> i -> proc_at k3 s = proc_at k s).
  { intros s Hs. subst k3 k2.
    change (curr_proc_idx (upd_proc (curr_proc_idx k1) (set_mepc (csr_mepc k1)) k1))
      with i.
    change (curr_proc_idx k1) with i.
    now rewrite !proc_at_upd_ne by congruence. }
  assert (Hst3 : keeps status k k3).
  { subst k3 k2. eapply keeps_trans; [|now apply keeps_upd].
    eapply keeps_trans; [|now apply keeps_upd]. now intros j. }
  assert (Hslot : (i < length (proc_set k))%nat ->
            proc_at k3 i =
              set_saved_registers
                (memcpy (saved_registers (proc_at k i)) (saved_register_area k)
                   SAVED_REGISTER_NUM)
                (set_mepc (csr_mepc k) (proc_at k i))).
  { intros Hi. subst k3 k2.
    change (curr_proc_idx (upd_proc (curr_proc_idx k1) (set_mepc (csr_mepc k1)) k1))
      with i.
    change (curr_proc_idx k1) with i.
    rewrite proc_at_upd_eq by (rewrite upd_proc_length; exact Hi).
    rewrite proc_at_upd_eq by exact Hi. reflexivity. }
  assert (Hlen : length (proc_set k3) = length (proc_set k)).
  { subst k3 k2. now rewrite !upd_proc_length. }
  clearbody k3. clear k2 k1 k0. rewrite Hcause.
  assert (Hmepc : context_field mepc) by now repeat split.
  assert (Hregs : context_field saved_registers) by now repeat split.
  assert (Hblind : handler_blind saved_register_area) by now repeat split.
  match goal with
  | |- bind ?r _ = _ -> _ => destruct r as [k4|] eqn:Hentry; [|discriminate]
  end.
  kbind. intros Hret.
  assert (Hat : forall s, proc_at k' s = proc_at k4 s)
    by (intros s; injection Hret as <-; reflexivity).
  assert (Hpc : csr_mepc k' = mepc (proc_at k' (curr_proc_idx k')))
    by (injection Hret as <-; reflexivity).
  assert (Hsa : saved_register_area k' =
                memcpy (saved_register_area k4)
                  (saved_registers (proc_at k' (curr_proc_idx k'))) SAVED_REGISTER_NUM)
    by (injection Hret as <-; reflexivity).
  clear Hret.
  split; [exact Hpc|]. split.
  { rewrite Hsa, <- Harea.
    destruct (Z.testbit cause 31);
      [rewrite (blind_intr_entry saved_register_area _ _ _ Hblind Hentry)
      |rewrite (blind_excp_entry saved_register_area _ _ _ Hblind Hentry)];
      reflexivity. }
  assert (Hctx : forall {A} (X : process -> A) s,
            context_field X -> status (proc_at k s) <> PROC_READY ->
            (ecall = true -> s <> i \/ (forall v q, X (set_mepc v q) = X q)) ->
            X (proc_at k4 s) = X (proc_at k3 s)).
  { intros A X s HX Hs Hwhich.
    assert (Hs3 : status (proc_at k3 s) <> PROC_READY) by now rewrite Hst3.
    subst ecall. destruct (Z.testbit cause 31).
    - exact (intr_entry_ctx X _ _ _ s HX Hs3 Hentry).
    - apply (excp_entry_ctx X cause k3 k4 s HX Hs3); [|exact Hentry].
      rewrite Hidx. intros Hid. apply Hwhich. cbn [negb andb]. exact Hid. }
  split.
  - intros s Hs Hst. rewrite !Hat. split.
    + rewrite (Hctx _ mepc s Hmepc Hst) by (intros _; now left).
      now rewrite Hother.
    + rewrite (Hctx _ saved_registers s Hregs Hst) by (intros _; now left).
      now rewrite Hother.
  - intros Hi Hst. rewrite !Hat. split.
    + rewrite (Hctx _ saved_registers i Hregs Hst) by (intros _; now right).
      now rewrite Hslot.
    + destruct ecall eqn:Hecall.
      * subst ecall. apply andb_true_iff in Hecall as [Hbit Hid].
        apply negb_true_iff in Hbit. rewrite Hbit in Hentry.
        rewrite <- Hidx.
        rewrite (excp_entry_mepc cause k3 k4); [| | |exact Hid|exact Hentry].
        -- rewrite Hidx, Hslot by exact Hi. reflexivity.
        -- rewrite Hidx, Hlen. exact Hi.
        -- rewrite Hidx, Hst3. exact Hst.
      * assert (Hs3 : status (proc_at k3 i) <> PROC_READY) by now rewrite Hst3.
        subst ecall. destruct (Z.testbit cause 31).
        -- rewrite (intr_entry_ctx mepc _ _ _ i Hmepc Hs3 Hentry).
           now rewrite Hslot.
        -- cbn [negb andb] in Hecall.
           rewrite (excp_entry_ctx mepc cause k3 k4 i Hmepc Hs3); [| |exact Hentry].
           ++ now rewrite Hslot.
           ++ intros Hid. rewrite Hid in Hecall. discriminate.
Qed.

End Resume.

Lemma trap_resumes_saved_context_witness :
  exists k', trap (H := sample_platform) 0 CAUSE_TIMER ticking = Ok k' /\
    csr_mepc k' = mepc (proc_at k' (curr_proc_idx k')) /\
    mepc (proc_at k' 1) = csr_mepc ticking /\
    mepc (proc_at k' 2) = mepc (proc_at ticking 2).
Proof.
  destruct (trap (H := sample_platform) 0 CAUSE_TIMER ticking) as [k'|] eqn:Hrun;
    [|vm_compute in Hrun; discriminate].
  exists k'. split; [reflexivity|].
  destruct (trap_resumes_saved_context (H := sample_platform) 0%nat CAUSE_TIMER
              ticking k' Hrun) as (Hpc & _ & Hother & Hself).
  split; [exact Hpc|]. split.
  - destruct Hself as [_ Hm]; [vm_compute; lia | discriminate |]. exact Hm.
  - destruct (Hother 2%nat) as [Hm _]; [discriminate | discriminate | exact Hm].
Defined.

(** ** What [proc_coresinfo] reports after a dispatch *)

Section Coresinfo.
Context `{Platform}.

Lemma proc_coresinfo_line k c :
  (c < NCORES)%nat ->
  proc_coresinfo k !! S c =
    Some (let idx := core_to_proc_idx k !!! c in
          if (idx <? MAX_NPROCESS)%nat && status_is PROC_RUNNING (proc_at k idx)
          then LineProcess c (pid (proc_at k idx)) else LineIdle c).
Proof.
  intros Hc. unfold proc_coresinfo.
  match goal with
  | |- (_ :: map ?f ?l) !! S c = _ => change ((f <$> l) !! c = Some (f c))
  end.
  rewrite list_lookup_fmap.
  rewrite (lookup_seq_lt 0 NCORES c Hc). reflexivity.
Qed.

Lemma yield_select_next now k k' next :
  yield_select now k = Ok (k', next) -> (1 <= next <= MAX_NPROCESS)%nat.
Proof.
  rewrite yield_select_unfold.
  destruct (scan_prefix now k MAX_NPROCESS) as [[k1 sel]|] eqn:Hscan; [|discriminate].
  kbind. cbn [fst snd].
  pose proof (scan_prefix_inv _ _ _ _ _ Hscan) as [Hsel _].
  destruct (bool_decide _) eqn:Hd.
  - intros Hfb.
    destruct (yield_fallback_inv (fun _ => True) now 1 MAX_NPROCESS k1 k' next)
      as [_ [-> | (Hr & _)]]; auto; unfold MAX_NPROCESS in *; lia.
  - intros [= <- <-]. apply bool_decide_eq_false_1 in Hd.
    destruct Hsel as [[Hn _] | (Hr & _)]; [contradiction | lia].
Qed.

Lemma yield_dispatch_running next k :
  table_ok k -> (next < MAX_NPROCESS)%nat ->
  (core_in_kernel k < length (core_to_proc_idx k))%nat ->
  find_slot (has_pid (pid (proc_at k next))) k = Some next ->
  status (proc_at (yield_dispatch next k) next) = PROC_RUNNING /\
  pid (proc_at (yield_dispatch next k) next) = pid (proc_at k next).
Proof.
  intros Hok Hn Hc Hf.
  split; [|apply (yield_dispatch_keeps pid); now repeat split].
  unfold yield_dispatch.
  replace (next <? MAX_NPROCESS)%nat with true by (symmetry; now apply Nat.ltb_lt).
  cbv zeta. rewrite proc_at_emit.
  set (k5 := set_curr_proc_idx next (dispatch_mode next (dispatch_stamp next k))).
  set (k6 := emit EvMmuFlushCache (emit (EvMmuSwitch (curr_pid k5)) k5)).
  set (k7 := dispatch_prime k6).
  assert (Hpid7 : keeps pid k k7).
  { subst k7. eapply keeps_trans; [|apply dispatch_prime_keeps; now repeat split].
    subst k6 k5. intros j. rewrite !proc_at_emit, proc_at_set_curr_proc_idx.
    rewrite (proc_at_same_table (dispatch_stamp next k))
      by apply proc_set_dispatch_mode.
    apply dispatch_stamp_keeps. now repeat split. }
  assert (Hlen7 : length (proc_set k7) = length (proc_set k)).
  { subst k7. rewrite dispatch_prime_length. subst k6 k5.
    rewrite !proc_set_emit, proc_set_set_curr_proc_idx, proc_set_dispatch_mode.
    apply dispatch_stamp_length. }
  assert (Hcur7 : curr_proc_idx k7 = next).
  { subst k7. unfold curr_proc_idx.
    destruct (dispatch_prime_cores k6) as [-> ->]. subst k6 k5.
    assert (Hstamp : cores (dispatch_mode next (dispatch_stamp next k)) = cores k).
    { unfold dispatch_mode, dispatch_stamp.
      destruct (_ <=? _); destruct (first_schedule_time _ =? 0); reflexivity. }
    unfold cores in Hstamp. injection Hstamp as Hcore' Hmap'.
    unfold set_curr_proc_idx, emit.
    cbn [core_to_proc_idx core_in_kernel set_core_to_proc_idx set_trace].
    rewrite Hcore', Hmap'. now apply list_lookup_total_insert_eq. }
  assert (Hf7 : find_slot (has_pid (curr_pid k7)) k7 = Some next).
  { unfold curr_pid. rewrite Hcur7, (Hpid7 next).
    now rewrite (find_slot_has_pid_keeps _ k k7 Hpid7). }
  destruct (proc_set_running_effect (curr_pid k7) k7 next) as [_ Hto];
    [unfold table_ok; now rewrite Hlen7 | exact Hf7 |].
  rewrite (Hto next). now destruct (decide (next = next)).
Qed.

(** X12.  After a call of [proc_yield] that returns, [proc_coresinfo]
    prints the header and one line per core, and the line of the core the
    call ran on tells what the call did: when it dispatched a slot whose
    pid occurs in no lower slot of the table, the line names that pid as
    the process of the core; when it left the core idle (and slot 0, the
    placeholder of idle cores, was not marked RUNNING), the line says
    idle. *)
Theorem coresinfo_after_yield k k' :
  let c := core_in_kernel k in
  let j := curr_proc_idx k' in
  table_ok k -> (c < NCORES)%nat -> length (core_to_proc_idx k) = NCORES ->
  proc_yield k = Ok k' ->
  length (proc_coresinfo k') = S NCORES /\
  ((0 < j)%nat -> find_slot (has_pid (pid (proc_at k j))) k = Some j ->
   proc_coresinfo k' !! S c = Some (LineProcess c (pid (proc_at k j)))) /\
  (j = 0%nat -> status (proc_at k 0) <> PROC_RUNNING ->
   proc_coresinfo k' !! S c = Some (LineIdle c)).
Proof.
  intros c j Hok Hc Hlen Hy.
  split.
  { unfold proc_coresinfo. cbn [length]. now rewrite length_map, length_seq. }
  assert (Hcore : core_in_kernel k' = c).
  { apply (blind_proc_yield core_in_kernel k k'); [now repeat split | exact Hy]. }
  revert Hy. rewrite proc_yield_unfold.
  destruct (yield_select _ _) as [[k4 next]|] eqn:Hsel; [|discriminate].
  kbind. cbn [fst snd]. intros Hret.
  pose proof (yield_select_next _ _ _ _ Hsel) as Hnext.
  assert (Hpid4 : keeps pid k k4).
  { eapply keeps_trans; [apply yield_scan_start_keeps, pid_ignores_scheduling|].
    eapply yield_select_keeps; [apply pid_ignores_scheduling | | | exact Hsel];
      reflexivity. }
  assert (Hlen4 : length (proc_set k4) = length (proc_set k)).
  { destruct (evolves_yield_select (fun _ _ => True) ltac:(now intros ? ? _)
                _ _ _ _ Hsel) as (Hl & _).
    rewrite Hl. apply yield_scan_start_length. }
  assert (Hcores4 : cores k4 = cores k).
  { rewrite (blind_yield_select cores _ _ _ _ cores_table_blind
               ltac:(now intros ? ?) Hsel).
    apply blind_yield_scan_start, cores_table_blind. }
  unfold cores in Hcores4. injection Hcores4 as Hcik4 Hmap4.
  assert (Hbound : (core_in_kernel k4 < length (core_to_proc_idx k4))%nat).
  { rewrite Hcik4, Hmap4, Hlen. exact Hc. }
  assert (Hline : proc_coresinfo k' !! S c =
            Some (if (j <? MAX_NPROCESS)%nat && status_is PROC_RUNNING (proc_at k' j)
                  then LineProcess c (pid (proc_at k' j)) else LineIdle c)).
  { rewrite (proc_coresinfo_line k' c Hc). cbv zeta.
    unfold j, curr_proc_idx. now rewrite Hcore. }
  destruct (decide (next < MAX_NPROCESS)%nat) as [Hlt|Hge].
  - assert (Hj : j = next).
    { unfold j. injection Hret as <-. now apply curr_proc_idx_dispatched. }
    split.
    + intros _ Hf. rewrite Hline, Hj. rewrite Hj in Hf.
      destruct (yield_dispatch_running next k4) as [Hst Hp].
      * unfold table_ok. now rewrite Hlen4.
      * exact Hlt.
      * exact Hbound.
      * rewrite (Hpid4 next), (find_slot_has_pid_keeps _ k k4 Hpid4). exact Hf.
      * injection Hret as <-. unfold status_is.
        rewrite (bool_decide_eq_true_2 _ Hst), Hp, (Hpid4 next).
        now replace (next <? MAX_NPROCESS)%nat with true
          by (symmetry; now apply Nat.ltb_lt).
    + intros Hj0. lia.
  - split.
    + intros Hpos _. exfalso.
      assert (Hj0 : j = 0%nat).
      { unfold j. injection Hret as <-.
        destruct (curr_proc_idx_yield_dispatch next k4) as [[_ Hlt]|Hz];
          [contradiction | exact Hz]. }
      lia.
    + intros Hj0 Hs0. rewrite Hline, Hj0.
      assert (Hnr : status (proc_at k' 0) <> PROC_RUNNING).
      { injection Hret as <-. unfold yield_dispatch.
        replace (next <? MAX_NPROCESS)%nat with false
          by (symmetry; now apply Nat.ltb_ge; lia).
        rewrite (proc_at_same_table k4) by apply proc_set_go_idle.
        destruct (yield_select_status_cases _ _ _ _ 0%nat Hsel) as [-> | ->];
          [|discriminate].
        unfold yield_scan_start. rewrite proc_at_mtime_get.
        unfold yield_prologue.
        rewrite (mlfq_reset_level_keeps_queue status) by reflexivity.
        destruct (bool_decide _); [|exact Hs0].
        destruct (proc_set_runnable_status_cases (curr_pid k) k 0) as [-> | ->];
          [exact Hs0 | discriminate]. }
      unfold status_is. rewrite (bool_decide_eq_false_2 _ Hnr).
      now rewrite andb_false_r.
Qed.

End Coresinfo.

Lemma coresinfo_after_yield_witness :
  exists k', proc_yield (H := sample_platform) three_runnable = Ok k' /\
    curr_proc_idx k' = 2%nat /\
    proc_coresinfo (H := sample_platform) k' !! 1%nat = Some (LineProcess 0 6).
Proof.
  destruct (proc_yield (H := sample_platform) three_runnable) as [k'|] eqn:Hy;
    [|vm_compute in Hy; discriminate].
  exists k'. split; [reflexivity|].
  assert (Hj : curr_proc_idx k' = 2%nat).
  { vm_compute in Hy. injection Hy as <-. reflexivity. }
  split; [exact Hj|].
  destruct (coresinfo_after_yield (H := sample_platform) three_runnable k')
    as (_ & Hrun & _).
  - reflexivity.
  - vm_compute. lia.
  - reflexivity.
  - exact Hy.
  - rewrite Hj in Hrun. apply Hrun; [lia | reflexivity].
Defined.

(** * The user applications *)

(** ** Texts and their pieces *)

Lemma split_on_cons d s : exists piece pieces, split_on d s = piece :: pieces.
Proof.
  destruct s as [|c r]; cbn [split_on]; [now eexists _, _|].
  destruct (Byte.eqb c d); [now eexists _, _|].
  destruct (split_on d r); now eexists _, _.
Qed.

Lemma last_cons_cons {A} (a b : A) l d : List.last (a :: b :: l) d = List.last (b :: l) d.
Proof. reflexivity. Qed.

Lemma byte_eqb_eq (a b : byte) : Byte.eqb a b = true <-> a = b.
Proof.
  split; [apply byte_dec_bl|]. intros ->. now apply byte_dec_lb.
Qed.

Lemma byte_eqb_neq (a b : byte) : Byte.eqb a b = false <-> a <> b.
Proof.
  split; [apply Byte.eqb_false|]. intros Hne.
  destruct (Byte.eqb a b) eqn:Heq; [|reflexivity].
  now apply byte_eqb_eq in Heq.
Qed.

Lemma until_length d s : (length (until d s) <= length s)%nat.
Proof.
  induction s as [|c r IH]; cbn [until length]; [lia|].
  destruct (Byte.eqb c d); cbn [length]; lia.
Qed.

Lemma until_clean d s : Forall (fun c => c <> d) s -> until d s = s.
Proof.
  induction 1 as [|c r Hc _ IH]; cbn [until]; [reflexivity|].
  apply byte_eqb_neq in Hc. now rewrite Hc, IH.
Qed.

(** ** [wcl]: the count of one block *)

Lemma wcl_count_loop n : forall buf i lines has_content,
  0 <= lines -> lines + Z.of_nat n < 2 ^ 31 ->
  let pieces := split_on x0a (c_text (take n (drop i buf))) in
  Wcl.count_loop buf i n lines has_content =
    (lines + Z.of_nat (length pieces - 1),
     if (1 <? length pieces)%nat then existsb Wcl.is_content (List.last pieces [])
     else has_content || existsb Wcl.is_content (List.last pieces [])).
Proof.
  induction n as [|n IH]; intros buf i lines hc Hl Hn pieces; subst pieces.
  - rewrite take_0. cbn. rewrite orb_false_r. f_equal. lia.
  - cbn [Wcl.count_loop]. cbv zeta.
    destruct (decide (i < length buf)%nat) as [Hi|Hi].
    2:{ rewrite (list_lookup_total_alt buf i), lookup_ge_None_2 by lia.
        cbn [default Byte.eqb]. rewrite drop_ge by lia. rewrite take_nil. cbn.
        rewrite orb_false_r. f_equal. lia. }
    destruct (lookup_lt_is_Some_2 buf i Hi) as [c Hc].
    rewrite (list_lookup_total_correct buf i c Hc).
    rewrite (drop_S buf c i Hc). rewrite firstn_cons. cbn [c_text until].
    destruct (Byte.eqb c x00) eqn:Hnul.
    { cbn. rewrite orb_false_r. f_equal. lia. }
    fold (c_text (take n (drop (S i) buf))).
    destruct (split_on_cons x0a (c_text (take n (drop (S i) buf))))
      as (piece & rest & Hsplit).
    cbn [split_on].
    destruct (Byte.eqb c x0a) eqn:Hlf.
    + rewrite s32_small by lia.
      rewrite IH by lia. cbv zeta. rewrite Hsplit.
      cbn [length]. rewrite last_cons_cons.
      replace (1 <? S (S (length rest)))%nat with true by reflexivity.
      f_equal; [lia|].
      destruct rest; cbn [length]; [|reflexivity].
      replace (1 <? 1)%nat with false by reflexivity. reflexivity.
    + rewrite Hsplit. destruct (Byte.eqb c x0d) eqn:Hcr; cbn [negb andb].
      * rewrite IH by lia. cbv zeta. rewrite Hsplit. cbn [length].
        f_equal. destruct rest as [|piece' rest']; cbn [length].
        -- replace (1 <? 1)%nat with false by reflexivity.
           cbn [List.last existsb]. unfold Wcl.is_content at 2.
           rewrite Hcr. reflexivity.
        -- rewrite !last_cons_cons. reflexivity.
      * rewrite IH by lia. cbv zeta. rewrite Hsplit. cbn [length].
        f_equal. destruct rest as [|piece' rest']; cbn [length].
        -- replace (1 <? 1)%nat with false by reflexivity.
           cbn [List.last existsb]. unfold Wcl.is_content at 2.
           rewrite Hcr. cbn [negb orb]. now rewrite orb_true_r.
        -- rewrite !last_cons_cons. reflexivity.
Qed.

Lemma wcl_pieces_bound buf :
  (length (split_on x0a (c_text (take Wcl.BLOCK_SIZE buf))) <= S Wcl.BLOCK_SIZE)%nat.
Proof.
  assert (Hsp : forall s, (length (split_on x0a s) <= S (length s))%nat).
  { induction s as [|c r IHs]; cbn [split_on length]; [lia|].
    destruct (Byte.eqb c x0a); cbn [length]; [lia|].
    destruct (split_on x0a r); cbn [length] in *; lia. }
  specialize (Hsp (c_text (take Wcl.BLOCK_SIZE buf))).
  pose proof (until_length x00 (take Wcl.BLOCK_SIZE buf)) as Ht.
  rewrite length_take in Ht. unfold c_text in *. lia.
Qed.

Lemma if_same {A} (b : bool) (x : A) : (if b then x else x) = x.
Proof. now destruct b. Qed.

(** X13.  What [wcl] counts in a block: the line feeds of the text (the
    characters of the first 512 bytes before the first NUL), plus one when
    a character other than a carriage return follows the last line feed;
    with no line feed, when the text has such a character at all. *)
Theorem wcl_count_lines_spec buf :
  Wcl.count_lines buf = Wcl.lines_of_text (c_text (take Wcl.BLOCK_SIZE buf)).
Proof.
  unfold Wcl.count_lines, Wcl.lines_of_text.
  rewrite (wcl_count_loop Wcl.BLOCK_SIZE buf 0 0 false)
    by (unfold Wcl.BLOCK_SIZE; lia).
  cbv zeta. rewrite drop_0. cbn [orb].
  pose proof (wcl_pieces_bound buf) as Hlen.
  set (pieces := split_on x0a (c_text (take Wcl.BLOCK_SIZE buf))) in *.
  rewrite if_same.
  destruct (existsb Wcl.is_content (List.last pieces [])); [|lia].
  rewrite s32_small; [lia|]. unfold Wcl.BLOCK_SIZE in Hlen. lia.
Qed.

Lemma split_on_filter_content s :
  split_on x0a (List.filter Wcl.is_content s) =
    map (List.filter Wcl.is_content) (split_on x0a s).
Proof.
  induction s as [|c r IH]; [reflexivity|].
  cbn [List.filter split_on].
  destruct (split_on_cons x0a r) as (piece & rest & Hsplit).
  destruct (Byte.eqb c x0a) eqn:Hlf.
  - apply byte_eqb_eq in Hlf. subst c.
    replace (Wcl.is_content x0a) with true by reflexivity.
    cbn [split_on]. replace (Byte.eqb x0a x0a) with true by reflexivity.
    cbn [map List.filter]. now rewrite IH.
  - destruct (Wcl.is_content c) eqn:Hcontent.
    + cbn [split_on]. rewrite Hlf, IH, Hsplit. cbn [map List.filter].
      now rewrite Hcontent.
    + rewrite IH, Hsplit. cbn [map List.filter]. now rewrite Hcontent.
Qed.

Lemma last_map {A B} (f : A -> B) l d :
  l <> [] -> List.last (map f l) (f d) = f (List.last l d).
Proof.
  induction l as [|a [|b l] IH]; intros Hne; [contradiction|reflexivity|].
  cbn [map]. rewrite !last_cons_cons. apply IH. discriminate.
Qed.

Lemma existsb_filter_content piece :
  existsb Wcl.is_content (List.filter Wcl.is_content piece) =
    existsb Wcl.is_content piece.
Proof.
  induction piece as [|c r IH]; [reflexivity|]. cbn [List.filter existsb].
  destruct (Wcl.is_content c) eqn:Hc; cbn [existsb]; now rewrite ?Hc, ?IH.
Qed.

Lemma wcl_lines_of_text_filter s :
  Wcl.lines_of_text (List.filter Wcl.is_content s) = Wcl.lines_of_text s.
Proof.
  unfold Wcl.lines_of_text. rewrite split_on_filter_content, length_map.
  destruct (split_on_cons x0a s) as (piece & rest & Hsplit). rewrite Hsplit.
  change (@nil byte) with (List.filter Wcl.is_content []) at 1.
  rewrite last_map by discriminate.
  now rewrite existsb_filter_content.
Qed.

Lemma split_on_sizes s :
  (length (split_on x0a s) - 1 + length (List.last (split_on x0a s) []) <= length s)%nat.
Proof.
  induction s as [|c r IH]; [cbn; lia|]. cbn [split_on].
  destruct (split_on_cons x0a r) as (piece & rest & Hsplit).
  rewrite Hsplit in *. destruct (Byte.eqb c x0a).
  - rewrite last_cons_cons. cbn [length] in *. lia.
  - destruct rest as [|piece' rest'].
    + cbn [List.last length] in *. lia.
    + rewrite last_cons_cons in *. cbn [length] in *. lia.
Qed.

Lemma wcl_lines_of_text_bound s :
  0 <= Wcl.lines_of_text s <= Z.of_nat (length s).
Proof.
  unfold Wcl.lines_of_text. pose proof (split_on_sizes s) as Hsz.
  destruct (existsb Wcl.is_content (List.last (split_on x0a s) [])) eqn:He; [|lia].
  assert (List.last (split_on x0a s) [] <> []) by (intros Hnil; now rewrite Hnil in He).
  destruct (List.last (split_on x0a s) []); [contradiction|].
  cbn [length] in Hsz. lia.
Qed.

Lemma wcl_count_lines_text text :
  Forall (fun c => c <> x00) text -> (length text <= Wcl.BLOCK_SIZE)%nat ->
  Wcl.count_lines text = Wcl.lines_of_text text.
Proof.
  intros Hclean Hlen.
  assert (Htext : c_text (take Wcl.BLOCK_SIZE text) = text).
  { rewrite take_ge by exact Hlen. unfold c_text. now rewrite until_clean. }
  pose proof (wcl_pieces_bound text) as Hbound. rewrite Htext in Hbound.
  unfold Wcl.count_lines, Wcl.lines_of_text.
  rewrite (wcl_count_loop Wcl.BLOCK_SIZE text 0 0 false)
    by (unfold Wcl.BLOCK_SIZE; lia).
  cbv zeta. rewrite drop_0, Htext, if_same. cbn [orb].
  destruct (existsb Wcl.is_content (List.last (split_on x0a text) [])); [|lia].
  rewrite s32_small; [lia|]. unfold Wcl.BLOCK_SIZE in Hbound. lia.
Qed.

(** X14.  For a text without NUL that fits the block, [wcl] counts at
    least 0 and at most as many lines as the text has characters, and the
    count does not depend on the carriage returns: with all of them
    removed it is the same, so a file with CR LF line ends counts like
    the same file with LF line ends. *)
Theorem wcl_count_ignores_cr text :
  Forall (fun c => c <> x00) text -> (length text <= Wcl.BLOCK_SIZE)%nat ->
  0 <= Wcl.count_lines text <= Z.of_nat (length text) /\
  Wcl.count_lines (List.filter Wcl.is_content text) = Wcl.count_lines text.
Proof.
  intros Hclean Hlen. rewrite (wcl_count_lines_text text Hclean Hlen).
  split; [apply wcl_lines_of_text_bound|].
  rewrite wcl_count_lines_text.
  - apply wcl_lines_of_text_filter.
  - apply Forall_forall. intros c Hc. apply list_elem_of_In in Hc.
    apply List.filter_In in Hc as [Hc _].
    rewrite Forall_forall in Hclean. apply Hclean. now apply list_elem_of_In.
  - pose proof (List.filter_length_le Wcl.is_content text). lia.
Qed.

Lemma wcl_count_ignores_cr_witness :
  let text := [x61; x0d; x0a; x62; x0d; x0a] in
  Forall (fun c => c <> x00) text /\ (length text <= Wcl.BLOCK_SIZE)%nat /\
  Wcl.count_lines text = 2 /\
  Wcl.count_lines (List.filter Wcl.is_content text) = Wcl.count_lines text.
Proof.
  intros text.
  assert (Hclean : Forall (fun c => c <> x00) text)
    by (repeat constructor; discriminate).
  assert (Hlen : (length text <= Wcl.BLOCK_SIZE)%nat)
    by (unfold Wcl.BLOCK_SIZE; cbn; lia).
  split; [exact Hclean|]. split; [exact Hlen|]. split; [reflexivity|].
  exact (proj2 (wcl_count_ignores_cr text Hclean Hlen)).
Defined.

(** ** [wcl]: the program *)

Lemma s32_add_l a b : s32 (s32 a + b) = s32 (a + b).
Proof.
  unfold s32. f_equal.
  replace ((a + 2 ^ 31) mod 2 ^ 32 - 2 ^ 31 + b + 2 ^ 31)
    with ((a + 2 ^ 31) mod 2 ^ 32 + b) by lia.
  rewrite Zplus_mod_idemp_l. f_equal. lia.
Qed.

Section WclMain.
Context `{AppEnv}.

Lemma wcl_count_file t0 out filename :
  Wcl.count_file (s32 t0, out) filename =
    (s32 (t0 + Wcl.file_count filename),
     out ++ (if Wcl.missing filename then [Wcl.NotFound filename] else [])).
Proof.
  unfold Wcl.count_file, Wcl.file_count, Wcl.missing.
  destruct (dir_lookup workdir_ino filename <? 0).
  - now rewrite Z.add_0_r.
  - destruct (file_read _ _ _) as [ret buf].
    destruct (ret <? 0); rewrite app_nil_r.
    + now rewrite Z.add_0_r.
    + now rewrite s32_add_l.
Qed.

Lemma wcl_count_files files : forall t0 out,
  foldl Wcl.count_file (s32 t0, out) files =
    (s32 (t0 + foldr Z.add 0 (map Wcl.file_count files)),
     out ++ map Wcl.NotFound (List.filter Wcl.missing files)).
Proof.
  induction files as [|f files IH]; intros t0 out; cbn [foldl map foldr List.filter].
  - now rewrite Z.add_0_r, app_nil_r.
  - rewrite wcl_count_file, IH. f_equal; [f_equal; lia|].
    rewrite <- app_assoc. now destruct (Wcl.missing f).
Qed.

(** X15.  [wcl] without a file argument prints its usage line and returns
    -1.  Otherwise it returns 0 and prints one "not found" line for each
    argument that names no file, in the order of the arguments, and then
    the total: the sum, as an [int], of the counts of the first blocks of
    the files that were found and read.  So the total of a list of files
    is the sum of the totals of its parts, and a missing or unreadable
    file adds nothing. *)
Theorem wcl_main_spec argv :
  ((length argv < 2)%nat -> Wcl.main argv = (-1, [Wcl.Usage])) /\
  ((2 <= length argv)%nat ->
   Wcl.main argv =
     (0, map Wcl.NotFound (List.filter Wcl.missing (drop 1 argv)) ++
         [Wcl.Total (s32 (foldr Z.add 0 (map Wcl.file_count (drop 1 argv))))])).
Proof.
  unfold Wcl.main. split; intros Hargc.
  - now replace (length argv <? 2)%nat with true by (symmetry; now apply Nat.ltb_lt).
  - replace (length argv <? 2)%nat with false by (symmetry; now apply Nat.ltb_ge).
    change (0, @nil Wcl.line) with (s32 0, @nil Wcl.line).
    now rewrite wcl_count_files.
Qed.

End WclMain.

Lemma wcl_main_spec_witness :
  let argv := [[x77; x63; x6c]; notes_name; [x78]; notes_name] in
  (2 <= length argv)%nat /\
  Wcl.main (H := sample_files) argv = (0, [Wcl.NotFound [x78]; Wcl.Total 8]).
Proof.
  intros argv.
  assert (Hargc : (2 <= length argv)%nat) by (cbn; lia).
  split; [exact Hargc|].
  rewrite (proj2 (wcl_main_spec (H := sample_files) argv) Hargc).
  reflexivity.
Defined.

(** ** [grep]: the library functions it uses *)

Lemma starts_with_spec needle s :
  Grep.starts_with needle s = true <-> exists b, s = needle ++ b.
Proof.
  revert s. induction needle as [|a needle IH]; intros s; cbn [Grep.starts_with].
  - split; [intros _; now exists s | reflexivity].
  - destruct s as [|c s].
    + split; [discriminate | intros [b Hb]; discriminate].
    + rewrite andb_true_iff, byte_eqb_eq, IH. split.
      * intros [-> [b ->]]. now exists b.
      * intros [b Hb]. injection Hb as -> ->. split; [reflexivity | now exists b].
Qed.

Lemma strstr_spec haystack needle :
  Grep.strstr haystack needle = true <-> exists a b, haystack = a ++ needle ++ b.
Proof.
  induction haystack as [|c rest IH]; cbn [Grep.strstr].
  - rewrite orb_false_r, starts_with_spec. split.
    + intros [b Hb]. now exists [], b.
    + intros (a & b & Hab). destruct a; [now exists b|discriminate].
  - rewrite orb_true_iff, starts_with_spec, IH. split.
    + intros [[b Hb] | (a & b & Hab)].
      * now exists [], b.
      * exists (c :: a), b. now rewrite Hab.
    + intros (a & b & Hab). destruct a as [|c' a].
      * left. now exists b.
      * right. injection Hab as -> Hab. now exists a, b.
Qed.

Lemma join_words_cons w rest :
  Grep.join_words (w :: rest) = w ++ concat (map (cons x20) rest).
Proof.
  revert w. induction rest as [|w' rest IH]; intros w.
  - cbn. now rewrite app_nil_r.
  - change (Grep.join_words (w :: w' :: rest))
      with (w ++ x20 :: Grep.join_words (w' :: rest)).
    now rewrite IH.
Qed.

Ltac ltb_false :=
  match goal with
  | |- context [(?a <? ?b)%nat] =>
      replace (a <? b)%nat with false by (symmetry; apply Nat.ltb_ge; lia)
  end; reflexivity.

Lemma build_pattern_rest words : forall i pattern,
  (1 < i)%nat -> (length pattern < Grep.PATTERN_SIZE)%nat ->
  Grep.build_pattern i pattern words =
    if (length (pattern ++ concat (map (cons x20) words)) <? Grep.PATTERN_SIZE)%nat
    then Some (pattern ++ concat (map (cons x20) words)) else None.
Proof.
  induction words as [|w words IH]; intros i pattern Hi Hlen.
  - cbn [Grep.build_pattern map concat]. rewrite app_nil_r.
    now replace (length pattern <? Grep.PATTERN_SIZE)%nat with true
      by (symmetry; now apply Nat.ltb_lt).
  - cbn [Grep.build_pattern map concat].
    replace (1 <? i)%nat with true by (symmetry; now apply Nat.ltb_lt).
    assert (Htot : length (pattern ++ (x20 :: w) ++ concat (map (cons x20) words))
                   = (length pattern + 1 + length w
                      + length (concat (map (cons x20) words)))%nat)
      by (rewrite !length_app; cbn [length]; lia).
    rewrite Htot. unfold Grep.strcat. cbn [length].
    destruct (length pattern + 1 <? Grep.PATTERN_SIZE)%nat eqn:Hsp.
    + apply Nat.ltb_lt in Hsp.
      replace (length (pattern ++ [x20])) with (length pattern + 1)%nat
        by (rewrite length_app; reflexivity).
      destruct (length pattern + 1 + length w <? Grep.PATTERN_SIZE)%nat eqn:Hw.
      * apply Nat.ltb_lt in Hw. rewrite IH.
        -- rewrite <- !app_assoc. cbn [app].
           rewrite <- Htot. reflexivity.
        -- lia.
        -- rewrite !length_app. cbn [length]. lia.
      * apply Nat.ltb_ge in Hw. ltb_false.
    + apply Nat.ltb_ge in Hsp. ltb_false.
Qed.

Lemma build_pattern_join words :
  Grep.build_pattern 1 [] words =
    if (length (Grep.join_words words) <? Grep.PATTERN_SIZE)%nat
    then Some (Grep.join_words words) else None.
Proof.
  destruct words as [|w words]; [reflexivity|].
  rewrite join_words_cons. cbn [Grep.build_pattern].
  change (1 <? 1)%nat with false. cbv iota. unfold Grep.strcat at 1.
  cbn [length app Nat.add].
  destruct (length w <? Grep.PATTERN_SIZE)%nat eqn:Hw.
  - apply Nat.ltb_lt in Hw. now rewrite build_pattern_rest by (assumption || lia).
  - apply Nat.ltb_ge in Hw. rewrite length_app. ltb_false.
Qed.

(** ** [grep]: [strtok] walks the non-empty lines *)

Lemma skip_lines s :
  Grep.lines_of_text (Grep.skip x0a s) = Grep.lines_of_text s.
Proof.
  unfold Grep.lines_of_text.
  induction s as [|c r IH]; [reflexivity|].
  cbn [Grep.skip]. destruct (Byte.eqb c x0a) eqn:Hc; [|reflexivity].
  rewrite IH. cbn [split_on]. rewrite Hc. reflexivity.
Qed.

Lemma skip_head d s c r : Grep.skip d s = c :: r -> c <> d.
Proof.
  induction s as [|a s IH]; cbn [Grep.skip]; [discriminate|].
  destruct (Byte.eqb a d) eqn:Ha; [exact IH|].
  intros Heq. injection Heq as -> _. now apply byte_eqb_neq.
Qed.

Lemma skip_length d s : (length (Grep.skip d s) <= length s)%nat.
Proof.
  induction s as [|a s IH]; cbn [Grep.skip length]; [lia|].
  destruct (Byte.eqb a d); cbn [length]; lia.
Qed.

Lemma cut_split d s : forall token rest,
  Grep.cut d s = (token, rest) ->
  (length token + length rest <= length s)%nat /\
  exists pieces,
    split_on d s = token :: pieces /\
    List.filter (fun piece => negb (is_empty piece)) pieces =
    List.filter (fun piece => negb (is_empty piece)) (split_on d rest).
Proof.
  induction s as [|c r IH]; intros token rest; cbn [Grep.cut split_on].
  - intros Heq. injection Heq as <- <-. split; [cbn; lia|]. now exists [].
  - destruct (Byte.eqb c d) eqn:Hc.
    + intros Heq. injection Heq as <- <-. split; [cbn; lia|].
      now exists (split_on d r).
    + destruct (Grep.cut d r) as [token' rest'] eqn:Hcut.
      intros Heq. injection Heq as <- <-.
      destruct (IH _ _ eq_refl) as (Hlen & pieces & Hsp & Hf).
      split; [cbn [length]; lia|].
      exists pieces. rewrite Hsp. now split.
Qed.

Lemma strtok_lines s :
  match Grep.strtok x0a s with
  | None => Grep.lines_of_text s = []
  | Some (token, rest) =>
      Grep.lines_of_text s = token :: Grep.lines_of_text rest /\
      (length rest < length s)%nat
  end.
Proof.
  unfold Grep.strtok. rewrite <- (skip_lines s).
  pose proof (skip_length x0a s) as Hlen.
  destruct (Grep.skip x0a s) as [|c r] eqn:Hskip; [reflexivity|].
  pose proof (skip_head _ _ _ _ Hskip) as Hc. apply byte_eqb_neq in Hc.
  destruct (Grep.cut x0a (c :: r)) as [token rest] eqn:Hcut.
  destruct (cut_split _ _ _ _ Hcut) as (Hl & pieces & Hsp & Hf).
  cbn [Grep.cut] in Hcut. rewrite Hc in Hcut.
  destruct (Grep.cut x0a r) as [token' rest'].
  injection Hcut as <- <-.
  split.
  - unfold Grep.lines_of_text. rewrite Hsp. cbn [List.filter is_empty negb].
    now rewrite Hf.
  - cbn [length] in *. lia.
Qed.

Lemma search_lines pattern : forall fuel rest found_any out,
  (length rest < fuel)%nat ->
  Grep.search fuel pattern rest found_any out =
    (found_any || existsb (fun text => Grep.strstr text pattern)
                          (Grep.lines_of_text rest),
     out ++ map Grep.Match
              (List.filter (fun text => Grep.strstr text pattern)
                           (Grep.lines_of_text rest))).
Proof.
  induction fuel as [|fuel IH]; intros rest found_any out Hfuel; [lia|].
  cbn [Grep.search]. pose proof (strtok_lines rest) as Htok.
  destruct (Grep.strtok x0a rest) as [[text rest']|].
  - destruct Htok as [-> Hlen]. cbn [existsb List.filter].
    destruct (Grep.strstr text pattern).
    + rewrite IH by lia. cbn [map orb].
      rewrite orb_true_r, <- app_assoc. reflexivity.
    + rewrite IH by lia. reflexivity.
  - rewrite Htok. cbn. now rewrite orb_false_r, app_nil_r.
Qed.

Lemma until_without d s : Forall (fun c => c <> d) (until d s).
Proof.
  induction s as [|c r IH]; cbn [until]; [constructor|].
  destruct (Byte.eqb c d) eqn:Hc; constructor; [|exact IH].
  now apply byte_eqb_neq.
Qed.

Lemma split_on_Forall (P : byte -> Prop) d s :
  Forall P s -> Forall (Forall P) (split_on d s).
Proof.
  induction 1 as [|c r Hc _ IH]; cbn [split_on]; [repeat constructor|].
  destruct (Byte.eqb c d); [now constructor|].
  destruct (split_on d r) as [|piece pieces]; [repeat constructor; exact Hc|].
  inversion IH; subst. constructor; [now constructor | assumption].
Qed.

Lemma split_on_without d s : Forall (Forall (fun c => c <> d)) (split_on d s).
Proof.
  induction s as [|c r IH]; cbn [split_on]; [repeat constructor|].
  destruct (Byte.eqb c d) eqn:Hc; [now constructor|].
  apply byte_eqb_neq in Hc.
  destruct (split_on d r) as [|piece pieces]; [repeat constructor; exact Hc|].
  inversion IH; subst. constructor; [now constructor | assumption].
Qed.

Lemma grep_line_shape buf text :
  In text (Grep.lines_of_text (c_text buf)) ->
  text <> [] /\ ~ In x0a text /\ ~ In x00 text.
Proof.
  unfold Grep.lines_of_text. rewrite List.filter_In. intros [Hin Hne].
  split; [now destruct text|]. split.
  - pose proof (split_on_without x0a (c_text buf)) as Hall.
    rewrite List.Forall_forall in Hall. specialize (Hall _ Hin).
    rewrite List.Forall_forall in Hall. intros Hx. now apply (Hall _ Hx).
  - pose proof (split_on_Forall _ x0a _ (until_without x00 buf)) as Hall.
    rewrite List.Forall_forall in Hall. specialize (Hall _ Hin).
    rewrite List.Forall_forall in Hall. intros Hx. now apply (Hall _ Hx).
Qed.

Section GrepMain.
Context `{AppEnv}.

Lemma grep_main_unfold argv :
  (3 <= length argv)%nat ->
  let pattern := Grep.join_words (take (length argv - 2) (drop 1 argv)) in
  let filename := List.last argv [] in
  let buf := snd (file_read (dir_lookup workdir_ino filename) 0
                            (replicate BLOCK_SIZE x00)) in
  let hits := List.filter (fun text => Grep.strstr text pattern)
                          (Grep.lines_of_text (c_text buf)) in
  Grep.main argv =
    if (length pattern <? Grep.PATTERN_SIZE)%nat then
      if dir_lookup workdir_ino filename <? 0 then Some (-1, [Grep.NotFound filename])
      else if existsb (Byte.eqb x00) buf
           then Some (match hits with [] => 1 | _ => 0 end, map Grep.Match hits)
           else None
    else None.
Proof.
  intros Hargc pattern filename buf hits. unfold Grep.main.
  replace (length argv <? 3)%nat with false by (symmetry; apply Nat.ltb_ge; lia).
  rewrite build_pattern_join. fold pattern.
  destruct (length pattern <? Grep.PATTERN_SIZE)%nat; [|reflexivity].
  fold filename. destruct (dir_lookup workdir_ino filename <? 0); [reflexivity|].
  subst buf. destruct (file_read _ 0 _) as [ret buf]. cbn [snd] in *.
  destruct (existsb (Byte.eqb x00) buf); [|reflexivity].
  rewrite search_lines by lia. cbn [orb app]. fold hits.
  replace (existsb (fun text => Grep.strstr text pattern)
                   (Grep.lines_of_text (c_text buf)))
    with (match hits with [] => false | _ => true end).
  - now destruct hits.
  - subst hits. induction (Grep.lines_of_text (c_text buf)) as [|l ls IH];
      [reflexivity|]. cbn [List.filter existsb].
    destruct (Grep.strstr l pattern); [reflexivity | exact IH].
Qed.

Lemma existsb_nul_In (buf : list byte) : existsb (Byte.eqb x00) buf = true <-> In x00 buf.
Proof.
  rewrite existsb_exists. split.
  - intros (c & Hin & Hc). apply byte_eqb_eq in Hc. now subst c.
  - intros Hin. exists x00. split; [exact Hin | now apply byte_eqb_eq].
Qed.

(** X16.  Given at least a pattern and a file name, a pattern of fewer than
    256 characters, a file that exists and a first block that holds a NUL,
    [grep] prints exactly the non-empty lines of the text of that block (the
    pieces between line feeds, up to the first NUL) that contain the
    pattern, in their order, where the pattern is the arguments but the
    last joined by single spaces; it returns 0 when it printed a line and 1
    otherwise. *)
Theorem grep_main_spec argv :
  let pattern := Grep.join_words (take (length argv - 2) (drop 1 argv)) in
  let filename := List.last argv [] in
  let buf := snd (file_read (dir_lookup workdir_ino filename) 0
                            (replicate BLOCK_SIZE x00)) in
  let hits := List.filter (fun text => Grep.strstr text pattern)
                          (Grep.lines_of_text (c_text buf)) in
  (3 <= length argv)%nat ->
  (length pattern < Grep.PATTERN_SIZE)%nat ->
  0 <= dir_lookup workdir_ino filename ->
  In x00 buf ->
  Grep.main argv = Some (match hits with [] => 1 | _ => 0 end, map Grep.Match hits).
Proof.
  intros pattern filename buf hits Hargc Hlen Hino Hnul.
  rewrite grep_main_unfold by exact Hargc. fold pattern filename buf hits.
  replace (length pattern <? Grep.PATTERN_SIZE)%nat with true
    by (symmetry; now apply Nat.ltb_lt).
  replace (dir_lookup workdir_ino filename <? 0) with false by (symmetry; lia).
  apply existsb_nul_In in Hnul. now rewrite Hnul.
Qed.

(** X17.  The ways [grep] ends without searching: with fewer than two
    arguments it prints the two usage lines and returns -1; when the
    arguments joined by spaces take 256 characters or more, the pattern
    array overflows; otherwise, when the last argument names no file, it
    prints that the file was not found and returns -1, and when the block
    read holds no NUL, the search runs past the end of the buffer. *)
Theorem grep_main_edges argv :
  let pattern := Grep.join_words (take (length argv - 2) (drop 1 argv)) in
  let filename := List.last argv [] in
  let buf := snd (file_read (dir_lookup workdir_ino filename) 0
                            (replicate BLOCK_SIZE x00)) in
  ((length argv < 3)%nat ->
   Grep.main argv = Some (-1, [Grep.Usage; Grep.UsageExample])) /\
  ((3 <= length argv)%nat -> (Grep.PATTERN_SIZE <= length pattern)%nat ->
   Grep.main argv = None) /\
  ((3 <= length argv)%nat -> (length pattern < Grep.PATTERN_SIZE)%nat ->
   dir_lookup workdir_ino filename < 0 ->
   Grep.main argv = Some (-1, [Grep.NotFound filename])) /\
  ((3 <= length argv)%nat -> (length pattern < Grep.PATTERN_SIZE)%nat ->
   0 <= dir_lookup workdir_ino filename -> ~ In x00 buf ->
   Grep.main argv = None).
Proof.
  intros pattern filename buf. split; [|split; [|split]].
  - intros Hargc. unfold Grep.main.
    now replace (length argv <? 3)%nat with true by (symmetry; now apply Nat.ltb_lt).
  - intros Hargc Hlen. rewrite grep_main_unfold by exact Hargc. fold pattern.
    now replace (length pattern <? Grep.PATTERN_SIZE)%nat with false
      by (symmetry; now apply Nat.ltb_ge).
  - intros Hargc Hlen Hino. rewrite grep_main_unfold by exact Hargc.
    fold pattern filename.
    replace (length pattern <? Grep.PATTERN_SIZE)%nat with true
      by (symmetry; now apply Nat.ltb_lt).
    now replace (dir_lookup workdir_ino filename <? 0) with true by (symmetry; lia).
  - intros Hargc Hlen Hino Hnul. rewrite grep_main_unfold by exact Hargc.
    fold pattern filename buf.
    replace (length pattern <? Grep.PATTERN_SIZE)%nat with true
      by (symmetry; now apply Nat.ltb_lt).
    replace (dir_lookup workdir_ino filename <? 0) with false by (symmetry; lia).
    destruct (existsb (Byte.eqb x00) buf) eqn:He; [|reflexivity].
    now apply existsb_nul_In in He.
Qed.

(** X18.  Whenever [grep] returns something other than -1, it returns 0 or
    1, and 0 exactly when it printed something; every line it printed is
    a non-empty text without line feed and without NUL in which the
    pattern (the arguments but the last, joined by single spaces) occurs as
    a run of consecutive characters. *)
Theorem grep_prints_matching_lines argv code out :
  Grep.main argv = Some (code, out) -> code <> -1 ->
  (code = 0 \/ code = 1) /\ (code = 0 <-> out <> []) /\
  forall l, In l out ->
    exists text a b,
      l = Grep.Match text /\
      text = a ++ Grep.join_words (take (length argv - 2) (drop 1 argv)) ++ b /\
      text <> [] /\ ~ In x0a text /\ ~ In x00 text.
Proof.
  intros Hmain Hcode.
  destruct (Nat.ltb_spec (length argv) 3) as [Hargc|Hargc].
  - unfold Grep.main in Hmain.
    replace (length argv <? 3)%nat with true in Hmain
      by (symmetry; now apply Nat.ltb_lt).
    injection Hmain as <- _. contradiction.
  - rewrite grep_main_unfold in Hmain by exact Hargc. cbv zeta in Hmain.
    destruct (_ <? Grep.PATTERN_SIZE)%nat; [|discriminate].
    destruct (_ <? 0); [injection Hmain as <- _; contradiction|].
    destruct (existsb _ _); [|discriminate].
    injection Hmain as <- <-.
    set (hits := List.filter _ _).
    assert (Hhits : forall text, In text hits ->
              exists a b,
                text = a ++ Grep.join_words (take (length argv - 2) (drop 1 argv)) ++ b /\
                text <> [] /\ ~ In x0a text /\ ~ In x00 text).
    { intros text Hin. apply List.filter_In in Hin as [Hin Hstr].
      apply strstr_spec in Hstr as (a & b & Hab). exists a, b.
      split; [exact Hab|]. exact (grep_line_shape _ _ Hin). }
    clearbody hits. split; [destruct hits; auto|]. split.
    + destruct hits; cbn; split; intros; (discriminate || congruence).
    + intros l Hin. apply in_map_iff in Hin as (text & <- & Hin).
      destruct (Hhits _ Hin) as (a & b & Hshape). now exists text, a, b.
Qed.

End GrepMain.

Lemma grep_main_spec_witness :
  let argv := [[x67]; [x61]; notes_name] in
  (3 <= length argv)%nat /\
  Grep.main (H := sample_files) argv =
    Some (0, [Grep.Match [x61; x62]; Grep.Match [x61; x63]]).
Proof.
  split; [cbn; lia|].
  apply (grep_main_spec (H := sample_files) [[x67]; [x61]; notes_name]).
  - cbn; lia.
  - apply Nat.ltb_lt. reflexivity.
  - vm_compute; discriminate.
  - apply existsb_nul_In. reflexivity.
Defined.

Lemma grep_main_edges_witness :
  Grep.main (H := sample_files) [[x67]; [x61]; [x78]] = Some (-1, [Grep.NotFound [x78]]).
Proof.
  apply (grep_main_edges (H := sample_files) [[x67]; [x61]; [x78]]).
  - cbn; lia.
  - apply Nat.ltb_lt. reflexivity.
  - reflexivity.
Defined.

Lemma grep_prints_matching_lines_witness :
  let argv := [[x67]; []; [x64]; notes_name] in
  Grep.main (H := sample_files) argv = Some (0, [Grep.Match [x63; x20; x64; x0d]]) /\
  exists a b, [x63; x20; x64; x0d] = a ++ [x20; x64] ++ b.
Proof.
  split; [reflexivity|].
  destruct (grep_prints_matching_lines (H := sample_files)
              [[x67]; []; [x64]; notes_name] 0 [Grep.Match [x63; x20; x64; x0d]]
              eq_refl ltac:(discriminate))
    as (_ & _ & Hall).
  destruct (Hall _ (or_introl eq_refl)) as (text & a & b & Htext & Hab & _).
  injection Htext as <-. now exists a, b.
Defined.

(** ** A message passes from a blocked sender to a blocked receiver *)

Section RendezvousDelivery.
Context `{Platform} (rv : rendezvous) (Hrv : rv_ok rv).

(** The first loop with two milestones: the retry at slot [x] takes stage
    [I] to [G1], and the later retry at slot [y] takes [G1] to [G2]. *)
Lemma loop_two_milestones I G1 G2 now x y k :
  rv_stage rv I -> rv_stage rv G1 -> rv_stage rv G2 ->
  (1 <= x)%nat -> (x < y)%nat -> (y <= MAX_NPROCESS)%nat ->
  (forall k k', I k -> yield_retry x k = Ok k' -> G1 k') ->
  (forall k k', G1 k -> yield_retry y k = Ok k' -> G2 k') -> I k ->
  exists k' sel', scan_prefix now k MAX_NPROCESS = Ok (k', sel') /\
    G2 k' /\ sel_sound rv k' (next_idx sel').
Proof.
  intros HSI HS1 HS2 Hx Hxy Hy Hm1 Hm2 HI.
  assert (Happ : scan_prefix now k MAX_NPROCESS =
                 (a <- for_slots (yield_scan_step now) 1 (x - 1) (k, selection_start) ;;
                  b <- for_slots (yield_scan_step now) x (S (y - x - 1)) a ;;
                  for_slots (yield_scan_step now) y (S (MAX_NPROCESS - y)) b)).
  { unfold scan_prefix.
    replace MAX_NPROCESS
      with ((x - 1) + (S (y - x - 1) + S (MAX_NPROCESS - y)))%nat at 1 by lia.
    rewrite for_slots_app. replace (1 + (x - 1))%nat with x by lia.
    destruct (for_slots _ 1 (x - 1) _) as [a|]; [|reflexivity]. kbind.
    rewrite for_slots_app. now replace (x + S (y - x - 1))%nat with y by lia. }
  destruct (loop_stage rv I now 1 (x - 1) k selection_start HSI
              ltac:(lia) ltac:(lia) HI)
    as (k1 & sel1 & Hpre & HI1 & Hsel1).
  { intros [Hn|Hn]; cbn [next_idx selection_start] in Hn;
      destruct Hrv as (Hs & Hr & _); lia. }
  destruct (step_stage rv I now x k1 sel1 HSI ltac:(lia) HI1 Hsel1)
    as (k2 & sel2 & Hstep & Hretry & _ & Hsel2).
  destruct (loop_stage rv G1 now (S x) (y - x - 1) k2 sel2 HS1
              ltac:(lia) ltac:(lia) (Hm1 k1 k2 HI1 Hretry) Hsel2)
    as (k3 & sel3 & Hmid & HG3 & Hsel3).
  destruct (step_stage rv G1 now y k3 sel3 HS1 ltac:(lia) HG3 Hsel3)
    as (k4 & sel4 & Hstep' & Hretry' & _ & Hsel4).
  destruct (loop_stage rv G2 now (S y) (MAX_NPROCESS - y) k4 sel4 HS2
              ltac:(lia) ltac:(lia) (Hm2 k3 k4 HG3 Hretry') Hsel4)
    as (k' & sel' & Hrest & HG & Hsel').
  exists k', sel'. split; [|now split].
  rewrite Happ, Hpre. kbind. cbn [for_slots]. rewrite Hstep. kbind.
  rewrite Hmid. kbind. rewrite Hstep'. kbind. exact Hrest.
Qed.

Lemma sender_retry_matches k k' :
  rv_both_posted rv k \/ rv_matched rv k \/ rv_delivered rv k ->
  yield_retry (rv_s rv) k = Ok k' -> rv_matched rv k' \/ rv_delivered rv k'.
Proof.
  assert (Hs : (1 <= rv_s rv <= MAX_NPROCESS)%nat) by (destruct Hrv as (? & _); lia).
  assert (Hne : rv_s rv <> rv_r rv) by apply Hrv.
  intros [Hbp|[Hm|Hd]] Hretry.
  - destruct (retry_both_posted rv Hrv _ k Hbp Hs) as (k'' & Hr & Hst & _).
    rewrite Hretry in Hr. injection Hr as <-.
    destruct (decide (rv_s rv = rv_s rv)); [now left | contradiction].
  - destruct (retry_matched rv Hrv _ k Hm Hs) as (k'' & Hr & Hst & _).
    rewrite Hretry in Hr. injection Hr as <-.
    destruct (decide (rv_s rv = rv_r rv)); [contradiction | left; apply Hst].
  - rewrite (retry_delivered rv _ k Hd Hs) in Hretry. injection Hretry as <-.
    now right.
Qed.

Lemma receiver_retry_delivers k k' :
  rv_matched rv k \/ rv_delivered rv k ->
  yield_retry (rv_r rv) k = Ok k' -> rv_delivered rv k'.
Proof.
  assert (Hr : (1 <= rv_r rv <= MAX_NPROCESS)%nat) by (destruct Hrv as (_ & ? & _); lia).
  intros [Hm|Hd] Hretry.
  - destruct (retry_matched rv Hrv _ k Hm Hr) as (k'' & Hr' & Hst & _).
    rewrite Hretry in Hr'. injection Hr' as <-.
    destruct (decide (rv_r rv = rv_r rv)); [exact Hst | contradiction].
  - rewrite (retry_delivered rv _ k Hd Hr) in Hretry. now injection Hretry as <-.
Qed.

End RendezvousDelivery.

(** X19.  A sender blocked in a SEND and the receiver it names, blocked in
    a RECV that accepts it, both in slots 1 to 15, neither sleeping and no
    third process blocked in a system call: the two loops of [proc_yield]
    return, and they leave the message copied into the receiver's PCB
    (with the pid of the sender and status DONE).  When the sender has the
    lower slot, or when the message was already copied, they also hand the
    record to the receiver's address space and unblock both processes.
    The loops select neither of the two before that. *)
Theorem rendezvous_delivery `{Platform} rv now k :
  rv_ok rv -> rv_both_posted rv k \/ rv_matched rv k ->
  exists k' next,
    yield_select now k = Ok (k', next) /\
    (rv_matched rv k' \/ rv_delivered rv k') /\
    (rv_matched rv k \/ (rv_s rv < rv_r rv)%nat -> rv_delivered rv k') /\
    (next = rv_s rv \/ next = rv_r rv -> rv_delivered rv k').
Proof.
  intros Hrv Hstart.
  pose proof (stage_posted_on rv Hrv) as HS0.
  pose proof (stage_matched_on rv Hrv) as HS1.
  pose proof (stage_delivered rv) as HS2.
  assert (Hs : (1 <= rv_s rv <= MAX_NPROCESS)%nat) by (destruct Hrv as (? & _); lia).
  assert (Hr : (1 <= rv_r rv <= MAX_NPROCESS)%nat) by (destruct Hrv as (_ & ? & _); lia).
  assert (Hfast : rv_matched rv k \/ (rv_s rv < rv_r rv)%nat ->
            exists k' next, yield_select now k = Ok (k', next) /\
              rv_delivered rv k' /\ sel_sound rv k' next).
  { intros [Hm|Hlt].
    - apply (select_milestone rv Hrv _ _ now (rv_r rv) k HS1 HS2 Hr
               (receiver_retry_delivers rv Hrv)). now left.
    - rewrite yield_select_unfold.
      destruct (loop_two_milestones rv Hrv _ _ _ now (rv_s rv) (rv_r rv) k
                  HS0 HS1 HS2 ltac:(lia) Hlt ltac:(lia)
                  (sender_retry_matches rv Hrv) (receiver_retry_delivers rv Hrv))
        as (k1 & sel1 & Hloop & HG & Hsel).
      { destruct Hstart as [Hbp|Hm]; [now left | right; now left]. }
      rewrite Hloop. kbind. cbn [fst snd].
      destruct (bool_decide _).
      + apply (fallback_stage rv Hrv _ now 1 MAX_NPROCESS k1 HS2);
          [lia | lia | exact HG].
      + exists k1, (next_idx sel1). now split. }
  assert (Hdone : forall k' next,
            yield_select now k = Ok (k', next) /\
            rv_delivered rv k' /\ sel_sound rv k' next ->
            yield_select now k = Ok (k', next) /\
            (rv_matched rv k' \/ rv_delivered rv k') /\
            (rv_matched rv k \/ (rv_s rv < rv_r rv)%nat -> rv_delivered rv k') /\
            (next = rv_s rv \/ next = rv_r rv -> rv_delivered rv k')).
  { intros k' next (Hsel & Hd & Hsound).
    split; [exact Hsel|]. split; [now right|]. now split. }
  destruct Hstart as [Hbp|Hm].
  - destruct (decide (rv_s rv < rv_r rv)%nat) as [Hlt|Hge].
    + destruct (Hfast (or_intror Hlt)) as (k' & next & Hall).
      exists k', next. now apply Hdone.
    + destruct (select_milestone rv Hrv _ _ now (rv_s rv) k HS0 HS1 Hs
                  (sender_retry_matches rv Hrv))
        as (k' & next & Hsel & HG & Hsound); [now left|].
      exists k', next. split; [exact Hsel|]. split; [exact HG|].
      split; [|exact Hsound].
      intros [Hm|Hlt]; [|contradiction].
      destruct Hbp as (_ & _ & _ & _ & Hposted).
      destruct Hm as (_ & _ & _ & _ & Hcopied).
      rewrite Hposted in Hcopied.
      apply (f_equal Syscall.status) in Hcopied. discriminate.
  - destruct (Hfast (or_introl Hm)) as (k' & next & Hall).
    exists k', next. now apply Hdone.
Qed.

Lemma slots_forallb (P : nat -> bool) n :
  forallb P (seq 0 (S n)) = true -> forall j, (j <= n)%nat -> P j = true.
Proof.
  intros Hall j Hj. rewrite forallb_forall in Hall. apply Hall.
  apply in_seq. lia.
Qed.

Lemma posted_pair_posted :
  rv_ok (H := sample_platform) sample_rendezvous /\
  rv_both_posted sample_rendezvous posted_pair.
Proof.
  split.
  - unfold rv_ok, MAX_NPROCESS. cbn. repeat split; try lia; try discriminate.
  - unfold rv_both_posted, rv_base.
    split; [|now repeat split].
    split; [reflexivity|]. split; [reflexivity|]. split; [reflexivity|].
    split; [|split; [|split; [reflexivity|split; [reflexivity|]]]].
    + intros j Hj Hpid.
      pose proof (slots_forallb
        (fun j => negb (pid (proc_at posted_pair j) =? 5) || (j =? 1)%nat)
        MAX_NPROCESS ltac:(vm_compute; reflexivity) j Hj) as Hall.
      cbv beta in Hall. change (rv_ps sample_rendezvous) with 5 in Hpid.
      rewrite Hpid in Hall. now apply Nat.eqb_eq in Hall.
    + intros j Hj Hpid.
      pose proof (slots_forallb
        (fun j => negb (pid (proc_at posted_pair j) =? 6) || (j =? 2)%nat)
        MAX_NPROCESS ltac:(vm_compute; reflexivity) j Hj) as Hall.
      cbv beta in Hall. change (rv_pr sample_rendezvous) with 6 in Hpid.
      rewrite Hpid in Hall. now apply Nat.eqb_eq in Hall.
    + intros j [_ Hj] Hs Hr.
      pose proof (slots_forallb
        (fun j => (j =? 1)%nat || (j =? 2)%nat ||
                  negb (status_is PROC_PENDING_SYSCALL (proc_at posted_pair j)))
        MAX_NPROCESS ltac:(vm_compute; reflexivity) j Hj) as Hall.
      cbv beta in Hall. change (rv_s sample_rendezvous) with 1%nat in Hs.
      change (rv_r sample_rendezvous) with 2%nat in Hr.
      apply Nat.eqb_neq in Hs, Hr. rewrite Hs, Hr in Hall. cbn [orb] in Hall.
      unfold status_is in Hall. apply negb_true_iff in Hall.
      intros Hst. rewrite bool_decide_eq_true_2 in Hall by exact Hst. discriminate.
Qed.

Lemma rendezvous_delivery_witness :
  exists k' next,
    yield_select (H := sample_platform) 7000 posted_pair = Ok (k', next) /\
    user_syscall k' 6 = Syscall.mk SYS_RECV 5 0 msg_hi DONE /\
    status (proc_at k' 1) = PROC_RUNNABLE /\ status (proc_at k' 2) = PROC_RUNNABLE.
Proof.
  assert (Hfacts : match yield_select (H := sample_platform) 7000 posted_pair with
                   | Ok (k', _) =>
                       user_syscall k' 6 = Syscall.mk SYS_RECV 5 0 msg_hi DONE /\
                       status (proc_at k' 1) = PROC_RUNNABLE /\
                       status (proc_at k' 2) = PROC_RUNNABLE
                   | Fatal _ => False
                   end) by (vm_compute; repeat split).
  destruct (rendezvous_delivery (H := sample_platform) sample_rendezvous 7000
              posted_pair (proj1 posted_pair_posted)
              (or_introl (proj2 posted_pair_posted)))
    as (k' & next & Hsel & _ & _ & _).
  rewrite Hsel in Hfacts. exists k', next. split; [exact Hsel | exact Hfacts].
Defined.

(** ** The privilege mode and the interrupt bit that [proc_yield] leaves *)

Lemma testbit_3 j : Z.testbit 3 j = (j =? 0) || (j =? 1).
Proof.
  destruct (Z.ltb_spec j 0) as [Hneg|Hpos].
  - rewrite Z.testbit_neg_r by exact Hneg.
    symmetry. apply orb_false_iff. split; apply Z.eqb_neq; lia.
  - destruct (Z.eqb_spec j 0) as [->|H0]; [reflexivity|].
    destruct (Z.eqb_spec j 1) as [->|H1]; [reflexivity|].
    apply Z.bits_above_log2; [lia|]. change (Z.log2 3) with 1. lia.
Qed.

Lemma set_mpp_bits mode ms n :
  0 <= n -> mode = 0 \/ mode = 3 ->
  Z.testbit (set_mpp mode ms) n =
    if (n =? 11) || (n =? 12) then mode =? 3 else Z.testbit ms n.
Proof.
  intros Hn Hmode. unfold set_mpp.
  rewrite Z.lor_spec, Z.land_spec, Z.lnot_spec, !Z.shiftl_spec by exact Hn.
  rewrite testbit_3.
  replace (n - 11 =? 0) with (n =? 11) by (destruct (Z.eqb_spec n 11); lia).
  replace (n - 11 =? 1) with (n =? 12) by (destruct (Z.eqb_spec n 12); lia).
  destruct Hmode as [-> | ->].
  - rewrite Z.bits_0. destruct ((n =? 11) || (n =? 12)); cbn;
      now rewrite ?andb_false_r, ?andb_true_r, ?orb_false_r.
  - rewrite testbit_3.
    replace (n - 11 =? 0) with (n =? 11) by (destruct (Z.eqb_spec n 11); lia).
    replace (n - 11 =? 1) with (n =? 12) by (destruct (Z.eqb_spec n 12); lia).
    destruct ((n =? 11) || (n =? 12)); cbn;
      now rewrite ?andb_false_r, ?andb_true_r, ?orb_false_r, ?orb_true_r.
Qed.

Lemma set_mie_bits ms n :
  0 <= n -> Z.testbit (set_mie ms) n = (n =? 3) || Z.testbit ms n.
Proof.
  intros Hn. unfold set_mie. rewrite Z.lor_spec, orb_comm. f_equal.
  change 8 with (2 ^ 3). rewrite Z.pow2_bits_eqb by lia. apply Z.eqb_sym.
Qed.

Section PrivilegeMode.
Context `{Platform}.

Lemma mstatus_table_blind : table_blind mstatus.
Proof. now repeat split. Qed.

Lemma mstatus_emit e k : mstatus (emit e k) = mstatus k.
Proof. reflexivity. Qed.

Lemma mstatus_set_curr_proc_idx v k : mstatus (set_curr_proc_idx v k) = mstatus k.
Proof. reflexivity. Qed.

Lemma mstatus_yield_dispatch next k :
  mstatus (yield_dispatch next k) =
    if (next <? MAX_NPROCESS)%nat
    then set_mpp (if GPID_USER_START <=? pid (proc_at k next) then 0 else 3) (mstatus k)
    else set_mie (mstatus k).
Proof.
  unfold yield_dispatch. destruct (next <? MAX_NPROCESS)%nat; [|reflexivity].
  cbv zeta. rewrite mstatus_emit.
  rewrite (blind_proc_set_running mstatus) by apply mstatus_table_blind.
  assert (Hprime : forall k0, mstatus (dispatch_prime k0) = mstatus k0).
  { intros k0. unfold dispatch_prime. now destruct (bool_decide _). }
  rewrite Hprime, !mstatus_emit, mstatus_set_curr_proc_idx.
  unfold dispatch_mode.
  rewrite (dispatch_stamp_keeps pid next k ltac:(now repeat split) next).
  rewrite (blind_dispatch_stamp mstatus) by apply mstatus_table_blind.
  now destruct (GPID_USER_START <=? pid (proc_at k next)).
Qed.

(** X20.  When [proc_yield] returns on a core that has an entry in
    [core_to_proc_idx], it has either dispatched a slot from 1 to
    MAX_NPROCESS - 1 or left the core idle (slot 0).  On a dispatch, bits 11
    and 12 of [mstatus] (MPP) are both 0 when the pid of the dispatched PCB
    is at least GPID_USER_START and both 1 otherwise; on the idle path bit 3
    (MIE) is 1.  Every other bit of [mstatus] is as it was. *)
Theorem yield_sets_privilege_mode k k' :
  proc_yield k = Ok k' ->
  (core_in_kernel k < length (core_to_proc_idx k))%nat ->
  (curr_proc_idx k' < MAX_NPROCESS)%nat /\
  forall n, 0 <= n ->
    Z.testbit (mstatus k') n =
      if bool_decide (curr_proc_idx k' = 0%nat)
      then (n =? 3) || Z.testbit (mstatus k) n
      else if (n =? 11) || (n =? 12)
           then negb (GPID_USER_START <=? pid (proc_at k' (curr_proc_idx k')))
           else Z.testbit (mstatus k) n.
Proof.
  intros Hy Hcore. rewrite proc_yield_unfold in Hy.
  destruct (yield_select _ _) as [[k1 next]|] eqn:Hsel; [|discriminate].
  cbn in Hy. injection Hy as <-.
  pose proof (yield_select_next _ _ _ _ Hsel) as Hnext.
  assert (Hms : mstatus k1 = mstatus k).
  { rewrite (blind_yield_select mstatus _ _ _ _ mstatus_table_blind
               ltac:(now intros ? ?) Hsel).
    apply blind_yield_scan_start, mstatus_table_blind. }
  assert (Hcores : cores k1 = cores k).
  { rewrite (blind_yield_select cores _ _ _ _ cores_table_blind
               ltac:(now intros ? ?) Hsel).
    apply blind_yield_scan_start, cores_table_blind. }
  unfold cores in Hcores. injection Hcores as Hc1 Hc2.
  assert (Hpid : pid (proc_at (yield_dispatch next k1) next) = pid (proc_at k1 next))
    by (apply yield_dispatch_keeps; now repeat split).
  destruct (Nat.ltb_spec next MAX_NPROCESS) as [Hlt|Hge].
  - assert (Hcur : curr_proc_idx (yield_dispatch next k1) = next)
      by (apply curr_proc_idx_dispatched; [exact Hlt | now rewrite Hc1, Hc2]).
    rewrite Hcur. split; [exact Hlt|]. intros n Hn.
    rewrite bool_decide_eq_false_2 by lia.
    rewrite mstatus_yield_dispatch, Hpid, Hms.
    replace (next <? MAX_NPROCESS)%nat with true by (symmetry; now apply Nat.ltb_lt).
    destruct (GPID_USER_START <=? pid (proc_at k1 next));
      rewrite set_mpp_bits by (auto; lia); reflexivity.
  - assert (Hidle : yield_dispatch next k1 = go_idle k1).
    { unfold yield_dispatch.
      now replace (next <? MAX_NPROCESS)%nat with false
        by (symmetry; now apply Nat.ltb_ge). }
    rewrite Hidle.
    assert (Hcur : curr_proc_idx (go_idle k1) = 0%nat).
    { unfold go_idle, curr_proc_idx, set_curr_proc_idx. cbn.
      apply list_lookup_total_insert_eq. now rewrite Hc1, Hc2. }
    rewrite Hcur. split; [unfold MAX_NPROCESS; lia|]. intros n Hn.
    rewrite bool_decide_eq_true_2 by reflexivity.
    unfold go_idle. cbn. rewrite set_mie_bits by exact Hn. now rewrite Hms.
Qed.

End PrivilegeMode.

Lemma yield_sets_privilege_mode_witness :
  exists k',
    proc_yield (H := sample_platform) three_runnable = Ok k' /\
    curr_proc_idx k' = 2%nat /\ pid (proc_at k' 2) = 6 /\
    Z.testbit (mstatus k') 11 = false /\ Z.testbit (mstatus k') 12 = false.
Proof.
  assert (Hfacts : match proc_yield (H := sample_platform) three_runnable with
                   | Ok k' => curr_proc_idx k' = 2%nat /\ pid (proc_at k' 2) = 6
                   | Fatal _ => False
                   end) by (vm_compute; split; reflexivity).
  destruct (proc_yield (H := sample_platform) three_runnable) as [k'|] eqn:Hy;
    [|contradiction].
  destruct Hfacts as [Hcur Hpid].
  destruct (yield_sets_privilege_mode (H := sample_platform) _ _ Hy
              ltac:(vm_compute; lia)) as [_ Hbits].
  exists k'. split; [reflexivity|]. split; [exact Hcur|]. split; [exact Hpid|].
  rewrite !Hbits by lia. rewrite Hcur, Hpid. now split.
Defined.

(** ** The scheduler when no process is blocked in a system call *)

Section QuietYield.
Context `{Platform}.

Lemma curr_proc_idx_go_idle k :
  (core_in_kernel k < length (core_to_proc_idx k))%nat ->
  curr_proc_idx (go_idle k) = 0%nat.
Proof.
  intros Hcore. unfold go_idle, curr_proc_idx, set_curr_proc_idx. cbn.
  now apply list_lookup_total_insert_eq.
Qed.

Lemma quiet_scan_step now j k sel :
  status (proc_at k j) <> PROC_PENDING_SYSCALL ->
  exists sel', yield_scan_step now j (k, sel) = Ok (k, sel').
Proof.
  intros Hst. unfold yield_scan_step, yield_wake, status_is.
  rewrite bool_decide_eq_false_2 by exact Hst. cbn [andb].
  rewrite base_retry_unblocked by exact Hst. kbind.
  destruct (still_sleeping now (proc_at k j)); [now eexists|].
  destruct (_ && _); now eexists.
Qed.

Lemma quiet_scan_prefix now k n :
  (forall j, (1 <= j <= n)%nat -> status (proc_at k j) <> PROC_PENDING_SYSCALL) ->
  exists sel, scan_prefix now k n = Ok (k, sel).
Proof.
  induction n as [|n IH]; intros Hq; [now exists selection_start|].
  destruct IH as (sel & Hpre); [intros j Hj; apply Hq; lia|].
  destruct (quiet_scan_step now (S n) k sel (Hq (S n) ltac:(lia))) as (sel' & Hstep).
  exists sel'. rewrite scan_prefix_S, Hpre. kbind. exact Hstep.
Qed.

Lemma quiet_seen now k n j :
  (forall j, (1 <= j <= n)%nat -> status (proc_at k j) <> PROC_PENDING_SYSCALL) ->
  (j <= n)%nat -> seen now k j = Some (proc_at k j).
Proof.
  intros Hq Hj. unfold seen.
  destruct (quiet_scan_prefix now k j) as (sel & ->); [|reflexivity].
  intros i Hi. apply Hq. lia.
Qed.

Lemma quiet_fallback now k n : forall i,
  (forall j, (i <= j < i + n)%nat -> status (proc_at k j) <> PROC_PENDING_SYSCALL) ->
  exists next, yield_fallback now i n k = Ok (k, next) /\
    (((i <= next < i + n)%nat /\ eligible now (proc_at k next) = true) \/
     (next = MAX_NPROCESS /\
      forall j, (i <= j < i + n)%nat -> eligible now (proc_at k j) = false)).
Proof.
  induction n as [|n IH]; intros i Hq.
  - exists MAX_NPROCESS. split; [reflexivity|]. right. split; [reflexivity|]. lia.
  - cbn [yield_fallback]. rewrite base_retry_unblocked by (apply Hq; lia). kbind.
    destruct (IH (S i)) as (next & Hrun & Hnext); [intros j Hj; apply Hq; lia|].
    assert (Hrest : eligible now (proc_at k i) = false ->
              exists next, yield_fallback now (S i) n k = Ok (k, next) /\
                (((i <= next < i + S n)%nat /\ eligible now (proc_at k next) = true) \/
                 (next = MAX_NPROCESS /\
                  forall j, (i <= j < i + S n)%nat -> eligible now (proc_at k j) = false))).
    { intros Hno. exists next. split; [exact Hrun|].
      destruct Hnext as [[Hr He]|[-> Hall]]; [left; split; [lia | exact He]|].
      right. split; [reflexivity|]. intros j Hj.
      destruct (decide (j = i)) as [->|Hne]; [exact Hno | apply Hall; lia]. }
    unfold eligible in *.
    destruct (still_sleeping now (proc_at k i)) eqn:Hsl;
      [apply Hrest; now rewrite andb_false_r|].
    destruct (ready_or_runnable (proc_at k i)) eqn:Hrr; [|now apply Hrest].
    exists i. split; [reflexivity|]. left. split; [lia|]. now rewrite Hsl, Hrr.
Qed.

(** X21.  With no PCB of the slots 1 to MAX_NPROCESS blocked in a system
    call when the loops of [proc_yield] start, queue levels below
    MLFQ_LEVELS, and nothing to run in slot MAX_NPROCESS, [proc_yield]
    returns and is a strict priority scheduler: it dispatches the slot of
    lowest queue level among those that are READY or RUNNABLE and not
    sleeping, the one of lowest index among equals, and it leaves the core
    idle exactly when there is no such slot. *)
Theorem quiet_yield_is_priority_scheduler k :
  let now := yield_current_time k in
  let k0 := yield_scan_start k in
  (forall j, (1 <= j <= MAX_NPROCESS)%nat ->
     status (proc_at k0 j) <> PROC_PENDING_SYSCALL /\
     queue_level (proc_at k0 j) < MLFQ_LEVELS) ->
  eligible now (proc_at k0 MAX_NPROCESS) = false ->
  (core_in_kernel k < length (core_to_proc_idx k))%nat ->
  exists k', proc_yield k = Ok k' /\
    ((curr_proc_idx k' = 0%nat /\
      forall j, (1 <= j <= MAX_NPROCESS)%nat -> eligible now (proc_at k0 j) = false) \/
     ((1 <= curr_proc_idx k' < MAX_NPROCESS)%nat /\
      eligible now (proc_at k0 (curr_proc_idx k')) = true /\
      forall j, (1 <= j <= MAX_NPROCESS)%nat -> eligible now (proc_at k0 j) = true ->
        queue_level (proc_at k0 (curr_proc_idx k')) <= queue_level (proc_at k0 j) /\
        (queue_level (proc_at k0 j) = queue_level (proc_at k0 (curr_proc_idx k')) ->
         (curr_proc_idx k' <= j)%nat))).
Proof.
  intros now k0 Hq Hlast Hcore.
  assert (Hquiet : forall j, (1 <= j <= MAX_NPROCESS)%nat ->
            status (proc_at k0 j) <> PROC_PENDING_SYSCALL) by (intros j Hj; now apply Hq).
  assert (Hcores : cores k0 = cores k)
    by apply blind_yield_scan_start, cores_table_blind.
  assert (Hc1 : core_in_kernel k0 = core_in_kernel k) by exact (f_equal fst Hcores).
  assert (Hc2 : core_to_proc_idx k0 = core_to_proc_idx k) by exact (f_equal snd Hcores).
  destruct (quiet_scan_prefix now k0 MAX_NPROCESS Hquiet) as (sel & Hscan).
  destruct (scan_prefix_inv _ _ _ _ _ Hscan) as [Hsel Hmin].
  rewrite proc_yield_unfold, yield_select_unfold. fold now k0.
  rewrite Hscan. kbind. cbn [fst snd].
  destruct Hsel as [[Hnone Hlev]|(Hrange & Hlt & p & Hseen & Hel & Hlp)].
  - rewrite bool_decide_eq_true_2 by exact Hnone.
    assert (Hnobody : forall j, (1 <= j <= MAX_NPROCESS)%nat ->
              eligible now (proc_at k0 j) = false).
    { intros j Hj. destruct (eligible now (proc_at k0 j)) eqn:He; [|reflexivity].
      destruct (Hmin j _ Hj (quiet_seen now k0 _ j Hquiet ltac:(lia)) He) as [Hle _].
      destruct (Hq j Hj) as [_ Hlevel]. lia. }
    destruct (quiet_fallback now k0 MAX_NPROCESS 1) as (next & Hfb & Hnext);
      [intros j Hj; apply Hquiet; lia|].
    rewrite Hfb. kbind. cbn [fst snd].
    destruct Hnext as [[Hr He]|[-> _]];
      [rewrite Hnobody in He by lia; discriminate|].
    eexists. split; [reflexivity|]. left. split; [|exact Hnobody].
    unfold yield_dispatch. rewrite Nat.ltb_irrefl.
    apply curr_proc_idx_go_idle. now rewrite Hc1, Hc2.
  - rewrite quiet_seen with (n := MAX_NPROCESS) in Hseen by (assumption || lia).
    injection Hseen as <-.
    assert (Hnext : (next_idx sel < MAX_NPROCESS)%nat).
    { destruct (decide (next_idx sel = MAX_NPROCESS)) as [Heq|Hne]; [|lia].
      rewrite Heq, Hlast in Hel. discriminate. }
    rewrite bool_decide_eq_false_2 by lia. kbind. cbn [fst snd].
    eexists. split; [reflexivity|]. right.
    rewrite curr_proc_idx_dispatched by (assumption || now rewrite Hc1, Hc2).
    split; [lia|]. split; [exact Hel|].
    intros j Hj He.
    destruct (Hmin j _ Hj (quiet_seen now k0 _ j Hquiet ltac:(lia)) He) as [Hle Htie].
    rewrite Hlp. split; [exact Hle|]. intros Heq. apply Htie; [exact Heq | exact Hlt].
Qed.

End QuietYield.

Lemma quiet_yield_is_priority_scheduler_witness :
  exists k',
    proc_yield (H := sample_platform) three_runnable = Ok k' /\
    curr_proc_idx k' = 2%nat.
Proof.
  assert (Hfacts : match proc_yield (H := sample_platform) three_runnable with
                   | Ok k' => curr_proc_idx k' = 2%nat
                   | Fatal _ => False
                   end) by (vm_compute; reflexivity).
  destruct (quiet_yield_is_priority_scheduler (H := sample_platform) three_runnable)
    as (k' & Hy & _).
  - intros j [_ Hj].
    pose proof (slots_forallb
      (fun j => negb (status_is PROC_PENDING_SYSCALL
                        (proc_at (yield_scan_start (H := sample_platform)
                                    three_runnable) j)) &&
                (queue_level (proc_at (yield_scan_start (H := sample_platform)
                                         three_runnable) j) <? MLFQ_LEVELS))
      MAX_NPROCESS ltac:(vm_compute; reflexivity) j Hj) as Hall.
    cbv beta in Hall. apply andb_true_iff in Hall as [Hst Hlev].
    split; [|exact (proj1 (Z.ltb_lt _ _) Hlev)].
    apply negb_true_iff in Hst. intros Heq.
    exact (proj1 (bool_decide_eq_false _) Hst Heq).
  - vm_compute. reflexivity.
  - vm_compute. lia.
  - rewrite Hy in Hfacts. exists k'. split; [exact Hy | exact Hfacts].
Defined.

(** ** Keyboard input and the shell *)

Section ShellBoost.
Context `{Platform}.

Lemma mlfq_clear_twice p : mlfq_clear (mlfq_clear p) = mlfq_clear p.
Proof. reflexivity. Qed.

Lemma after_boost_at k j :
  table_ok k -> tty_input_empty k = false ->
  proc_at (after_boost k) j =
    if decide (find_slot (fun q => has_pid GPID_SHELL q && negb (status_is PROC_UNUSED q)) k
               = Some j)
    then mlfq_clear (proc_at k j) else proc_at k j.
Proof.
  intros Hok Htty. unfold after_boost.
  change (tty_input_empty (snd (mtime_get k))) with (tty_input_empty k).
  rewrite Htty. cbn [negb].
  change (find_slot ?c (snd (mtime_get k))) with (find_slot c k).
  destruct (find_slot _ k) as [i|] eqn:Hfind.
  - pose proof (find_slot_in_table _ _ _ Hok Hfind) as Hi.
    destruct (decide (Some i = Some j)) as [[= ->]|Hne].
    + rewrite proc_at_upd_eq by exact Hi. now rewrite proc_at_mtime_get.
    + rewrite proc_at_upd_ne by congruence. now rewrite proc_at_mtime_get.
  - destruct (decide (None = Some j)); [discriminate|]. now rewrite proc_at_mtime_get.
Qed.

(** X22.  With keyboard input waiting, [mlfq_reset_level] puts the shell
    back on level 0 with no queue time used: the first slot below
    MAX_NPROCESS that holds GPID_SHELL and is in use, and nothing else of
    that PCB.  Unless the periodic reset is due in the same call, every
    other slot is untouched: a later PCB with the shell's pid, an unused
    slot with that pid and slot MAX_NPROCESS among them; so is the whole
    table when no slot qualifies. *)
Theorem keyboard_input_boosts_shell k :
  let shell :=
    find_slot (fun q => has_pid GPID_SHELL q && negb (status_is PROC_UNUSED q)) k in
  table_ok k -> tty_input_empty k = false ->
  (forall i, shell = Some i ->
     (i < MAX_NPROCESS)%nat /\ pid (proc_at k i) = GPID_SHELL /\
     status (proc_at k i) <> PROC_UNUSED /\
     (forall m, (m < i)%nat ->
        pid (proc_at k m) <> GPID_SHELL \/ status (proc_at k m) = PROC_UNUSED) /\
     proc_at (mlfq_reset_level k) i = mlfq_clear (proc_at k i)) /\
  (u64_sub (mtime_now k) (MLFQ_last_reset_time k) < MLFQ_RESET_PERIOD ->
   forall j, shell <> Some j -> proc_at (mlfq_reset_level k) j = proc_at k j).
Proof.
  intros shell Hok Htty. split.
  - intros i Hfind. subst shell.
    pose proof (find_slot_range _ _ _ Hfind) as Hi.
    pose proof (scan_from_Some _ _ _ _ _ Hfind) as (_ & Hhit & Hbefore).
    fold (proc_at k i) in Hhit. apply andb_true_iff in Hhit as [Hpid Hlive].
    unfold has_pid in Hpid. apply Z.eqb_eq in Hpid.
    unfold status_is in Hlive. apply negb_true_iff, bool_decide_eq_false in Hlive.
    split; [exact Hi|]. split; [exact Hpid|]. split; [exact Hlive|]. split.
    + intros m Hm. specialize (Hbefore m ltac:(lia)). fold (proc_at k m) in Hbefore.
      apply andb_false_iff in Hbefore as [Hp|Hs].
      * left. unfold has_pid in Hp. now apply Z.eqb_neq.
      * right. unfold status_is in Hs. apply negb_false_iff in Hs.
        now apply bool_decide_eq_true in Hs.
    + rewrite mlfq_reset_level_unfold.
      assert (Hboost : proc_at (after_boost k) i = mlfq_clear (proc_at k i)).
      { rewrite after_boost_at by assumption. now rewrite decide_True by exact Hfind. }
      destruct (MLFQ_RESET_PERIOD <=? _); [|exact Hboost].
      rewrite proc_at_set_MLFQ_last_reset_time.
      pose proof (foldl_upd_proc_at (fun p => negb (status_is PROC_UNUSED p)) mlfq_clear
                    (seq 0 MAX_NPROCESS) (after_boost k) i (NoDup_seq _ _)) as Hfold.
      cbv beta in Hfold. rewrite Hfold; clear Hfold.
      * rewrite Hboost. destruct (_ && _); [apply mlfq_clear_twice | reflexivity].
      * intros m Hm. apply elem_of_seq in Hm. rewrite after_boost_length, Hok.
        unfold MAX_NPROCESS in *. lia.
  - intros Hearly j Hj. rewrite mlfq_reset_level_unfold.
    replace (MLFQ_RESET_PERIOD <=? _) with false by (symmetry; apply Z.leb_gt; exact Hearly).
    rewrite after_boost_at by assumption. now rewrite decide_False by exact Hj.
Qed.

End ShellBoost.

Lemma keyboard_input_boosts_shell_witness :
  table_ok key_pressed /\ tty_input_empty key_pressed = false /\
  let k' := mlfq_reset_level (H := sample_platform) key_pressed in
  queue_level (proc_at key_pressed 2) = 3 /\ queue_level (proc_at k' 2) = 0 /\
  queue_time (proc_at key_pressed 2) = 700 /\ queue_time (proc_at k' 2) = 0 /\
  proc_at k' 5 = proc_at key_pressed 5 /\ proc_at k' 1 = proc_at key_pressed 1.
Proof.
  assert (Hfind : find_slot (fun q => has_pid (GPID_SHELL (Platform := sample_platform)) q
                                      && negb (status_is PROC_UNUSED q)) key_pressed
                  = Some 2%nat) by reflexivity.
  destruct (keyboard_input_boosts_shell (H := sample_platform) key_pressed
              eq_refl eq_refl) as [Hshell Hrest].
  destruct (Hshell _ Hfind) as (_ & _ & _ & _ & Hat).
  assert (Hearly : u64_sub (mtime_now key_pressed) (MLFQ_last_reset_time key_pressed)
                   < MLFQ_RESET_PERIOD) by (vm_compute; reflexivity).
  split; [reflexivity|]. split; [reflexivity|]. cbv zeta.
  rewrite Hat, !(Hrest Hearly) by (rewrite Hfind; discriminate).
  repeat split; reflexivity.
Defined.

(** ** The time of the first dispatch is written once *)

Section FirstSchedule.
Context `{Platform}.

Lemma first_schedule_time_scheduling : ignores_scheduling first_schedule_time.
Proof. now repeat split. Qed.

Lemma first_upd_keeps i f k j :
  (forall q, first_schedule_time (f q) = first_schedule_time q) ->
  first_schedule_time (proc_at (upd_proc i f k) j) = first_schedule_time (proc_at k j).
Proof. intros Hf. now apply (keeps_upd first_schedule_time). Qed.

Lemma dispatch_stamp_first next k j :
  first_schedule_time (proc_at k j) <> 0 ->
  first_schedule_time (proc_at (dispatch_stamp next k) j) =
    first_schedule_time (proc_at k j).
Proof.
  intros Hj. unfold dispatch_stamp.
  destruct (first_schedule_time (proc_at k next) =? 0) eqn:Hz; kstep.
  - rewrite first_upd_keeps by reflexivity. autorewrite with frame.
    destruct (decide (next = j)) as [->|Hne].
    + apply Z.eqb_eq in Hz. contradiction.
    + rewrite proc_at_upd_ne by exact Hne. now autorewrite with frame.
  - rewrite first_upd_keeps by reflexivity. now autorewrite with frame.
Qed.

Lemma proc_set_running_first p k j :
  first_schedule_time (proc_at k j) <> 0 ->
  first_schedule_time (proc_at (proc_set_running p k) j) =
    first_schedule_time (proc_at k j).
Proof.
  intros Hj. unfold proc_set_running.
  destruct (find_slot _ k) as [i|]; [|reflexivity].
  destruct (first_schedule_time (proc_at k i) =? 0) eqn:Hz; kstep.
  - rewrite !first_upd_keeps by reflexivity. autorewrite with frame.
    destruct (decide (i = j)) as [->|Hne].
    + apply Z.eqb_eq in Hz. contradiction.
    + rewrite proc_at_upd_ne by exact Hne. now autorewrite with frame.
  - rewrite !first_upd_keeps by reflexivity. now autorewrite with frame.
Qed.

Lemma dispatch_prime_first k j :
  first_schedule_time (proc_at (dispatch_prime k) j) = first_schedule_time (proc_at k j).
Proof.
  unfold dispatch_prime. destruct (bool_decide _); [|reflexivity]. cbv zeta.
  now rewrite !first_upd_keeps by reflexivity.
Qed.

Lemma yield_dispatch_first next k j :
  first_schedule_time (proc_at k j) <> 0 ->
  first_schedule_time (proc_at (yield_dispatch next k) j) =
    first_schedule_time (proc_at k j).
Proof.
  intros Hj. unfold yield_dispatch.
  destruct (next <? MAX_NPROCESS)%nat; [|reflexivity]. cbv zeta.
  assert (Hstamp : first_schedule_time
                     (proc_at (dispatch_mode next (dispatch_stamp next k)) j) =
                   first_schedule_time (proc_at k j)).
  { rewrite (proc_at_same_table (dispatch_stamp next k))
      by apply proc_set_dispatch_mode.
    now apply dispatch_stamp_first. }
  rewrite proc_at_emit, proc_set_running_first.
  - rewrite dispatch_prime_first, !proc_at_emit, proc_at_set_curr_proc_idx.
    exact Hstamp.
  - rewrite dispatch_prime_first, !proc_at_emit, proc_at_set_curr_proc_idx.
    now rewrite Hstamp.
Qed.

Lemma proc_yield_first k k' j :
  proc_yield k = Ok k' -> first_schedule_time (proc_at k j) <> 0 ->
  first_schedule_time (proc_at k' j) = first_schedule_time (proc_at k j).
Proof.
  rewrite proc_yield_unfold.
  destruct (yield_select _ _) as [[k4 next]|] eqn:Hsel; [|discriminate].
  kbind. cbn [fst snd]. intros [= <-] Hj.
  assert (H4 : first_schedule_time (proc_at k4 j) = first_schedule_time (proc_at k j)).
  { rewrite (yield_select_keeps first_schedule_time _ _ _ _
               first_schedule_time_scheduling (fun _ _ => eq_refl)
               (fun _ _ => eq_refl) Hsel j).
    apply yield_scan_start_keeps, first_schedule_time_scheduling. }
  rewrite yield_dispatch_first; [exact H4 | now rewrite H4].
Qed.

Lemma intr_entry_first id k k' j :
  intr_entry id k = Ok k' -> first_schedule_time (proc_at k j) <> 0 ->
  first_schedule_time (proc_at k' j) = first_schedule_time (proc_at k j).
Proof.
  unfold intr_entry. destruct (negb _); [discriminate|]. cbv zeta.
  set (k1 := if (_ && _) then _ else k).
  assert (H1 : first_schedule_time (proc_at k1 j) = first_schedule_time (proc_at k j)).
  { subst k1. destruct (_ && _); [|reflexivity]. kstep.
    destruct (0 <? _); unfold mlfq_update_level;
      repeat (rewrite first_upd_keeps
                by (intros q; first [reflexivity
                                    | apply (mlfq_update_pcb_ignored first_schedule_time),
                                        first_schedule_time_scheduling]));
      now autorewrite with frame;
      repeat (rewrite first_upd_keeps by reflexivity). }
  intros Hy Hj. rewrite (proc_yield_first _ _ j Hy); [exact H1 | now rewrite H1].
Qed.

Lemma excp_entry_first id k k' j :
  excp_entry id k = Ok k' -> first_schedule_time (proc_at k j) <> 0 ->
  first_schedule_time (proc_at k' j) = first_schedule_time (proc_at k j).
Proof.
  unfold excp_entry. destruct (_ && _).
  - cbv zeta.
    destruct (proc_try_syscall _ _) as [k5|] eqn:Hsys5; [|discriminate].
    kbind. intros Hy Hj.
    assert (H5 : first_schedule_time (proc_at k5 j) = first_schedule_time (proc_at k j)).
    { rewrite (proc_try_syscall_keeps first_schedule_time _ _ _
                 first_schedule_time_scheduling (fun _ _ => eq_refl) Hsys5 j).
      rewrite first_upd_keeps by reflexivity.
      rewrite (proc_set_pending_keeps first_schedule_time _ _
                 first_schedule_time_scheduling j).
      now rewrite !first_upd_keeps by reflexivity. }
    rewrite (proc_yield_first _ _ j Hy); [exact H5 | now rewrite H5].
  - destruct (_ <=? _); [|discriminate]. cbv zeta. intros Hy Hj.
    assert (H2 : first_schedule_time
                   (proc_at (proc_free (curr_pid (emit (EvKilled (curr_pid k) id) k))
                               (emit (EvKilled (curr_pid k) id) k)) j) =
                 first_schedule_time (proc_at k j)).
    { rewrite (proc_free_keeps first_schedule_time _ _ (fun _ _ => eq_refl)
                 (fun _ _ => eq_refl) j).
      now rewrite proc_at_emit. }
    rewrite (proc_yield_first _ _ j Hy); [exact H2 | now rewrite H2].
Qed.

(** X23.  The time of the first dispatch is written once: a trap, whatever
    its cause, leaves the [first_schedule_time] of every PCB that has one
    (a value other than 0) as it is, also when the process is dispatched
    again, blocked, woken or killed during the trap. *)
Theorem first_schedule_time_written_once hart cause k k' j :
  trap hart cause k = Ok k' -> first_schedule_time (proc_at k j) <> 0 ->
  first_schedule_time (proc_at k' j) = first_schedule_time (proc_at k j).
Proof.
  unfold trap, kernel_entry. cbv zeta.
  set (k0 := set_mcause cause (set_mhartid hart k)).
  set (k1 := set_core_in_kernel (mhartid k0) k0).
  set (k2 := upd_proc (curr_proc_idx k1) (set_mepc (csr_mepc k1)) k1).
  set (k3 := upd_proc (curr_proc_idx k2)
               (fun p => set_saved_registers
                  (memcpy (saved_registers p) (saved_register_area k2)
                     SAVED_REGISTER_NUM) p) k2).
  assert (H3 : first_schedule_time (proc_at k3 j) = first_schedule_time (proc_at k j)).
  { subst k3 k2. now rewrite !first_upd_keeps by reflexivity. }
  match goal with
  | |- bind ?r _ = _ -> _ => destruct r as [k4|] eqn:Hentry; [|discriminate]
  end.
  kbind. intros [= <-] Hj. autorewrite with frame.
  destruct (Z.testbit _ 31).
  - rewrite (intr_entry_first _ _ _ j Hentry); [exact H3 | now rewrite H3].
  - rewrite (excp_entry_first _ _ _ j Hentry); [exact H3 | now rewrite H3].
Qed.

End FirstSchedule.

Lemma first_schedule_time_written_once_witness :
  first_schedule_time (proc_at ticking 1) = 0 /\
  match trap (H := sample_platform) 0 CAUSE_TIMER ticking with
  | Ok k1 =>
      first_schedule_time (proc_at k1 1) = 9000 /\
      match trap (H := sample_platform) 0 CAUSE_TIMER k1 with
      | Ok k2 => first_schedule_time (proc_at k2 1) = 9000
      | Fatal _ => False
      end
  | Fatal _ => False
  end.
Proof.
  split; [reflexivity|].
  assert (Hfirst : match trap (H := sample_platform) 0 CAUSE_TIMER ticking with
                   | Ok k1 => first_schedule_time (proc_at k1 1) = 9000 /\
                              is_ok (trap (H := sample_platform) 0 CAUSE_TIMER k1) = true
                   | Fatal _ => False
                   end) by (vm_compute; split; reflexivity).
  destruct (trap (H := sample_platform) 0 CAUSE_TIMER ticking) as [k1|];
    [|contradiction].
  destruct Hfirst as [H1 Hok]. split; [exact H1|].
  destruct (trap (H := sample_platform) 0 CAUSE_TIMER k1) as [k2|] eqn:H2;
    [|discriminate].
  rewrite (first_schedule_time_written_once (H := sample_platform) _ _ _ _ 1%nat H2);
    [exact H1 | rewrite H1; discriminate].
Defined.

(** ** Which process a timer interrupt is counted for *)

Section TimerCount.
Context `{Platform}.

Lemma timer_interrupt_count_scheduling : ignores_scheduling timer_interrupt_count.
Proof. now repeat split. Qed.

Lemma timer_interrupt_count_dispatch : ignores_dispatch timer_interrupt_count.
Proof. now repeat split. Qed.

Lemma count_upd_keeps i f k j :
  (forall q, timer_interrupt_count (f q) = timer_interrupt_count q) ->
  timer_interrupt_count (proc_at (upd_proc i f k) j) =
    timer_interrupt_count (proc_at k j).
Proof. intros Hf. now apply (keeps_upd timer_interrupt_count). Qed.

Lemma proc_yield_count k k' j :
  proc_yield k = Ok k' ->
  timer_interrupt_count (proc_at k' j) = timer_interrupt_count (proc_at k j).
Proof.
  intros Hy.
  exact (proc_yield_keeps timer_interrupt_count _ _ timer_interrupt_count_scheduling
           timer_interrupt_count_dispatch (fun _ _ => eq_refl) (fun _ _ => eq_refl) Hy j).
Qed.

Lemma excp_entry_count id k k' j :
  excp_entry id k = Ok k' ->
  timer_interrupt_count (proc_at k' j) = timer_interrupt_count (proc_at k j).
Proof.
  unfold excp_entry. destruct (_ && _).
  - cbv zeta.
    destruct (proc_try_syscall _ _) as [k5|] eqn:Hsys5; [|discriminate].
    kbind. intros Hy. rewrite (proc_yield_count _ _ j Hy).
    rewrite (proc_try_syscall_keeps timer_interrupt_count _ _ _
               timer_interrupt_count_scheduling (fun _ _ => eq_refl) Hsys5 j).
    rewrite count_upd_keeps by reflexivity.
    rewrite (proc_set_pending_keeps timer_interrupt_count _ _
               timer_interrupt_count_scheduling j).
    now rewrite !count_upd_keeps by reflexivity.
  - destruct (_ <=? _); [|discriminate]. cbv zeta. intros Hy.
    rewrite (proc_yield_count _ _ j Hy).
    rewrite (proc_free_keeps timer_interrupt_count _ _ (fun _ _ => eq_refl)
               (fun _ _ => eq_refl) j).
    now rewrite proc_at_emit.
Qed.

Lemma intr_entry_count id k k' j :
  table_ok k -> intr_entry id k = Ok k' ->
  timer_interrupt_count (proc_at k' j) =
    if bool_decide (j = curr_proc_idx k)
       && bool_decide (1 <= curr_proc_idx k <= MAX_NPROCESS)%nat
    then s32 (timer_interrupt_count (proc_at k j) + 1)
    else timer_interrupt_count (proc_at k j).
Proof.
  intros Hok. unfold intr_entry. destruct (negb _); [discriminate|]. cbv zeta.
  intros Hy. rewrite (proc_yield_count _ _ j Hy). clear Hy.
  set (i := curr_proc_idx k).
  destruct (Nat.ltb_spec 0 i) as [Hpos|Hzero];
    [destruct (Nat.leb_spec i MAX_NPROCESS) as [Hle|Hgt]|]; cbn [andb].
  - rewrite (bool_decide_eq_true_2 (1 <= i <= MAX_NPROCESS)%nat) by lia.
    rewrite andb_true_r. kstep.
    assert (Hrest : forall kx, timer_interrupt_count (proc_at
              (upd_proc i (set_last_schedule_time (mtime_now
                 (upd_proc i (fun p => set_timer_interrupt_count
                    (s32 (timer_interrupt_count p + 1)) p) k))) kx) j) =
              timer_interrupt_count (proc_at kx j))
      by (intros kx; now rewrite count_upd_keeps by reflexivity).
    rewrite Hrest. clear Hrest.
    assert (Hmid : forall kb,
              timer_interrupt_count (proc_at
                (if 0 <? last_schedule_time (proc_at kb i)
                 then mlfq_update_level (Some i)
                        (u64_sub (mtime_now (upd_proc i (fun p =>
                           set_timer_interrupt_count
                             (s32 (timer_interrupt_count p + 1)) p) k))
                           (last_schedule_time (proc_at kb i)))
                        (upd_proc i (fun p => set_total_cpu_time
                           (u64_add (total_cpu_time p)
                              (u64_sub (mtime_now (upd_proc i (fun p =>
                                 set_timer_interrupt_count
                                   (s32 (timer_interrupt_count p + 1)) p) k))
                                 (last_schedule_time (proc_at kb i)))) p) kb)
                 else kb) j) = timer_interrupt_count (proc_at kb j)).
    { intros kb. destruct (0 <? _); [|reflexivity]. unfold mlfq_update_level.
      rewrite count_upd_keeps
        by (intros q; apply (mlfq_update_pcb_ignored timer_interrupt_count),
              timer_interrupt_count_scheduling).
      now rewrite count_upd_keeps by reflexivity. }
    rewrite Hmid. clear Hmid. autorewrite with frame.
    destruct (decide (j = i)) as [->|Hne].
    + rewrite bool_decide_eq_true_2 by reflexivity.
      rewrite proc_at_upd_eq; [reflexivity|].
      rewrite Hok. lia.
    + rewrite bool_decide_eq_false_2 by exact Hne.
      now rewrite proc_at_upd_ne by congruence.
  - rewrite (bool_decide_eq_false_2 (1 <= i <= MAX_NPROCESS)%nat) by lia.
    now rewrite andb_false_r.
  - rewrite (bool_decide_eq_false_2 (1 <= i <= MAX_NPROCESS)%nat) by lia.
    now rewrite andb_false_r.
Qed.

(** X24.  A trap that returns counts a timer interrupt for one process at
    most: after an interrupt (bit 31 of the cause set), the
    [timer_interrupt_count] of the slot the trapping core was running is
    one higher (as a 32-bit integer) when that slot is one of 1 to
    MAX_NPROCESS; every other count is unchanged.  An interrupt on an idle
    core (slot 0), a system call and a fault change no count. *)
Theorem timer_interrupt_counted_once hart cause k k' j :
  table_ok k -> trap hart cause k = Ok k' ->
  let i := core_to_proc_idx k !!! hart in
  timer_interrupt_count (proc_at k' j) =
    if Z.testbit cause 31 && bool_decide (j = i)
       && bool_decide (1 <= i <= MAX_NPROCESS)%nat
    then s32 (timer_interrupt_count (proc_at k j) + 1)
    else timer_interrupt_count (proc_at k j).
Proof.
  intros Hok. unfold trap, kernel_entry. cbv zeta.
  set (k0 := set_mcause cause (set_mhartid hart k)).
  set (k1 := set_core_in_kernel (mhartid k0) k0).
  set (k2 := upd_proc (curr_proc_idx k1) (set_mepc (csr_mepc k1)) k1).
  set (k3 := upd_proc (curr_proc_idx k2)
               (fun p => set_saved_registers
                  (memcpy (saved_registers p) (saved_register_area k2)
                     SAVED_REGISTER_NUM) p) k2).
  assert (H3 : timer_interrupt_count (proc_at k3 j) =
               timer_interrupt_count (proc_at k j)).
  { subst k3 k2. now rewrite !count_upd_keeps by reflexivity. }
  assert (Hidx : curr_proc_idx k3 = core_to_proc_idx k !!! hart) by reflexivity.
  assert (Hok3 : table_ok k3).
  { unfold table_ok. subst k3 k2. now rewrite !upd_proc_length. }
  assert (Hcause : mcause k3 = cause) by reflexivity.
  match goal with
  | |- bind ?r _ = _ -> _ => destruct r as [k4|] eqn:Hentry; [|discriminate]
  end.
  kbind. intros [= <-]. cbv zeta. autorewrite with frame.
  rewrite Hcause in Hentry. destruct (Z.testbit cause 31); cbn [andb].
  - rewrite (intr_entry_count _ _ _ j Hok3 Hentry), Hidx, H3. reflexivity.
  - rewrite (excp_entry_count _ _ _ j Hentry). exact H3.
Qed.

End TimerCount.

Lemma timer_interrupt_counted_once_witness :
  match trap (H := sample_platform) 0 CAUSE_TIMER ticking with
  | Ok k' =>
      timer_interrupt_count (proc_at ticking 1) = 0 /\
      timer_interrupt_count (proc_at k' 1) = 1 /\
      timer_interrupt_count (proc_at k' 2) = timer_interrupt_count (proc_at ticking 2)
  | Fatal _ => False
  end.
Proof.
  destruct (trap (H := sample_platform) 0 CAUSE_TIMER ticking) as [k'|] eqn:Hrun;
    [|vm_compute in Hrun; discriminate].
  pose proof (fun j => timer_interrupt_counted_once (H := sample_platform)
                         0 CAUSE_TIMER ticking k' j eq_refl Hrun) as Hcount.
  cbv zeta in Hcount. split; [reflexivity|].
  rewrite !Hcount. split; reflexivity.
Defined.

(** ** A new process starts at the entry point *)

Section Prime.
Context `{Platform}.

Lemma mepc_context_field : context_field mepc.
Proof. now repeat split. Qed.

Lemma saved_registers_context_field : context_field saved_registers.
Proof. now repeat split. Qed.

Lemma trivially_closed : kernel_closed (fun _ _ => True).
Proof. intros j q _. now repeat split. Qed.

Lemma yield_select_table_ok now k k' next :
  table_ok k -> yield_select now k = Ok (k', next) -> table_ok k'.
Proof.
  intros Hok Hsel.
  destruct (evolves_yield_select _ trivially_closed _ _ _ _ Hsel) as (Hlen & _).
  unfold table_ok. now rewrite Hlen.
Qed.

Lemma dispatch_prime_ready k :
  curr_status k = PROC_READY ->
  (curr_proc_idx k < length (proc_set k))%nat ->
  mepc (proc_at (dispatch_prime k) (curr_proc_idx k)) = APPS_ENTRY /\
  saved_registers (proc_at (dispatch_prime k) (curr_proc_idx k)) =
    <[1%nat := u32 (APPS_ARG + 4)]>
      (<[0%nat := APPS_ARG]> (saved_registers (proc_at k (curr_proc_idx k)))).
Proof.
  intros Hready Hi. unfold dispatch_prime.
  rewrite bool_decide_eq_true_2 by exact Hready. cbv zeta.
  rewrite !proc_at_upd_eq by (rewrite ?upd_proc_length; exact Hi).
  now split.
Qed.

Lemma yield_dispatch_context next k j :
  table_ok k -> (next < MAX_NPROCESS)%nat ->
  (core_in_kernel k < length (core_to_proc_idx k))%nat ->
  let primed := bool_decide (j = next) && status_is PROC_READY (proc_at k next) in
  mepc (proc_at (yield_dispatch next k) j) =
    (if primed then APPS_ENTRY else mepc (proc_at k j)) /\
  saved_registers (proc_at (yield_dispatch next k) j) =
    (if primed
     then <[1%nat := u32 (APPS_ARG + 4)]>
            (<[0%nat := APPS_ARG]> (saved_registers (proc_at k j)))
     else saved_registers (proc_at k j)).
Proof.
  intros Hok Hn Hc primed. unfold yield_dispatch.
  replace (next <? MAX_NPROCESS)%nat with true by (symmetry; now apply Nat.ltb_lt).
  cbv zeta. rewrite proc_at_emit.
  set (k5 := set_curr_proc_idx next (dispatch_mode next (dispatch_stamp next k))).
  set (k6 := emit EvMmuFlushCache (emit (EvMmuSwitch (curr_pid k5)) k5)).
  rewrite (proc_set_running_ctx mepc _ _ mepc_context_field j).
  rewrite (proc_set_running_ctx saved_registers _ _ saved_registers_context_field j).
  assert (Hat6 : forall X : process -> Z, context_field X ->
            forall m, X (proc_at k6 m) = X (proc_at k m)).
  { intros X HX m. subst k6 k5. rewrite !proc_at_emit, proc_at_set_curr_proc_idx.
    rewrite (proc_at_same_table (dispatch_stamp next k))
      by apply proc_set_dispatch_mode.
    apply (dispatch_stamp_ctx X _ _ HX m). }
  assert (Hregs6 : forall m, saved_registers (proc_at k6 m) = saved_registers (proc_at k m)).
  { intros m. subst k6 k5. rewrite !proc_at_emit, proc_at_set_curr_proc_idx.
    rewrite (proc_at_same_table (dispatch_stamp next k))
      by apply proc_set_dispatch_mode.
    apply (dispatch_stamp_ctx saved_registers _ _ saved_registers_context_field m). }
  assert (Hst6 : forall m, status (proc_at k6 m) = status (proc_at k m)).
  { intros m. subst k6 k5. rewrite !proc_at_emit, proc_at_set_curr_proc_idx.
    rewrite (proc_at_same_table (dispatch_stamp next k))
      by apply proc_set_dispatch_mode.
    apply dispatch_stamp_keeps_status. }
  assert (Hlen6 : length (proc_set k6) = length (proc_set k)).
  { subst k6 k5.
    rewrite !proc_set_emit, proc_set_set_curr_proc_idx, proc_set_dispatch_mode.
    apply dispatch_stamp_length. }
  assert (Hcur6 : curr_proc_idx k6 = next).
  { subst k6 k5. unfold curr_proc_idx.
    assert (Hstamp : cores (dispatch_mode next (dispatch_stamp next k)) = cores k).
    { unfold dispatch_mode, dispatch_stamp.
      destruct (_ <=? _); destruct (first_schedule_time _ =? 0); reflexivity. }
    unfold cores in Hstamp. injection Hstamp as Hcore' Hmap'.
    unfold set_curr_proc_idx, emit.
    cbn [core_to_proc_idx core_in_kernel set_core_to_proc_idx set_trace].
    rewrite Hcore', Hmap'. now apply list_lookup_total_insert_eq. }
  subst primed. unfold status_is.
  destruct (decide (status (proc_at k next) = PROC_READY)) as [Hready|Hnot].
  - rewrite (bool_decide_eq_true_2 _ Hready), andb_true_r.
    destruct (decide (j = next)) as [->|Hne].
    + rewrite bool_decide_eq_true_2 by reflexivity.
      destruct (dispatch_prime_ready k6) as [Hm Hr].
      * unfold curr_status. now rewrite Hcur6, Hst6.
      * rewrite Hcur6, Hlen6, Hok. lia.
      * rewrite Hcur6 in Hm, Hr. rewrite Hm, Hr, Hregs6. now split.
    + rewrite bool_decide_eq_false_2 by exact Hne.
      assert (Hsame : proc_at (dispatch_prime k6) j = proc_at k6 j).
      { unfold dispatch_prime. destruct (bool_decide _); [|reflexivity]. cbv zeta.
        rewrite Hcur6. now rewrite !proc_at_upd_ne by congruence. }
      rewrite Hsame, Hregs6, (Hat6 mepc mepc_context_field). now split.
  - rewrite (bool_decide_eq_false_2 _ Hnot), andb_false_r.
    assert (Hsame : dispatch_prime k6 = k6).
    { unfold dispatch_prime, curr_status. rewrite Hcur6, Hst6.
      now rewrite bool_decide_eq_false_2 by exact Hnot. }
    rewrite Hsame, Hregs6, (Hat6 mepc mepc_context_field). now split.
Qed.

(** X25.  When the loops of [proc_yield] end on a slot below
    MAX_NPROCESS, [proc_yield] dispatches it, and a process dispatched
    for the first time (status READY after the loops) starts at the entry
    point: the saved program counter of its PCB is APPS_ENTRY and its saved
    registers 0 and 1 hold APPS_ARG and APPS_ARG + 4, the other saved
    registers being untouched.  The saved program counter and registers of
    a process dispatched again, and of every other slot, READY ones among
    them, are left as the loops left them. *)
Theorem ready_process_starts_at_entry k k4 next :
  let now := yield_current_time k in
  let k0 := yield_scan_start k in
  table_ok k -> (core_in_kernel k < length (core_to_proc_idx k))%nat ->
  yield_select now k0 = Ok (k4, next) -> (next < MAX_NPROCESS)%nat ->
  exists k', proc_yield k = Ok k' /\ curr_proc_idx k' = next /\
    forall j,
      let primed := bool_decide (j = next) && status_is PROC_READY (proc_at k4 next) in
      mepc (proc_at k' j) = (if primed then APPS_ENTRY else mepc (proc_at k4 j)) /\
      saved_registers (proc_at k' j) =
        (if primed
         then <[1%nat := u32 (APPS_ARG + 4)]>
                (<[0%nat := APPS_ARG]> (saved_registers (proc_at k4 j)))
         else saved_registers (proc_at k4 j)).
Proof.
  intros now k0 Hok Hcore Hsel Hnext.
  assert (Hok4 : table_ok k4).
  { apply (yield_select_table_ok now k0 k4 next); [|exact Hsel].
    unfold table_ok, k0. now rewrite yield_scan_start_length. }
  assert (Hcores : cores k4 = cores k).
  { rewrite (blind_yield_select cores _ _ _ _ cores_table_blind
               ltac:(now intros ? ?) Hsel).
    apply blind_yield_scan_start, cores_table_blind. }
  assert (Hc1 : core_in_kernel k4 = core_in_kernel k) by exact (f_equal fst Hcores).
  assert (Hc2 : core_to_proc_idx k4 = core_to_proc_idx k) by exact (f_equal snd Hcores).
  exists (yield_dispatch next k4). split; [|split].
  - rewrite proc_yield_unfold. fold now k0. rewrite Hsel. reflexivity.
  - apply curr_proc_idx_dispatched; [exact Hnext | now rewrite Hc1, Hc2].
  - intros j. apply yield_dispatch_context;
      [exact Hok4 | exact Hnext | now rewrite Hc1, Hc2].
Qed.

End Prime.

Lemma ready_process_starts_at_entry_witness :
  exists k',
    proc_yield (H := sample_platform) three_runnable = Ok k' /\
    curr_proc_idx k' = 2%nat /\
    status (proc_at three_runnable 2) = PROC_READY /\
    mepc (proc_at k' 2) = 2147487744 /\
    saved_registers (proc_at k' 2) !! 0%nat = Some 2147483648 /\
    saved_registers (proc_at k' 2) !! 1%nat = Some 2147483652 /\
    mepc (proc_at k' 1) = mepc (proc_at three_runnable 1).
Proof.
  assert (Hfacts :
    match yield_select (H := sample_platform)
            (yield_current_time (H := sample_platform) three_runnable)
            (yield_scan_start (H := sample_platform) three_runnable) with
    | Ok (k4, next) =>
        next = 2%nat /\ status (proc_at k4 2) = PROC_READY /\
        mepc (proc_at k4 1) = mepc (proc_at three_runnable 1) /\
        saved_registers (proc_at k4 2) = replicate SAVED_REGISTER_NUM 0
    | Fatal _ => False
    end) by (vm_compute; repeat split).
  destruct (yield_select (H := sample_platform) _ _) as [[k4 next]|] eqn:Hsel;
    [|contradiction].
  destruct Hfacts as (-> & Hready & Hm1 & Hregs).
  destruct (ready_process_starts_at_entry (H := sample_platform) three_runnable k4 2
              eq_refl ltac:(vm_compute; lia) Hsel ltac:(unfold MAX_NPROCESS; lia))
    as (k' & Hy & Hcur & Hctx).
  exists k'. split; [exact Hy|]. split; [exact Hcur|]. split; [reflexivity|].
  destruct (Hctx 2%nat) as [Hm Hr]. destruct (Hctx 1%nat) as [Hm' _].
  cbv zeta in Hm, Hr, Hm'. unfold status_is in Hm, Hr, Hm'.
  rewrite (bool_decide_eq_true_2 _ Hready) in Hm, Hr.
  rewrite bool_decide_eq_true_2 in Hm, Hr by reflexivity.
  rewrite bool_decide_eq_false_2 in Hm' by discriminate.
  cbn [andb] in Hm, Hr, Hm'.
  rewrite Hm, Hr, Hm', Hregs, Hm1. repeat split; reflexivity.
Defined.

(** * The claims that fail on a run from boot *)


(** C9 fails on runs from boot: a sleeping PCB is PENDING_SYSCALL, and
    every yield retries the syscall record of such a PCB as if a system
    call were outstanding.

    A process that has made no system call yet goes to sleep: the yield
    that follows calls [proc_try_syscall] on its zero-filled record and
    halts the kernel, so the process is never woken.

    A process that has received a message goes to sleep at time 25000 for
    17000 microseconds: the yield at time 27000 runs [proc_try_recv] on
    its completed RECV and makes it RUNNABLE fifteen milliseconds early
    (it is skipped while it sleeps).  The trap that starts at time 42000,
    the first whose yield is not before the wake-up time, finds the PCB
    RUNNABLE, not PENDING_SYSCALL: [wakeup_time] is not cleared. *)
Theorem sleeper_is_retried_as_syscall :
  match one_running with
  | Ok k =>
      curr_pid k = 1 /\ status (proc_at k 1) = PROC_RUNNING /\
      syscall (proc_at k 1) = Syscall.zero /\
      status (proc_at (proc_sleep 1 3000 k) 1) = PROC_PENDING_SYSCALL /\
      wakeup_time (proc_at (proc_sleep 1 3000 k) 1) = 14000 /\
      yield_current_time (H := sample_platform) (proc_sleep 1 3000 k) = 13000 /\
      proc_yield (H := sample_platform) (proc_sleep 1 3000 k)
        = Fatal (FatalUnknownSyscall (SYS_OTHER 0))
  | Fatal _ => False
  end /\
  match received_pair with
  | Ok k =>
      curr_pid k = 2 /\ status (proc_at k 2) = PROC_RUNNING /\
      syscall (proc_at k 2) = Syscall.mk SYS_RECV 1 0 msg_hi DONE /\
      mtime_now k = 25000 /\
      status (proc_at (proc_sleep 2 17000 k) 2) = PROC_PENDING_SYSCALL /\
      wakeup_time (proc_at (proc_sleep 2 17000 k) 2) = 42000 /\
      yield_current_time (H := sample_platform) (proc_sleep 2 17000 k) = 27000 /\
      match proc_yield (H := sample_platform) (proc_sleep 2 17000 k) with
      | Ok k1 =>
          status (proc_at k1 2) = PROC_RUNNABLE /\
          wakeup_time (proc_at k1 2) = 42000 /\ curr_proc_idx k1 = 1%nat /\
          match traps (H := sample_platform) CAUSE_TIMER [0; 0]%nat k1 with
          | Ok k2 =>
              mtime_now k2 = 42000 /\
              status (proc_at k2 2) = PROC_RUNNABLE /\
              wakeup_time (proc_at k2 2) = 42000 /\
              match trap (H := sample_platform) 0 CAUSE_TIMER k2 with
              | Ok k3 =>
                  mtime_now k3 = 48000 /\
                  status (proc_at k3 2) = PROC_RUNNABLE /\
                  wakeup_time (proc_at k3 2) = 42000
              | Fatal _ => False
              end
          | Fatal _ => False
          end
      | Fatal _ => False
      end
  | Fatal _ => False
  end.
Proof. vm_compute. repeat split. Qed.

(** * The idle path of [proc_yield] (C1) *)

(** ** The table invariant *)

Lemma table_inv_ok k : table_inv k -> table_ok k.
Proof. now intros (Hok & _). Qed.

(** A PCB in use below the last slot is the first holder of its pid: the
    status helpers find it. *)
Lemma first_holder k j :
  table_inv k -> (j <> 0)%nat -> (j < MAX_NPROCESS)%nat ->
  status (proc_at k j) <> PROC_UNUSED ->
  find_slot (has_pid (pid (proc_at k j))) k = Some j.
Proof.
  intros (Hok & Hu & (Hz & Hn) & _) Hj0 Hj Hst.
  apply scan_from_first; [lia | apply Z.eqb_refl |].
  intros m Hm. unfold has_pid. fold (proc_at k m).
  destruct (Z.eqb_spec (pid (proc_at k m)) (pid (proc_at k j))) as [Heq|]; [|reflexivity].
  assert (m = j); [|lia].
  apply Hu; [exact Heq|]. rewrite Heq. now apply Hn.
Qed.

(** The slot that holds a pid and is in use is the one the loops of
    [proc_try_send], [proc_free] and [proc_sleep] find. *)
Lemma live_holder k p d :
  table_inv k -> (d < MAX_NPROCESS)%nat ->
  pid (proc_at k d) = p -> status (proc_at k d) <> PROC_UNUSED ->
  find_slot (live_with_pid p) k = Some d.
Proof.
  intros (Hok & Hu & (Hz & Hn) & _) Hd Hp Hst.
  apply scan_from_first; [lia | |].
  - fold (proc_at k d). unfold live_with_pid, has_pid, status_is.
    rewrite Hp, Z.eqb_refl, bool_decide_eq_false_2 by exact Hst. reflexivity.
  - intros m Hm. fold (proc_at k m). unfold live_with_pid, has_pid, status_is.
    destruct (Z.eqb_spec (pid (proc_at k m)) p) as [Heq|]; [|reflexivity].
    destruct (decide (status (proc_at k m) = PROC_UNUSED)) as [Hun|Hlive].
    + now rewrite bool_decide_eq_true_2.
    + exfalso. destruct (decide (p = 0)) as [->|Hnz].
      * destruct (decide (d = 0%nat)) as [->|Hd0]; [lia|].
        now apply (Hn d Hd0 Hst).
      * assert (m = d); [|lia]. apply Hu; congruence.
Qed.

(** The table invariant survives a step that keeps the pids and changes a
    status only into UNUSED, or below the last slot and then of a PCB
    that is in use or that a search by pid finds. *)
Lemma table_inv_step k k' :
  table_inv k ->
  length (proc_set k') = length (proc_set k) -> keeps pid k k' ->
  (forall j, status (proc_at k' j) = status (proc_at k j) \/
             status (proc_at k' j) = PROC_UNUSED \/
             ((j < MAX_NPROCESS)%nat /\
              (status (proc_at k j) <> PROC_UNUSED \/
               find_slot (has_pid (pid (proc_at k j))) k = Some j))) ->
  table_inv k'.
Proof.
  intros (Hok & Hu & (Hz & Hn) & Hlast) Hlen Hpid Hst.
  split; [unfold table_ok; now rewrite Hlen|].
  split; [intros i j; rewrite !Hpid; apply Hu|].
  split; [split|].
  - now rewrite Hpid.
  - intros j Hj0 Hlive. rewrite Hpid.
    destruct (Hst j) as [Hs|[Hs|(_ & [Hs|Hs])]].
    + apply Hn; [exact Hj0 | now rewrite <- Hs].
    + now rewrite Hs in Hlive.
    + now apply Hn.
    + intros Hp0. rewrite Hp0 in Hs. apply scan_from_Some in Hs as (_ & _ & Hbefore).
      specialize (Hbefore 0%nat ltac:(lia)). fold (proc_at k 0) in Hbefore.
      unfold has_pid in Hbefore. now rewrite Hz in Hbefore.
  - destruct (Hst MAX_NPROCESS) as [Hs|[Hs|(Hlt & _)]]; [|now left|lia].
    unfold last_slot_unstarted. now rewrite Hs.
Qed.

Lemma table_inv_same k k' :
  table_inv k -> length (proc_set k') = length (proc_set k) ->
  keeps pid k k' -> keeps status k k' -> table_inv k'.
Proof. intros Hinv Hlen Hpid Hst. apply (table_inv_step k); auto. Qed.

Lemma table_inv_status_to st i k k' :
  table_inv k -> length (proc_set k') = length (proc_set k) -> keeps pid k k' ->
  status_to st i k k' -> (i < MAX_NPROCESS)%nat ->
  status (proc_at k i) <> PROC_UNUSED \/
  find_slot (has_pid (pid (proc_at k i))) k = Some i \/ st = PROC_UNUSED ->
  table_inv k'.
Proof.
  intros Hinv Hlen Hpid Hto Hi Hwhy. apply (table_inv_step k); auto.
  intros j. rewrite (Hto j). destruct (decide (j = i)) as [->|]; [|now left].
  destruct Hwhy as [Hlive|[Hfound| ->]]; [right; right|right; right|right; left]; auto.
Qed.

Lemma upd_status_to st i k :
  table_ok k -> (i < MAX_NPROCESS)%nat -> status_to st i k (upd_proc i (set_status st) k).
Proof.
  intros Hok Hi j. destruct (decide (j = i)) as [->|Hne].
  - rewrite proc_at_upd_eq; [reflexivity|]. rewrite Hok. unfold MAX_NPROCESS in *. lia.
  - now rewrite proc_at_upd_ne by congruence.
Qed.

Lemma found_is_first_holder p k i :
  find_slot (has_pid p) k = Some i ->
  find_slot (has_pid (pid (proc_at k i))) k = Some i.
Proof. intros Hf. now rewrite (proj1 (find_by_pid_hits _ _ _ Hf)). Qed.

(** *** The four status helpers keep the invariant *)

Lemma table_inv_proc_set_ready p k : table_inv k -> table_inv (proc_set_ready p k).
Proof.
  intros Hinv. unfold proc_set_ready.
  destruct (find_slot (has_pid p) k) as [i|] eqn:Hf; [|exact Hinv].
  apply (table_inv_status_to PROC_READY i k); auto.
  - apply upd_proc_length.
  - now apply keeps_upd.
  - apply upd_status_to; [now apply table_inv_ok | eapply find_slot_range; exact Hf].
  - eapply find_slot_range; exact Hf.
  - right; left. eapply found_is_first_holder; exact Hf.
Qed.

Lemma table_inv_proc_set_runnable p k : table_inv k -> table_inv (proc_set_runnable p k).
Proof.
  intros Hinv. destruct (find_slot (has_pid p) k) as [i|] eqn:Hf.
  - destruct (proc_set_runnable_effect p k i (table_inv_ok _ Hinv) Hf)
      as ((Hlen & Hpid & _) & Hto).
    apply (table_inv_status_to PROC_RUNNABLE i k); auto.
    + eapply find_slot_range; exact Hf.
    + right; left. eapply found_is_first_holder; exact Hf.
  - now rewrite (proj1 (set_status_by_pid_missing p k Hf)).
Qed.

Lemma table_inv_proc_set_pending p k : table_inv k -> table_inv (proc_set_pending p k).
Proof.
  intros Hinv. destruct (find_slot (has_pid p) k) as [i|] eqn:Hf.
  - destruct (proc_set_pending_effect p k i (table_inv_ok _ Hinv) Hf)
      as ((Hlen & Hpid & _) & Hto).
    apply (table_inv_status_to PROC_PENDING_SYSCALL i k); auto.
    + eapply find_slot_range; exact Hf.
    + right; left. eapply found_is_first_holder; exact Hf.
  - now rewrite (proj2 (proj2 (set_status_by_pid_missing p k Hf))).
Qed.

Lemma table_inv_proc_set_running p k : table_inv k -> table_inv (proc_set_running p k).
Proof.
  intros Hinv. destruct (find_slot (has_pid p) k) as [i|] eqn:Hf.
  - destruct (proc_set_running_effect p k i (table_inv_ok _ Hinv) Hf)
      as ((Hlen & Hpid & _) & Hto).
    apply (table_inv_status_to PROC_RUNNING i k); auto.
    + eapply find_slot_range; exact Hf.
    + right; left. eapply found_is_first_holder; exact Hf.
  - now rewrite (proj1 (proj2 (set_status_by_pid_missing p k Hf))).
Qed.

(** A slot that is blocked in a system call is not the last one. *)
Lemma pending_below_last k i :
  table_inv k -> status (proc_at k i) = PROC_PENDING_SYSCALL -> (i < MAX_NPROCESS)%nat.
Proof.
  intros (Hok & _ & _ & Hlast) Hst.
  destruct (decide (i < MAX_NPROCESS)%nat) as [|Hge]; [assumption|exfalso].
  destruct (decide (i = MAX_NPROCESS)) as [->|Hne].
  - destruct Hlast as [Hl|Hl]; rewrite Hl in Hst; discriminate.
  - rewrite proc_at_beyond in Hst; [discriminate|]. rewrite Hok. lia.
Qed.

Lemma live_below_last k i :
  table_inv k -> ready_or_runnable (proc_at k i) = true -> (i < MAX_NPROCESS)%nat.
Proof.
  intros (Hok & _ & _ & Hlast) Hst.
  destruct (decide (i < MAX_NPROCESS)%nat) as [|Hge]; [assumption|exfalso].
  unfold ready_or_runnable, status_is in Hst.
  destruct (decide (i = MAX_NPROCESS)) as [->|Hne].
  - destruct Hlast as [Hl|Hl]; rewrite Hl in Hst; discriminate.
  - rewrite proc_at_beyond in Hst; [discriminate|]. rewrite Hok. lia.
Qed.

(** ** The two loops *)

Section IdlePath.
Context `{Platform}.

Lemma table_inv_yield_wake now i k : table_inv k -> table_inv (yield_wake now i k).
Proof.
  intros Hinv. apply (table_inv_step k); auto.
  - apply yield_wake_length.
  - now apply yield_wake_keeps.
  - intros j. destruct (decide (j = i)) as [->|Hne];
      [|left; now rewrite yield_wake_other by congruence].
    unfold yield_wake.
    destruct (status_is PROC_PENDING_SYSCALL (proc_at k i)) eqn:Hp; [|now left].
    cbn [andb].
    destruct ((0 <? wakeup_time (proc_at k i)) && (wakeup_time (proc_at k i) <=? now));
      [|now left].
    apply bool_decide_eq_true in Hp. right; right.
    split; [now apply (pending_below_last k)|]. left. now rewrite Hp.
Qed.

Lemma eligible_ext now p q :
  status p = status q -> wakeup_time p = wakeup_time q -> eligible now p = eligible now q.
Proof.
  intros Hs Hw. unfold eligible, ready_or_runnable, still_sleeping, status_is.
  now rewrite Hs, Hw.
Qed.

(** A step that keeps the pids and the records and changes statuses only
    into RUNNABLE keeps what the first loop has established. *)
Lemma scanned_unblocking n k k' :
  scanned n k -> table_inv k' ->
  keeps pid k k' -> keeps syscall k k' ->
  (forall j, status (proc_at k' j) = status (proc_at k j) \/
             status (proc_at k' j) = PROC_RUNNABLE) ->
  scanned n k'.
Proof.
  intros (Hinv & Harr & Hsend) Hinv' Hpid Hsys Hst.
  assert (Hblocked : forall j, status (proc_at k' j) = PROC_PENDING_SYSCALL ->
            status (proc_at k j) = PROC_PENDING_SYSCALL).
  { intros j Hp. destruct (Hst j) as [Hs|Hs]; [now rewrite <- Hs|].
    rewrite Hs in Hp. discriminate. }
  split; [exact Hinv'|]. split.
  - intros j Hj (Hp & Hty & Hdone). rewrite Hsys in Hty, Hdone.
    destruct (Harr j Hj) as (s & Hs & Hfind); [now repeat split; auto|].
    exists s. split; [exact Hs|].
    now rewrite Hsys, (find_slot_has_pid_keeps _ k k').
  - intros s Hs (Hp & Hty). rewrite Hsys in Hty.
    destruct (Hsend s Hs) as (d & Hfind & Hrecv); [now split; auto|].
    exists d. rewrite !Hsys, Hpid. split; [|exact Hrecv].
    pose proof (find_slot_range _ _ _ Hfind) as Hd.
    apply scan_from_Some in Hfind as (_ & Hcond & _). fold (proc_at k d) in Hcond.
    unfold live_with_pid, has_pid, status_is in Hcond.
    apply andb_true_iff in Hcond as [Hpd Hlive].
    apply Z.eqb_eq in Hpd. apply negb_true_iff, bool_decide_eq_false in Hlive.
    apply live_holder; [exact Hinv' | exact Hd | now rewrite Hpid |].
    destruct (Hst d) as [Hsd|Hsd]; rewrite Hsd; [exact Hlive | discriminate].
Qed.

Lemma scanned_yield_wake now i n k : scanned n k -> scanned n (yield_wake now i k).
Proof.
  intros Hsc. apply (scanned_unblocking n k); auto.
  - apply table_inv_yield_wake, Hsc.
  - now apply yield_wake_keeps.
  - now apply yield_wake_keeps.
  - intros j. apply yield_wake_status_cases.
Qed.

Lemma scanned_proc_set_runnable p n k : scanned n k -> scanned n (proc_set_runnable p k).
Proof.
  intros Hsc. apply (scanned_unblocking n k); auto.
  - apply table_inv_proc_set_runnable, Hsc.
  - apply proc_set_runnable_keeps, pid_ignores_scheduling.
  - apply proc_set_runnable_keeps, syscall_ignores_scheduling.
  - intros j. apply proc_set_runnable_status_cases.
Qed.

Lemma scanned_same_table n k k' :
  proc_set k' = proc_set k -> scanned n k -> scanned n k'.
Proof.
  intros Ht Hsc.
  assert (Hat : forall j, proc_at k' j = proc_at k j)
    by (intros j; unfold proc_at; now rewrite Ht).
  apply (scanned_unblocking n k); auto.
  - apply (table_inv_same k); [apply Hsc | now rewrite Ht | |];
      intros j; now rewrite Hat.
  - intros j; now rewrite Hat.
  - intros j; now rewrite Hat.
  - intros j; left; now rewrite Hat.
Qed.

Lemma scanned_delivery i n k : scanned n k -> scanned n (delivery i k).
Proof.
  intros Hsc. unfold delivery.
  apply scanned_proc_set_runnable, scanned_proc_set_runnable.
  now apply (scanned_same_table n k).
Qed.

(** *** A retried system call *)

(** [proc_try_send] returns when its destination exists; it either
    changes nothing or completes the RECV of the destination. *)
Lemma proc_try_send_cases s k k' :
  table_ok k -> proc_try_send s k = Ok k' ->
  exists d,
    find_slot (live_with_pid (Syscall.receiver (syscall (proc_at k s)))) k = Some d /\
    ((receiving_from (pid (proc_at k s)) (syscall (proc_at k d)) = false /\ k' = k) \/
     (receiving_from (pid (proc_at k s)) (syscall (proc_at k d)) = true /\
      matched s d k k')).
Proof.
  intros Hok Hrun. unfold proc_try_send in Hrun.
  fold (live_with_pid (Syscall.receiver (syscall (proc_at k s)))) in Hrun.
  destruct (find_slot _ k) as [d|] eqn:Hfind; [|discriminate].
  assert (Hd : (d < length (proc_set k))%nat) by (eapply find_slot_in_table; eassumption).
  exists d. split; [reflexivity|]. unfold receiving_from.
  destruct (bool_decide (Syscall.type (syscall (proc_at k d)) = SYS_RECV)
            && bool_decide (Syscall.status (syscall (proc_at k d)) = PENDING)) eqn:Hrecv;
    cbn [negb andb] in Hrun |- *; [|injection Hrun as <-; now left].
  destruct ((Syscall.sender (syscall (proc_at k d)) =? GPID_ALL)
            || (Syscall.sender (syscall (proc_at k d)) =? pid (proc_at k s))) eqn:Hfrom;
    cbn [negb] in Hrun; [|injection Hrun as <-; now left].
  injection Hrun as <-. right. split; [reflexivity|].
  apply andb_true_iff in Hrecv as [Hty _]. apply bool_decide_eq_true in Hty.
  split; [now rewrite !upd_proc_length|].
  split; [intros j; now rewrite !(keeps_upd pid)|].
  split; [intros j; now rewrite !(keeps_upd status)|].
  split; [intros j; now rewrite !(keeps_upd wakeup_time)|].
  split; [intros j Hj; now rewrite !proc_at_upd_ne by congruence|].
  rewrite !proc_at_upd_eq by (now rewrite ?upd_proc_length).
  split; [exact Hty|]. split; [reflexivity|]. cbn.
  now rewrite (keeps_upd pid).
Qed.

(** What a retry in one of the loops does to slot [i]: nothing (the
    slot is not blocked, or its RECV has no message yet, or the
    destination of its SEND does not take the message), the completion
    of the destination's RECV, or the delivery of a message that has
    arrived. *)
Lemma yield_retry_cases i k k' :
  table_ok k -> yield_retry i k = Ok k' ->
  (k' = k /\ ~ recv_arrived (proc_at k i) /\
   (send_blocked (proc_at k i) ->
    exists d,
      find_slot (live_with_pid (Syscall.receiver (syscall (proc_at k i)))) k = Some d /\
      receiving_from (pid (proc_at k i)) (syscall (proc_at k d)) = false)) \/
  (send_blocked (proc_at k i) /\
   exists d,
     find_slot (live_with_pid (Syscall.receiver (syscall (proc_at k i)))) k = Some d /\
     receiving_from (pid (proc_at k i)) (syscall (proc_at k d)) = true /\
     matched i d k k') \/
  (recv_arrived (proc_at k i) /\ k' = delivery i k).
Proof.
  intros Hok. unfold yield_retry, status_is.
  destruct (bool_decide (status (proc_at k i) = PROC_PENDING_SYSCALL)) eqn:Hp.
  2:{ apply bool_decide_eq_false in Hp. intros [= <-]. left.
      split; [reflexivity|]. split; [now intros (Hp' & _)|now intros (Hp' & _)]. }
  apply bool_decide_eq_true in Hp. unfold proc_try_syscall.
  destruct (Syscall.type (syscall (proc_at k i))) eqn:Hty; [| |discriminate].
  - intros [= <-]. unfold proc_try_recv.
    destruct (bool_decide (Syscall.status (syscall (proc_at k i)) = PENDING)) eqn:Hst.
    + apply bool_decide_eq_true in Hst. left. split; [reflexivity|].
      split; [intros (_ & _ & Hne); now apply Hne|].
      intros (_ & Hty'); congruence.
    + apply bool_decide_eq_false in Hst. right; right.
      split; [now repeat split|]. unfold delivery. autorewrite with frame.
      now rewrite (proc_set_runnable_keeps syscall _ _ syscall_ignores_scheduling).
  - intros Hsend. destruct (proc_try_send_cases i k k' Hok Hsend)
      as (d & Hfind & [[Hrecv ->]|[Hrecv Hm]]).
    + left. split; [reflexivity|]. split; [intros (_ & Hty' & _); congruence|].
      intros _. now exists d.
    + right; left. split; [now split|]. now exists d.
Qed.

(** The loop moves on to the next slot. *)
Lemma scanned_S n k :
  scanned n k -> ~ recv_arrived (proc_at k (S n)) ->
  (send_blocked (proc_at k (S n)) ->
   exists d,
     find_slot (live_with_pid (Syscall.receiver (syscall (proc_at k (S n))))) k = Some d /\
     receiving_from (pid (proc_at k (S n))) (syscall (proc_at k d)) = false) ->
  scanned (S n) k.
Proof.
  intros (Hinv & Harr & Hsend) Hnot Hnew.
  split; [exact Hinv|]. split.
  - intros j Hj Hrecv. destruct (decide (j = S n)) as [->|Hne]; [contradiction|].
    destruct (Harr j ltac:(lia) Hrecv) as (s & Hs & Hfind).
    exists s. split; [lia | exact Hfind].
  - intros s Hs Hblocked. destruct (decide (s = S n)) as [->|Hne]; [now apply Hnew|].
    apply Hsend; [lia | exact Hblocked].
Qed.

(** A SEND of the slot the first loop is at completes a RECV. *)
Lemma scanned_matched n d k k' :
  scanned n k -> send_blocked (proc_at k (S n)) ->
  find_slot (live_with_pid (Syscall.receiver (syscall (proc_at k (S n))))) k = Some d ->
  receiving_from (pid (proc_at k (S n))) (syscall (proc_at k d)) = true ->
  matched (S n) d k k' ->
  scanned (S n) k'.
Proof.
  intros (Hinv & Harr & Hsend) (Hp & Hty) Hfind Hrecv
         (Hlen & Hpid & Hst & Hw & Hother & Hty' & Hdone & Hfrom).
  assert (Hinv' : table_inv k') by now apply (table_inv_same k).
  assert (Htyd : Syscall.type (syscall (proc_at k d)) = SYS_RECV).
  { unfold receiving_from in Hrecv.
    apply andb_true_iff in Hrecv as [Hrecv _]. apply andb_true_iff in Hrecv as [Hrecv _].
    now apply bool_decide_eq_true in Hrecv. }
  assert (Hne : d <> S n) by (intros ->; congruence).
  assert (Hi : (S n < MAX_NPROCESS)%nat) by now apply (pending_below_last k).
  assert (Hlive : forall p x, find_slot (live_with_pid p) k = Some x ->
            find_slot (live_with_pid p) k' = Some x).
  { intros p x Hx. pose proof (find_slot_range _ _ _ Hx) as Hxr.
    apply scan_from_Some in Hx as (_ & Hcond & _). fold (proc_at k x) in Hcond.
    unfold live_with_pid, has_pid, status_is in Hcond.
    apply andb_true_iff in Hcond as [Hpx Hlx].
    apply Z.eqb_eq in Hpx. apply negb_true_iff, bool_decide_eq_false in Hlx.
    apply live_holder; [exact Hinv' | exact Hxr | now rewrite Hpid | now rewrite Hst]. }
  assert (Hdone_false : forall p, receiving_from p (syscall (proc_at k' d)) = false).
  { intros p. unfold receiving_from. rewrite Hdone.
    rewrite (bool_decide_eq_false_2 (DONE = PENDING)) by discriminate.
    now rewrite andb_false_r. }
  split; [exact Hinv'|]. split.
  - intros j Hj (Hpj & Htj & Hdj). rewrite Hst in Hpj.
    destruct (decide (j = d)) as [->|Hjd].
    + exists (S n). split; [lia|]. rewrite Hfrom, <- (Hpid (S n)).
      apply first_holder; [exact Hinv' | lia | exact Hi |].
      rewrite Hst, Hp. discriminate.
    + rewrite (Hother j Hjd) in Htj, Hdj.
      assert (j <> S n) by (intros ->; congruence).
      destruct (Harr j ltac:(lia)) as (s & Hs & Hfs); [now repeat split|].
      exists s. split; [lia|].
      now rewrite (Hother j Hjd), (find_slot_has_pid_keeps _ k k').
  - intros s Hs (Hps & Hts). rewrite Hst in Hps.
    assert (Hsd : s <> d) by (intros ->; congruence).
    rewrite (Hother s Hsd) in Hts. rewrite (Hother s Hsd), Hpid.
    destruct (decide (s = S n)) as [->|Hsn].
    + exists d. split; [now apply Hlive | apply Hdone_false].
    + destruct (Hsend s ltac:(lia)) as (d' & Hfd & Hrd); [now split|].
      exists d'. split; [now apply Hlive|].
      destruct (decide (d' = d)) as [->|Hdd]; [apply Hdone_false|].
      now rewrite (Hother d' Hdd).
Qed.

Lemma delivery_status i k :
  table_inv k -> (i <> 0)%nat -> recv_arrived (proc_at k i) ->
  status (proc_at (delivery i k) i) = PROC_RUNNABLE.
Proof.
  intros Hinv Hi0 (Hp & _). unfold delivery.
  set (k0 := set_user_syscall _ k).
  assert (Hinv0 : table_inv k0).
  { apply (table_inv_same k); [exact Hinv | reflexivity | |]; now intros j. }
  assert (Hfind : find_slot (has_pid (pid (proc_at k i))) k0 = Some i).
  { change (pid (proc_at k i)) with (pid (proc_at k0 i)).
    apply first_holder; [exact Hinv0 | exact Hi0 | now apply (pending_below_last k) |].
    change (proc_at k0 i) with (proc_at k i). rewrite Hp. discriminate. }
  destruct (proc_set_runnable_effect _ _ _ (table_inv_ok _ Hinv0) Hfind) as [_ Hto].
  destruct (proc_set_runnable_status_cases (Syscall.sender (syscall (proc_at k i)))
              (proc_set_runnable (pid (proc_at k i)) k0) i) as [Hs|Hs]; [|exact Hs].
  rewrite Hs, (Hto i). now destruct (decide (i = i)).
Qed.

(** The retry of the first loop at slot [S n]. *)
Lemma scanned_retry n k k' :
  scanned n k -> yield_retry (S n) k = Ok k' -> scanned (S n) k'.
Proof.
  intros Hsc Hr.
  destruct (yield_retry_cases _ _ _ (table_inv_ok _ (proj1 Hsc)) Hr)
    as [(-> & Hnot & Hsend)|[(Hblocked & d & Hfind & Hrecv & Hm)|(Harrived & ->)]].
  - now apply scanned_S.
  - now apply (scanned_matched n d k).
  - pose proof (delivery_status (S n) k (proj1 Hsc) ltac:(lia) Harrived) as Hst.
    apply scanned_S; [now apply scanned_delivery| |].
    + intros (Hp & _). congruence.
    + intros (Hp & _). congruence.
Qed.

Lemma yield_scan_step_retry now j k sel k' sel' :
  yield_scan_step now j (k, sel) = Ok (k', sel') ->
  yield_retry j (yield_wake now j k) = Ok k'.
Proof.
  unfold yield_scan_step.
  destruct (yield_retry j (yield_wake now j k)) as [k1|]; [|discriminate].
  kbind. intros Hk. f_equal.
  destruct (still_sleeping _ _); [now injection Hk|].
  destruct (_ && _); now injection Hk.
Qed.

Lemma scanned_scan_step now n k sel k' sel' :
  scanned n k -> yield_scan_step now (S n) (k, sel) = Ok (k', sel') -> scanned (S n) k'.
Proof.
  intros Hsc Hstep. apply yield_scan_step_retry in Hstep.
  eapply scanned_retry; [|exact Hstep]. now apply scanned_yield_wake.
Qed.

(** *** The first loop *)

(** A candidate stays one while the loop visits other slots. *)
Lemma eligible_persists now j k sel k' sel' i :
  yield_scan_step now j (k, sel) = Ok (k', sel') -> i <> j ->
  eligible now (proc_at k i) = true -> eligible now (proc_at k' i) = true.
Proof.
  intros Hstep Hne Hel.
  pose proof (yield_scan_step_retry _ _ _ _ _ _ Hstep) as Hr.
  assert (Hw : wakeup_time (proc_at k' i) = wakeup_time (proc_at k i)).
  { rewrite (yield_retry_keeps wakeup_time _ _ _ wakeup_time_ignores_scheduling
               (fun _ _ => eq_refl) Hr).
    now rewrite yield_wake_other. }
  unfold eligible in *. apply andb_true_iff in Hel as [Hrr Hsl].
  unfold still_sleeping in *. rewrite Hw, Hsl, andb_true_r.
  destruct (yield_scan_step_status_cases _ _ _ _ _ _ i Hstep) as [Hs|Hs];
    unfold ready_or_runnable, status_is in *; rewrite Hs; [exact Hrr|].
  rewrite (bool_decide_eq_true_2 (PROC_RUNNABLE = PROC_RUNNABLE)) by reflexivity.
  apply orb_true_r.
Qed.

Lemma scanned_start k : table_inv k -> scanned 0 k.
Proof.
  intros Hinv. split; [exact Hinv|]. split; intros j Hj; lia.
Qed.

(** After [n] iterations the first loop has established [scanned n], and
    its selection, if it has made one, is a slot below the last one that
    is a candidate in the state the loop has reached. *)
Lemma first_loop_scanned now k n kn sel :
  table_inv k -> scan_prefix now k n = Ok (kn, sel) ->
  scanned n kn /\
  (next_idx sel = MAX_NPROCESS \/
   ((1 <= next_idx sel <= n)%nat /\ (next_idx sel < MAX_NPROCESS)%nat /\
    eligible now (proc_at kn (next_idx sel)) = true)).
Proof.
  intros Hinv. revert kn sel. induction n as [|n IH]; intros kn sel Hrun.
  - unfold scan_prefix in Hrun. cbn [for_slots] in Hrun. injection Hrun as <- <-.
    split; [now apply scanned_start | now left].
  - rewrite scan_prefix_S in Hrun.
    destruct (scan_prefix now k n) as [[km selm]|]; [|discriminate].
    unfold bind in Hrun. destruct (IH km selm eq_refl) as [Hsc Hsel].
    split; [eapply scanned_scan_step; eassumption|].
    pose proof (yield_scan_step_selection _ _ _ _ _ _ Hrun) as Hnew.
    destruct (eligible now (proc_at kn (S n))) eqn:Hel; cbn [andb] in Hnew.
    + destruct (queue_level (proc_at kn (S n)) <? min_level selm).
      * subst sel. cbn [next_idx]. right. split; [lia|]. split; [|exact Hel].
        apply (live_below_last kn);
          [apply (scanned_scan_step now n km selm kn (mkSelection (S n)
                    (queue_level (proc_at kn (S n)))) Hsc Hrun)|].
        unfold eligible in Hel. now apply andb_true_iff in Hel as [Hrr _].
      * subst sel. destruct Hsel as [Hnone|(Hr & Hlt & Hold)]; [now left|right].
        split; [lia|]. split; [exact Hlt|].
        eapply eligible_persists; [exact Hrun | lia | exact Hold].
    + subst sel. destruct Hsel as [Hnone|(Hr & Hlt & Hold)]; [now left|right].
      split; [lia|]. split; [exact Hlt|].
      eapply eligible_persists; [exact Hrun | lia | exact Hold].
Qed.

(** *** The fallback loop *)

(** The delivery at slot [i] changes the status of that slot and of the
    sender. *)
Lemma delivery_elsewhere now i s k j :
  table_inv k -> (i <> 0)%nat -> recv_arrived (proc_at k i) ->
  find_slot (has_pid (Syscall.sender (syscall (proc_at k i)))) k = Some s ->
  j <> i -> j <> s ->
  eligible now (proc_at (delivery i k) j) = eligible now (proc_at k j).
Proof.
  intros Hinv Hi0 (Hp & _) Hfs Hji Hjs. unfold delivery.
  set (k0 := set_user_syscall _ k).
  assert (Hinv0 : table_inv k0).
  { apply (table_inv_same k); [exact Hinv | reflexivity | |]; now intros x. }
  assert (Hfind : find_slot (has_pid (pid (proc_at k i))) k0 = Some i).
  { change (pid (proc_at k i)) with (pid (proc_at k0 i)).
    apply first_holder; [exact Hinv0 | exact Hi0 | now apply (pending_below_last k) |].
    change (proc_at k0 i) with (proc_at k i). rewrite Hp. discriminate. }
  destruct (proc_set_runnable_effect _ _ _ (table_inv_ok _ Hinv0) Hfind)
    as [(Hlen1 & Hpid1 & _ & Hw1 & _) Hto1].
  set (k1 := proc_set_runnable (pid (proc_at k i)) k0) in *.
  assert (Hfs1 : find_slot (has_pid (Syscall.sender (syscall (proc_at k i)))) k1 = Some s).
  { rewrite (find_slot_has_pid_keeps _ k0 k1 Hpid1). exact Hfs. }
  assert (Hok1 : table_ok k1).
  { unfold table_ok. rewrite Hlen1. exact (table_inv_ok _ Hinv0). }
  destruct (proc_set_runnable_effect _ _ _ Hok1 Hfs1) as [(_ & _ & _ & Hw2 & _) Hto2].
  apply eligible_ext.
  - rewrite (Hto2 j). destruct (decide (j = s)); [contradiction|].
    rewrite (Hto1 j). destruct (decide (j = i)); [contradiction|]. reflexivity.
  - now rewrite Hw2, Hw1.
Qed.

(** The fallback loop from slot [S m] on, started in a state in which the
    first loop has visited every slot and no slot up to [m] is a
    candidate: it completes no SEND, the processes it unblocks are in
    slots it has yet to visit, and so it ends either on a candidate
    below the last slot or with no candidate in the table. *)
Lemma fallback_scanned now n m k k' next :
  (S m + n = S MAX_NPROCESS)%nat ->
  scanned MAX_NPROCESS k -> none_eligible now m k ->
  yield_fallback now (S m) n k = Ok (k', next) ->
  scanned MAX_NPROCESS k' /\
  ((next = MAX_NPROCESS /\ none_eligible now MAX_NPROCESS k') \/
   ((S m <= next < MAX_NPROCESS)%nat /\ eligible now (proc_at k' next) = true)).
Proof.
  revert m k. induction n as [|n IH]; intros m k Hmn Hsc Hnone Hrun.
  - cbn [yield_fallback] in Hrun. injection Hrun as <- <-.
    split; [exact Hsc|]. left. split; [reflexivity|].
    replace MAX_NPROCESS with m by lia. exact Hnone.
  - cbn [yield_fallback] in Hrun.
    destruct (yield_retry (S m) k) as [k1|] eqn:Hr; [|discriminate].
    unfold bind in Hrun.
    assert (Hstep : scanned MAX_NPROCESS k1 /\ none_eligible now m k1).
    { destruct Hsc as (Hinv & Harr & Hsend).
      destruct (yield_retry_cases _ _ _ (table_inv_ok _ Hinv) Hr)
        as [(-> & _)|[(Hblocked & d & Hfind & Hrecv & _)|(Harrived & ->)]].
      - exact (conj (conj Hinv (conj Harr Hsend)) Hnone).
      - exfalso. destruct (Hsend (S m) ltac:(lia) Hblocked) as (d' & Hfind' & Hrecv').
        rewrite Hfind in Hfind'. injection Hfind' as <-. congruence.
      - split; [now apply scanned_delivery|].
        destruct (Harr (S m) ltac:(lia) Harrived) as (s & Hs & Hfs).
        intros j Hj.
        rewrite (delivery_elsewhere now (S m) s k j) by (auto; lia).
        now apply Hnone. }
    destruct Hstep as [Hsc1 Hnone1].
    assert (Hrest : eligible now (proc_at k1 (S m)) = false ->
              yield_fallback now (S (S m)) n k1 = Ok (k', next) ->
              scanned MAX_NPROCESS k' /\
              ((next = MAX_NPROCESS /\ none_eligible now MAX_NPROCESS k') \/
               ((S m <= next < MAX_NPROCESS)%nat /\ eligible now (proc_at k' next) = true))).
    { intros Hno Hrec.
      destruct (IH (S m) k1 ltac:(lia) Hsc1) with (2 := Hrec) as [Hsc' Hres].
      - intros j Hj. destruct (decide (j = S m)) as [->|Hne]; [exact Hno|].
        apply Hnone1. lia.
      - split; [exact Hsc'|]. destruct Hres as [Hres|(Hr' & Hel')]; [now left|right].
        split; [lia | exact Hel']. }
    unfold eligible in Hrest.
    destruct (still_sleeping now (proc_at k1 (S m))) eqn:Hsl;
      [apply Hrest; [now rewrite andb_false_r | exact Hrun]|].
    destruct (ready_or_runnable (proc_at k1 (S m))) eqn:Hrr;
      [|apply Hrest; [reflexivity | exact Hrun]].
    injection Hrun as <- <-. split; [exact Hsc1|]. right.
    split; [|unfold eligible; now rewrite Hrr, Hsl].
    split; [lia|]. apply (live_below_last k1); [apply Hsc1 | exact Hrr].
Qed.

(** *** Before and after the loops *)

Lemma table_inv_same_table k k' : proc_set k' = proc_set k -> table_inv k -> table_inv k'.
Proof.
  intros Ht Hinv.
  assert (Hat : forall j, proc_at k' j = proc_at k j)
    by (intros j; unfold proc_at; now rewrite Ht).
  apply (table_inv_same k); [exact Hinv | now rewrite Ht | |]; intros j; now rewrite Hat.
Qed.

Lemma table_inv_mlfq_reset_level k : table_inv k -> table_inv (mlfq_reset_level k).
Proof.
  intros Hinv. apply (table_inv_same k); [exact Hinv | apply mlfq_reset_level_length | |];
    now apply mlfq_reset_level_keeps_queue.
Qed.

Lemma table_inv_yield_prologue k : table_inv k -> table_inv (yield_prologue k).
Proof.
  intros Hinv. unfold yield_prologue. apply table_inv_mlfq_reset_level.
  destruct (bool_decide _); [now apply table_inv_proc_set_runnable | exact Hinv].
Qed.

Lemma table_inv_yield_scan_start k : table_inv k -> table_inv (yield_scan_start k).
Proof.
  intros Hinv. apply (table_inv_same_table (yield_prologue k)); [reflexivity|].
  now apply table_inv_yield_prologue.
Qed.

Lemma yield_retry_halts i k f : yield_retry i k = Fatal f -> halted_in_syscall f.
Proof.
  unfold yield_retry. destruct (status_is _ _); [|discriminate].
  unfold proc_try_syscall. destruct (Syscall.type _) as [| |tag] eqn:Hty; [discriminate| |].
  - unfold proc_try_send. destruct (find_slot _ k); [|intros [= <-]; right; eauto].
    destruct (negb _); [discriminate|]. now destruct (negb _).
  - intros [= <-]. left. eauto.
Qed.

Lemma for_slots_halts now i n a f :
  for_slots (yield_scan_step now) i n a = Fatal f -> halted_in_syscall f.
Proof.
  revert i a. induction n as [|n IH]; intros i [k sel]; cbn [for_slots]; [discriminate|].
  destruct (yield_scan_step now i (k, sel)) as [a'|f'] eqn:Hstep; unfold bind.
  - apply IH.
  - intros [= <-]. unfold yield_scan_step in Hstep.
    destruct (yield_retry i (yield_wake now i k)) as [k1|f1] eqn:Hr; unfold bind in Hstep.
    + destruct (still_sleeping _ _); [discriminate|]. now destruct (_ && _).
    + injection Hstep as <-. eapply yield_retry_halts; exact Hr.
Qed.

Lemma yield_fallback_halts now i n k f :
  yield_fallback now i n k = Fatal f -> halted_in_syscall f.
Proof.
  revert i k. induction n as [|n IH]; intros i k; cbn [yield_fallback]; [discriminate|].
  destruct (yield_retry i k) as [k1|f1] eqn:Hr; unfold bind.
  - destruct (still_sleeping _ _); [apply IH|].
    destruct (ready_or_runnable _); [discriminate | apply IH].
  - intros [= <-]. eapply yield_retry_halts; exact Hr.
Qed.

Lemma proc_yield_halts k f : proc_yield k = Fatal f -> halted_in_syscall f.
Proof.
  rewrite proc_yield_unfold.
  destruct (yield_select _ _) as [r|f'] eqn:Hsel; unfold bind; [discriminate|].
  intros [= <-]. unfold yield_select in Hsel.
  destruct (for_slots _ _ _ _) as [[k1 sel]|f1] eqn:Hloop; unfold bind in Hsel.
  - destruct (bool_decide _); [|discriminate].
    eapply yield_fallback_halts; exact Hsel.
  - injection Hsel as <-. eapply for_slots_halts; exact Hloop.
Qed.

Lemma trace_go_idle k :
  trace (go_idle k) = trace k ++ [EvTimerReset (core_in_kernel k); EvWfi].
Proof. unfold go_idle, emit. cbn. now rewrite <- app_assoc. Qed.

Lemma trace_table_blind : table_blind trace.
Proof. now repeat split. Qed.

Lemma blind_dispatch_prime {A} (F : kernel -> A) k :
  table_blind F -> F (dispatch_prime k) = F k.
Proof.
  intros HF. unfold dispatch_prime. destruct (bool_decide _); [|reflexivity].
  now rewrite !blind_upd.
Qed.

(** What a dispatch prints: the switch of the address space to the pid
    of the selected slot, the flush of the cache, the reset of the timer
    of the core. *)
Lemma trace_yield_dispatch next k :
  (next < MAX_NPROCESS)%nat ->
  (core_in_kernel k < length (core_to_proc_idx k))%nat ->
  trace (yield_dispatch next k) =
    trace k ++ [EvMmuSwitch (pid (proc_at k next)); EvMmuFlushCache;
                EvTimerReset (core_in_kernel k)].
Proof.
  intros Hn Hc. unfold yield_dispatch.
  replace (next <? MAX_NPROCESS)%nat with true by (symmetry; now apply Nat.ltb_lt).
  cbv zeta.
  set (k5 := set_curr_proc_idx next (dispatch_mode next (dispatch_stamp next k))).
  assert (Hcores : cores (dispatch_mode next (dispatch_stamp next k)) = cores k).
  { unfold dispatch_mode, dispatch_stamp.
    destruct (_ <=? _); destruct (first_schedule_time _ =? 0); reflexivity. }
  assert (Hcore5 : core_in_kernel k5 = core_in_kernel k) by exact (f_equal fst Hcores).
  assert (Hmap : core_to_proc_idx (dispatch_mode next (dispatch_stamp next k))
                 = core_to_proc_idx k) by exact (f_equal snd Hcores).
  assert (Hcur5 : curr_proc_idx k5 = next).
  { unfold curr_proc_idx. rewrite Hcore5. subst k5. unfold set_curr_proc_idx.
    cbn [core_to_proc_idx set_core_to_proc_idx].
    change (core_in_kernel (dispatch_mode next (dispatch_stamp next k)))
      with (fst (cores (dispatch_mode next (dispatch_stamp next k)))).
    rewrite Hcores, Hmap. cbn [fst cores]. now apply list_lookup_total_insert_eq. }
  assert (Hpid5 : curr_pid k5 = pid (proc_at k next)).
  { unfold curr_pid. rewrite Hcur5. subst k5. rewrite proc_at_set_curr_proc_idx.
    rewrite (proc_at_same_table (dispatch_stamp next k)) by apply proc_set_dispatch_mode.
    apply dispatch_stamp_keeps. now repeat split. }
  assert (Htr5 : trace k5 = trace k).
  { subst k5. unfold set_curr_proc_idx, dispatch_mode, dispatch_stamp.
    destruct (_ <=? _); destruct (first_schedule_time _ =? 0); reflexivity. }
  set (k6 := emit EvMmuFlushCache (emit (EvMmuSwitch (curr_pid k5)) k5)).
  set (k7 := dispatch_prime k6).
  set (k8 := proc_set_running (curr_pid k7) k7).
  assert (Htr8 : trace k8 = trace k6).
  { subst k8. rewrite (blind_proc_set_running trace) by exact trace_table_blind.
    subst k7. now apply blind_dispatch_prime, trace_table_blind. }
  assert (Hcore8 : core_in_kernel k8 = core_in_kernel k).
  { subst k8. rewrite (blind_proc_set_running core_in_kernel) by now repeat split.
    subst k7. rewrite (blind_dispatch_prime core_in_kernel) by now repeat split.
    exact Hcore5. }
  unfold emit at 1. cbn [trace set_trace]. rewrite Htr8, Hcore8. subst k6.
  unfold emit. cbn [trace set_trace]. rewrite Htr5, Hpid5.
  now rewrite <- !app_assoc.
Qed.

(** Where the two loops end: on a candidate below the last slot, or with
    no candidate in the table. *)
Lemma yield_select_ends now k k4 next :
  table_inv k -> yield_select now k = Ok (k4, next) ->
  table_inv k4 /\
  ((next = MAX_NPROCESS /\ none_eligible now MAX_NPROCESS k4) \/
   ((1 <= next < MAX_NPROCESS)%nat /\ eligible now (proc_at k4 next) = true)).
Proof.
  intros Hinv Hsel. rewrite yield_select_unfold in Hsel.
  destruct (scan_prefix now k MAX_NPROCESS) as [[k1 sel]|] eqn:Hscan; [|discriminate].
  unfold bind in Hsel. cbn [fst snd] in Hsel.
  destruct (first_loop_scanned now _ _ _ _ Hinv Hscan) as [Hsc Hchoice].
  destruct (bool_decide (next_idx sel = MAX_NPROCESS)) eqn:Hd.
  - destruct (fallback_scanned now MAX_NPROCESS 0 k1 k4 next eq_refl Hsc) with (2 := Hsel)
      as [Hsc4 Hres]; [intros j Hj; lia|].
    split; [apply Hsc4|]. destruct Hres as [Hres|(Hr & Hel)]; [now left|right].
    split; [lia | exact Hel].
  - injection Hsel as <- <-. apply bool_decide_eq_false in Hd.
    split; [apply Hsc|]. destruct Hchoice as [Hnone|(Hr & Hlt & Hel)]; [contradiction|].
    right. split; [lia | exact Hel].
Qed.

(** C1.  In the states the kernel reaches (the table invariant
    [table_inv], which holds at boot and which every function of the
    kernel keeps), a call of [proc_yield] that does not halt in a retried
    system call ends its selection scan in a state [k4] with a value
    [next] of [next_idx], and then takes one of two paths.  Either no
    slot from 1 to [MAX_NPROCESS] is READY or RUNNABLE and past its
    wake-up time in [k4], and the core is set idle: its entry of
    [core_to_proc_idx] becomes 0, the timer is reset, [mstatus.MIE] is
    set and [wfi] is issued, the table staying as the scan left it.  Or
    [next] is such a slot, and it is dispatched: the core is mapped to
    it, it is marked RUNNING, the address space is switched to its pid
    and the timer is reset.  So the core idles only when the table has no
    runnable PCB at the end of the scan, and when it has one,
    [proc_yield] dispatches one of them. *)
Theorem idle_only_when_nothing_runnable k :
  table_inv k ->
  (core_in_kernel k < length (core_to_proc_idx k))%nat ->
  let now := yield_current_time k in
  match proc_yield k with
  | Ok k' =>
      exists k4 next,
        yield_select now (yield_scan_start k) = Ok (k4, next) /\
        ((none_eligible now MAX_NPROCESS k4 /\
          next = MAX_NPROCESS /\
          curr_proc_idx k' = 0%nat /\
          proc_set k' = proc_set k4 /\
          trace k' = trace k4 ++ [EvTimerReset (core_in_kernel k); EvWfi] /\
          Z.testbit (mstatus k') 3 = true) \/
         ((1 <= next < MAX_NPROCESS)%nat /\
          eligible now (proc_at k4 next) = true /\
          curr_proc_idx k' = next /\
          status (proc_at k' next) = PROC_RUNNING /\
          trace k' = trace k4 ++ [EvMmuSwitch (pid (proc_at k4 next)); EvMmuFlushCache;
                                  EvTimerReset (core_in_kernel k)]))
  | Fatal f => halted_in_syscall f
  end.
Proof.
  intros Hinv Hcore now.
  destruct (proc_yield k) as [k'|f] eqn:Hy; [|eapply proc_yield_halts; exact Hy].
  rewrite proc_yield_unfold in Hy. fold now in Hy.
  destruct (yield_select now (yield_scan_start k)) as [[k4 next]|] eqn:Hsel;
    [|discriminate].
  unfold bind in Hy. cbn [fst snd] in Hy. injection Hy as <-.
  exists k4, next. split; [reflexivity|].
  assert (Hcores : cores k4 = cores k).
  { rewrite (blind_yield_select cores _ _ _ _ cores_table_blind (fun _ _ => eq_refl) Hsel).
    apply blind_yield_scan_start, cores_table_blind. }
  assert (Hc1 : core_in_kernel k4 = core_in_kernel k) by exact (f_equal fst Hcores).
  assert (Hc2 : core_to_proc_idx k4 = core_to_proc_idx k) by exact (f_equal snd Hcores).
  assert (Hcore4 : (core_in_kernel k4 < length (core_to_proc_idx k4))%nat)
    by now rewrite Hc1, Hc2.
  pose proof (yield_select_ends now _ _ _ (table_inv_yield_scan_start k Hinv) Hsel)
    as Hends.
  destruct Hends as [Hinv4 [[-> Hnone]|[Hr Hel]]].
  - left. split; [exact Hnone|]. split; [reflexivity|].
    unfold yield_dispatch. rewrite Nat.ltb_irrefl.
    split; [now apply curr_proc_idx_go_idle|]. split; [reflexivity|].
    split; [now rewrite trace_go_idle, Hc1|].
    change (mstatus (go_idle k4)) with (set_mie (mstatus k4)).
    now rewrite set_mie_bits.
  - right. split; [exact Hr|]. split; [exact Hel|].
    split; [apply curr_proc_idx_dispatched; [lia | exact Hcore4]|].
    split.
    + apply yield_dispatch_running; [now apply table_inv_ok | lia | exact Hcore4 |].
      apply first_holder; [exact Hinv4 | lia | lia |].
      unfold eligible, ready_or_runnable, status_is in Hel.
      intros Hun. rewrite Hun in Hel. discriminate.
    + rewrite trace_yield_dispatch by (lia || exact Hcore4). now rewrite Hc1.
Qed.

End IdlePath.

(** ** Every function of the kernel keeps the table invariant *)

Lemma table_inv_boot t : table_inv (boot t) /\ pids_issued (boot t).
Proof.
  split; [|apply boot_pids_issued].
  split; [reflexivity|]. split; [apply boot_pids_unique|]. split.
  - split; [now rewrite boot_slot|]. intros j _ Hst. now rewrite boot_slot in Hst.
  - left. now rewrite boot_slot.
Qed.

Lemma table_inv_upd i f k :
  (forall q, pid (f q) = pid q) -> (forall q, status (f q) = status q) ->
  table_inv k -> table_inv (upd_proc i f k).
Proof.
  intros Hp Hs Hinv.
  apply (table_inv_same k); [exact Hinv | apply upd_proc_length | |]; now apply keeps_upd.
Qed.

(** A step that keeps the pids and can only mark a slot UNUSED. *)
Lemma table_inv_freeing k k' :
  table_inv k -> length (proc_set k') = length (proc_set k) -> keeps pid k k' ->
  (forall j, status (proc_at k' j) = status (proc_at k j) \/
             status (proc_at k' j) = PROC_UNUSED) ->
  table_inv k'.
Proof.
  intros Hinv Hlen Hpid Hst. apply (table_inv_step k); auto.
  intros j. destruct (Hst j) as [Hs|Hs]; auto.
Qed.

(** [proc_alloc], while the pid counter is within the positive range of
    [int]. *)
Lemma table_inv_proc_alloc k p k' :
  table_inv k -> pids_issued k -> alloc_curr_pid k < 2 ^ 31 - 1 ->
  proc_alloc k = Ok (p, k') ->
  table_inv k' /\ pids_issued k'.
Proof.
  intros (Hok & Hu & (Hz & Hn) & Hlast) Hiss Hroom Hrun.
  destruct (proc_alloc_next_pid k p k' Hok Hiss Hroom Hrun)
    as (Hp & Hfresh & Hctr & Hok' & i & Hi & Hpi & Hsti & Hother & _).
  destruct Hiss as [Hc Hle].
  assert (Hiss' : pids_issued k').
  { split; [lia|]. intros j. rewrite Hctr.
    destruct (decide (j = i)) as [->|Hne]; [lia|].
    rewrite Hother by exact Hne. specialize (Hle j). lia. }
  split; [|exact Hiss']. split; [exact Hok'|]. split; [|split; [split|]].
  - intros a b Hab Hnz.
    destruct (decide (a = i)) as [->|Ha]; destruct (decide (b = i)) as [->|Hb];
      try reflexivity.
    + rewrite Hpi, (Hother b Hb) in Hab. specialize (Hle b). lia.
    + rewrite Hpi, (Hother a Ha) in Hab. specialize (Hle a). lia.
    + rewrite (Hother a Ha), (Hother b Hb) in Hab. rewrite (Hother a Ha) in Hnz.
      now apply Hu.
  - rewrite Hother by lia. exact Hz.
  - intros j Hj0 Hlive. destruct (decide (j = i)) as [->|Hne]; [rewrite Hpi; lia|].
    rewrite Hother in Hlive |- * by exact Hne. now apply Hn.
  - unfold last_slot_unstarted.
    destruct (decide (MAX_NPROCESS = i)) as [<-|Hne]; [now right|].
    now rewrite Hother by exact Hne.
Qed.

Section Kept.
Context `{Platform}.

Lemma pid_closed k0 : kernel_closed (fun j q => pid q = pid (proc_at k0 j)).
Proof. now apply identity_closed. Qed.

(** What the functions that do not allocate keep: the size of the table,
    the pid counter and the pids. *)
Lemma evolves_keeps_pids k k' :
  (forall P, kernel_closed P -> evolves P k k') ->
  length (proc_set k') = length (proc_set k) /\
  alloc_curr_pid k' = alloc_curr_pid k /\ keeps pid k k'.
Proof.
  intros Hev. destruct (Hev _ (pid_closed k)) as (Hlen & Hctr & Hs).
  split; [exact Hlen|]. split; [exact Hctr|]. intros j. apply Hs. now intros j'.
Qed.

Lemma pids_issued_evolves k k' :
  (forall P, kernel_closed P -> evolves P k k') -> pids_issued k -> pids_issued k'.
Proof.
  intros Hev [Hc Hle]. destruct (evolves_keeps_pids k k' Hev) as (_ & Hctr & Hpid).
  split; [now rewrite Hctr|]. intros j. rewrite Hctr, Hpid. apply Hle.
Qed.

Lemma pids_issued_same k k' :
  proc_set k' = proc_set k -> alloc_curr_pid k' = alloc_curr_pid k ->
  pids_issued k -> pids_issued k'.
Proof.
  intros Ht Hctr [Hc Hle]. split; [now rewrite Hctr|].
  intros j. rewrite Hctr, (proc_at_same_table k) by exact Ht. apply Hle.
Qed.

Lemma pids_issued_proc_set_ready p k : pids_issued k -> pids_issued (proc_set_ready p k).
Proof.
  intros [Hc Hle]. unfold proc_set_ready.
  destruct (find_slot (has_pid p) k) as [i|]; [|now split].
  split; [exact Hc|]. intros j. rewrite (keeps_upd pid) by reflexivity. apply Hle.
Qed.

(** *** [proc_free] and [proc_sleep] *)

Lemma table_inv_proc_set_unused p k :
  table_inv k -> table_inv (proc_set_status p PROC_UNUSED k).
Proof.
  intros Hinv.
  destruct (evolves_keeps_pids k _ (fun P Hc => evolves_proc_set_unused P Hc p k))
    as (Hlen & _ & Hpid).
  apply (table_inv_freeing k); auto.
  intros j. rewrite proc_set_status_at by now apply table_inv_ok.
  destruct (_ && _); [now right | now left].
Qed.

Lemma proc_free_all_users_cases k j :
  table_ok k ->
  status (proc_at (proc_free GPID_ALL k) j) = PROC_UNUSED \/
  proc_at (proc_free GPID_ALL k) j = proc_at k j.
Proof.
  intros Hok. rewrite proc_free_all_unfold.
  destruct (free_users_fold (seq 0 MAX_NPROCESS) k (NoDup_seq _ _)) as (Hfreed & Hsame & _).
  { intros i Hi. apply elem_of_seq in Hi. rewrite Hok. lia. }
  destruct (live_user (proc_at k j)) eqn:Hlive; [|right; apply Hsame; now right].
  destruct (decide (j ∈ seq 0 MAX_NPROCESS)) as [Hin|Hout];
    [left; now apply Hfreed | right; apply Hsame; now left].
Qed.

Lemma table_inv_proc_free p k : table_inv k -> table_inv (proc_free p k).
Proof.
  intros Hinv.
  destruct (evolves_keeps_pids k _ (fun P Hc => evolves_proc_free P Hc p k))
    as (Hlen & _ & Hpid).
  apply (table_inv_freeing k); auto. intros j.
  destruct (decide (p = GPID_ALL)) as [->|Hne].
  - destruct (proc_free_all_users_cases k j (table_inv_ok _ Hinv)) as [Hs|Hs];
      [now right | left; now rewrite Hs].
  - destruct (find_slot (live_with_pid p) k) as [i|] eqn:Hfind.
    + destruct (proc_free_found_effect p k i (table_inv_ok _ Hinv) Hne Hfind)
        as (Hfreed & Hsame & _).
      destruct (decide (j < MAX_NPROCESS)%nat) as [Hj|Hj];
        [|left; now rewrite Hsame by (left; lia)].
      destruct (decide (pid (proc_at k j) = p)) as [Hp|Hp];
        [right; now apply Hfreed | left; now rewrite Hsame by now right].
    + left. now rewrite (proc_free_missing p k Hne Hfind).
Qed.

Lemma table_inv_proc_sleep p u k : table_inv k -> table_inv (proc_sleep p u k).
Proof.
  intros Hinv. unfold proc_sleep, mtime_get. cbv beta iota zeta.
  set (k1 := set_clock_reads _ k).
  assert (Hinv1 : table_inv k1) by now apply (table_inv_same_table k).
  fold (live_with_pid p).
  destruct (find_slot (live_with_pid p) k1) as [i|] eqn:Hfind; [|exact Hinv1].
  pose proof (find_slot_range _ _ _ Hfind) as Hi.
  apply scan_from_Some in Hfind as (_ & Hcond & _). fold (proc_at k1 i) in Hcond.
  unfold live_with_pid, status_is in Hcond. apply andb_true_iff in Hcond as [_ Hlive].
  apply negb_true_iff, bool_decide_eq_false in Hlive.
  set (k2 := upd_proc i _ k1).
  assert (Hinv2 : table_inv k2) by now apply table_inv_upd.
  apply (table_inv_status_to PROC_PENDING_SYSCALL i k2); auto.
  - apply upd_proc_length.
  - now apply keeps_upd.
  - apply upd_status_to; [now apply table_inv_ok | exact Hi].
  - left. subst k2. now rewrite (keeps_upd status).
Qed.

(** *** The system calls and the dispatch *)

Lemma table_inv_proc_try_syscall i k k' :
  table_inv k -> proc_try_syscall i k = Ok k' -> table_inv k'.
Proof.
  intros Hinv. unfold proc_try_syscall.
  destruct (Syscall.type _); [| |discriminate].
  - intros [= <-]. unfold proc_try_recv. destruct (bool_decide _); [exact Hinv|].
    cbv zeta. apply table_inv_proc_set_runnable, table_inv_proc_set_runnable.
    now apply (table_inv_same_table k).
  - intros Hsend.
    destruct (proc_try_send_cases _ _ _ (table_inv_ok _ Hinv) Hsend)
      as (d & _ & [[_ ->]|[_ (Hlen & Hpid & Hst & _)]]); [exact Hinv|].
    now apply (table_inv_same k).
Qed.

Lemma table_inv_yield_dispatch next k : table_inv k -> table_inv (yield_dispatch next k).
Proof.
  intros Hinv. unfold yield_dispatch.
  destruct (next <? MAX_NPROCESS)%nat; [|now apply (table_inv_same_table k)].
  cbv zeta.
  set (k5 := set_curr_proc_idx next (dispatch_mode next (dispatch_stamp next k))).
  assert (Hinv5 : table_inv k5).
  { apply (table_inv_same_table (dispatch_stamp next k));
      [subst k5; now rewrite proc_set_set_curr_proc_idx, proc_set_dispatch_mode|].
    apply (table_inv_same k); [exact Hinv | apply dispatch_stamp_length | |].
    - apply dispatch_stamp_keeps. now repeat split.
    - apply dispatch_stamp_keeps_status. }
  set (k6 := emit EvMmuFlushCache (emit (EvMmuSwitch (curr_pid k5)) k5)).
  assert (Hinv6 : table_inv k6) by now apply (table_inv_same_table k5).
  apply (table_inv_same_table (proc_set_running (curr_pid (dispatch_prime k6))
                                 (dispatch_prime k6))); [reflexivity|].
  apply table_inv_proc_set_running.
  apply (table_inv_same k6); [exact Hinv6 | apply dispatch_prime_length | |].
  - apply dispatch_prime_keeps. now repeat split.
  - apply dispatch_prime_keeps_status.
Qed.

Lemma table_inv_proc_yield k k' : table_inv k -> proc_yield k = Ok k' -> table_inv k'.
Proof.
  intros Hinv. rewrite proc_yield_unfold.
  destruct (yield_select _ _) as [[k4 next]|] eqn:Hsel; [|discriminate].
  unfold bind. cbn [fst snd]. intros [= <-]. apply table_inv_yield_dispatch.
  now apply (yield_select_ends _ _ _ _ (table_inv_yield_scan_start k Hinv) Hsel).
Qed.

(** *** The handlers *)

(** A global that the code before the call of [proc_yield] does not
    write.  The core the kernel runs on and the core-to-process map are
    such globals. *)
Lemma blind_free {A} (F : kernel -> A) p k :
  table_blind F -> (forall v x, F (set_trace v x) = F x) -> F (proc_free p k) = F k.
Proof.
  intros Ht Htr. unfold proc_free. destruct (negb _).
  - destruct (find_slot _ k) as [i|]; [|reflexivity]. kstep.
    unfold proc_set_status. rewrite (blind_foldl F).
    + unfold emit. rewrite !Htr. rewrite (blind_upd F) by exact Ht.
      now destruct Ht as (_ & -> & _).
    + intros k0 b. destruct (has_pid _ _); [|reflexivity].
      now apply blind_upd.
  - apply blind_foldl. intros k0 b. destruct (_ && _); [|reflexivity].
    kstep. rewrite (blind_upd F) by exact Ht. unfold emit. rewrite !Htr.
    rewrite (blind_upd F) by exact Ht. now destruct Ht as (_ & -> & _).
Qed.

(** A handler that returns has called [proc_yield] in a state that
    satisfies the invariant, on the same core and with the same
    core-to-process map as at its entry, and it returns what
    [proc_yield] returns. *)
Lemma excp_entry_yields id k k' :
  table_inv k -> excp_entry id k = Ok k' ->
  exists k1, table_inv k1 /\ cores k1 = cores k /\ proc_yield k1 = Ok k'.
Proof.
  intros Hinv. unfold excp_entry. destruct (_ && _).
  - cbv zeta.
    destruct (proc_try_syscall _ _) as [k5|] eqn:Hsys; [|discriminate].
    unfold bind. intros Hy. exists k5. split; [|split; [|exact Hy]].
    + eapply table_inv_proc_try_syscall; [|exact Hsys].
      apply table_inv_upd; [reflexivity | reflexivity |].
      apply table_inv_proc_set_pending.
      apply table_inv_upd; [reflexivity | reflexivity |].
      now apply table_inv_upd.
    + unfold proc_try_syscall in Hsys.
      destruct (Syscall.type _); [| |discriminate].
      * injection Hsys as <-.
        rewrite (blind_proc_try_recv cores) by (exact cores_table_blind || now intros ? ?).
        rewrite (blind_upd cores) by exact cores_table_blind.
        rewrite (blind_proc_set_pending cores) by exact cores_table_blind.
        now rewrite !(blind_upd cores) by exact cores_table_blind.
      * rewrite (blind_proc_try_send cores _ _ _ cores_table_blind Hsys).
        rewrite (blind_upd cores) by exact cores_table_blind.
        rewrite (blind_proc_set_pending cores) by exact cores_table_blind.
        now rewrite !(blind_upd cores) by exact cores_table_blind.
  - destruct (_ <=? _); [|discriminate]. cbv zeta. intros Hy.
    eexists. split; [|split; [|exact Hy]].
    + apply table_inv_proc_free. now apply (table_inv_same_table k).
    + now rewrite (blind_free cores) by (exact cores_table_blind || now intros ? ?).
Qed.

Lemma intr_entry_yields id k k' :
  table_inv k -> intr_entry id k = Ok k' ->
  exists k1, table_inv k1 /\ cores k1 = cores k /\ proc_yield k1 = Ok k'.
Proof.
  intros Hinv. unfold intr_entry. destruct (negb _); [discriminate|]. cbv zeta.
  intros Hy. eexists. split; [|split; [|exact Hy]].
  - destruct (_ && _); [|exact Hinv]. kstep.
    apply table_inv_upd; [reflexivity | reflexivity |].
    set (ka := upd_proc _ _ k).
    assert (Hinva : table_inv ka) by now apply table_inv_upd.
    set (kb := set_clock_reads _ ka).
    assert (Hinvb : table_inv kb) by now apply (table_inv_same_table ka).
    destruct (0 <? _); [|exact Hinvb]. unfold mlfq_update_level.
    apply table_inv_upd;
      [intros q; apply mlfq_update_pcb_ignored, pid_ignores_scheduling
      |intros q; apply mlfq_update_pcb_acct, status_ignores_accounting|].
    now apply table_inv_upd.
  - destruct (_ && _); [|reflexivity]. kstep.
    rewrite (blind_upd cores) by exact cores_table_blind.
    destruct (0 <? _); unfold mlfq_update_level;
      now rewrite ?(blind_upd cores) by exact cores_table_blind.
Qed.

Lemma kernel_entry_yields k k' :
  table_inv k -> kernel_entry k = Ok k' ->
  exists k1 k2,
    table_inv k1 /\ core_in_kernel k1 = mhartid k /\
    core_to_proc_idx k1 = core_to_proc_idx k /\
    proc_yield k1 = Ok k2 /\
    proc_set k' = proc_set k2 /\ cores k' = cores k2 /\ trace k' = trace k2 /\
    mstatus k' = mstatus k2.
Proof.
  intros Hinv. unfold kernel_entry. cbv zeta.
  set (k1 := set_core_in_kernel (mhartid k) k).
  set (k3 := upd_proc _ _ (upd_proc _ _ k1)).
  assert (Hinv3 : table_inv k3).
  { subst k3. apply table_inv_upd; [reflexivity | reflexivity |].
    apply table_inv_upd; [reflexivity | reflexivity |].
    now apply (table_inv_same_table k). }
  assert (Hcores3 : cores k3 = (mhartid k, core_to_proc_idx k)).
  { subst k3. now rewrite !(blind_upd cores) by exact cores_table_blind. }
  match goal with
  | |- bind ?r _ = _ -> _ => destruct r as [k4|] eqn:Hentry; [|discriminate]
  end.
  unfold bind. intros [= <-].
  assert (Hy : exists ky, table_inv ky /\ cores ky = cores k3 /\ proc_yield ky = Ok k4).
  { destruct (Z.testbit _ 31);
      [eapply intr_entry_yields | eapply excp_entry_yields]; eassumption. }
  destruct Hy as (ky & Hinvy & Hcoresy & Hy).
  exists ky, k4. rewrite Hcores3 in Hcoresy.
  split; [exact Hinvy|]. split; [exact (f_equal fst Hcoresy)|].
  split; [exact (f_equal snd Hcoresy)|]. split; [exact Hy|]. now repeat split.
Qed.

Lemma table_inv_trap hart cause k k' :
  table_inv k -> trap hart cause k = Ok k' -> table_inv k'.
Proof.
  intros Hinv Hrun. unfold trap in Hrun.
  destruct (kernel_entry_yields (set_mcause cause (set_mhartid hart k)) k'
              (table_inv_same_table k _ eq_refl Hinv) Hrun)
    as (k1 & k2 & Hinv1 & _ & _ & Hy & Ht & _).
  apply (table_inv_same_table k2); [exact Ht|].
  eapply table_inv_proc_yield; eassumption.
Qed.

(** The invariant holds at boot ([table_inv_boot]), and every function
    that the kernel offers keeps it, [proc_alloc] for as long as its
    counter is within the positive range of [int].  A trap that returns
    has called [proc_yield] in a state [k1] that satisfies the invariant,
    on the core that took the trap, and leaves the table, the
    core-to-process map and the trace as that call left them. *)
Theorem table_inv_kept k :
  table_inv k -> pids_issued k ->
  (forall p k', proc_alloc k = Ok (p, k') -> alloc_curr_pid k < 2 ^ 31 - 1 ->
     table_inv k' /\ pids_issued k') /\
  (forall p, table_inv (proc_free p k) /\ pids_issued (proc_free p k)) /\
  (forall p u, table_inv (proc_sleep p u k) /\ pids_issued (proc_sleep p u k)) /\
  (forall p,
     (table_inv (proc_set_ready p k) /\ pids_issued (proc_set_ready p k)) /\
     (table_inv (proc_set_running p k) /\ pids_issued (proc_set_running p k)) /\
     (table_inv (proc_set_runnable p k) /\ pids_issued (proc_set_runnable p k)) /\
     (table_inv (proc_set_pending p k) /\ pids_issued (proc_set_pending p k))) /\
  (forall k', proc_yield k = Ok k' -> table_inv k' /\ pids_issued k') /\
  (forall hart cause k', trap hart cause k = Ok k' ->
     table_inv k' /\ pids_issued k' /\
     exists k1 k2,
       table_inv k1 /\ core_in_kernel k1 = hart /\
       core_to_proc_idx k1 = core_to_proc_idx k /\
       proc_yield k1 = Ok k2 /\
       proc_set k' = proc_set k2 /\ cores k' = cores k2 /\ trace k' = trace k2 /\
       mstatus k' = mstatus k2).
Proof.
  intros Hinv Hiss.
  split; [intros p k' Hrun Hroom; now apply (table_inv_proc_alloc k p k')|].
  split; [intros p; split; [now apply table_inv_proc_free|]|].
  { eapply pids_issued_evolves; [|exact Hiss].
    intros P Hc. now apply evolves_proc_free. }
  split; [intros p u; split; [now apply table_inv_proc_sleep|]|].
  { eapply pids_issued_evolves; [|exact Hiss].
    intros P Hc. now apply evolves_proc_sleep. }
  split.
  { intros p. split; [split; [now apply table_inv_proc_set_ready
                             | now apply pids_issued_proc_set_ready]|].
    split; [split; [now apply table_inv_proc_set_running|]|].
    { eapply pids_issued_evolves; [|exact Hiss].
      intros P Hc. now apply evolves_proc_set_running. }
    split; [split; [now apply table_inv_proc_set_runnable|]|].
    { eapply pids_issued_evolves; [|exact Hiss].
      intros P Hc. now apply evolves_proc_set_runnable. }
    split; [now apply table_inv_proc_set_pending|].
    eapply pids_issued_evolves; [|exact Hiss].
    intros P Hc. now apply evolves_proc_set_pending. }
  split.
  { intros k' Hy. split; [eapply table_inv_proc_yield; eassumption|].
    eapply pids_issued_evolves; [|exact Hiss].
    intros P Hc. now apply evolves_proc_yield. }
  intros hart cause k' Hrun.
  split; [eapply table_inv_trap; eassumption|]. split.
  { eapply pids_issued_evolves; [|exact Hiss].
    intros P Hc. eapply evolves_trap; eassumption. }
  unfold trap in Hrun.
  destruct (kernel_entry_yields (set_mcause cause (set_mhartid hart k)) k'
              (table_inv_same_table k _ eq_refl Hinv) Hrun)
    as (k1 & k2 & Hinv1 & Hc1 & Hc2 & Hy & Hrest).
  exists k1, k2. split; [exact Hinv1|]. split; [exact Hc1|].
  split; [exact Hc2|]. split; [exact Hy | exact Hrest].
Qed.

End Kept.

Lemma table_inv_alloc_n n k ps k' :
  table_inv k -> pids_issued k -> alloc_curr_pid k + Z.of_nat n < 2 ^ 31 ->
  alloc_n n k = Ok (ps, k') -> table_inv k' /\ pids_issued k'.
Proof.
  revert k ps. induction n as [|n IH]; intros k ps Hinv Hiss Hroom; cbn [alloc_n].
  - intros [= <- <-]. now split.
  - destruct (proc_alloc k) as [[p k1]|] eqn:Hrun; [|discriminate]. unfold bind.
    destruct (alloc_n n k1) as [[ps' k2]|] eqn:Hrest; [|discriminate].
    intros [= <- <-].
    destruct (table_inv_proc_alloc k p k1 Hinv Hiss ltac:(lia) Hrun) as [Hinv1 Hiss1].
    destruct (proc_alloc_next_pid k p k1 (table_inv_ok _ Hinv) Hiss ltac:(lia) Hrun)
      as (Hp & _ & Hctr & _).
    apply (IH k1 ps'); [exact Hinv1 | exact Hiss1 | lia | exact Hrest].
Qed.

Lemma idle_only_when_nothing_runnable_witness :
  (table_inv last_two_ready /\
   (core_in_kernel last_two_ready < length (core_to_proc_idx last_two_ready))%nat /\
   status (proc_at last_two_ready 15) = PROC_READY /\
   status (proc_at last_two_ready 16) = PROC_LOADING /\
   exists k', proc_yield (H := sample_platform) last_two_ready = Ok k' /\
     curr_proc_idx k' = 15%nat /\ status (proc_at k' 15) = PROC_RUNNING /\
     trace k' = [EvMmuSwitch 15; EvMmuFlushCache; EvTimerReset 0]) /\
  (exists k, lone_receiver = Ok k /\ table_inv k /\
     (core_in_kernel k < length (core_to_proc_idx k))%nat /\
     status (proc_at k 1) = PROC_PENDING_SYSCALL /\
     exists k', proc_yield (H := sample_platform) k = Ok k' /\
       curr_proc_idx k' = 0%nat /\
       none_eligible (yield_current_time (H := sample_platform) k) MAX_NPROCESS k' /\
       Z.testbit (mstatus k') 3 = true).
Proof.
  split.
  - assert (Hinv : table_inv last_two_ready).
    { unfold last_two_ready. apply table_inv_proc_set_ready, table_inv_proc_set_ready.
      unfold sixteen_allocated.
      destruct (alloc_n 16 (boot 5000)) as [[ps k]|] eqn:Hal; [|apply table_inv_boot].
      apply (table_inv_alloc_n 16 (boot 5000) ps k);
        [apply table_inv_boot | apply table_inv_boot | cbn; lia | exact Hal]. }
    assert (Hcore : (core_in_kernel last_two_ready
                     < length (core_to_proc_idx last_two_ready))%nat)
      by (vm_compute; lia).
    assert (Hfacts : match proc_yield (H := sample_platform) last_two_ready with
                     | Ok k' => curr_proc_idx k' = 15%nat /\
                         trace k' = [EvMmuSwitch 15; EvMmuFlushCache; EvTimerReset 0]
                     | Fatal _ => False
                     end) by (vm_compute; repeat split).
    split; [exact Hinv|]. split; [exact Hcore|].
    split; [vm_compute; reflexivity|]. split; [vm_compute; reflexivity|].
    pose proof (idle_only_when_nothing_runnable (H := sample_platform)
                  last_two_ready Hinv Hcore) as Hthm.
    cbv zeta in Hthm.
    destruct (proc_yield (H := sample_platform) last_two_ready) as [k'|];
      [|contradiction].
    destruct Hfacts as [Hcur Htr].
    destruct Hthm as (k4 & next & _ & [(_ & _ & Hidle & _)|(_ & _ & Hnext & Hrun & _)]).
    + rewrite Hcur in Hidle. discriminate.
    + exists k'. rewrite Hcur in Hnext. subst next.
      split; [reflexivity|]. split; [exact Hcur|]. split; [exact Hrun | exact Htr].
  - assert (Hfacts : match lone_receiver with
                     | Ok k =>
                         (core_in_kernel k < length (core_to_proc_idx k))%nat /\
                         status (proc_at k 1) = PROC_PENDING_SYSCALL /\
                         match proc_yield (H := sample_platform) k with
                         | Ok k' => curr_proc_idx k' = 0%nat
                         | Fatal _ => False
                         end
                     | Fatal _ => False
                     end) by (vm_compute; repeat split; lia).
    assert (Hreach : match lone_receiver with
                     | Ok k => table_inv k
                     | Fatal _ => True
                     end).
    { unfold lone_receiver, one_running.
      destruct (proc_alloc (boot 5000)) as [[p k1]|] eqn:Hal; [|exact I]. unfold bind.
      destruct (table_inv_boot 5000) as [Hinv0 Hiss0].
      destruct (table_inv_proc_alloc _ _ _ Hinv0 Hiss0 ltac:(cbn; lia) Hal)
        as [Hinv1 _].
      destruct (trap 0 CAUSE_TIMER (proc_set_ready p k1)) as [k2|] eqn:Ht1; [|exact I].
      pose proof (table_inv_trap _ _ _ _ (table_inv_proc_set_ready p k1 Hinv1) Ht1)
        as Hinv2.
      destruct (trap 0 CAUSE_ECALL (user_writes 1 (recv_record (-1)) k2)) as [k3|] eqn:Ht2;
        [|exact I].
      apply (table_inv_trap _ _ (user_writes 1 (recv_record (-1)) k2) _
               (table_inv_same_table k2 _ eq_refl Hinv2) Ht2). }
    destruct lone_receiver as [k|]; [|contradiction].
    destruct Hfacts as (Hcore & Hst & Hy).
    exists k. split; [reflexivity|]. split; [exact Hreach|]. split; [exact Hcore|].
    split; [exact Hst|].
    pose proof (idle_only_when_nothing_runnable (H := sample_platform) k Hreach Hcore)
      as Hthm.
    cbv zeta in Hthm.
    destruct (proc_yield (H := sample_platform) k) as [k'|]; [|contradiction].
    destruct Hthm as (k4 & next & _ &
      [(Hnone & _ & Hidle & Htab & _ & Hmie)|(Hr & _ & Hnext & _)]).
    + exists k'. split; [reflexivity|]. split; [exact Hidle|]. split; [|exact Hmie].
      intros j Hj. unfold proc_at. rewrite Htab. now apply Hnone.
    + rewrite Hy in Hnext. lia.
Defined.

(** The invariant is needed.  On a table written down directly, with a
    READY process in the last slot and nothing else, both loops select
    slot 16; [MAX_NPROCESS] is also the value of [next_idx] that stands
    for "nothing found", so [next_idx < MAX_NPROCESS] fails and the core
    goes idle next to a READY process.  One slot lower the same process
    is dispatched.  No run from boot reaches the first table: the last
    slot is never READY ([table_inv_kept]). *)
Remark last_slot_outside_invariant :
  status (proc_at only_last_slot_ready 16) = PROC_READY /\
  wakeup_time (proc_at only_last_slot_ready 16) = 0 /\
  ~ table_inv only_last_slot_ready /\
  match proc_yield (H := sample_platform) only_last_slot_ready with
  | Ok k =>
      curr_proc_idx k = 0%nat /\ status (proc_at k 16) = PROC_READY /\
      trace k = [EvTimerReset 0; EvWfi] /\ Z.testbit (mstatus k) 3 = true
  | Fatal _ => False
  end /\
  match proc_yield (H := sample_platform) only_slot_15_ready with
  | Ok k =>
      curr_proc_idx k = 15%nat /\ status (proc_at k 15) = PROC_RUNNING /\
      trace k = [EvMmuSwitch 7; EvMmuFlushCache; EvTimerReset 0]
  | Fatal _ => False
  end.
Proof.
  split; [reflexivity|]. split; [reflexivity|]. split.
  - intros (_ & _ & _ & [Hl|Hl]); vm_compute in Hl; discriminate.
  - vm_compute. repeat split.
Qed.
